(** * Pump Bot Worker: a shallow embedding and its verified properties

    The development follows the Python sources
      - [encryption_utils.py]  (class [EncryptionUtils]),
      - [pump_trading.py]      (class [TradingEngine]),
      - [worker_app.py]        (class [WorkerApp]).

    Conventions of the embedding:
      - a Python [str] is the list of its code points ([pystr]);
      - [bytes] is a list of [Byte.byte];
      - a Python [float] (SOL amounts, delays) is an exact rational [Q]:
        rounding is not modelled, comparisons and arithmetic are exact;
      - an exception is a value of [exc]; a call that may raise returns a
        [result]; message texts (Russian in the source) are rendered by
        short English strings without the interpolated numbers;
      - every source of non-determinism (clock, [os.urandom], the Solana RPC
        node, the token price service, the websocket transport) is an oracle
        stored in the state and consumed call by call. *)

From Stdlib Require Import ZArith List Bool Lia String Ascii QArith.
From Stdlib Require Import Strings.Byte DecimalString.
Import ListNotations.
Local Open Scope Z_scope.

Set Warnings "-register-all".

(* ===================================================================== *)
(** ** Python values shared by all modules *)
(* ===================================================================== *)

(** Exceptions derived from [Exception], with the text [str(e)] gives. *)
Inductive exc : Type :=
| ValueError (msg : string)
| TypeError (msg : string)
| RuntimeError (msg : string)
| LibraryError (msg : string).

Definition str_exc (e : exc) : string :=
  match e with
  | ValueError m | TypeError m | RuntimeError m | LibraryError m => m
  end.

Inductive result (A : Type) : Type :=
| Ok (a : A)
| Raise (e : exc).
Arguments Ok {A} a.
Arguments Raise {A} e.

Definition bytes := list byte.
Definition pystr := list Z.

Definition byte_to_Z (b : byte) : Z := Z.of_N (Byte.to_N b).

Definition byte_of_Z (z : Z) : byte :=
  match Byte.of_N (Z.to_N z) with
  | Some b => b
  | None => x00
  end.

(** [os.urandom(n)]: the next [n] bytes of the system's entropy stream. *)
Definition os_urandom (entropy : nat -> byte) (n : nat) : bytes :=
  map entropy (seq 0 n).

(** [x[:-n]] and [x[-n:]] on a sequence, for [n > 0]: Python clamps the
    start index at 0 when the sequence is shorter than [n]. *)
Definition slice_until_last {A} (n : nat) (x : list A) : list A :=
  firstn (List.length x - n) x.
Definition slice_last {A} (n : nat) (x : list A) : list A :=
  skipn (List.length x - n) x.

(* ===================================================================== *)
(** ** The standard codecs the worker calls: base64 and UTF-8 *)
(* ===================================================================== *)

Module Base64.

(** [table_b2a_base64]: the character of a sextet. *)
Definition b2a (i : Z) : Z :=
  if i <? 26 then 65 + i
  else if i <? 52 then 71 + i
  else if i <? 62 then i - 4
  else if i =? 62 then 43
  else 47.

(** [table_a2b_base64]: the sextet of a character, [None] outside the
    alphabet. *)
Definition a2b (c : Z) : option Z :=
  if (65 <=? c) && (c <=? 90) then Some (c - 65)
  else if (97 <=? c) && (c <=? 122) then Some (c - 71)
  else if (48 <=? c) && (c <=? 57) then Some (c + 4)
  else if c =? 43 then Some 62
  else if c =? 47 then Some 63
  else None.

Definition PAD : Z := 61.

(** [base64.b64encode(s).decode("utf-8")]: three bytes give four
    characters, the last group is padded with [=]. *)
Fixpoint b64encode (s : bytes) : pystr :=
  match s with
  | [] => []
  | [x] =>
      let a := byte_to_Z x in
      [b2a (a / 4); b2a ((a mod 4) * 16); PAD; PAD]
  | [x; y] =>
      let a := byte_to_Z x in
      let b := byte_to_Z y in
      [b2a (a / 4); b2a ((a mod 4) * 16 + b / 16); b2a ((b mod 16) * 4); PAD]
  | x :: y :: z :: rest =>
      let a := byte_to_Z x in
      let b := byte_to_Z y in
      let c := byte_to_Z z in
      b2a (a / 4) :: b2a ((a mod 4) * 16 + b / 16)
        :: b2a ((b mod 16) * 4 + c / 64) :: b2a (c mod 64)
        :: b64encode rest
  end.

(** The loop of [binascii.a2b_base64] in its default, non-strict mode:
    characters outside the alphabet are skipped, a pad sequence that
    completes a quad ends the parse, and a quad left open is an error
    ([None], "Incorrect padding"). *)
Fixpoint a2b_loop (s : pystr) (quad_pos leftchar pads : Z) : option bytes :=
  match s with
  | [] => if quad_pos =? 0 then Some [] else None
  | ch :: s' =>
      if ch =? PAD then
        if (2 <=? quad_pos) && (4 <=? quad_pos + (pads + 1)) then Some []
        else a2b_loop s' quad_pos leftchar
               (if 2 <=? quad_pos then pads + 1 else pads)
      else
        match a2b ch with
        | None => a2b_loop s' quad_pos leftchar pads
        | Some v =>
            if quad_pos =? 0 then a2b_loop s' 1 v 0
            else if quad_pos =? 1 then
              option_map (cons (byte_of_Z (leftchar * 4 + v / 16)))
                         (a2b_loop s' 2 (v mod 16) 0)
            else if quad_pos =? 2 then
              option_map (cons (byte_of_Z (leftchar * 16 + v / 4)))
                         (a2b_loop s' 3 (v mod 4) 0)
            else
              option_map (cons (byte_of_Z (leftchar * 64 + v)))
                         (a2b_loop s' 0 0 0)
        end
  end.

Definition is_ascii (s : pystr) : bool :=
  forallb (fun c => (0 <=? c) && (c <? 128)) s.

(** [base64.b64decode(s)] on a [str] argument. *)
Definition b64decode (s : pystr) : result bytes :=
  if is_ascii s then
    match a2b_loop s 0 0 0 with
    | Some b => Ok b
    | None => Raise (LibraryError "binascii.Error: Incorrect padding")
    end
  else Raise (ValueError "string argument should contain only ASCII characters").

End Base64.

Module Utf8.

Definition is_surrogate (c : Z) : bool := (0xD800 <=? c) && (c <=? 0xDFFF).

(** One code point of [str.encode("utf-8")] (error handler "strict"). *)
Definition encode_char (c : Z) : option bytes :=
  if c <? 0 then None
  else if c <? 0x80 then Some [byte_of_Z c]
  else if c <? 0x800 then
    Some [byte_of_Z (0xC0 + c / 64); byte_of_Z (0x80 + c mod 64)]
  else if is_surrogate c then None
  else if c <? 0x10000 then
    Some [byte_of_Z (0xE0 + c / 4096); byte_of_Z (0x80 + (c / 64) mod 64);
          byte_of_Z (0x80 + c mod 64)]
  else if c <? 0x110000 then
    Some [byte_of_Z (0xF0 + c / 262144); byte_of_Z (0x80 + (c / 4096) mod 64);
          byte_of_Z (0x80 + (c / 64) mod 64); byte_of_Z (0x80 + c mod 64)]
  else None.

Fixpoint encode (s : pystr) : option bytes :=
  match s with
  | [] => Some []
  | c :: s' =>
      match encode_char c, encode s' with
      | Some b, Some bs => Some (b ++ bs)
      | _, _ => None
      end
  end.

Definition is_cont (b : byte) : bool :=
  (0x80 <=? byte_to_Z b) && (byte_to_Z b <? 0xC0).

Definition cont (b : byte) : Z := byte_to_Z b - 0x80.

(** [bytes.decode("utf-8")] (error handler "strict"): [None] stands for
    [UnicodeDecodeError]. *)
Fixpoint decode (bs : bytes) : option pystr :=
  match bs with
  | [] => Some []
  | b0 :: r0 =>
      let x0 := byte_to_Z b0 in
      if x0 <? 0x80 then option_map (cons x0) (decode r0)
      else if x0 <? 0xC2 then None
      else if x0 <? 0xE0 then
        match r0 with
        | b1 :: r1 =>
            if is_cont b1
            then option_map (cons ((x0 - 0xC0) * 64 + cont b1)) (decode r1)
            else None
        | _ => None
        end
      else if x0 <? 0xF0 then
        match r0 with
        | b1 :: b2 :: r2 =>
            let c := (x0 - 0xE0) * 4096 + cont b1 * 64 + cont b2 in
            if is_cont b1 && is_cont b2 && (0x800 <=? c)
               && negb (is_surrogate c)
            then option_map (cons c) (decode r2)
            else None
        | _ => None
        end
      else if x0 <? 0xF5 then
        match r0 with
        | b1 :: b2 :: b3 :: r3 =>
            let c := (x0 - 0xF0) * 262144 + cont b1 * 4096
                     + cont b2 * 64 + cont b3 in
            if is_cont b1 && is_cont b2 && is_cont b3
               && (0x10000 <=? c) && (c <? 0x110000)
            then option_map (cons c) (decode r3)
            else None
        | _ => None
        end
      else None
  end.

(** The strings [encode] accepts: code points of the Unicode range that
    are not surrogates. *)
Definition encodable (s : pystr) : bool :=
  forallb (fun c => (0 <=? c) && (c <? 0x110000) && negb (is_surrogate c)) s.

End Utf8.

(* ===================================================================== *)
(** ** Python objects *)
(* ===================================================================== *)

(** The text of a literal of the source as a Python [str]. *)
Definition py (s : string) : pystr :=
  map (fun a => Z.of_N (N_of_ascii a)) (list_ascii_of_string s).

Fixpoint pystr_eqb (a b : pystr) : bool :=
  match a, b with
  | [], [] => true
  | x :: a', y :: b' => (x =? y) && pystr_eqb a' b'
  | _, _ => false
  end.

(** The values that travel in messages: what [json.loads] produces, and
    [datetime] objects, which the worker keeps in its statistics. *)
Inductive pyval : Type :=
| PNone
| PBool (b : bool)
| PInt (z : Z)
| PFloat (q : Q)
| PStr (s : pystr)
| PList (l : list pyval)
| PDict (d : list (pystr * pyval))
| PDatetime (t : Z).

(** A [dict] with [str] keys, in insertion order. *)
Definition dict := list (pystr * pyval).

Fixpoint dict_get (k : pystr) (d : dict) : option pyval :=
  match d with
  | [] => None
  | (k', v) :: d' => if pystr_eqb k k' then Some v else dict_get k d'
  end.

(** [d.get(k)] and [d.get(k, default)]. *)
Definition get (d : dict) (k : string) : pyval :=
  match dict_get (py k) d with Some v => v | None => PNone end.

Definition get_default (d : dict) (k : string) (default : pyval) : pyval :=
  match dict_get (py k) d with Some v => v | None => default end.

(** Truth value of an object, as [if x:] and [not x] test it. *)
Definition truthy (v : pyval) : bool :=
  match v with
  | PNone => false
  | PBool b => b
  | PInt z => negb (z =? 0)
  | PFloat q => negb (Qeq_bool q 0)
  | PStr s => match s with [] => false | _ => true end
  | PList l => match l with [] => false | _ => true end
  | PDict d => match d with [] => false | _ => true end
  | PDatetime _ => true
  end.

(** The number an object denotes in arithmetic and in comparisons with a
    [float]; the other objects raise [TypeError] there. *)
Definition as_number (v : pyval) : option Q :=
  match v with
  | PBool b => Some (if b then 1%Q else 0%Q)
  | PInt z => Some (inject_Z z)
  | PFloat q => Some q
  | _ => None
  end.

(** [a < b] on floats. *)
Definition Qlt_bool (a b : Q) : bool := negb (Qle_bool b a).

Definition unsupported_operand : exc :=
  TypeError "unsupported operand type(s)".

(** [v > q], [v < q], [q + v], [v * q] with [v] any object. *)
Definition py_gt (v : pyval) (q : Q) : result bool :=
  match as_number v with
  | Some a => Ok (Qlt_bool q a)
  | None => Raise unsupported_operand
  end.

Definition py_lt (v : pyval) (q : Q) : result bool :=
  match as_number v with
  | Some a => Ok (Qlt_bool a q)
  | None => Raise unsupported_operand
  end.

Definition py_radd (q : Q) (v : pyval) : result Q :=
  match as_number v with
  | Some a => Ok (q + a)%Q
  | None => Raise unsupported_operand
  end.

Definition py_mul (v : pyval) (q : Q) : result Q :=
  match as_number v with
  | Some a => Ok (a * q)%Q
  | None => Raise unsupported_operand
  end.

(** [v == "literal"]. *)
Definition py_eq_str (v : pyval) (s : string) : bool :=
  match v with
  | PStr t => pystr_eqb t (py s)
  | _ => false
  end.

(** [json.dumps] raises [TypeError] on an object that holds a
    [datetime]. *)
Fixpoint serializable (v : pyval) : bool :=
  match v with
  | PDatetime _ => false
  | PList l => forallb serializable l
  | PDict d => forallb (fun kv => serializable (snd kv)) d
  | _ => true
  end.

(** [s.split(":")]. *)
Fixpoint split_colon_aux (s acc : pystr) : list pystr :=
  match s with
  | [] => [rev acc]
  | c :: s' =>
      if c =? 58 then rev acc :: split_colon_aux s' []
      else split_colon_aux s' (c :: acc)
  end.

Definition split_colon (s : pystr) : list pystr := split_colon_aux s [].

(** [f"{a}:{b}:{c}"]. *)
Definition join_colon (a b c : pystr) : pystr := a ++ 58 :: b ++ 58 :: c.

(* ===================================================================== *)
(** ** The libraries the worker is linked with *)
(* ===================================================================== *)

(** Key lengths [AESGCM(key)] accepts and nonce lengths its [encrypt] and
    [decrypt] accept. *)
Definition aes_key_ok (key : bytes) : bool :=
  let n := List.length key in
  (n =? 16)%nat || (n =? 24)%nat || (n =? 32)%nat.

Definition aes_nonce_ok (nonce : bytes) : bool :=
  let n := List.length nonce in (8 <=? n)%nat && (n <=? 128)%nat.

(** solders' [Keypair], by its 64 raw bytes. *)
Record Keypair : Type := { keypair_bytes : bytes }.

(** What the embedding takes from [cryptography], [json], [base58],
    [solders] and [datetime].  Three laws are assumed: the AEAD cipher
    decrypts what it encrypted, HKDF returns the 32 bytes it is asked for,
    and [json.dumps] writes ASCII. *)
Class Libs : Type := {
  (** [AESGCM(key).encrypt(nonce, data, None)]: ciphertext followed by the
      16-byte tag. *)
  aesgcm_encrypt : bytes -> bytes -> bytes -> bytes;
  (** [AESGCM(key).decrypt(nonce, data, None)]; [None] is [InvalidTag]. *)
  aesgcm_decrypt : bytes -> bytes -> bytes -> option bytes;
  aesgcm_decrypt_encrypt :
    forall key nonce data,
      aes_key_ok key = true -> aes_nonce_ok nonce = true ->
      aesgcm_decrypt key nonce (aesgcm_encrypt key nonce data) = Some data;
  (** [X25519PrivateKey.from_private_bytes(sk).exchange(
       X25519PublicKey.from_public_bytes(pk))]; [None] when it raises. *)
  x25519_exchange : bytes -> bytes -> option bytes;
  (** [HKDF(SHA256, length=32, salt=None, info=info).derive(ikm)]. *)
  hkdf_derive : bytes -> bytes -> bytes;
  hkdf_derive_length :
    forall info ikm, List.length (hkdf_derive info ikm) = 32%nat;
  (** [json.dumps] on a serializable object (with the default
      [ensure_ascii=True] the text is ASCII), [json.loads] ([None] is
      [JSONDecodeError]). *)
  json_text : pyval -> pystr;
  json_text_ascii : forall v, Base64.is_ascii (json_text v) = true;
  json_loads : pystr -> option pyval;
  (** [base58.b58decode], [Keypair.from_bytes], [str(keypair.pubkey())]. *)
  b58decode : pystr -> option bytes;
  keypair_from_bytes : bytes -> option Keypair;
  pubkey_str : Keypair -> pystr;
  (** [datetime.isoformat()] of an instant, [float(s)] of a string. *)
  isoformat : Z -> pystr;
  float_of_str : pystr -> option Q
}.

(** [str(n)] of an [int]. *)
Definition str_int (n : Z) : pystr :=
  py (DecimalString.NilZero.string_of_int (Z.to_int n)).

(* ===================================================================== *)
(** ** encryption_utils.py *)
(* ===================================================================== *)

Module EncryptionUtils.
Section WithLibs.
Context {L : Libs}.

Definition rbind {A B} (r : result A) (k : A -> result B) : result B :=
  match r with
  | Ok a => k a
  | Raise e => Raise e
  end.

Local Notation "x <- r ;; k" := (rbind r (fun x => k))
  (at level 61, r at next level, right associativity).

(** [try: ... except Exception as e: raise ValueError(f"<text>: {str(e)}")]. *)
Definition reraise_as_ValueError {A} (text : string) (r : result A) : result A :=
  match r with
  | Ok a => Ok a
  | Raise e => Raise (ValueError (text ++ str_exc e))
  end.

(** [base64.b64decode(v)]: a [str] is decoded, other objects of the
    message are not bytes-like. *)
Definition b64decode_obj (v : pyval) : result bytes :=
  match v with
  | PStr s => Base64.b64decode s
  | _ => Raise (TypeError "argument should be a bytes-like object or ASCII string")
  end.

(** [AESGCM(key)]: the constructor checks the key. *)
Definition AESGCM (key : option bytes) : result bytes :=
  match key with
  | None => Raise (TypeError "key must be bytes-like")
  | Some k =>
      if aes_key_ok k then Ok k
      else Raise (ValueError "AESGCM key must be 128, 192, or 256 bits.")
  end.

Definition AESGCM_encrypt (key nonce data : bytes) : result bytes :=
  if aes_nonce_ok nonce then Ok (aesgcm_encrypt key nonce data)
  else Raise (ValueError "Nonce must be between 8 and 128 bytes").

Definition AESGCM_decrypt (key nonce data : bytes) : result bytes :=
  if aes_nonce_ok nonce then
    match aesgcm_decrypt key nonce data with
    | Some pt => Ok pt
    | None => Raise (LibraryError "InvalidTag")
    end
  else Raise (ValueError "Nonce must be between 8 and 128 bytes").

Definition str_encode_utf8 (s : pystr) : result bytes :=
  match Utf8.encode s with
  | Some b => Ok b
  | None => Raise (LibraryError "UnicodeEncodeError")
  end.

Definition bytes_decode_utf8 (b : bytes) : result pystr :=
  match Utf8.decode b with
  | Some s => Ok s
  | None => Raise (LibraryError "UnicodeDecodeError")
  end.

(** [perform_key_exchange_x25519]: X25519, then HKDF with the context
    [b"pump_bot_encryption"]. *)
Definition hkdf_info : bytes :=
  map byte_of_Z (py "pump_bot_encryption").

Definition perform_key_exchange_x25519
    (private_key_base64 public_key_other_base64 : pyval) : result bytes :=
  reraise_as_ValueError "X25519 key exchange error: "
    (private_key_bytes <- b64decode_obj private_key_base64 ;;
     public_key_other_bytes <- b64decode_obj public_key_other_base64 ;;
     match x25519_exchange private_key_bytes public_key_other_bytes with
     | Some shared_key => Ok (hkdf_derive hkdf_info shared_key)
     | None => Raise (ValueError "invalid X25519 key")
     end).

(** [encrypt_aes_gcm]; [entropy] is the stream [os.urandom] reads. *)
Definition encrypt_aes_gcm (plaintext : pystr) (shared_key_bytes : option bytes)
    (entropy : nat -> byte) : result (pystr * pystr * pystr) :=
  reraise_as_ValueError "AES-GCM encryption error: "
    (let nonce := os_urandom entropy 12 in
     aesgcm <- AESGCM shared_key_bytes ;;
     plaintext_bytes <- str_encode_utf8 plaintext ;;
     ciphertext_with_tag <- AESGCM_encrypt aesgcm nonce plaintext_bytes ;;
     let ciphertext := slice_until_last 16 ciphertext_with_tag in
     let tag := slice_last 16 ciphertext_with_tag in
     Ok (Base64.b64encode ciphertext, Base64.b64encode nonce,
         Base64.b64encode tag)).

Definition decrypt_aes_gcm (ciphertext_base64 nonce_base64 tag_base64 : pystr)
    (shared_key_bytes : option bytes) : result pystr :=
  reraise_as_ValueError "AES-GCM decryption error: "
    (ciphertext <- Base64.b64decode ciphertext_base64 ;;
     nonce <- Base64.b64decode nonce_base64 ;;
     tag <- Base64.b64decode tag_base64 ;;
     aesgcm <- AESGCM shared_key_bytes ;;
     let ciphertext_with_tag := ciphertext ++ tag in
     plaintext_bytes <- AESGCM_decrypt aesgcm nonce ciphertext_with_tag ;;
     bytes_decode_utf8 plaintext_bytes).

Definition encrypt_wallet_key (private_key_base58 : pystr)
    (shared_key_bytes : option bytes) (entropy : nat -> byte) : result pystr :=
  r <- encrypt_aes_gcm private_key_base58 shared_key_bytes entropy ;;
  let '(ciphertext, nonce, tag) := r in
  Ok (join_colon ciphertext nonce tag).

(** [decrypt_wallet_key]: unpacking [split(":")] into three names raises
    [ValueError] unless there are exactly three parts; with too few parts
    the text is replaced, every other [ValueError] is raised again. *)
Definition decrypt_wallet_key (encrypted_data : pyval)
    (shared_key_bytes : option bytes) : result pystr :=
  match encrypted_data with
  | PStr s =>
      match split_colon s with
      | [ciphertext_base64; nonce_base64; tag_base64] =>
          decrypt_aes_gcm ciphertext_base64 nonce_base64 tag_base64
                          shared_key_bytes
      | [] | [_] | [_; _] =>
          Raise (ValueError "Bad format of encrypted data; expected 'ciphertext:nonce:tag'")
      | _ => Raise (ValueError "too many values to unpack (expected 3)")
      end
  | _ => Raise (LibraryError "AttributeError: object has no attribute 'split'")
  end.

End WithLibs.
End EncryptionUtils.

(* ===================================================================== *)
(** ** State, exceptions and the outside world *)
(* ===================================================================== *)

(** A computation over a state [S] that returns or raises; a raised
    exception keeps the state changes made before it. *)
Definition M (S A : Type) : Type := S -> result A * S.

Definition ret {S A} (a : A) : M S A := fun s => (Ok a, s).

Definition raise {S A} (e : exc) : M S A := fun s => (Raise e, s).

Definition bind {S A B} (m : M S A) (k : A -> M S B) : M S B :=
  fun s =>
    match m s with
    | (Ok a, s') => k a s'
    | (Raise e, s') => (Raise e, s')
    end.

(** [try: m except Exception as e: handler e]. *)
Definition try_except {S A} (m : M S A) (handler : exc -> M S A) : M S A :=
  fun s =>
    match m s with
    | (Ok a, s') => (Ok a, s')
    | (Raise e, s') => handler e s'
    end.

Definition gets {S A} (f : S -> A) : M S A := fun s => (Ok (f s), s).

Definition modify {S} (f : S -> S) : M S unit := fun s => (Ok tt, f s).

Definition lift {S A} (r : result A) : M S A := fun s => (r, s).

Definition when {S} (b : bool) (m : M S unit) : M S unit :=
  if b then m else ret tt.

Declare Scope M_scope.
Delimit Scope M_scope with M.
Notation "x <- m ;; k" := (bind m (fun x => k))
  (at level 61, m at next level, right associativity) : M_scope.
Notation "m ;; k" := (bind m (fun _ => k))
  (at level 61, right associativity) : M_scope.
Local Open Scope M_scope.

Inductive loglevel : Type := DEBUG | INFO | WARNING | ERROR.

(** solders' [Transaction], as far as the engine fills it. *)
Record Transaction : Type := {
  recent_blockhash : pystr;
  fee_payer : pystr;
  signers : list pystr
}.

(** [response.value[0]] of [get_signature_status]. *)
Record SignatureStatus : Type := {
  confirmation_status : bool;
  err : bool
}.

(** Answer of the token price service: the request raises, or the
    response has a status other than 200, or it has status 200 and this
    JSON body. *)
Inductive HttpReply : Type :=
| HttpRaises
| HttpStatus (code : Z)
| HttpJson (data : pyval).

(** Everything the worker does to the outside, in the order it does it. *)
Inductive Event : Type :=
| EvNow
| EvUrandom (n : nat)
| EvSleep (seconds : Q)
| EvLog (level : loglevel) (text : string)
| EvGetBalance (pubkey : pystr)
| EvGetLatestBlockhash
| EvSendTransaction (tx : Transaction)
| EvGetSignatureStatus (tx_id : pystr)
| EvGetHealth
| EvHttpGet (token_address : pyval)
| EvMemoryInfo
| EvConnect
| EvSend (message : pyval) (wire : pystr) (delivered : bool)
| EvClose (resource : string).

(** The outside answers the [n]-th event of the run; nothing is assumed
    about the answers. *)
Record Outside : Type := {
  clock : nat -> Z;                      (* microseconds since the epoch, UTC *)
  entropy : nat -> nat -> byte;
  balance_reply : nat -> option Z;       (* lamports; [None]: the call raises *)
  blockhash_reply : nat -> option pystr;
  send_transaction_reply : nat -> option pystr;
  signature_status_reply : nat -> option (option SignatureStatus);
  health_reply : nat -> bool;
  http_reply : nat -> HttpReply;
  memory_reply : nat -> option Z;        (* rss in bytes; [None]: no psutil *)
  connect_reply : nat -> bool;
  send_reply : nat -> bool
}.

Record Env : Type := {
  outside : Outside;
  events : list Event                    (* newest first *)
}.

Class HasEnv (S : Type) : Type := {
  env_of : S -> Env;
  with_env : Env -> S -> S
}.

Section Primitives.
Context {S : Type} `{HasEnv S}.

(** Record an event; the result is its position in the run. *)
Definition emit (ev : Event) : M S nat :=
  fun s =>
    let e := env_of s in
    (Ok (List.length (events e)),
     with_env {| outside := outside e; events := ev :: events e |} s).

Definition ask {A} (f : Outside -> nat -> A) (ev : Event) : M S A :=
  i <- emit ev ;;
  gets (fun s => f (outside (env_of s)) i).

Definition rpc_error : exc := LibraryError "SolanaRpcException".

Definition from_reply {A} (r : option A) (e : exc) : M S A :=
  match r with
  | Some a => ret a
  | None => raise e
  end.

(** [datetime.now(timezone.utc)]. *)
Definition now : M S Z := ask clock EvNow.

(** [await asyncio.sleep(seconds)]. *)
Definition sleep (seconds : Q) : M S unit := emit (EvSleep seconds) ;; ret tt.

(** [self.logger.debug/info/warning/error]. *)
Definition log (level : loglevel) (text : string) : M S unit :=
  emit (EvLog level text) ;; ret tt.

(** [os.urandom]: the stream the next call reads. *)
Definition urandom_stream (n : nat) : M S (nat -> byte) :=
  ask entropy (EvUrandom n).

Definition get_balance (pubkey : pystr) : M S Z :=
  r <- ask balance_reply (EvGetBalance pubkey) ;; from_reply r rpc_error.

Definition get_latest_blockhash : M S pystr :=
  r <- ask blockhash_reply EvGetLatestBlockhash ;; from_reply r rpc_error.

Definition send_transaction (tx : Transaction) : M S pystr :=
  r <- ask send_transaction_reply (EvSendTransaction tx) ;;
  from_reply r rpc_error.

Definition get_signature_status (tx_id : pystr)
  : M S (option SignatureStatus) :=
  r <- ask signature_status_reply (EvGetSignatureStatus tx_id) ;;
  from_reply r rpc_error.

Definition get_health : M S unit :=
  ok <- ask health_reply EvGetHealth ;;
  if ok then ret tt else raise rpc_error.

End Primitives.

(** The calendar day of an instant ([.date()] of an aware UTC datetime),
    as a day number. *)
Definition date_of (t : Z) : Z := t / 86400000000.

(** [int((t1 - t0).total_seconds() * 1000)]. *)
Definition elapsed_ms (t0 t1 : Z) : Z := Z.quot (t1 - t0) 1000.

(** [int(x)] of a float: truncation toward zero. *)
Definition Qtrunc (q : Q) : Z := Z.quot (Qnum q) (Zpos (Qden q)).

(** Views of a run. *)
Fixpoint sent_messages (evs : list Event) : list pyval :=
  match evs with
  | [] => []
  | EvSend message _ true :: evs' => sent_messages evs' ++ [message]
  | _ :: evs' => sent_messages evs'
  end.

Fixpoint sleeps (evs : list Event) : list Q :=
  match evs with
  | [] => []
  | EvSleep d :: evs' => sleeps evs' ++ [d]
  | _ :: evs' => sleeps evs'
  end.

(** The calls that belong to the execution of a trade, real or mock:
    token lookup, transaction build and submit, confirmation polling. *)
Definition is_execution_event (ev : Event) : bool :=
  match ev with
  | EvHttpGet _ | EvGetLatestBlockhash | EvSendTransaction _
  | EvGetSignatureStatus _ | EvSleep _ => true
  | _ => false
  end.

(* ===================================================================== *)
(** ** config.py *)
(* ===================================================================== *)

Module Config.

Record WorkerConfig : Type := {
  worker_id : pystr;
  worker_region : pystr;
  worker_name : option pystr;
  worker_description : option pystr;
  api_key : pystr;
  worker_private_key_x25519 : option pystr;
  worker_public_key_x25519 : option pystr;
  coordinator_public_key_x25519 : option pystr;
  encryption_enabled : bool;
  solana_private_key : pystr;
  max_slippage : Q;
  trade_amount_sol : Q;
  max_wallets_per_worker : Z;
  max_concurrent_trades : Z;
  max_trade_size_sol : Q;
  min_trade_size_sol : Q;
  daily_trade_limit_sol : Q;
  retry_delay : Q;
  backoff_factor : Q;
  debug_websocket : bool;
  mock_trading : bool;
  metrics_enabled : bool;
  notifications_enabled : bool
}.

Definition get_capabilities (c : WorkerConfig) : list pyval :=
  [PStr (py "pump_trading")]
  ++ (if 1 <? max_wallets_per_worker c
      then [PStr (py "portfolio_management")] else [])
  ++ (if metrics_enabled c then [PStr (py "metrics")] else [])
  ++ (if notifications_enabled c then [PStr (py "notifications")] else []).

End Config.

Definition opt_str (o : option pystr) : pyval :=
  match o with Some s => PStr s | None => PNone end.

(* ===================================================================== *)
(** ** pump_trading.py *)
(* ===================================================================== *)

Module TradingEngine.

Record TradeResult : Type := {
  success : bool;
  transaction_id : option pystr;
  error_message : option pystr;
  token_address : pyval;
  amount_sol : pyval;
  price_impact : option Q;
  gas_used : option Z;
  execution_time_ms : option Z;
  timestamp : option pystr
}.

Definition opt_int (o : option Z) : pyval :=
  match o with Some z => PInt z | None => PNone end.

Definition opt_float (o : option Q) : pyval :=
  match o with Some q => PFloat q | None => PNone end.

(** [asdict(self)]. *)
Definition to_dict (r : TradeResult) : pyval :=
  PDict [ (py "success", PBool (success r));
          (py "transaction_id", opt_str (transaction_id r));
          (py "error_message", opt_str (error_message r));
          (py "token_address", token_address r);
          (py "amount_sol", amount_sol r);
          (py "price_impact", opt_float (price_impact r));
          (py "gas_used", opt_int (gas_used r));
          (py "execution_time_ms", opt_int (execution_time_ms r));
          (py "timestamp", opt_str (timestamp r)) ].

(** [self.trade_stats]: a dict with these five keys. *)
Record TradeStats : Type := {
  total_trades : Z;
  successful_trades : Z;
  failed_trades : Z;
  total_volume_sol : Q;
  average_execution_time : Q
}.

(** The attributes of a [TradingEngine]. *)
Record Self : Type := {
  config : Config.WorkerConfig;
  trade_stats : TradeStats;
  trading_keypair : option Keypair;
  max_slippage : Q;
  trade_amount_sol : Q;
  daily_volume_limit : Q;
  daily_volume_used : Q;
  last_reset_day : Z
}.

Definition set_trade_stats (v : TradeStats) (s : Self) : Self :=
  {| config := config s; trade_stats := v;
     trading_keypair := trading_keypair s; max_slippage := max_slippage s;
     trade_amount_sol := trade_amount_sol s;
     daily_volume_limit := daily_volume_limit s;
     daily_volume_used := daily_volume_used s;
     last_reset_day := last_reset_day s |}.

Definition set_trading_keypair (v : option Keypair) (s : Self) : Self :=
  {| config := config s; trade_stats := trade_stats s;
     trading_keypair := v; max_slippage := max_slippage s;
     trade_amount_sol := trade_amount_sol s;
     daily_volume_limit := daily_volume_limit s;
     daily_volume_used := daily_volume_used s;
     last_reset_day := last_reset_day s |}.

Definition set_daily_volume_used (v : Q) (s : Self) : Self :=
  {| config := config s; trade_stats := trade_stats s;
     trading_keypair := trading_keypair s; max_slippage := max_slippage s;
     trade_amount_sol := trade_amount_sol s;
     daily_volume_limit := daily_volume_limit s;
     daily_volume_used := v;
     last_reset_day := last_reset_day s |}.

Definition set_last_reset_day (v : Z) (s : Self) : Self :=
  {| config := config s; trade_stats := trade_stats s;
     trading_keypair := trading_keypair s; max_slippage := max_slippage s;
     trade_amount_sol := trade_amount_sol s;
     daily_volume_limit := daily_volume_limit s;
     daily_volume_used := daily_volume_used s;
     last_reset_day := v |}.

(** The engine together with the world it acts on. *)
Record State : Type := {
  self : Self;
  env : Env
}.

#[export] Instance State_HasEnv : HasEnv State := {|
  env_of := env;
  with_env := fun e s => {| self := self s; env := e |}
|}.

Definition update (f : Self -> Self) : M State unit :=
  modify (fun s => {| self := f (self s); env := env s |}).

Definition attr {A} (f : Self -> A) : M State A := gets (fun s => f (self s)).

Section WithLibs.
Context {L : Libs}.

(** [__init__]: [today] is [datetime.now(timezone.utc).date()]. *)
Definition __init__ (cfg : Config.WorkerConfig) (today : Z) : Self :=
  {| config := cfg;
     trade_stats := {| total_trades := 0; successful_trades := 0;
                       failed_trades := 0; total_volume_sol := 0;
                       average_execution_time := 0 |};
     trading_keypair := None;
     max_slippage := Config.max_slippage cfg;
     trade_amount_sol := Config.trade_amount_sol cfg;
     daily_volume_limit := Config.daily_trade_limit_sol cfg;
     daily_volume_used := 0;
     last_reset_day := today |}.

(** [self.trading_keypair.pubkey()]. *)
Definition trading_pubkey : M State pystr :=
  kp <- attr trading_keypair ;;
  match kp with
  | Some k => ret (pubkey_str k)
  | None => raise (LibraryError "AttributeError: 'NoneType' object has no attribute 'pubkey'")
  end.

Definition _get_wallet_balance (pubkey : pystr) : M State Q :=
  try_except
    (value <- get_balance pubkey ;;
     ret (inject_Z value / 1000000000)%Q)
    (fun e =>
       log ERROR "balance query failed" ;;
       ret 0%Q).

Definition initialize : M State unit :=
  try_except
    (cfg <- attr config ;;
     match Config.solana_private_key cfg with
     | _ :: _ =>
         private_key_bytes <-
           from_reply (b58decode (Config.solana_private_key cfg))
                      (ValueError "Invalid base58 string") ;;
         kp <- from_reply (keypair_from_bytes private_key_bytes)
                          (ValueError "invalid keypair bytes") ;;
         update (set_trading_keypair (Some kp)) ;;
         log INFO "trading wallet" ;;
         pubkey <- trading_pubkey ;;
         balance <- _get_wallet_balance pubkey ;;
         log INFO "wallet balance" ;;
         amount <- attr trade_amount_sol ;;
         when (Qlt_bool balance amount) (log WARNING "low balance")
     | [] => log WARNING "Solana private key is not configured"
     end ;;
     log INFO "trading engine initialized")
    (fun e =>
       log ERROR "trading engine initialization failed" ;;
       raise e).

Definition _check_trade_limits (amount_sol : pyval) : M State unit :=
  t <- now ;;
  let current_date := date_of t in
  last <- attr last_reset_day ;;
  when (last <? current_date)
       (update (fun s => set_last_reset_day current_date
                           (set_daily_volume_used 0 s))) ;;
  cfg <- attr config ;;
  too_large <- lift (py_gt amount_sol (Config.max_trade_size_sol cfg)) ;;
  if too_large : bool then raise (ValueError "trade size exceeds the maximum")
  else
  too_small <- lift (py_lt amount_sol (Config.min_trade_size_sol cfg)) ;;
  if too_small : bool then raise (ValueError "trade size is below the minimum")
  else
  used <- attr daily_volume_used ;;
  limit <- attr daily_volume_limit ;;
  total <- lift (py_radd used amount_sol) ;;
  if Qlt_bool limit total
  then raise (ValueError "daily trade limit exceeded")
  else
  pubkey <- trading_pubkey ;;
  balance <- _get_wallet_balance pubkey ;;
  needed <- lift (py_mul amount_sol (11 # 10)) ;;
  if Qlt_bool balance needed
  then raise (ValueError "insufficient funds")
  else ret tt.

(** [obj.get(key, default)] on an arbitrary object. *)
Definition obj_get (v : pyval) (k : pyval) (default : pyval) : result pyval :=
  match v with
  | PDict d =>
      match k with
      | PStr s =>
          Ok (match dict_get s d with Some x => x | None => default end)
      | PList _ | PDict _ => Raise (TypeError "unhashable type")
      | _ => Ok default
      end
  | _ => Raise (LibraryError "AttributeError: object has no attribute 'get'")
  end.

Definition _get_token_info (token_address : pyval) : M State pyval :=
  try_except
    (reply <- ask http_reply (EvHttpGet token_address) ;;
     match reply with
     | HttpRaises => raise (LibraryError "httpx.HTTPError")
     | HttpStatus code => ret PNone
     | HttpJson data =>
         inner <- lift (obj_get data (PStr (py "data")) (PDict [])) ;;
         lift (obj_get inner token_address PNone)
     end)
    (fun e =>
       log ERROR "token info query failed" ;;
       ret PNone).

(** [float(x)]. *)
Definition py_float (v : pyval) : result Q :=
  match v with
  | PBool b => Ok (if b then 1%Q else 0%Q)
  | PInt z => Ok (inject_Z z)
  | PFloat q => Ok q
  | PStr s =>
      match float_of_str s with
      | Some q => Ok q
      | None => Raise (ValueError "could not convert string to float")
      end
  | _ => Raise (TypeError "float() argument must be a string or a real number")
  end.

Definition number (v : pyval) : result Q :=
  match as_number v with
  | Some q => Ok q
  | None => Raise unsupported_operand
  end.

Definition _calculate_token_amount (token_address amount_sol : pyval)
  : M State Z :=
  try_except
    (token_info <- _get_token_info token_address ;;
     if negb (truthy token_info)
     then raise (ValueError "could not get the token price")
     else
     price <- lift (obj_get token_info (PStr (py "price")) (PInt 0)) ;;
     price_sol <- lift (py_float price) ;;
     if Qle_bool price_sol 0
     then raise (ValueError "bad token price")
     else
     amount <- lift (number amount_sol) ;;
     let token_amount := Qtrunc (amount / price_sol) in
     log DEBUG "token amount computed" ;;
     ret token_amount)
    (fun e =>
       log ERROR "token amount computation failed" ;;
       amount <- lift (number amount_sol) ;;
       ret (Qtrunc (amount * 1000000))).

Definition _build_pump_transaction (token_address amount_sol : pyval)
    (token_amount : Z) (max_slippage : pyval) : M State Transaction :=
  try_except
    (blockhash <- get_latest_blockhash ;;
     payer <- trading_pubkey ;;
     log DEBUG "transaction built" ;;
     ret {| recent_blockhash := blockhash; fee_payer := payer;
            signers := [] |})
    (fun e =>
       log ERROR "transaction build failed" ;;
       raise e).

(** The [for attempt in range(max_retries)] loop of
    [_wait_for_confirmation], with [remaining] iterations to go.  The
    result tells whether the transaction was seen confirmed. *)
Fixpoint _wait_for_confirmation_loop (remaining : nat) (attempt max_retries : Z)
    (tx_id : pystr) : M State unit :=
  match remaining with
  | O => raise (ValueError "timed out waiting for the confirmation")
  | Datatypes.S remaining' =>
      confirmed <-
        try_except
          (status <- get_signature_status tx_id ;;
           match status with
           | Some st =>
               if confirmation_status st then
                 log DEBUG "transaction confirmed" ;; ret true
               else if err st then
                 raise (ValueError "transaction rejected")
               else sleep 1 ;; ret false
           | None => sleep 1 ;; ret false
           end)
          (fun e =>
             if attempt =? max_retries - 1
             then raise (ValueError ("confirmation timeout exceeded: "
                                       ++ str_exc e))
             else sleep 1 ;; ret false) ;;
      if confirmed : bool then ret tt
      else _wait_for_confirmation_loop remaining' (attempt + 1) max_retries
                                       tx_id
  end.

Definition _wait_for_confirmation (tx_id : pystr) : M State unit :=
  _wait_for_confirmation_loop 30 0 30 tx_id.

Definition _execute_real_trade (token_address amount_sol max_slippage : pyval)
    (start_time : Z) : M State TradeResult :=
  try_except
    (token_info <- _get_token_info token_address ;;
     if negb (truthy token_info)
     then raise (ValueError "token not found")
     else
     token_amount <- _calculate_token_amount token_address amount_sol ;;
     transaction <- _build_pump_transaction token_address amount_sol
                                            token_amount max_slippage ;;
     signer <- trading_pubkey ;;
     let transaction :=
       {| recent_blockhash := recent_blockhash transaction;
          fee_payer := fee_payer transaction;
          signers := [signer] |} in
     tx_id <- send_transaction transaction ;;
     _wait_for_confirmation tx_id ;;
     t1 <- now ;;
     used <- attr daily_volume_used ;;
     used' <- lift (py_radd used amount_sol) ;;
     update (set_daily_volume_used used') ;;
     log INFO "transaction executed" ;;
     t2 <- now ;;
     ret {| success := true;
            transaction_id := Some tx_id;
            error_message := None;
            token_address := token_address;
            amount_sol := amount_sol;
            price_impact := None;
            gas_used := None;
            execution_time_ms := Some (elapsed_ms start_time t1);
            timestamp := Some (isoformat t2) |})
    (fun e =>
       now ;;
       raise (ValueError ("transaction execution error: " ++ str_exc e))).

Definition _mock_trade (token_address amount_sol : pyval) (start_time : Z)
  : M State TradeResult :=
  sleep (1 # 10) ;;
  t1 <- now ;;
  t_local <- now ;;
  let fake_tx_id := py "mock_" ++ str_int (t_local / 1000000) in
  log INFO "mock pump" ;;
  t2 <- now ;;
  ret {| success := true;
         transaction_id := Some fake_tx_id;
         error_message := None;
         token_address := token_address;
         amount_sol := amount_sol;
         price_impact := None;
         gas_used := None;
         execution_time_ms := Some (elapsed_ms start_time t1);
         timestamp := Some (isoformat t2) |}.

Definition update_stats (f : TradeStats -> TradeStats) : M State unit :=
  update (fun s => set_trade_stats (f (trade_stats s)) s).

Definition _update_trade_stats (result : TradeResult) : M State unit :=
  update_stats (fun st =>
    {| total_trades := total_trades st + 1;
       successful_trades := successful_trades st;
       failed_trades := failed_trades st;
       total_volume_sol := total_volume_sol st;
       average_execution_time := average_execution_time st |}) ;;
  (if success result then
     update_stats (fun st =>
       {| total_trades := total_trades st;
          successful_trades := successful_trades st + 1;
          failed_trades := failed_trades st;
          total_volume_sol := total_volume_sol st;
          average_execution_time := average_execution_time st |}) ;;
     if truthy (amount_sol result) then
       st <- attr trade_stats ;;
       volume <- lift (py_radd (total_volume_sol st) (amount_sol result)) ;;
       update_stats (fun st =>
         {| total_trades := total_trades st;
            successful_trades := successful_trades st;
            failed_trades := failed_trades st;
            total_volume_sol := volume;
            average_execution_time := average_execution_time st |})
     else ret tt
   else
     update_stats (fun st =>
       {| total_trades := total_trades st;
          successful_trades := successful_trades st;
          failed_trades := failed_trades st + 1;
          total_volume_sol := total_volume_sol st;
          average_execution_time := average_execution_time st |})) ;;
  match execution_time_ms result with
  | Some ms =>
      if ms =? 0 then ret tt
      else
        update_stats (fun st =>
          let current_avg := average_execution_time st in
          let total := total_trades st in
          let new_avg :=
            ((current_avg * inject_Z (total - 1) + inject_Z ms)
             / inject_Z total)%Q in
          {| total_trades := total;
             successful_trades := successful_trades st;
             failed_trades := failed_trades st;
             total_volume_sol := total_volume_sol st;
             average_execution_time := new_avg |})
  | None => ret tt
  end.

Definition execute_pump_trade (command : dict) : M State TradeResult :=
  start_time <- now ;;
  try_except
    (let token_address := get command "token_address" in
     default_amount <- attr trade_amount_sol ;;
     let amount_sol :=
       get_default command "amount_sol" (PFloat default_amount) in
     default_slippage <- attr max_slippage ;;
     let max_slippage :=
       get_default command "max_slippage" (PFloat default_slippage) in
     log INFO "executing pump" ;;
     if negb (truthy token_address)
     then raise (ValueError "token address is missing")
     else
     kp <- attr trading_keypair ;;
     match kp with
     | None => raise (ValueError "trading wallet is not initialized")
     | Some _ =>
         _check_trade_limits amount_sol ;;
         cfg <- attr config ;;
         if Config.mock_trading cfg
         then _mock_trade token_address amount_sol start_time
         else
           result <- _execute_real_trade token_address amount_sol
                                         max_slippage start_time ;;
           _update_trade_stats result ;;
           ret result
     end)
    (fun e =>
       t1 <- now ;;
       log ERROR "pump failed" ;;
       t2 <- now ;;
       ret {| success := false;
              transaction_id := None;
              error_message := Some (py (str_exc e));
              token_address := get command "token_address";
              amount_sol := get command "amount_sol";
              price_impact := None;
              gas_used := None;
              execution_time_ms := Some (elapsed_ms start_time t1);
              timestamp := Some (isoformat t2) |}).

End WithLibs.
End TradingEngine.

(* ===================================================================== *)
(** ** worker_app.py *)
(* ===================================================================== *)

Module WorkerApp.

(** [self.stats]: a dict with these six keys. *)
Record Stats : Type := {
  start_time : Z;
  messages_sent : Z;
  messages_received : Z;
  trades_executed : Z;
  errors : Z;
  last_heartbeat : option Z
}.

(** The counters of the metrics collector the application touches. *)
Record Metrics : Type := {
  worker_status : string;
  errors_total : Z;
  trades_total : Z
}.

(** The websocket connection object. *)
Record WebSocket : Type := { closed : bool }.

(** A client object ([httpx.AsyncClient], solana [AsyncClient]). *)
Inductive handle : Type := Handle.

(** The attributes of a [WorkerApp]. *)
Record Self : Type := {
  config : Config.WorkerConfig;
  worker_id : pystr;
  websocket : option WebSocket;
  is_running : bool;
  reconnect_attempts : Z;
  max_reconnect_attempts : Z;
  metrics : option Metrics;
  worker_private_key : option pystr;
  coordinator_public_key : pyval;
  shared_key : option bytes;
  wallets : list (pyval * Keypair);
  trading_engine : option TradingEngine.Self;
  http_client : option handle;
  solana_client : option handle;
  stats : Stats
}.

Definition set_websocket (v : option WebSocket) (s : Self) : Self :=
  {| config := config s;
     worker_id := worker_id s;
     websocket := v;
     is_running := is_running s;
     reconnect_attempts := reconnect_attempts s;
     max_reconnect_attempts := max_reconnect_attempts s;
     metrics := metrics s;
     worker_private_key := worker_private_key s;
     coordinator_public_key := coordinator_public_key s;
     shared_key := shared_key s;
     wallets := wallets s;
     trading_engine := trading_engine s;
     http_client := http_client s;
     solana_client := solana_client s;
     stats := stats s |}.

Definition set_is_running (v : bool) (s : Self) : Self :=
  {| config := config s;
     worker_id := worker_id s;
     websocket := websocket s;
     is_running := v;
     reconnect_attempts := reconnect_attempts s;
     max_reconnect_attempts := max_reconnect_attempts s;
     metrics := metrics s;
     worker_private_key := worker_private_key s;
     coordinator_public_key := coordinator_public_key s;
     shared_key := shared_key s;
     wallets := wallets s;
     trading_engine := trading_engine s;
     http_client := http_client s;
     solana_client := solana_client s;
     stats := stats s |}.

Definition set_reconnect_attempts (v : Z) (s : Self) : Self :=
  {| config := config s;
     worker_id := worker_id s;
     websocket := websocket s;
     is_running := is_running s;
     reconnect_attempts := v;
     max_reconnect_attempts := max_reconnect_attempts s;
     metrics := metrics s;
     worker_private_key := worker_private_key s;
     coordinator_public_key := coordinator_public_key s;
     shared_key := shared_key s;
     wallets := wallets s;
     trading_engine := trading_engine s;
     http_client := http_client s;
     solana_client := solana_client s;
     stats := stats s |}.

Definition set_metrics (v : option Metrics) (s : Self) : Self :=
  {| config := config s;
     worker_id := worker_id s;
     websocket := websocket s;
     is_running := is_running s;
     reconnect_attempts := reconnect_attempts s;
     max_reconnect_attempts := max_reconnect_attempts s;
     metrics := v;
     worker_private_key := worker_private_key s;
     coordinator_public_key := coordinator_public_key s;
     shared_key := shared_key s;
     wallets := wallets s;
     trading_engine := trading_engine s;
     http_client := http_client s;
     solana_client := solana_client s;
     stats := stats s |}.

Definition set_coordinator_public_key (v : pyval) (s : Self) : Self :=
  {| config := config s;
     worker_id := worker_id s;
     websocket := websocket s;
     is_running := is_running s;
     reconnect_attempts := reconnect_attempts s;
     max_reconnect_attempts := max_reconnect_attempts s;
     metrics := metrics s;
     worker_private_key := worker_private_key s;
     coordinator_public_key := v;
     shared_key := shared_key s;
     wallets := wallets s;
     trading_engine := trading_engine s;
     http_client := http_client s;
     solana_client := solana_client s;
     stats := stats s |}.

Definition set_shared_key (v : option bytes) (s : Self) : Self :=
  {| config := config s;
     worker_id := worker_id s;
     websocket := websocket s;
     is_running := is_running s;
     reconnect_attempts := reconnect_attempts s;
     max_reconnect_attempts := max_reconnect_attempts s;
     metrics := metrics s;
     worker_private_key := worker_private_key s;
     coordinator_public_key := coordinator_public_key s;
     shared_key := v;
     wallets := wallets s;
     trading_engine := trading_engine s;
     http_client := http_client s;
     solana_client := solana_client s;
     stats := stats s |}.

Definition set_wallets (v : list (pyval * Keypair)) (s : Self) : Self :=
  {| config := config s;
     worker_id := worker_id s;
     websocket := websocket s;
     is_running := is_running s;
     reconnect_attempts := reconnect_attempts s;
     max_reconnect_attempts := max_reconnect_attempts s;
     metrics := metrics s;
     worker_private_key := worker_private_key s;
     coordinator_public_key := coordinator_public_key s;
     shared_key := shared_key s;
     wallets := v;
     trading_engine := trading_engine s;
     http_client := http_client s;
     solana_client := solana_client s;
     stats := stats s |}.

Definition set_trading_engine (v : option TradingEngine.Self) (s : Self) : Self :=
  {| config := config s;
     worker_id := worker_id s;
     websocket := websocket s;
     is_running := is_running s;
     reconnect_attempts := reconnect_attempts s;
     max_reconnect_attempts := max_reconnect_attempts s;
     metrics := metrics s;
     worker_private_key := worker_private_key s;
     coordinator_public_key := coordinator_public_key s;
     shared_key := shared_key s;
     wallets := wallets s;
     trading_engine := v;
     http_client := http_client s;
     solana_client := solana_client s;
     stats := stats s |}.

Definition set_http_client (v : option handle) (s : Self) : Self :=
  {| config := config s;
     worker_id := worker_id s;
     websocket := websocket s;
     is_running := is_running s;
     reconnect_attempts := reconnect_attempts s;
     max_reconnect_attempts := max_reconnect_attempts s;
     metrics := metrics s;
     worker_private_key := worker_private_key s;
     coordinator_public_key := coordinator_public_key s;
     shared_key := shared_key s;
     wallets := wallets s;
     trading_engine := trading_engine s;
     http_client := v;
     solana_client := solana_client s;
     stats := stats s |}.

Definition set_solana_client (v : option handle) (s : Self) : Self :=
  {| config := config s;
     worker_id := worker_id s;
     websocket := websocket s;
     is_running := is_running s;
     reconnect_attempts := reconnect_attempts s;
     max_reconnect_attempts := max_reconnect_attempts s;
     metrics := metrics s;
     worker_private_key := worker_private_key s;
     coordinator_public_key := coordinator_public_key s;
     shared_key := shared_key s;
     wallets := wallets s;
     trading_engine := trading_engine s;
     http_client := http_client s;
     solana_client := v;
     stats := stats s |}.

Definition set_stats (v : Stats) (s : Self) : Self :=
  {| config := config s;
     worker_id := worker_id s;
     websocket := websocket s;
     is_running := is_running s;
     reconnect_attempts := reconnect_attempts s;
     max_reconnect_attempts := max_reconnect_attempts s;
     metrics := metrics s;
     worker_private_key := worker_private_key s;
     coordinator_public_key := coordinator_public_key s;
     shared_key := shared_key s;
     wallets := wallets s;
     trading_engine := trading_engine s;
     http_client := http_client s;
     solana_client := solana_client s;
     stats := v |}.

Record State : Type := {
  self : Self;
  env : Env
}.

#[export] Instance State_HasEnv : HasEnv State := {|
  env_of := env;
  with_env := fun e s => {| self := self s; env := e |}
|}.

Definition update (f : Self -> Self) : M State unit :=
  modify (fun s => {| self := f (self s); env := env s |}).

Definition attr {A} (f : Self -> A) : M State A := gets (fun s => f (self s)).

Definition update_stats (f : Stats -> Stats) : M State unit :=
  update (fun s => set_stats (f (stats s)) s).

(** [if self.metrics: self.metrics.<method>()]. *)
Definition with_metrics (f : Metrics -> Metrics) : M State unit :=
  update (fun s =>
            match metrics s with
            | Some m => set_metrics (Some (f m)) s
            | None => s
            end).

Definition set_worker_status (status : string) (m : Metrics) : Metrics :=
  {| worker_status := status; errors_total := errors_total m;
     trades_total := trades_total m |}.

Definition increment_errors (m : Metrics) : Metrics :=
  {| worker_status := worker_status m; errors_total := errors_total m + 1;
     trades_total := trades_total m |}.

Definition increment_trades (m : Metrics) : Metrics :=
  {| worker_status := worker_status m; errors_total := errors_total m;
     trades_total := trades_total m + 1 |}.

(** [self.stats.copy()] as a message field. *)
Definition stats_copy (st : Stats) : pyval :=
  PDict [ (py "start_time", PDatetime (start_time st));
          (py "messages_sent", PInt (messages_sent st));
          (py "messages_received", PInt (messages_received st));
          (py "trades_executed", PInt (trades_executed st));
          (py "errors", PInt (errors st));
          (py "last_heartbeat",
             match last_heartbeat st with
             | Some t => PDatetime t
             | None => PNone
             end) ].

(** Equality of two hashable objects as [dict] keys. *)
Definition key_eqb (a b : pyval) : bool :=
  match as_number a, as_number b with
  | Some x, Some y => Qeq_bool x y
  | None, None =>
      match a, b with
      | PNone, PNone => true
      | PStr s, PStr t => pystr_eqb s t
      | PDatetime s, PDatetime t => s =? t
      | _, _ => false
      end
  | _, _ => false
  end.

Definition hashable (k : pyval) : bool :=
  match k with
  | PList _ | PDict _ => false
  | _ => true
  end.

(** [d[k] = v] on a dict with arbitrary hashable keys. *)
Fixpoint setitem {V} (k : pyval) (v : V) (d : list (pyval * V))
  : list (pyval * V) :=
  match d with
  | [] => [(k, v)]
  | (k', v') :: d' =>
      if key_eqb k k' then (k', v) :: d' else (k', v') :: setitem k v d'
  end.

(** [websockets.exceptions.ConnectionClosed], as the transport raises
    it. *)
Definition is_connection_closed (e : exc) : bool :=
  match e with
  | LibraryError m => String.eqb m "ConnectionClosed"
  | _ => false
  end.

(** What one connection delivers to [async for message in
    self.websocket]: the frames the iteration yields, and the way it ends,
    normally ([None]) or by raising.  Both are the transport's doing. *)
Record Inbox : Type := {
  inbox_frames : list pystr;
  inbox_ending : option exc
}.

Section WithLibs.
Context {L : Libs}.

(** [json.dumps], [json.loads]. *)
Definition json_dumps (v : pyval) : result pystr :=
  if serializable v then Ok (json_text v)
  else Raise (TypeError "Object of type datetime is not JSON serializable").

Definition json_loads_text (s : pystr) : result pyval :=
  match json_loads s with
  | Some v => Ok v
  | None => Raise (ValueError "JSONDecodeError")
  end.

(** [message.get] needs a dict. *)
Definition as_dict (v : pyval) : result dict :=
  match v with
  | PDict d => Ok d
  | _ => Raise (LibraryError "AttributeError: object has no attribute 'get'")
  end.

(** [message["data"]]. *)
Definition getitem (d : dict) (k : string) : result pyval :=
  match dict_get (py k) d with
  | Some v => Ok v
  | None => Raise (LibraryError "KeyError")
  end.

Definition key_present (k : option bytes) : bool :=
  match k with
  | Some (_ :: _) => true
  | _ => false
  end.

(** Run a method of [self.trading_engine]. *)
Definition with_engine {A} (m : M TradingEngine.State A) : M State A :=
  fun s =>
    match trading_engine (self s) with
    | None =>
        (Raise (LibraryError "AttributeError: 'NoneType' object has no attribute"), s)
    | Some eng =>
        let '(r, es) :=
          m {| TradingEngine.self := eng; TradingEngine.env := env s |} in
        (r, {| self := set_trading_engine (Some (TradingEngine.self es)) (self s);
               env := TradingEngine.env es |})
    end.

(** [await self.websocket.send(wire)]: the transport tells whether the
    frame went out; when it did not, the connection is closed and the call
    raises. *)
Definition websocket_send (message : pyval) (wire : pystr) : M State unit :=
  fun s =>
    let e := env s in
    let delivered := send_reply (outside e) (List.length (events e)) in
    let e' := {| outside := outside e;
                 events := EvSend message wire delivered :: events e |} in
    if delivered then (Ok tt, {| self := self s; env := e' |})
    else (Raise (LibraryError "ConnectionClosed"),
          {| self := set_websocket (Some {| closed := true |}) (self s);
             env := e' |}).

Definition _initialize_encryption : M State unit :=
  cfg <- attr config ;;
  if negb (Config.encryption_enabled cfg)
  then log INFO "encryption disabled"
  else
  private <- attr worker_private_key ;;
  public <- attr coordinator_public_key ;;
  if negb (truthy (opt_str private)) || negb (truthy public)
  then log WARNING "encryption keys are not configured"
  else
  try_except
    (key <- lift (EncryptionUtils.perform_key_exchange_x25519
                    (opt_str private) public) ;;
     update (set_shared_key (Some key)) ;;
     log INFO "encryption initialized")
    (fun e =>
       raise (ValueError ("encryption initialization error: " ++ str_exc e))).

Definition _initialize_http_client : M State unit :=
  update (set_http_client (Some Handle)) ;;
  log INFO "HTTP client initialized".

Definition _initialize_solana_client : M State unit :=
  try_except
    (update (set_solana_client (Some Handle)) ;;
     get_health ;;
     log INFO "Solana client connected")
    (fun e =>
       raise (ValueError ("Solana connection error: " ++ str_exc e))).

Definition _initialize_trading_engine : M State unit :=
  try_except
    (cfg <- attr config ;;
     t <- now ;;
     update (set_trading_engine
               (Some (TradingEngine.__init__ cfg (date_of t)))) ;;
     with_engine TradingEngine.initialize ;;
     log INFO "trading engine initialized")
    (fun e =>
       raise (ValueError ("trading engine initialization error: "
                            ++ str_exc e))).

Definition initialize : M State unit :=
  log INFO "initializing worker" ;;
  try_except
    (_initialize_encryption ;;
     _initialize_http_client ;;
     _initialize_solana_client ;;
     _initialize_trading_engine ;;
     with_metrics (set_worker_status "initialized") ;;
     log INFO "worker initialized")
    (fun e =>
       log ERROR "initialization failed" ;;
       with_metrics increment_errors ;;
       raise e).

Definition _encrypt_message (message : pystr) : M State pystr :=
  try_except
    (key <- attr shared_key ;;
     stream <- urandom_stream 12 ;;
     r <- lift (EncryptionUtils.encrypt_aes_gcm message key stream) ;;
     let '(ciphertext, nonce, tag) := r in
     ret (join_colon ciphertext nonce tag))
    (fun e =>
       log ERROR "encryption failed" ;;
       raise e).

Definition _decrypt_message (encrypted_data : pyval) : M State pystr :=
  try_except
    (match encrypted_data with
     | PStr s =>
         match split_colon s with
         | [ciphertext; nonce; tag] =>
             key <- attr shared_key ;;
             lift (EncryptionUtils.decrypt_aes_gcm ciphertext nonce tag key)
         | _ => raise (ValueError "bad format of encrypted data")
         end
     | _ => raise (LibraryError "AttributeError: object has no attribute 'split'")
     end)
    (fun e =>
       log ERROR "decryption failed" ;;
       raise e).

Definition websocket_open (ws : option WebSocket) : bool :=
  match ws with
  | Some w => negb (closed w)
  | None => false
  end.

Definition _send_message (message : pyval) : M State unit :=
  ws <- attr websocket ;;
  if negb (websocket_open ws)
  then raise (RuntimeError "WebSocket connection is closed")
  else
  try_except
    (message_json <- lift (json_dumps message) ;;
     cfg <- attr config ;;
     key <- attr shared_key ;;
     wire <-
       (if Config.encryption_enabled cfg && key_present key then
          encrypted_data <- _encrypt_message message_json ;;
          let final_message :=
            PDict [ (py "type", PStr (py "encrypted"));
                    (py "data", PStr encrypted_data) ] in
          lift (json_dumps final_message)
        else ret message_json) ;;
     websocket_send message wire ;;
     update_stats (fun st =>
       {| start_time := start_time st;
          messages_sent := messages_sent st + 1;
          messages_received := messages_received st;
          trades_executed := trades_executed st;
          errors := errors st;
          last_heartbeat := last_heartbeat st |}) ;;
     when (Config.debug_websocket cfg) (log DEBUG "sent"))
    (fun e =>
       log ERROR "sending the message failed" ;;
       with_metrics increment_errors ;;
       raise e).

Definition _send_registration : M State unit :=
  cfg <- attr config ;;
  wid <- attr worker_id ;;
  let registration_message :=
    PDict [ (py "type", PStr (py "register"));
            (py "api_key", PStr (Config.api_key cfg));
            (py "worker_id", PStr wid);
            (py "worker_public_key_x25519_base64",
               opt_str (Config.worker_public_key_x25519 cfg));
            (py "region", PStr (Config.worker_region cfg));
            (py "capabilities", PList (Config.get_capabilities cfg));
            (py "status", PStr (py "ready"));
            (py "metadata",
               PDict [ (py "version", PStr (py "2.0.0"));
                       (py "name", opt_str (Config.worker_name cfg));
                       (py "description",
                          opt_str (Config.worker_description cfg));
                       (py "max_wallets",
                          PInt (Config.max_wallets_per_worker cfg));
                       (py "max_concurrent_trades",
                          PInt (Config.max_concurrent_trades cfg)) ]) ] in
  _send_message registration_message ;;
  log INFO "registration message sent".

(** [websockets.connect(...)]. *)
Definition websockets_connect : M State WebSocket :=
  ok <- ask connect_reply EvConnect ;;
  if ok : bool then ret {| closed := false |}
  else raise (LibraryError "ConnectionRefusedError").

(** The [while] loop of [connect_to_coordinator].  The loop need not end
    (a connection that opens and then fails to register resets the
    counter), so it is given [fuel] iterations; [None] means the fuel ran
    out. *)
Fixpoint connect_loop (fuel : nat) (retry_delay : Q) : M State (option bool) :=
  match fuel with
  | O => ret None
  | Datatypes.S fuel' =>
      running <- attr is_running ;;
      attempts <- attr reconnect_attempts ;;
      limit <- attr max_reconnect_attempts ;;
      if negb (running && (attempts <? limit)) then ret (Some false)
      else
      r <- try_except
             (ws <- websockets_connect ;;
              update (set_websocket (Some ws)) ;;
              log INFO "connected to the coordinator" ;;
              update (set_reconnect_attempts 0) ;;
              _send_registration ;;
              with_metrics (set_worker_status "connected") ;;
              ret (None : option Q))
             (fun e =>
                update (fun s => set_reconnect_attempts
                                   (reconnect_attempts s + 1) s) ;;
                log ERROR "connection failed" ;;
                attempts <- attr reconnect_attempts ;;
                cfg <- attr config ;;
                next_delay <-
                  (if attempts <? limit then
                     log INFO "retrying" ;;
                     sleep retry_delay ;;
                     ret (retry_delay * Config.backoff_factor cfg)%Q
                   else ret retry_delay) ;;
                with_metrics increment_errors ;;
                ret (Some next_delay)) ;;
      match r with
      | None => ret (Some true)
      | Some next_delay => connect_loop fuel' next_delay
      end
  end.

Definition connect_to_coordinator (fuel : nat) : M State (option bool) :=
  log INFO "connecting to the coordinator" ;;
  cfg <- attr config ;;
  connect_loop fuel (Config.retry_delay cfg).

Definition shutdown : M State unit :=
  running <- attr is_running ;;
  if negb running then ret tt
  else
  log INFO "shutting down" ;;
  update (set_is_running false) ;;
  try_except
    (ws <- attr websocket ;;
     when (websocket_open ws)
          (emit (EvClose "websocket") ;;
           update (set_websocket (Some {| closed := true |}))) ;;
     http <- attr http_client ;;
     when (match http with Some _ => true | None => false end)
          (emit (EvClose "http_client") ;; ret tt) ;;
     rpc <- attr solana_client ;;
     when (match rpc with Some _ => true | None => false end)
          (emit (EvClose "solana_client") ;; ret tt) ;;
     eng <- attr trading_engine ;;
     when (match eng with Some _ => true | None => false end)
          (log INFO "stopping the trading engine" ;;
           log INFO "trading engine stopped") ;;
     with_metrics (set_worker_status "stopped") ;;
     log INFO "worker stopped")
    (fun e => log ERROR "shutdown failed").

Definition _handle_registration_success (message : dict) : M State unit :=
  log INFO "registration succeeded" ;;
  let coordinator_key := get message "coordinator_public_key_x25519" in
  known <- attr coordinator_public_key ;;
  when (truthy coordinator_key && negb (truthy known))
       (update (set_coordinator_public_key coordinator_key) ;;
        _initialize_encryption) ;;
  with_metrics (set_worker_status "registered").

Definition _handle_registration_error (message : dict) : M State unit :=
  log ERROR "registration failed" ;;
  shutdown.

Definition _handle_pump_command (message : dict) : M State unit :=
  wid <- attr worker_id ;;
  try_except
    (log INFO "pump command received" ;;
     eng <- attr trading_engine ;;
     match eng with
     | None => raise (ValueError "trading engine is not initialized")
     | Some _ =>
         result <- with_engine (TradingEngine.execute_pump_trade message) ;;
         t <- now ;;
         let response :=
           PDict [ (py "type", PStr (py "pump_result"));
                   (py "worker_id", PStr wid);
                   (py "command_id", get message "command_id");
                   (py "result", TradingEngine.to_dict result);
                   (py "timestamp", PStr (isoformat t)) ] in
         _send_message response ;;
         update_stats (fun st =>
           {| start_time := start_time st;
              messages_sent := messages_sent st;
              messages_received := messages_received st;
              trades_executed := trades_executed st + 1;
              errors := errors st;
              last_heartbeat := last_heartbeat st |}) ;;
         with_metrics increment_trades
     end)
    (fun e =>
       log ERROR "pump failed" ;;
       t <- now ;;
       let error_response :=
         PDict [ (py "type", PStr (py "pump_error"));
                 (py "worker_id", PStr wid);
                 (py "command_id", get message "command_id");
                 (py "error", PStr (py (str_exc e)));
                 (py "timestamp", PStr (isoformat t)) ] in
       _send_message error_response ;;
       with_metrics increment_errors).

Definition _get_health_status : M State pyval :=
  ws <- attr websocket ;;
  st <- attr stats ;;
  let websocket_state :=
    if websocket_open ws then "connected"%string else "disconnected"%string in
  let errors_24h := errors st in
  rpc <- attr solana_client ;;
  solana_state <-
    try_except
      (match rpc with
       | Some _ => get_health ;; ret "healthy"%string
       | None => ret "unknown"%string
       end)
      (fun e => ret "unhealthy"%string) ;;
  eng <- attr trading_engine ;;
  let engine_state :=
    match eng with Some _ => "ready"%string | None => "unknown"%string end in
  rss <- ask memory_reply EvMemoryInfo ;;
  let memory_usage :=
    match rss with
    | Some b => PFloat (inject_Z b / 1024 / 1024)
    | None => PInt 0
    end in
  let overall :=
    if 100 <? errors_24h then "unhealthy"%string
    else if negb (String.eqb websocket_state "connected")
            || String.eqb solana_state "unhealthy"
         then "degraded"%string
         else "healthy"%string in
  ret (PDict [ (py "overall", PStr (py overall));
               (py "websocket", PStr (py websocket_state));
               (py "solana_client", PStr (py solana_state));
               (py "trading_engine", PStr (py engine_state));
               (py "memory_usage", memory_usage);
               (py "errors_24h", PInt errors_24h) ]).

Definition _handle_heartbeat_request (message : dict) : M State unit :=
  wid <- attr worker_id ;;
  t <- now ;;
  st <- attr stats ;;
  health <- _get_health_status ;;
  let response :=
    PDict [ (py "type", PStr (py "heartbeat_ack"));
            (py "worker_id", PStr wid);
            (py "timestamp", PStr (isoformat t));
            (py "status", PStr (py "active"));
            (py "stats", stats_copy st);
            (py "health", health) ] in
  _send_message response ;;
  t' <- now ;;
  update_stats (fun st =>
    {| start_time := start_time st;
       messages_sent := messages_sent st;
       messages_received := messages_received st;
       trades_executed := trades_executed st;
       errors := errors st;
       last_heartbeat := Some t' |}).

Definition _handle_wallet_assignment (message : dict) : M State unit :=
  wid <- attr worker_id ;;
  try_except
    (let wallet_index := get message "wallet_index" in
     let encrypted_key := get message "encrypted_private_key" in
     key <- attr shared_key ;;
     if negb (key_present key)
     then raise (ValueError "encryption is not initialized")
     else
     private_key_base58 <-
       lift (EncryptionUtils.decrypt_wallet_key encrypted_key key) ;;
     private_key_bytes <-
       from_reply (b58decode private_key_base58)
                  (ValueError "Invalid base58 string") ;;
     keypair <- from_reply (keypair_from_bytes private_key_bytes)
                           (ValueError "invalid keypair bytes") ;;
     (if hashable wallet_index
      then update (fun s => set_wallets
                              (setitem wallet_index keypair (wallets s)) s)
      else raise (TypeError "unhashable type")) ;;
     log INFO "wallet assigned" ;;
     t <- now ;;
     let response :=
       PDict [ (py "type", PStr (py "wallet_assigned"));
               (py "worker_id", PStr wid);
               (py "wallet_index", wallet_index);
               (py "public_key", PStr (pubkey_str keypair));
               (py "timestamp", PStr (isoformat t)) ] in
     _send_message response)
    (fun e => log ERROR "wallet assignment failed").

Definition _handle_status_request (message : dict) : M State unit :=
  wid <- attr worker_id ;;
  running <- attr is_running ;;
  t <- now ;;
  st <- attr stats ;;
  cfg <- attr config ;;
  health <- _get_health_status ;;
  ws <- attr wallets ;;
  t' <- now ;;
  let status :=
    PDict [ (py "type", PStr (py "worker_status"));
            (py "worker_id", PStr wid);
            (py "status",
               PStr (py (if running : bool then "active" else "inactive")));
            (py "uptime",
               PFloat (inject_Z (t - start_time st) / 1000000));
            (py "stats", stats_copy st);
            (py "config",
               PDict [ (py "region", PStr (Config.worker_region cfg));
                       (py "capabilities",
                          PList (Config.get_capabilities cfg));
                       (py "max_wallets",
                          PInt (Config.max_wallets_per_worker cfg));
                       (py "max_concurrent_trades",
                          PInt (Config.max_concurrent_trades cfg)) ]);
            (py "health", health);
            (py "wallets", PInt (Z.of_nat (List.length ws)));
            (py "timestamp", PStr (isoformat t')) ] in
  _send_message status.

(** The body of the [try] of [_process_message]. *)
Definition _process_message_body (raw_message : pystr) : M State unit :=
  parsed <- lift (json_loads_text raw_message) ;;
  update_stats (fun st =>
    {| start_time := start_time st;
       messages_sent := messages_sent st;
       messages_received := messages_received st + 1;
       trades_executed := trades_executed st;
       errors := errors st;
       last_heartbeat := last_heartbeat st |}) ;;
  cfg <- attr config ;;
  outer <- lift (as_dict parsed) ;;
  when (Config.debug_websocket cfg) (log DEBUG "received") ;;
  message <-
    (if py_eq_str (get outer "type") "encrypted" then
       data <- lift (getitem outer "data") ;;
       decrypted <- _decrypt_message data ;;
       inner <- lift (json_loads_text decrypted) ;;
       lift (as_dict inner)
     else ret outer) ;;
  let message_type := get message "type" in
  if py_eq_str message_type "registration_success" then
    _handle_registration_success message
  else if py_eq_str message_type "registration_error" then
    _handle_registration_error message
  else if py_eq_str message_type "pump_command" then
    _handle_pump_command message
  else if py_eq_str message_type "heartbeat_request" then
    _handle_heartbeat_request message
  else if py_eq_str message_type "wallet_assignment" then
    _handle_wallet_assignment message
  else if py_eq_str message_type "status_request" then
    _handle_status_request message
  else log WARNING "unknown message type".

Definition _process_message (raw_message : pystr) : M State unit :=
  try_except
    (_process_message_body raw_message)
    (fun e =>
       log ERROR "message processing failed" ;;
       with_metrics increment_errors).

(** The body of the [async for] loop of [message_handler], run on every
    frame the iteration yields. *)
Fixpoint message_loop (frames : list pystr) : M State unit :=
  match frames with
  | [] => ret tt
  | raw :: frames' =>
      _process_message raw ;;
      message_loop frames'
  end.

Definition message_handler (inbox : Inbox) : M State unit :=
  log INFO "message handler started" ;;
  try_except
    (ws <- attr websocket ;;
     match ws with
     | None => raise (TypeError "'async for' requires an object with __aiter__ method, got NoneType")
     | Some _ =>
         message_loop (inbox_frames inbox) ;;
         match inbox_ending inbox with
         | Some e => raise e
         | None => ret tt
         end
     end)
    (fun e =>
       if is_connection_closed e
       then log WARNING "WebSocket connection closed"
       else
         log ERROR "message handler failed" ;;
         with_metrics increment_errors).

End WithLibs.
End WorkerApp.

(* ===================================================================== *)
(** ** pump_trading.py: the report of the engine *)
(* ===================================================================== *)

Module EngineReport.
Import TradingEngine.

(** The [success_rate] of [get_stats]: [successful / max(total, 1) * 100],
    a true division. *)
Definition success_rate (st : TradeStats) : Q :=
  inject_Z (successful_trades st) / inject_Z (Z.max (total_trades st) 1) * 100.

(** [get_stats]: the five counters of [trade_stats], then three more
    keys. *)
Definition get_stats (s : Self) : dict :=
  let st := trade_stats s in
  [ (py "total_trades", PInt (total_trades st));
    (py "successful_trades", PInt (successful_trades st));
    (py "failed_trades", PInt (failed_trades st));
    (py "total_volume_sol", PFloat (total_volume_sol st));
    (py "average_execution_time", PFloat (average_execution_time st));
    (py "daily_volume_used", PFloat (daily_volume_used s));
    (py "daily_volume_limit", PFloat (daily_volume_limit s));
    (py "success_rate", PFloat (success_rate st)) ].

End EngineReport.

(* ===================================================================== *)
(** ** config.py: the validators of the settings *)
(* ===================================================================== *)

Module ConfigValidators.

(** [validate_slippage]: [0 < v < 1]. *)
Definition validate_slippage (v : Q) : result Q :=
  if negb (Qlt_bool 0 v && Qlt_bool v 1)
  then Raise (ValueError "slippage must be between 0 and 1")
  else Ok v.

(** [validate_amounts], for [trade_amount_sol], [max_trade_size_sol] and
    [min_trade_size_sol]. *)
Definition validate_amounts (v : Q) : result Q :=
  if Qle_bool v 0
  then Raise (ValueError "the trade amount must be positive")
  else Ok v.

End ConfigValidators.

(* ===================================================================== *)
(** ** encryption_utils.py: hashes, tokens and password encryption *)
(* ===================================================================== *)

(** What the embedding takes from [hashlib].  One law is assumed: with
    SHA-256, [pbkdf2_hmac] derives 32 bytes. *)
Class HashLib : Type := {
  (** [hashlib.pbkdf2_hmac('sha256', password, salt, iterations)]. *)
  pbkdf2_hmac_sha256 : bytes -> bytes -> Z -> bytes;
  pbkdf2_hmac_sha256_length :
    forall password salt iterations,
      List.length (pbkdf2_hmac_sha256 password salt iterations) = 32%nat;
  (** [hashlib.sha256(data).hexdigest()]. *)
  sha256_hexdigest : bytes -> pystr
}.

Module EncryptionTools.
Import EncryptionUtils.

Section WithLibs.
Context {L : Libs} {H : HashLib}.

Local Notation "x <- r ;; k" := (rbind r (fun x => k))
  (at level 61, r at next level, right associativity).

(** [base64.b64decode(b)] on a [bytes] argument. *)
Definition b64decode_bytes (b : bytes) : result bytes :=
  match Base64.a2b_loop (map byte_to_Z b) 0 0 0 with
  | Some d => Ok d
  | None => Raise (LibraryError "binascii.Error: Incorrect padding")
  end.

Definition api_key_salt : bytes := map byte_of_Z (py "pump_bot_api_key_salt").

Definition hash_api_key (api_key : pystr) : result pystr :=
  key_bytes <- str_encode_utf8 api_key ;;
  let hash_bytes := pbkdf2_hmac_sha256 key_bytes api_key_salt 100000 in
  Ok (Base64.b64encode hash_bytes).

(** [generate_secure_token]; [os.urandom] refuses a negative length. *)
Definition generate_secure_token (length : Z) (entropy : nat -> byte)
  : result pystr :=
  if length <? 0 then Raise (ValueError "negative argument not allowed")
  else Ok (Base64.b64encode (os_urandom entropy (Z.to_nat length))).

(** [verify_message_integrity]: every exception gives [False]. *)
Definition verify_message_integrity (message signature public_key : pystr)
  : bool :=
  match str_encode_utf8 (message ++ public_key) with
  | Ok b => pystr_eqb signature (sha256_hexdigest b)
  | Raise _ => false
  end.

Definition sign_message (message private_key : pystr) : result pystr :=
  reraise_as_ValueError "message signing error: "
    (b <- str_encode_utf8 (message ++ private_key) ;;
     Ok (sha256_hexdigest b)).

(** [encrypt_sensitive_data]; [entropy_salt] and [entropy_nonce] are the
    streams its two calls of [os.urandom] read. *)
Definition encrypt_sensitive_data (data password : pystr)
    (entropy_salt entropy_nonce : nat -> byte) : result pystr :=
  reraise_as_ValueError "data encryption error: "
    (let salt := os_urandom entropy_salt 16 in
     password_bytes <- str_encode_utf8 password ;;
     let key := pbkdf2_hmac_sha256 password_bytes salt 100000 in
     let nonce := os_urandom entropy_nonce 12 in
     aesgcm <- AESGCM (Some key) ;;
     data_bytes <- str_encode_utf8 data ;;
     ciphertext <- AESGCM_encrypt aesgcm nonce data_bytes ;;
     let encrypted := salt ++ nonce ++ ciphertext in
     Ok (Base64.b64encode encrypted)).

(** [decrypt_sensitive_data]: [data[:16]], [data[16:28]], [data[28:]]. *)
Definition decrypt_sensitive_data (encrypted_data password : pystr)
  : result pystr :=
  reraise_as_ValueError "data decryption error: "
    (encoded <- str_encode_utf8 encrypted_data ;;
     data <- b64decode_bytes encoded ;;
     let salt := firstn 16 data in
     let nonce := firstn 12 (skipn 16 data) in
     let ciphertext := skipn 28 data in
     password_bytes <- str_encode_utf8 password ;;
     let key := pbkdf2_hmac_sha256 password_bytes salt 100000 in
     aesgcm <- AESGCM (Some key) ;;
     plaintext <- AESGCM_decrypt aesgcm nonce ciphertext ;;
     bytes_decode_utf8 plaintext).

End WithLibs.
End EncryptionTools.

(* ===================================================================== *)
(** ** worker_app.py: the main loop *)
(* ===================================================================== *)

Module WorkerMain.
Import WorkerApp.

Local Open Scope M_scope.

Section WithLibs.
Context {L : Libs}.

(** A connection that delivers nothing and ends normally. *)
Definition no_frames : Inbox := {| inbox_frames := []; inbox_ending := None |}.

(** The [while self.is_running] loop of [run].  [inboxes] holds, for
    each connection in turn, what it delivers ([no_frames] once the list
    is used up).  The loop need not end (a coordinator may accept and
    close for ever), so it is given [fuel] iterations, and every
    [connect_to_coordinator] gets [connect_fuel]; [None] means that fuel
    ran out. *)
Fixpoint run_loop (fuel connect_fuel : nat) (inboxes : list Inbox)
  : M State (option unit) :=
  match fuel with
  | O => ret None
  | Datatypes.S fuel' =>
      running <- attr is_running ;;
      if negb running then ret (Some tt)
      else
        step <-
          try_except
            (connected <- connect_to_coordinator connect_fuel ;;
             match connected with
             | None => ret None
             | Some false =>
                 log ERROR "could not connect to the coordinator" ;;
                 ret (Some true)
             | Some true =>
                 message_handler (hd no_frames inboxes) ;;
                 ret (Some false)
             end)
            (fun e =>
               if is_connection_closed e
               then log WARNING "connection closed by the coordinator" ;;
                    ret (Some false)
               else log ERROR "error in the main loop" ;;
                    with_metrics increment_errors ;;
                    ret (Some false)) ;;
        match step with
        | None => ret None
        | Some true => ret (Some tt)
        | Some false =>
            running <- attr is_running ;;
            when running
                 (log INFO "reconnecting in 5 seconds" ;; sleep 5) ;;
            run_loop fuel' connect_fuel (tl inboxes)
        end
  end.

(** [run]: once the [try] statement is left, by the end of the loop or
    by an exception, the [finally] clause shuts the worker down.  A loop
    that ran out of fuel ([None]) has not been left, and nothing is shut
    down. *)
Definition run (fuel connect_fuel : nat) (inboxes : list Inbox)
  : M State (option unit) :=
  update (set_is_running true) ;;
  log INFO "starting the worker" ;;
  r <- try_except
         (initialize ;;
          run_loop fuel connect_fuel inboxes)
         (fun e =>
            log ERROR "critical error" ;;
            with_metrics (set_worker_status "error") ;;
            ret (Some tt)) ;;
  match r with
  | None => ret None
  | Some _ => shutdown ;; ret r
  end.

End WithLibs.
End WorkerMain.
(* ===================================================================== *)
(** * Properties *)
(* ===================================================================== *)

(** ** Bytes *)

Lemma byte_to_Z_range (b : byte) : 0 <= byte_to_Z b < 256.
Proof.
  unfold byte_to_Z. pose proof (Byte.to_N_bounded b). lia.
Qed.

Lemma byte_of_to_Z (b : byte) : byte_of_Z (byte_to_Z b) = b.
Proof.
  unfold byte_of_Z, byte_to_Z. now rewrite N2Z.id, Byte.of_to_N.
Qed.

Lemma byte_of_Z_eq (z : Z) (b : byte) : z = byte_to_Z b -> byte_of_Z z = b.
Proof. intros ->. apply byte_of_to_Z. Qed.

Lemma byte_to_of_Z (z : Z) : 0 <= z < 256 -> byte_to_Z (byte_of_Z z) = z.
Proof.
  intros Hz. unfold byte_of_Z, byte_to_Z.
  destruct (Byte.of_N (Z.to_N z)) as [b|] eqn:E.
  - apply Byte.to_of_N in E. rewrite E. lia.
  - apply Byte.of_N_None_iff in E. lia.
Qed.

Lemma slice_until_last_app_slice_last {A} (n : nat) (x : list A) :
  slice_until_last n x ++ slice_last n x = x.
Proof. apply firstn_skipn. Qed.

(** ** Base64: decoding undoes encoding *)

Module Base64Facts.
Import Base64.

Lemma a2b_b2a (i : Z) : 0 <= i < 64 -> a2b (b2a i) = Some i.
Proof.
  intros Hi. unfold a2b, b2a.
  destruct (Z.ltb_spec i 26); [|destruct (Z.ltb_spec i 52);
    [|destruct (Z.ltb_spec i 62); [|destruct (Z.eqb_spec i 62)]]];
  repeat match goal with
  | |- context [?a <=? ?b] => destruct (Z.leb_spec a b); try lia; cbn [andb]
  | |- context [?a =? ?b] => destruct (Z.eqb_spec a b); try lia
  end; f_equal; lia.
Qed.

Lemma b2a_not_pad (i : Z) : 0 <= i < 64 -> (b2a i =? PAD) = false.
Proof.
  intros Hi. apply Z.eqb_neq. unfold b2a, PAD.
  repeat match goal with
  | |- context [?a <? ?b] => destruct (Z.ltb_spec a b)
  | |- context [?a =? ?b] => destruct (Z.eqb_spec a b)
  end; lia.
Qed.

Lemma b2a_ascii (i : Z) : 0 <= i < 64 -> 0 <= b2a i < 128.
Proof.
  intros Hi. unfold b2a.
  repeat match goal with
  | |- context [?a <? ?b] => destruct (Z.ltb_spec a b)
  | |- context [?a =? ?b] => destruct (Z.eqb_spec a b)
  end; lia.
Qed.

(** An alphabet character read by the loop, quad position by quad
    position. *)
Lemma a2b_loop_char0 v s l p :
  0 <= v < 64 -> a2b_loop (b2a v :: s) 0 l p = a2b_loop s 1 v 0.
Proof.
  intros Hv. cbn [a2b_loop]. now rewrite b2a_not_pad, a2b_b2a.
Qed.

Lemma a2b_loop_char1 v s l p :
  0 <= v < 64 ->
  a2b_loop (b2a v :: s) 1 l p =
  option_map (cons (byte_of_Z (l * 4 + v / 16))) (a2b_loop s 2 (v mod 16) 0).
Proof.
  intros Hv. cbn [a2b_loop]. now rewrite b2a_not_pad, a2b_b2a.
Qed.

Lemma a2b_loop_char2 v s l p :
  0 <= v < 64 ->
  a2b_loop (b2a v :: s) 2 l p =
  option_map (cons (byte_of_Z (l * 16 + v / 4))) (a2b_loop s 3 (v mod 4) 0).
Proof.
  intros Hv. cbn [a2b_loop]. now rewrite b2a_not_pad, a2b_b2a.
Qed.

Lemma a2b_loop_char3 v s l p :
  0 <= v < 64 ->
  a2b_loop (b2a v :: s) 3 l p =
  option_map (cons (byte_of_Z (l * 64 + v))) (a2b_loop s 0 0 0).
Proof.
  intros Hv. cbn [a2b_loop]. now rewrite b2a_not_pad, a2b_b2a.
Qed.

(** Induction on a byte string three bytes at a time, as the encoder
    consumes it. *)
Lemma bytes_ind3 (P : bytes -> Prop) :
  P [] -> (forall x, P [x]) -> (forall x y, P [x; y]) ->
  (forall x y z rest, P rest -> P (x :: y :: z :: rest)) ->
  forall s, P s.
Proof.
  intros H0 H1 H2 H3.
  fix IH 1. intros [|x [|y [|z rest]]].
  - exact H0.
  - apply H1.
  - apply H2.
  - apply H3, IH.
Qed.

Ltac sextet := 
  match goal with
  | |- 0 <= _ < 64 => Z.div_mod_to_equations; lia
  end.

Lemma a2b_loop_b64encode (s : bytes) :
  forall l p, a2b_loop (b64encode s) 0 l p = Some s.
Proof.
  induction s as [|x|x y|x y z rest IH] using bytes_ind3; intros l p.
  - reflexivity.
  - pose proof (byte_to_Z_range x) as Hx.
    cbn [b64encode].
    rewrite a2b_loop_char0 by sextet. rewrite a2b_loop_char1 by sextet.
    cbn. f_equal. f_equal. apply byte_of_Z_eq.
    Z.div_mod_to_equations; lia.
  - pose proof (byte_to_Z_range x) as Hx. pose proof (byte_to_Z_range y) as Hy.
    cbn [b64encode].
    rewrite a2b_loop_char0 by sextet. rewrite a2b_loop_char1 by sextet.
    rewrite a2b_loop_char2 by sextet.
    cbn. f_equal. f_equal; [|f_equal]; apply byte_of_Z_eq;
      Z.div_mod_to_equations; lia.
  - pose proof (byte_to_Z_range x) as Hx. pose proof (byte_to_Z_range y) as Hy.
    pose proof (byte_to_Z_range z) as Hz.
    cbn [b64encode].
    rewrite a2b_loop_char0 by sextet. rewrite a2b_loop_char1 by sextet.
    rewrite a2b_loop_char2 by sextet. rewrite a2b_loop_char3 by sextet.
    rewrite IH. cbn. f_equal. f_equal; [|f_equal; [|f_equal]];
      apply byte_of_Z_eq; Z.div_mod_to_equations; lia.
Qed.

Lemma b64encode_ascii (s : bytes) : is_ascii (b64encode s) = true.
Proof.
  assert (Hc : forall v, 0 <= v < 64 ->
            ((0 <=? b2a v) && (b2a v <? 128))%bool = true).
  { intros v Hv. pose proof (b2a_ascii v Hv).
    apply andb_true_iff. split; [apply Z.leb_le | apply Z.ltb_lt]; lia. }
  unfold is_ascii.
  induction s as [|x|x y|x y z rest IH] using bytes_ind3;
    cbn [b64encode forallb];
    try pose proof (byte_to_Z_range x); try pose proof (byte_to_Z_range y);
    try pose proof (byte_to_Z_range z);
    rewrite ?Hc by sextet; cbn [andb]; auto.
Qed.

Lemma b64decode_b64encode (s : bytes) : b64decode (b64encode s) = Ok s.
Proof.
  unfold b64decode. now rewrite b64encode_ascii, a2b_loop_b64encode.
Qed.

End Base64Facts.

(** ** UTF-8: strict decoding undoes strict encoding *)

Module Utf8Facts.
Import Utf8.

Ltac zdm := Z.div_mod_to_equations; lia.

Ltac bool_cases :=
  repeat match goal with
  | |- context [?a <? ?b] => destruct (Z.ltb_spec a b); try zdm
  | |- context [?a <=? ?b] => destruct (Z.leb_spec a b); try zdm
  end.

Lemma is_cont_byte (z : Z) :
  0 <= z < 64 -> is_cont (byte_of_Z (0x80 + z)) = true.
Proof.
  intros Hz. unfold is_cont. rewrite byte_to_of_Z by lia.
  apply andb_true_iff; split; [apply Z.leb_le | apply Z.ltb_lt]; lia.
Qed.

Lemma cont_byte (z : Z) : 0 <= z < 64 -> cont (byte_of_Z (0x80 + z)) = z.
Proof. intros Hz. unfold cont. rewrite byte_to_of_Z by lia. lia. Qed.

Lemma decode_cons (b0 : byte) (r0 : bytes) :
  decode (b0 :: r0) =
  let x0 := byte_to_Z b0 in
  if x0 <? 0x80 then option_map (cons x0) (decode r0)
  else if x0 <? 0xC2 then None
  else if x0 <? 0xE0 then
    match r0 with
    | b1 :: r1 =>
        if is_cont b1
        then option_map (cons ((x0 - 0xC0) * 64 + cont b1)) (decode r1)
        else None
    | _ => None
    end
  else if x0 <? 0xF0 then
    match r0 with
    | b1 :: b2 :: r2 =>
        let c := (x0 - 0xE0) * 4096 + cont b1 * 64 + cont b2 in
        if is_cont b1 && is_cont b2 && (0x800 <=? c) && negb (is_surrogate c)
        then option_map (cons c) (decode r2)
        else None
    | _ => None
    end
  else if x0 <? 0xF5 then
    match r0 with
    | b1 :: b2 :: b3 :: r3 =>
        let c := (x0 - 0xF0) * 262144 + cont b1 * 4096
                 + cont b2 * 64 + cont b3 in
        if is_cont b1 && is_cont b2 && is_cont b3
           && (0x10000 <=? c) && (c <? 0x110000)
        then option_map (cons c) (decode r3)
        else None
    | _ => None
    end
  else None.
Proof. reflexivity. Qed.

Lemma some_eq {A} (x y : A) : Some x = Some y -> x = y.
Proof. congruence. Qed.

Lemma decode_encode_char (c : Z) (b r : bytes) :
  encode_char c = Some b ->
  decode (b ++ r) = option_map (cons c) (decode r).
Proof.
  unfold encode_char.
  destruct (Z.ltb_spec c 0); [discriminate|].
  destruct (Z.ltb_spec c 0x80).
  { intros E; apply some_eq in E; subst b. cbn [app]; rewrite decode_cons; cbv zeta. rewrite byte_to_of_Z by lia.
    destruct (Z.ltb_spec c 0x80); [reflexivity | lia]. }
  destruct (Z.ltb_spec c 0x800).
  { intros E; apply some_eq in E; subst b. cbn [app]; rewrite decode_cons; cbv zeta.
    rewrite byte_to_of_Z by zdm.
    rewrite is_cont_byte, cont_byte by zdm.
    bool_cases. do 2 f_equal. zdm. }
  destruct (is_surrogate c) eqn:Hs; [discriminate|].
  assert (Hns : c < 0xD800 \/ 0xDFFF < c).
  { unfold is_surrogate in Hs. apply andb_false_iff in Hs.
    destruct Hs as [Hs|Hs]; [apply Z.leb_gt in Hs | apply Z.leb_gt in Hs]; lia. }
  destruct (Z.ltb_spec c 0x10000).
  { intros E; apply some_eq in E; subst b. cbn [app]; rewrite decode_cons; cbv zeta.
    rewrite byte_to_of_Z by zdm.
    rewrite !is_cont_byte, !cont_byte by zdm.
    assert (Hc : (0xE0 + c / 4096 - 0xE0) * 4096 + (c / 64) mod 64 * 64
                 + c mod 64 = c) by zdm.
    rewrite Hc, Hs.
    bool_cases. reflexivity. }
  destruct (Z.ltb_spec c 0x110000); [|discriminate].
  intros E; apply some_eq in E; subst b. cbn [app]; rewrite decode_cons; cbv zeta.
  rewrite byte_to_of_Z by zdm.
  rewrite !is_cont_byte, !cont_byte by zdm.
  assert (Hc : (0xF0 + c / 262144 - 0xF0) * 262144 + (c / 4096) mod 64 * 4096
               + (c / 64) mod 64 * 64 + c mod 64 = c) by zdm.
  rewrite Hc.
  bool_cases. reflexivity.
Qed.

Lemma decode_encode (s : pystr) (b : bytes) :
  encode s = Some b -> decode b = Some s.
Proof.
  revert b. induction s as [|c s IH]; intros b.
  - now intros [= <-].
  - cbn [encode]. destruct (encode_char c) as [bc|] eqn:Ec; [|discriminate].
    destruct (encode s) as [bs|] eqn:Es; [|discriminate].
    intros [= <-]. erewrite decode_encode_char by eassumption.
    rewrite (IH bs eq_refl).
    reflexivity.
Qed.

Lemma encode_char_encodable (c : Z) :
  0 <= c < 0x110000 -> is_surrogate c = false -> exists b, encode_char c = Some b.
Proof.
  intros Hc Hs. unfold encode_char. rewrite Hs.
  repeat match goal with
  | |- context [?a <? ?b] => destruct (Z.ltb_spec a b); try lia
  end; eauto.
Qed.

Lemma encode_encodable (s : pystr) :
  encodable s = true -> exists b, encode s = Some b.
Proof.
  unfold encodable. induction s as [|c s IH]; cbn [forallb encode].
  - eauto.
  - intros H. apply andb_true_iff in H. destruct H as [Hc Hs].
    apply andb_true_iff in Hc. destruct Hc as [Hc Hn].
    apply andb_true_iff in Hc. destruct Hc as [H0 H1].
    apply Z.leb_le in H0. apply Z.ltb_lt in H1. apply negb_true_iff in Hn.
    destruct (encode_char_encodable c) as [bc ->]; auto.
    destruct (IH Hs) as [bs ->]. eauto.
Qed.

End Utf8Facts.

(** ** The encryption envelope *)

(** A stand-in for the linked libraries, used to run the embedding on
    concrete inputs: the cipher copies the data and appends a tag made of
    key and nonce, the key exchange adds its arguments bytewise, the JSON
    writer writes nothing and the JSON reader knows the example frames
    below (written with ' for the double quote).  It shows that the laws
    of [Libs] can be met. *)
Module ToyLibs.

Definition tag16 (key nonce : bytes) : bytes :=
  firstn 16 (key ++ nonce ++ repeat x00 16).

Definition bytes_eqb (a b : bytes) : bool :=
  if list_eq_dec Byte.byte_eq_dec a b then true else false.

Definition encrypt (key nonce data : bytes) : bytes := data ++ tag16 key nonce.

Definition decrypt (key nonce data : bytes) : option bytes :=
  if bytes_eqb (slice_last 16 data) (tag16 key nonce)
  then Some (slice_until_last 16 data)
  else None.

Lemma tag16_length key nonce : List.length (tag16 key nonce) = 16%nat.
Proof.
  unfold tag16. rewrite firstn_length_le; [reflexivity|].
  rewrite !length_app, repeat_length. lia.
Qed.

Lemma decrypt_encrypt key nonce data :
  decrypt key nonce (encrypt key nonce data) = Some data.
Proof.
  unfold decrypt, encrypt, slice_last, slice_until_last.
  rewrite length_app, tag16_length.
  replace (List.length data + 16 - 16)%nat with (List.length data + 0)%nat by lia.
  rewrite skipn_app, firstn_app.
  replace (List.length data + 0 - List.length data)%nat with 0%nat by lia.
  rewrite Nat.add_0_r, skipn_all, firstn_all. cbn [skipn firstn app].
  rewrite app_nil_r. unfold bytes_eqb.
  destruct (list_eq_dec _ _ _); [reflexivity | congruence].
Qed.

Definition derive (info ikm : bytes) : bytes := firstn 32 (ikm ++ repeat x00 32).

Lemma derive_length info ikm : List.length (derive info ikm) = 32%nat.
Proof.
  unfold derive. rewrite firstn_length_le; [reflexivity|].
  rewrite length_app, repeat_length. lia.
Qed.

Definition wallet_assignment_frame : pystr :=
  py "{'type': 'wallet_assignment', 'wallet_index': 0, 'encrypted_private_key': '<enc>'}".

Definition wallet_assignment_message : dict :=
  [ (py "type", PStr (py "wallet_assignment"));
    (py "wallet_index", PInt 0);
    (py "encrypted_private_key", PStr (py "<enc>")) ].

Definition heartbeat_frame : pystr := py "{'type': 'heartbeat_request'}".

Definition heartbeat_message : dict :=
  [ (py "type", PStr (py "heartbeat_request")) ].

Definition frames : dict :=
  [ (wallet_assignment_frame, PDict wallet_assignment_message);
    (heartbeat_frame, PDict heartbeat_message) ].

#[export] Instance toy : Libs := {|
  aesgcm_encrypt := encrypt;
  aesgcm_decrypt := decrypt;
  aesgcm_decrypt_encrypt := fun key nonce data _ _ => decrypt_encrypt key nonce data;
  x25519_exchange := fun sk pk =>
    if ((List.length sk =? 32) && (List.length pk =? 32))%nat
    then Some (map (fun ab => byte_of_Z ((byte_to_Z (fst ab)
                                          + byte_to_Z (snd ab)) mod 256))
                   (combine sk pk))
    else None;
  hkdf_derive := derive;
  hkdf_derive_length := derive_length;
  json_text := fun _ => [];
  json_text_ascii := fun _ => eq_refl;
  json_loads := fun raw => dict_get raw frames;
  b58decode := fun s => Some (map byte_of_Z s);
  keypair_from_bytes := fun b =>
    if (List.length b =? 64)%nat then Some {| keypair_bytes := b |} else None;
  pubkey_str := fun k => map byte_to_Z (skipn 32 (keypair_bytes k));
  isoformat := fun t => str_int t;
  float_of_str := fun _ => None
|}.

End ToyLibs.

Module EncryptionFacts.
Import EncryptionUtils.

Section WithLibs.
Context {L : Libs}.

Lemma os_urandom_length (entropy : nat -> byte) (n : nat) :
  List.length (os_urandom entropy n) = n.
Proof. unfold os_urandom. now rewrite length_map, length_seq. Qed.

Lemma aes_key_ok_32 (k : bytes) : List.length k = 32%nat -> aes_key_ok k = true.
Proof. intros H. unfold aes_key_ok. now rewrite H. Qed.

Lemma perform_key_exchange_x25519_length (sk pk : pyval) (k : bytes) :
  perform_key_exchange_x25519 sk pk = Ok k -> List.length k = 32%nat.
Proof.
  unfold perform_key_exchange_x25519, reraise_as_ValueError, rbind.
  destruct (b64decode_obj sk); [|discriminate].
  destruct (b64decode_obj pk); [|discriminate].
  destruct (x25519_exchange _ _); [|discriminate].
  intros [= <-]. apply hkdf_derive_length.
Qed.

(** What [encrypt_aes_gcm] returns on an encodable text under a key of
    valid length. *)
Lemma encrypt_aes_gcm_ok (m : pystr) (k : bytes) (entropy : nat -> byte) :
  Utf8.encodable m = true -> aes_key_ok k = true ->
  exists pt,
    Utf8.encode m = Some pt /\
    encrypt_aes_gcm m (Some k) entropy =
    let nonce := os_urandom entropy 12 in
    let cwt := aesgcm_encrypt k nonce pt in
    Ok (Base64.b64encode (slice_until_last 16 cwt), Base64.b64encode nonce,
        Base64.b64encode (slice_last 16 cwt)).
Proof.
  intros Hm Hk. destruct (Utf8Facts.encode_encodable m Hm) as [pt Hpt].
  exists pt. split; [exact Hpt|].
  unfold encrypt_aes_gcm, AESGCM, str_encode_utf8, AESGCM_encrypt.
  rewrite Hk, Hpt. cbn [rbind].
  unfold aes_nonce_ok. rewrite os_urandom_length. reflexivity.
Qed.

(** ASCII text is encodable. *)
Lemma is_ascii_encodable (s : pystr) :
  Base64.is_ascii s = true -> Utf8.encodable s = true.
Proof.
  unfold Base64.is_ascii, Utf8.encodable. rewrite !forallb_forall.
  intros H c Hc. specialize (H c Hc).
  apply andb_true_iff in H. destruct H as [H0 H1].
  apply Z.leb_le in H0. apply Z.ltb_lt in H1.
  unfold Utf8.is_surrogate.
  destruct (Z.leb_spec 0 c); [|lia].
  destruct (Z.ltb_spec c 0x110000); [|lia].
  destruct (Z.leb_spec 0xD800 c); [lia|]. reflexivity.
Qed.

End WithLibs.
End EncryptionFacts.

(** C1. For every message string [m] that UTF-8 can encode and every
    32-byte key [k] (the length of every key the key exchange derives),
    [encrypt_aes_gcm] returns a triple (ciphertext, nonce, tag), and
    [decrypt_aes_gcm] of that triple under the same key returns exactly
    [m], whatever nonce [os.urandom] drew. *)
Theorem C1_encrypt_decrypt_roundtrip {L : Libs}
    (m : pystr) (k : bytes) (entropy : nat -> byte) :
  Utf8.encodable m = true ->
  List.length k = 32%nat ->
  exists ciphertext nonce tag,
    EncryptionUtils.encrypt_aes_gcm m (Some k) entropy
      = Ok (ciphertext, nonce, tag) /\
    EncryptionUtils.decrypt_aes_gcm ciphertext nonce tag (Some k) = Ok m.
Proof.
  intros Hm Hk.
  destruct (EncryptionFacts.encrypt_aes_gcm_ok m k entropy Hm
              (EncryptionFacts.aes_key_ok_32 k Hk)) as (pt & Hpt & He).
  cbv zeta in He. do 3 eexists. split; [exact He|].
  unfold EncryptionUtils.decrypt_aes_gcm.
  rewrite !Base64Facts.b64decode_b64encode. cbn [EncryptionUtils.rbind].
  unfold EncryptionUtils.AESGCM. rewrite (EncryptionFacts.aes_key_ok_32 _ Hk).
  cbn [EncryptionUtils.rbind]. rewrite slice_until_last_app_slice_last.
  unfold EncryptionUtils.AESGCM_decrypt.
  assert (Hn : aes_nonce_ok (os_urandom entropy 12) = true).
  { unfold aes_nonce_ok. now rewrite EncryptionFacts.os_urandom_length. }
  rewrite Hn, aesgcm_decrypt_encrypt
    by (auto using EncryptionFacts.aes_key_ok_32).
  cbn [EncryptionUtils.rbind]. unfold EncryptionUtils.bytes_decode_utf8.
  now rewrite (Utf8Facts.decode_encode m pt Hpt).
Qed.

(** The round trip on the text "pump" under a key of 32 bytes. *)
Lemma C1_encrypt_decrypt_roundtrip_witness :
  exists ciphertext nonce tag,
    EncryptionUtils.encrypt_aes_gcm (L := ToyLibs.toy) (py "pump")
      (Some (repeat x2a 32)) (fun _ => x07) = Ok (ciphertext, nonce, tag) /\
    EncryptionUtils.decrypt_aes_gcm (L := ToyLibs.toy) ciphertext nonce tag
      (Some (repeat x2a 32)) = Ok (py "pump").
Proof.
  apply (@C1_encrypt_decrypt_roundtrip ToyLibs.toy (py "pump")
           (repeat x2a 32) (fun _ => x07)); reflexivity.
Defined.

(** ** The trading engine *)

(** Unfold the combinators of [M] and the primitives of the outside world,
    then compute. *)
Ltac run_M :=
  cbv beta iota zeta delta
    [bind ret raise try_except gets modify lift when ask emit from_reply
     now sleep log urandom_stream get_balance get_latest_blockhash
     send_transaction get_signature_status get_health
     TradingEngine.attr TradingEngine.update TradingEngine.update_stats
     TradingEngine.trading_pubkey TradingEngine._get_wallet_balance
     env_of with_env TradingEngine.State_HasEnv];
  cbn [fst snd app List.length negb andb orb
       TradingEngine.self TradingEngine.env outside events
       TradingEngine.config TradingEngine.trade_stats
       TradingEngine.trading_keypair TradingEngine.max_slippage
       TradingEngine.trade_amount_sol TradingEngine.daily_volume_limit
       TradingEngine.daily_volume_used TradingEngine.last_reset_day
       TradingEngine.set_trade_stats TradingEngine.set_trading_keypair
       TradingEngine.set_daily_volume_used TradingEngine.set_last_reset_day].

Module EngineFacts.
Import TradingEngine.

Section WithLibs.
Context {L : Libs}.

Definition too_large : exc := ValueError "trade size exceeds the maximum".
Definition too_small : exc := ValueError "trade size is below the minimum".
Definition over_daily_limit : exc := ValueError "daily trade limit exceeded".
Definition insufficient_funds : exc := ValueError "insufficient funds".

(** The state after events [evs] (newest first) were added to the run. *)
Definition extend (evs : list Event) (e : Env) : Env :=
  {| outside := outside e; events := evs ++ events e |}.

(** The instant [datetime.now] returns when called in state [s]. *)
Definition next_instant (e : Env) : Z :=
  clock (outside e) (List.length (events e)).

(** The engine after the daily reset of [_check_trade_limits] at day
    [today]. *)
Definition after_reset (today : Z) (s : Self) : Self :=
  if last_reset_day s <? today
  then set_last_reset_day today (set_daily_volume_used 0 s)
  else s.

(** The balance [_get_wallet_balance] reports for the node's answer. *)
Definition reported_balance (reply : option Z) : Q :=
  match reply with
  | Some value => (inject_Z value / 1000000000)%Q
  | None => 0%Q
  end.

Definition balance_events (pubkey : pystr) (reply : option Z) : list Event :=
  match reply with
  | Some _ => [EvGetBalance pubkey]
  | None => [EvLog ERROR "balance query failed"; EvGetBalance pubkey]
  end.

(** [_check_trade_limits], step by step, on a numeric amount. *)
Lemma _check_trade_limits_run (amount : pyval) (a : Q) (s : Self) (e : Env) :
  as_number amount = Some a ->
  let cfg := config s in
  let s1 := after_reset (date_of (next_instant e)) s in
  let e1 := extend [EvNow] e in
  _check_trade_limits amount {| self := s; env := e |} =
  if Qlt_bool (Config.max_trade_size_sol cfg) a
  then (Raise too_large, {| self := s1; env := e1 |})
  else if Qlt_bool a (Config.min_trade_size_sol cfg)
  then (Raise too_small, {| self := s1; env := e1 |})
  else if Qlt_bool (daily_volume_limit s1) (daily_volume_used s1 + a)
  then (Raise over_daily_limit, {| self := s1; env := e1 |})
  else
    match trading_keypair s1 with
    | None =>
        (Raise (LibraryError "AttributeError: 'NoneType' object has no attribute 'pubkey'"),
         {| self := s1; env := e1 |})
    | Some kp =>
        let reply := balance_reply (outside e) (Datatypes.S (List.length (events e))) in
        let e2 := extend (balance_events (pubkey_str kp) reply) e1 in
        if Qlt_bool (reported_balance reply) (a * (11 # 10))
        then (Raise insufficient_funds, {| self := s1; env := e2 |})
        else (Ok tt, {| self := s1; env := e2 |})
    end.
Proof.
  intros Ha. destruct e as [out evs].
  unfold _check_trade_limits, after_reset, next_instant, py_gt, py_lt, py_radd,
    py_mul, extend, reported_balance, balance_events. rewrite Ha.
  run_M.
  destruct (last_reset_day s <? date_of (clock out (List.length evs))); run_M;
  repeat match goal with
  | |- context [if Qlt_bool ?x ?y then _ else _] =>
      destruct (Qlt_bool x y) eqn:?; run_M; try reflexivity
  | |- context [match trading_keypair ?s with _ => _ end] =>
      destruct (trading_keypair s) eqn:?; run_M; try reflexivity
  | |- context [match balance_reply ?o ?i with _ => _ end] =>
      destruct (balance_reply o i) eqn:?; run_M; try reflexivity
  end; congruence.
Qed.

(** *** The shape of [execute_pump_trade] *)

(** The amount a command trades: its [amount_sol], or the configured
    default. *)
Definition amount_of (command : dict) (s : Self) : pyval :=
  get_default command "amount_sol" (PFloat (trade_amount_sol s)).

(** The validation sequence of [execute_pump_trade]: everything between
    the first line of its [try] and the end of [_check_trade_limits].
    [s0] is the engine at the start of the call, where the defaults of the
    command are read. *)
Definition validate (command : dict) (s0 : Self) : M State unit :=
  (log INFO "executing pump" ;;
   if negb (truthy (get command "token_address"))
   then raise (ValueError "token address is missing")
   else
     kp <- attr trading_keypair ;;
     match kp with
     | None => raise (ValueError "trading wallet is not initialized")
     | Some _ => _check_trade_limits (amount_of command s0)
     end)%M.

(** What follows a successful validation. *)
Definition execute_validated (command : dict) (s0 : Self) (start_time : Z)
  : M State TradeResult :=
  (let token_address := get command "token_address" in
   let amount_sol := amount_of command s0 in
   let max_slippage :=
     get_default command "max_slippage" (PFloat (max_slippage s0)) in
   cfg <- attr config ;;
   if Config.mock_trading cfg
   then _mock_trade token_address amount_sol start_time
   else
     result <- _execute_real_trade token_address amount_sol max_slippage
                                   start_time ;;
     _update_trade_stats result ;;
     ret result)%M.

(** The [except] branch of [execute_pump_trade]. *)
Definition rejected (command : dict) (start_time : Z) (e : exc)
  : M State TradeResult :=
  (t1 <- now ;;
   log ERROR "pump failed" ;;
   t2 <- now ;;
   ret {| success := false;
          transaction_id := None;
          error_message := Some (py (str_exc e));
          token_address := get command "token_address";
          amount_sol := get command "amount_sol";
          price_impact := None;
          gas_used := None;
          execution_time_ms := Some (elapsed_ms start_time t1);
          timestamp := Some (isoformat t2) |})%M.

Lemma execute_pump_trade_shape (command : dict) (st : State) :
  execute_pump_trade command st =
  (start_time <- now ;;
   try_except (validate command (self st) ;;
               execute_validated command (self st) start_time)
              (rejected command start_time))%M st.
Proof.
  destruct st as [s [out evs]].
  unfold execute_pump_trade, validate, execute_validated, amount_of.
  run_M.
  destruct (truthy (get command "token_address")); run_M; [|reflexivity].
  destruct (trading_keypair s); run_M; [|reflexivity].
  destruct (_check_trade_limits _ _) as [[[]|x] st1]; run_M; [|reflexivity].
  destruct st1 as [s1 e1]. run_M.
  destruct (Config.mock_trading (config s1)); reflexivity.
Qed.

(** The result [execute_pump_trade] returns for a command rejected with
    [x], when the validation started in [e] and stopped in [e1]. *)
Definition rejection_result (command : dict) (e e1 : Env) (x : exc)
  : TradeResult :=
  {| success := false;
     transaction_id := None;
     error_message := Some (py (str_exc x));
     token_address := get command "token_address";
     amount_sol := get command "amount_sol";
     price_impact := None;
     gas_used := None;
     execution_time_ms := Some (elapsed_ms (next_instant e) (next_instant e1));
     timestamp :=
       Some (isoformat (next_instant
                          (extend [EvLog ERROR "pump failed"; EvNow] e1))) |}.

(** A failed validation is turned into a result: the call returns, with
    [success = False] and the reason as error message; after the
    validation it only reads the clock and logs. *)
Lemma execute_pump_trade_rejected (command : dict) (s : Self) (e : Env)
    (x : exc) (st1 : State) :
  validate command s {| self := s; env := extend [EvNow] e |} = (Raise x, st1) ->
  execute_pump_trade command {| self := s; env := e |} =
  (Ok (rejection_result command e (env st1) x),
   {| self := self st1;
      env := extend [EvNow; EvLog ERROR "pump failed"; EvNow] (env st1) |}).
Proof.
  intros Hv. rewrite execute_pump_trade_shape.
  destruct e as [out evs]. unfold extend in Hv. cbn [app outside events] in Hv.
  run_M. rewrite Hv. destruct st1 as [s1 [out1 evs1]].
  unfold rejected, rejection_result, next_instant, extend. run_M. reflexivity.
Qed.

(** A successful validation hands over to the execution. *)
Lemma execute_pump_trade_validated (command : dict) (s : Self) (e : Env)
    (st1 : State) :
  validate command s {| self := s; env := extend [EvNow] e |} = (Ok tt, st1) ->
  execute_pump_trade command {| self := s; env := e |} =
  try_except (execute_validated command s (next_instant e))
             (rejected command (next_instant e)) st1.
Proof.
  intros Hv. rewrite execute_pump_trade_shape.
  destruct e as [out evs]. unfold extend in Hv. cbn [app outside events] in Hv.
  unfold next_instant. run_M. rewrite Hv. reflexivity.
Qed.

(** *** What the validation touches *)

(** No event of [evs] belongs to the execution of a trade. *)
Definition no_execution (evs : list Event) : Prop :=
  forallb (fun ev => negb (is_execution_event ev)) evs = true.

(** The events a validation produces: clock readings, log records and
    the balance query. *)
Definition is_validation_event (ev : Event) : bool :=
  match ev with
  | EvNow | EvLog _ _ | EvGetBalance _ => true
  | _ => false
  end.

Definition only_validation (evs : list Event) : Prop :=
  forallb is_validation_event evs = true.

Lemma only_validation_no_execution (evs : list Event) :
  only_validation evs -> no_execution evs.
Proof.
  unfold only_validation, no_execution. rewrite !forallb_forall.
  intros H ev Hin. specialize (H ev Hin). now destruct ev.
Qed.

Lemma only_validation_sent (evs tl : list Event) :
  only_validation evs -> sent_messages (evs ++ tl) = sent_messages tl.
Proof.
  unfold only_validation. induction evs as [|ev evs IH]; [reflexivity|].
  cbn [forallb app]. intros H. apply andb_true_iff in H. destruct H as [Hev H].
  destruct ev; try discriminate; cbn [sent_messages]; auto.
Qed.

(** [e1] continues the run [e] by validation events. *)
Definition quiet_extension (e e1 : Env) : Prop :=
  exists new, e1 = extend new e /\ only_validation new.

Lemma quiet_extension_trans (e e1 e2 : Env) :
  quiet_extension e e1 -> quiet_extension e1 e2 -> quiet_extension e e2.
Proof.
  intros (n1 & -> & H1) (n2 & -> & H2). exists (n2 ++ n1). split.
  - unfold extend. cbn. now rewrite app_assoc.
  - unfold only_validation in *. rewrite forallb_app. now rewrite H1, H2.
Qed.

Lemma quiet_extend (new : list Event) (e : Env) :
  only_validation new -> quiet_extension e (extend new e).
Proof. intros H. now exists new. Qed.

Lemma balance_events_quiet (pubkey : pystr) (reply : option Z) :
  only_validation (balance_events pubkey reply).
Proof. now destruct reply. Qed.

Lemma _check_trade_limits_effect (amount : pyval) (s : Self) (e : Env)
    (r : result unit) (st1 : State) :
  _check_trade_limits amount {| self := s; env := e |} = (r, st1) ->
  self st1 = after_reset (date_of (next_instant e)) s /\
  quiet_extension e (env st1).
Proof.
  assert (Hnow : quiet_extension e (extend [EvNow] e))
    by (apply quiet_extend; reflexivity).
  destruct (as_number amount) as [a|] eqn:Ha.
  - rewrite (_check_trade_limits_run amount a s e Ha). cbv zeta.
    repeat match goal with
    | |- context [if Qlt_bool ?x ?y then _ else _] => destruct (Qlt_bool x y)
    | |- context [match trading_keypair ?s with _ => _ end] =>
        destruct (trading_keypair s)
    end;
    intros [= <- <-]; (split; [reflexivity|]); cbn [env]; try exact Hnow;
    (eapply quiet_extension_trans; [exact Hnow|]);
    apply quiet_extend, balance_events_quiet.
  - destruct e as [out evs].
    unfold _check_trade_limits, py_gt, after_reset, next_instant. rewrite Ha.
    run_M.
    destruct (last_reset_day s <? _); run_M; intros [= <- <-];
      (split; [reflexivity|]); exact Hnow.
Qed.

Lemma validate_effect (command : dict) (s0 s : Self) (e : Env)
    (r : result unit) (st1 : State) :
  validate command s0 {| self := s; env := e |} = (r, st1) ->
  (self st1 = s \/
   self st1 = after_reset (date_of (next_instant
                                      (extend [EvLog INFO "executing pump"] e))) s) /\
  quiet_extension e (env st1).
Proof.
  destruct e as [out evs]. unfold validate. run_M.
  destruct (truthy (get command "token_address")); run_M.
  2:{ intros [= <- <-]. split; [now left|].
      exists [EvLog INFO "executing pump"]. split; reflexivity. }
  destruct (trading_keypair s); run_M.
  2:{ intros [= <- <-]. split; [now left|].
      exists [EvLog INFO "executing pump"]. split; reflexivity. }
  intros Hc. apply _check_trade_limits_effect in Hc. destruct Hc as [Hs Hq].
  split; [right; exact Hs|].
  eapply quiet_extension_trans; [|exact Hq].
  exists [EvLog INFO "executing pump"]. split; reflexivity.
Qed.

End WithLibs.
End EngineFacts.

(** ** Comparisons of amounts *)

Lemma Qlt_bool_iff (x y : Q) : Qlt_bool x y = true <-> (x < y)%Q.
Proof.
  unfold Qlt_bool. rewrite negb_true_iff. split.
  - intros H. apply Qnot_le_lt. intros Hle.
    apply Qle_bool_iff in Hle. congruence.
  - intros H. destruct (Qle_bool y x) eqn:E; [|reflexivity].
    apply Qle_bool_iff in E. exfalso. exact (Qlt_not_le _ _ H E).
Qed.

Lemma Qlt_bool_false_iff (x y : Q) : Qlt_bool x y = false <-> (y <= x)%Q.
Proof.
  unfold Qlt_bool. rewrite negb_false_iff. apply Qle_bool_iff.
Qed.

(** ** Worked examples: a worker with the default settings *)

Module Examples.
Import TradingEngine.

(** The defaults of [WorkerConfig]; [mock] chooses the simulation mode. *)
Definition cfg (mock : bool) : Config.WorkerConfig :=
  {| Config.worker_id := py "worker-1";
     Config.worker_region := py "unknown";
     Config.worker_name := None;
     Config.worker_description := None;
     Config.api_key := py "key";
     Config.worker_private_key_x25519 := None;
     Config.worker_public_key_x25519 := None;
     Config.coordinator_public_key_x25519 := None;
     Config.encryption_enabled := false;
     Config.solana_private_key := py "";
     Config.max_slippage := 5 # 100;
     Config.trade_amount_sol := 1 # 100;
     Config.max_wallets_per_worker := 10;
     Config.max_concurrent_trades := 5;
     Config.max_trade_size_sol := 1;
     Config.min_trade_size_sol := 1 # 1000;
     Config.daily_trade_limit_sol := 10;
     Config.retry_delay := 1;
     Config.backoff_factor := 2;
     Config.debug_websocket := false;
     Config.mock_trading := mock;
     Config.metrics_enabled := false;
     Config.notifications_enabled := false |}.

Definition day : Z := 86400000000.

(** An outside where the clock advances one millisecond per event from
    noon of day 20000, the wallet holds [lamports], the RPC node and the
    transport answer every call. *)
Definition outside_with (lamports : option Z) (connects : bool) : Outside :=
  {| clock := fun i => 20000 * day + day / 2 + 1000 * Z.of_nat i;
     entropy := fun _ _ => x00;
     balance_reply := fun _ => lamports;
     blockhash_reply := fun _ => Some (py "blockhash");
     send_transaction_reply := fun _ => Some (py "signature");
     signature_status_reply :=
       fun _ => Some (Some {| confirmation_status := true; err := false |});
     health_reply := fun _ => true;
     http_reply :=
       fun _ => HttpJson (PDict [(py "data",
                   PDict [(py "TOKEN1", PDict [(py "price", PFloat (1 # 1000))])])]);
     memory_reply := fun _ => None;
     connect_reply := fun _ => connects;
     send_reply := fun _ => true |}.

Definition env0 (lamports : option Z) : Env :=
  {| outside := outside_with lamports true; events := [] |}.

Definition wallet : Keypair := {| keypair_bytes := repeat x01 64 |}.

(** An initialized engine that used [used] SOL of its daily limit on day
    [last]. *)
Definition engine (mock : bool) (used : Q) (last : Z) : Self :=
  {| config := cfg mock;
     trade_stats := {| total_trades := 0; successful_trades := 0;
                       failed_trades := 0; total_volume_sol := 0;
                       average_execution_time := 0 |};
     trading_keypair := Some wallet;
     max_slippage := 5 # 100;
     trade_amount_sol := 1 # 100;
     daily_volume_limit := 10;
     daily_volume_used := used;
     last_reset_day := last |}.

(** [pump_command {token_address: "TOKEN1", amount_sol: amount,
    command_id: "c1"}]. *)
Definition pump_command (amount : Q) : dict :=
  [ (py "type", PStr (py "pump_command"));
    (py "token_address", PStr (py "TOKEN1"));
    (py "amount_sol", PFloat amount);
    (py "command_id", PStr (py "c1")) ].

End Examples.

(** ** Trade limits *)

Module LimitFacts.
Import TradingEngine EngineFacts.

Section WithLibs.
Context {L : Libs}.

(** The validation of a command whose amount exceeds the maximum fails,
    whatever else is in the command. *)
Lemma validate_too_large (command : dict) (s : Self) (e : Env) (a : Q) :
  as_number (amount_of command s) = Some a ->
  (Config.max_trade_size_sol (config s) < a)%Q ->
  exists x st1, validate command s {| self := s; env := e |} = (Raise x, st1).
Proof.
  intros Ha Hgt. destruct e as [out evs]. unfold validate. run_M.
  destruct (truthy (get command "token_address")); run_M; [|eauto].
  destruct (trading_keypair s); run_M; [|eauto].
  rewrite (_check_trade_limits_run _ a s _ Ha). cbv zeta.
  apply Qlt_bool_iff in Hgt. unfold after_reset.
  destruct (last_reset_day s <? _); cbn [config set_last_reset_day
    set_daily_volume_used]; rewrite Hgt; eauto.
Qed.

(** With a token address and a wallet, the reason is the size. *)
Lemma validate_too_large_reason (command : dict) (s : Self) (e : Env) (a : Q) :
  truthy (get command "token_address") = true ->
  trading_keypair s <> None ->
  as_number (amount_of command s) = Some a ->
  (Config.max_trade_size_sol (config s) < a)%Q ->
  exists st1,
    validate command s {| self := s; env := e |} = (Raise too_large, st1).
Proof.
  intros Htoken Hkp Ha Hgt. destruct e as [out evs]. unfold validate. run_M.
  rewrite Htoken. run_M.
  destruct (trading_keypair s); [|congruence]. run_M.
  rewrite (_check_trade_limits_run _ a s _ Ha). cbv zeta.
  apply Qlt_bool_iff in Hgt. unfold after_reset.
  destruct (last_reset_day s <? _); cbn [config set_last_reset_day
    set_daily_volume_used]; rewrite Hgt; eauto.
Qed.

End WithLibs.
End LimitFacts.

(** C2. The size bounds are inclusive.  For a command whose amount is the
    number [a]:
    - if [a] exceeds [max_trade_size_sol], the limit check raises the
      "exceeds the maximum" error and [execute_pump_trade] returns a
      result with [success = False]; this holds in particular for
      [max_trade_size_sol + 0.0001];
    - if [a] equals [min_trade_size_sol] or [max_trade_size_sol] (with
      [min <= max], as configured), the limit check raises neither of the
      two size errors. *)
Theorem C2_trade_size_bounds_inclusive {L : Libs}
    (command : dict) (s : TradingEngine.Self) (e : Env) (a : Q) :
  as_number (EngineFacts.amount_of command s) = Some a ->
  let lo := Config.min_trade_size_sol (TradingEngine.config s) in
  let hi := Config.max_trade_size_sol (TradingEngine.config s) in
  let check (amount : pyval) :=
    fst (TradingEngine._check_trade_limits amount
           {| TradingEngine.self := s; TradingEngine.env := e |}) in
  ((hi < a)%Q ->
     check (EngineFacts.amount_of command s) = Raise EngineFacts.too_large /\
     exists res st',
       TradingEngine.execute_pump_trade command
         {| TradingEngine.self := s; TradingEngine.env := e |} = (Ok res, st') /\
       TradingEngine.success res = false) /\
  check (PFloat (hi + (1 # 10000))) = Raise EngineFacts.too_large /\
  ((lo <= hi)%Q -> (a == lo \/ a == hi)%Q ->
     check (EngineFacts.amount_of command s) <> Raise EngineFacts.too_large /\
     check (EngineFacts.amount_of command s) <> Raise EngineFacts.too_small).
Proof.
  intros Ha lo hi check. subst check. cbv beta. repeat split.
  - rewrite (EngineFacts._check_trade_limits_run _ a s e Ha). cbv zeta.
    apply Qlt_bool_iff in H. fold hi. now rewrite H.
  - destruct (LimitFacts.validate_too_large command s
                (EngineFacts.extend [EvNow] e) a Ha H) as (x & st1 & Hv).
    rewrite (EngineFacts.execute_pump_trade_rejected command s e x st1 Hv).
    eauto.
  - rewrite (EngineFacts._check_trade_limits_run (PFloat (hi + (1 # 10000)))
              (hi + (1 # 10000)) s e eq_refl).
    cbv zeta. fold hi.
    assert (Hlt : (hi < hi + (1 # 10000))%Q).
    { rewrite <- (Qplus_0_r hi) at 1. apply Qplus_lt_r. reflexivity. }
    apply Qlt_bool_iff in Hlt. now rewrite Hlt.
  - rewrite (EngineFacts._check_trade_limits_run _ a s e Ha). cbv zeta.
    fold hi lo.
    assert (Hhi : Qlt_bool hi a = false).
    { apply Qlt_bool_false_iff. destruct H0 as [-> | ->];
        [assumption | apply Qle_refl]. }
    rewrite Hhi.
    repeat match goal with
    | |- context [if ?b then _ else _] => destruct b
    | |- context [match ?o with Some _ => _ | None => _ end] => destruct o
    end; cbn [fst]; discriminate.
  - rewrite (EngineFacts._check_trade_limits_run _ a s e Ha). cbv zeta.
    fold hi lo.
    assert (Hhi : Qlt_bool hi a = false).
    { apply Qlt_bool_false_iff. destruct H0 as [-> | ->];
        [assumption | apply Qle_refl]. }
    assert (Hlo : Qlt_bool a lo = false).
    { apply Qlt_bool_false_iff. destruct H0 as [-> | ->];
        [apply Qle_refl | assumption]. }
    rewrite Hhi, Hlo.
    repeat match goal with
    | |- context [if ?b then _ else _] => destruct b
    | |- context [match ?o with Some _ => _ | None => _ end] => destruct o
    end; cbn [fst]; discriminate.
Qed.

(** With the default bounds 0.001 and 1.0: 2.0 is refused, 1.0 and 0.001
    pass the size check. *)
Lemma C2_trade_size_bounds_inclusive_witness :
  let s := Examples.engine false 0 20000 in
  let e := Examples.env0 (Some 5000000000) in
  let check (amount : Q) :=
    fst (TradingEngine._check_trade_limits (L := ToyLibs.toy) (PFloat amount)
           {| TradingEngine.self := s; TradingEngine.env := e |}) in
  (check 2%Q = Raise EngineFacts.too_large /\
   exists res st',
     TradingEngine.execute_pump_trade (L := ToyLibs.toy)
       (Examples.pump_command 2)
       {| TradingEngine.self := s; TradingEngine.env := e |} = (Ok res, st') /\
     TradingEngine.success res = false) /\
  (check 1%Q <> Raise EngineFacts.too_large /\
   check 1%Q <> Raise EngineFacts.too_small) /\
  (check (1 # 1000) <> Raise EngineFacts.too_large /\
   check (1 # 1000) <> Raise EngineFacts.too_small).
Proof.
  intros s e check.
  pose proof (@C2_trade_size_bounds_inclusive ToyLibs.toy
                (Examples.pump_command 2) s e 2%Q eq_refl) as H2.
  pose proof (@C2_trade_size_bounds_inclusive ToyLibs.toy
                (Examples.pump_command 1) s e 1%Q eq_refl) as H1.
  pose proof (@C2_trade_size_bounds_inclusive ToyLibs.toy
                (Examples.pump_command (1 # 1000)) s e (1 # 1000)%Q eq_refl) as H0.
  cbv zeta in H2, H1, H0.
  destruct H2 as [H2 _]. destruct H1 as (_ & _ & H1). destruct H0 as (_ & _ & H0).
  split; [|split].
  - apply H2. reflexivity.
  - apply H1; [unfold Qle; cbn; lia | right; reflexivity].
  - apply H0; [unfold Qle; cbn; lia | left; reflexivity].
Defined.

(** ** A balance query that raises *)

Module OutageFacts.
Import TradingEngine EngineFacts.

Section WithLibs.
Context {L : Libs}.

Definition token_missing : exc := ValueError "token address is missing".
Definition wallet_missing : exc := ValueError "trading wallet is not initialized".

(** The reasons a validation can give when the amount is a number. *)
Definition validation_reasons : list exc :=
  [token_missing; wallet_missing; too_large; too_small; over_daily_limit;
   insufficient_funds].

Lemma zero_below_margin (a : Q) : (0 < a)%Q -> Qlt_bool 0 (a * (11 # 10)) = true.
Proof.
  intros Ha. apply Qlt_bool_iff.
  apply Qmult_lt_0_compat; [exact Ha | reflexivity].
Qed.

Lemma _get_wallet_balance_outage (pubkey : pystr) (s : Self) (e : Env) :
  balance_reply (outside e) (List.length (events e)) = None ->
  _get_wallet_balance pubkey {| self := s; env := e |} =
  (Ok 0%Q,
   {| self := s;
      env := extend [EvLog ERROR "balance query failed"; EvGetBalance pubkey] e |}).
Proof.
  destruct e as [out evs]. cbn [outside events]. intros Hb.
  unfold extend. run_M. rewrite Hb. run_M. reflexivity.
Qed.

Lemma _check_trade_limits_outage (amount : pyval) (a : Q) (s : Self) (e : Env) :
  as_number amount = Some a -> (0 < a)%Q ->
  (forall i, balance_reply (outside e) i = None) ->
  trading_keypair s <> None ->
  let r := fst (_check_trade_limits amount {| self := s; env := e |}) in
  In r [Raise too_large; Raise too_small; Raise over_daily_limit;
        Raise insufficient_funds] /\
  (Qlt_bool (Config.max_trade_size_sol (config s)) a = false ->
   Qlt_bool a (Config.min_trade_size_sol (config s)) = false ->
   Qlt_bool (daily_volume_limit s)
            (daily_volume_used (after_reset (date_of (next_instant e)) s) + a)
     = false ->
   r = Raise insufficient_funds).
Proof.
  intros Ha Hpos Hout Hkp r. subst r.
  rewrite (_check_trade_limits_run amount a s e Ha). cbv zeta.
  rewrite Hout. cbn [reported_balance]. rewrite (zero_below_margin a Hpos).
  assert (Hcfg : forall d, config (after_reset d s) = config s)
    by (intros d; unfold after_reset; now destruct (_ <? _)).
  assert (Hlim : forall d, daily_volume_limit (after_reset d s) = daily_volume_limit s)
    by (intros d; unfold after_reset; now destruct (_ <? _)).
  assert (Hk : forall d, trading_keypair (after_reset d s) = trading_keypair s)
    by (intros d; unfold after_reset; now destruct (_ <? _)).
  rewrite Hlim, Hk.
  destruct (trading_keypair s) as [kp|]; [|congruence].
  split.
  - repeat match goal with
    | |- context [if ?b then _ else _] => destruct b
    end; cbn [fst In]; auto.
  - intros -> -> ->. reflexivity.
Qed.

(** With the balance unavailable, the validation of a command with a
    positive amount always fails, with one of the validation reasons. *)
Lemma validate_outage (command : dict) (s : Self) (e : Env) (a : Q) :
  as_number (amount_of command s) = Some a -> (0 < a)%Q ->
  (forall i, balance_reply (outside e) i = None) ->
  exists x st1,
    validate command s {| self := s; env := e |} = (Raise x, st1) /\
    In x validation_reasons.
Proof.
  intros Ha Hpos Hout. destruct e as [out evs]. unfold validate. run_M.
  destruct (truthy (get command "token_address")); run_M.
  2:{ do 2 eexists. split; [reflexivity|]. cbn. auto. }
  destruct (trading_keypair s) as [kp|] eqn:Hkp; run_M.
  2:{ do 2 eexists. split; [reflexivity|]. cbn. auto 10. }
  match goal with
  | |- context [_check_trade_limits ?am ?st] =>
      destruct (_check_trade_limits am st) as [r st1] eqn:Hrun
  end.
  pose proof (_check_trade_limits_outage (amount_of command s) a s
                {| outside := out; events := EvLog INFO "executing pump" :: evs |}
                Ha Hpos Hout) as [Hin _].
  { congruence. }
  rewrite Hrun in Hin. cbn [fst] in Hin.
  cbn [In] in Hin.
  destruct Hin as [<- | [<- | [<- | [<- | []]]]];
    do 2 eexists; (split; [reflexivity|]); cbn; auto 10.
Qed.

End WithLibs.
End OutageFacts.

(** C10. Let every balance query of the RPC node raise.  Then
    [_get_wallet_balance] returns 0.0 (and logs); a positive amount that
    reaches the balance check is refused there with "insufficient funds";
    and for every command with a positive amount [execute_pump_trade]
    returns normally a result with [success = False] whose error message is
    one of the validation reasons, not the error of the RPC node. *)
Theorem C10_balance_outage_is_a_rejection {L : Libs}
    (command : dict) (s : TradingEngine.Self) (e : Env) (a : Q) :
  as_number (EngineFacts.amount_of command s) = Some a ->
  (0 < a)%Q ->
  (forall i, balance_reply (outside e) i = None) ->
  let st := {| TradingEngine.self := s; TradingEngine.env := e |} in
  (forall pubkey, fst (TradingEngine._get_wallet_balance pubkey st) = Ok 0%Q) /\
  (TradingEngine.trading_keypair s <> None ->
   (a <= Config.max_trade_size_sol (TradingEngine.config s))%Q ->
   (Config.min_trade_size_sol (TradingEngine.config s) <= a)%Q ->
   (TradingEngine.daily_volume_used
      (EngineFacts.after_reset (date_of (EngineFacts.next_instant e)) s) + a
    <= TradingEngine.daily_volume_limit s)%Q ->
   fst (TradingEngine._check_trade_limits (EngineFacts.amount_of command s) st)
   = Raise EngineFacts.insufficient_funds) /\
  exists res st' x,
    TradingEngine.execute_pump_trade command st = (Ok res, st') /\
    TradingEngine.success res = false /\
    TradingEngine.error_message res = Some (py (str_exc x)) /\
    In x OutageFacts.validation_reasons /\
    x <> rpc_error.
Proof.
  intros Ha Hpos Hout st. subst st. split; [|split].
  - intros pubkey.
    now rewrite OutageFacts._get_wallet_balance_outage by apply Hout.
  - intros Hkp Hhi Hlo Hday.
    apply (OutageFacts._check_trade_limits_outage _ a s e Ha Hpos Hout Hkp);
      now apply Qlt_bool_false_iff.
  - destruct (OutageFacts.validate_outage command s
                (EngineFacts.extend [EvNow] e) a Ha Hpos Hout)
      as (x & st1 & Hv & Hin).
    rewrite (EngineFacts.execute_pump_trade_rejected command s e x st1 Hv).
    exists (EngineFacts.rejection_result command e (TradingEngine.env st1) x).
    eexists. exists x. repeat split; try reflexivity; [exact Hin|].
    cbn in Hin. intuition (subst; discriminate).
Qed.

(** A node that never answers the balance query: a trade of 0.5 SOL is
    refused for insufficient funds. *)
Lemma C10_balance_outage_is_a_rejection_witness :
  let s := Examples.engine false 0 20000 in
  let st := {| TradingEngine.self := s;
               TradingEngine.env := Examples.env0 None |} in
  fst (TradingEngine._get_wallet_balance (py "wallet") st)
    = Ok 0%Q /\
  fst (TradingEngine._check_trade_limits (L := ToyLibs.toy) (PFloat (1 # 2)) st)
    = Raise EngineFacts.insufficient_funds /\
  exists res st',
    TradingEngine.execute_pump_trade (L := ToyLibs.toy)
      (Examples.pump_command (1 # 2)) st = (Ok res, st') /\
    TradingEngine.success res = false.
Proof.
  intros s st.
  destruct (@C10_balance_outage_is_a_rejection ToyLibs.toy
              (Examples.pump_command (1 # 2)) s (Examples.env0 None) (1 # 2)%Q)
    as (H1 & H2 & res & st' & x & H3 & H4 & _).
  - reflexivity.
  - reflexivity.
  - intros i. reflexivity.
  - split; [apply H1|]. split.
    + apply H2; [discriminate | unfold Qle; cbn; lia | unfold Qle; cbn; lia
                | unfold Qle; cbn; lia].
    + exists res, st'. split; [exact H3 | exact H4].
Defined.

(** ** Trade statistics *)

Module StatsFacts.
Import TradingEngine EngineFacts.

Section WithLibs.
Context {L : Libs}.

Lemma after_reset_trade_stats (d : Z) (s : Self) :
  trade_stats (after_reset d s) = trade_stats s.
Proof. unfold after_reset. now destruct (_ <? _). Qed.

(** A rejected command leaves the statistics as they were: the [except]
    branch of [execute_pump_trade] does not call [_update_trade_stats]. *)
Lemma execute_pump_trade_rejected_stats (command : dict) (s : Self) (e : Env)
    (x : exc) (st1 : State) :
  validate command s {| self := s; env := extend [EvNow] e |} = (Raise x, st1) ->
  trade_stats (self (snd (execute_pump_trade command {| self := s; env := e |})))
  = trade_stats s.
Proof.
  intros Hv. rewrite (execute_pump_trade_rejected command s e x st1 Hv).
  cbn [snd self].
  destruct (validate_effect command s s _ _ _ Hv) as [[-> | ->] _];
    [reflexivity | apply after_reset_trade_stats].
Qed.

(** In simulation mode a validated command succeeds and returns before
    [_update_trade_stats] and before the daily volume is touched: the
    engine is left as the validation left it. *)
Lemma execute_pump_trade_mock (command : dict) (s : Self) (e : Env)
    (st1 : State) :
  validate command s {| self := s; env := extend [EvNow] e |} = (Ok tt, st1) ->
  Config.mock_trading (config (self st1)) = true ->
  exists res e',
    execute_pump_trade command {| self := s; env := e |}
      = (Ok res, {| self := self st1; env := e' |}) /\
    success res = true.
Proof.
  intros Hv Hmock.
  rewrite (execute_pump_trade_validated command s e st1 Hv).
  destruct st1 as [s1 [out1 evs1]]. cbn [self] in Hmock.
  unfold execute_validated, _mock_trade. run_M. rewrite Hmock. run_M.
  eauto.
Qed.

End WithLibs.
End StatsFacts.

(** C4, evaluated on an initialized engine with the default settings, a
    funded wallet and the command [{token_address: "TOKEN1", amount_sol:
    0.01, command_id: "c1"}]:
    - in simulation mode the trade succeeds, and every counter of
      [trade_stats] and [daily_volume_used] keep their initial value 0;
    - a command without token address is rejected, and [total_trades] and
      [failed_trades] stay 0;
    - only the real trade that succeeds counts: one trade, one success,
      volume and [daily_volume_used] 0.01. *)
Theorem C4_statistics_only_after_a_real_success :
  let start (mock : bool) :=
    {| TradingEngine.self := Examples.engine mock 0 20000;
       TradingEngine.env := Examples.env0 (Some 5000000000) |} in
  let run (mock : bool) (command : dict) :=
    TradingEngine.execute_pump_trade (L := ToyLibs.toy) command (start mock) in
  let stats r := TradingEngine.trade_stats (TradingEngine.self (snd r)) in
  let used r := TradingEngine.daily_volume_used (TradingEngine.self (snd r)) in
  let zero :=
    {| TradingEngine.total_trades := 0; TradingEngine.successful_trades := 0;
       TradingEngine.failed_trades := 0; TradingEngine.total_volume_sol := 0;
       TradingEngine.average_execution_time := 0 |} in
  let command := Examples.pump_command (1 # 100) in
  let no_token := [(py "command_id", PStr (py "c2"))] in
  (exists res, fst (run true command) = Ok res /\
               TradingEngine.success res = true) /\
  stats (run true command) = zero /\
  used (run true command) = 0%Q /\
  (exists res, fst (run false no_token) = Ok res /\
               TradingEngine.success res = false) /\
  stats (run false no_token) = zero /\
  (exists res, fst (run false command) = Ok res /\
               TradingEngine.success res = true) /\
  TradingEngine.total_trades (stats (run false command)) = 1 /\
  TradingEngine.successful_trades (stats (run false command)) = 1 /\
  TradingEngine.total_volume_sol (stats (run false command)) = (1 # 100)%Q /\
  used (run false command) = (1 # 100)%Q.
Proof.
  cbv zeta. repeat split; try (vm_compute; reflexivity);
    eexists; (split; [vm_compute; reflexivity | reflexivity]).
Qed.

(** ** The application: dispatch and handlers *)

Ltac run_W :=
  cbv beta iota zeta delta
    [bind ret raise try_except gets modify lift when ask emit from_reply
     now sleep log urandom_stream get_health
     WorkerApp.attr WorkerApp.update WorkerApp.update_stats
     WorkerApp.with_metrics
     env_of with_env WorkerApp.State_HasEnv];
  cbn [fst snd app List.length negb andb orb
       WorkerApp.self WorkerApp.env outside events
       WorkerApp.config WorkerApp.worker_id WorkerApp.websocket
       WorkerApp.is_running WorkerApp.reconnect_attempts
       WorkerApp.max_reconnect_attempts WorkerApp.metrics
       WorkerApp.worker_private_key WorkerApp.coordinator_public_key
       WorkerApp.shared_key WorkerApp.wallets WorkerApp.trading_engine
       WorkerApp.http_client WorkerApp.solana_client WorkerApp.stats
       WorkerApp.set_websocket WorkerApp.set_is_running
       WorkerApp.set_reconnect_attempts WorkerApp.set_metrics
       WorkerApp.set_coordinator_public_key WorkerApp.set_shared_key
       WorkerApp.set_wallets WorkerApp.set_trading_engine
       WorkerApp.set_http_client WorkerApp.set_solana_client
       WorkerApp.set_stats].

Module AppFacts.
Import WorkerApp.

Section WithLibs.
Context {L : Libs}.

(** The application after the error counter of the metrics, if there are
    metrics, went up by one. *)
Definition count_error (s : Self) : Self :=
  match metrics s with
  | Some m => set_metrics (Some (increment_errors m)) s
  | None => s
  end.

(** *** The dispatch boundary *)

Lemma _process_message_catches (raw : pystr) (st : State) :
  _process_message raw st =
  match _process_message_body raw st with
  | (Ok tt, st1) => (Ok tt, st1)
  | (Raise e, st1) =>
      (Ok tt,
       {| self := count_error (self st1);
          env := EngineFacts.extend
                   [EvLog ERROR "message processing failed"] (env st1) |})
  end.
Proof.
  unfold _process_message, count_error. run_W.
  destruct (_process_message_body raw st) as [[[]|e] [s1 [out1 evs1]]];
    reflexivity.
Qed.

Lemma _process_message_returns (raw : pystr) (st : State) :
  fst (_process_message raw st) = Ok tt.
Proof.
  rewrite _process_message_catches.
  now destruct (_process_message_body raw st) as [[[]|e] st1].
Qed.

(** The receive loop hands every frame to [_process_message], one after
    the other, and never raises. *)
Lemma message_loop_cons (raw : pystr) (frames : list pystr) (st : State) :
  message_loop (raw :: frames) st =
  message_loop frames (snd (_process_message raw st)).
Proof.
  cbn [message_loop]. run_W.
  pose proof (_process_message_returns raw st) as Hp.
  destruct (_process_message raw st) as [r st1]. cbn [fst] in Hp. subst r.
  reflexivity.
Qed.

Lemma message_loop_returns (frames : list pystr) (st : State) :
  fst (message_loop frames st) = Ok tt.
Proof.
  revert st. induction frames as [|raw frames IH]; intros st.
  - reflexivity.
  - rewrite message_loop_cons. apply IH.
Qed.

(** *** Wallet assignment *)

Lemma _handle_wallet_assignment_no_key (message : dict) (st : State) :
  key_present (shared_key (self st)) = false ->
  _handle_wallet_assignment message st =
  (Ok tt,
   {| self := self st;
      env := EngineFacts.extend [EvLog ERROR "wallet assignment failed"]
                                (env st) |}).
Proof.
  intros Hkey. destruct st as [s [out evs]]. cbn [self] in Hkey.
  unfold _handle_wallet_assignment. run_W. rewrite Hkey. run_W. reflexivity.
Qed.

End WithLibs.
End AppFacts.

Module AppExamples.
Import WorkerApp.

(** A connected worker with the default settings (encryption switched
    off in the settings), without metrics. *)
Definition app (key : option bytes) (known_key : pyval)
    (engine : option TradingEngine.Self) : Self :=
  {| config := Examples.cfg true;
     worker_id := py "worker-1";
     websocket := Some {| closed := false |};
     is_running := true;
     reconnect_attempts := 0;
     max_reconnect_attempts := 10;
     metrics := None;
     worker_private_key := None;
     coordinator_public_key := known_key;
     shared_key := key;
     wallets := [];
     trading_engine := engine;
     http_client := Some Handle;
     solana_client := Some Handle;
     stats := {| start_time := 20000 * Examples.day;
                 messages_sent := 0;
                 messages_received := 0;
                 trades_executed := 0;
                 errors := 0;
                 last_heartbeat := None |} |}.

Definition state (s : Self) : State :=
  {| self := s; env := Examples.env0 (Some 5000000000) |}.

End AppExamples.

Module WalletFacts.
Import WorkerApp AppFacts.

Section WithLibs.
Context {L : Libs}.

Lemma type_is_wallet_assignment (message : dict) :
  get message "type" = PStr (py "wallet_assignment") ->
  py_eq_str (get message "type") "encrypted" = false /\
  py_eq_str (get message "type") "registration_success" = false /\
  py_eq_str (get message "type") "registration_error" = false /\
  py_eq_str (get message "type") "pump_command" = false /\
  py_eq_str (get message "type") "heartbeat_request" = false /\
  py_eq_str (get message "type") "wallet_assignment" = true.
Proof. intros ->. repeat split; reflexivity. Qed.

(** A plaintext [wallet_assignment] frame that arrives without a session
    key: the frame is counted, the handler logs its failure, and that is
    all. *)
Lemma _process_message_wallet_assignment_no_key
    (raw : pystr) (message : dict) (st : State) :
  json_loads raw = Some (PDict message) ->
  get message "type" = PStr (py "wallet_assignment") ->
  key_present (shared_key (self st)) = false ->
  exists s' new,
    _process_message raw st =
      (Ok tt, {| self := s'; env := EngineFacts.extend new (env st) |}) /\
    wallets s' = wallets (self st) /\
    websocket s' = websocket (self st) /\
    sent_messages (new ++ events (env st)) = sent_messages (events (env st)) /\
    In (EvLog ERROR "wallet assignment failed") new.
Proof.
  intros Hjson Htype Hkey.
  destruct (type_is_wallet_assignment message Htype)
    as (T0 & T1 & T2 & T3 & T4 & T5).
  rewrite _process_message_catches.
  destruct st as [s [out evs]]. cbn [self] in Hkey.
  unfold _process_message_body, json_loads_text. rewrite Hjson.
  unfold as_dict. run_W.
  destruct (Config.debug_websocket (config s)); run_W;
    rewrite T0; run_W; rewrite T1, T2, T3, T4, T5;
    rewrite _handle_wallet_assignment_no_key by exact Hkey;
    cbn [self env]; unfold EngineFacts.extend; cbn [outside events app].
  - eexists. eexists [_; _]. repeat split; cbn; auto.
  - eexists. eexists [_]. repeat split; cbn; auto.
Qed.

End WithLibs.
End WalletFacts.

(** C9. A [wallet_assignment] that arrives while no session key is
    established: [_handle_wallet_assignment] returns normally, changes no
    attribute of the application (so no wallet is added), and its only
    effect is one ERROR record in the log (so no [wallet_assigned]
    response is sent).  The same holds for the frame processed by
    [_process_message], which returns normally as well, so that the
    receive loop goes on. *)
Theorem C9_wallet_assignment_without_session_key {L : Libs}
    (raw : pystr) (message : dict) (st : WorkerApp.State) :
  WorkerApp.key_present (WorkerApp.shared_key (WorkerApp.self st)) = false ->
  json_loads raw = Some (PDict message) ->
  get message "type" = PStr (py "wallet_assignment") ->
  let handled := WorkerApp._handle_wallet_assignment message st in
  let processed := WorkerApp._process_message raw st in
  (fst handled = Ok tt /\
   WorkerApp.self (snd handled) = WorkerApp.self st /\
   events (WorkerApp.env (snd handled))
     = EvLog ERROR "wallet assignment failed" :: events (WorkerApp.env st)) /\
  (fst processed = Ok tt /\
   WorkerApp.wallets (WorkerApp.self (snd processed))
     = WorkerApp.wallets (WorkerApp.self st) /\
   sent_messages (events (WorkerApp.env (snd processed)))
     = sent_messages (events (WorkerApp.env st)) /\
   In (EvLog ERROR "wallet assignment failed")
      (events (WorkerApp.env (snd processed)))).
Proof.
  intros Hkey Hjson Htype handled processed. subst handled processed. split.
  - rewrite (AppFacts._handle_wallet_assignment_no_key message st Hkey).
    repeat split.
  - destruct (WalletFacts._process_message_wallet_assignment_no_key
                raw message st Hjson Htype Hkey)
      as (s' & new & -> & Hw & _ & Hs & Hin).
    cbn [fst snd WorkerApp.self WorkerApp.env EngineFacts.extend events].
    repeat split; auto. apply in_or_app. now left.
Qed.

(** The example frame, on a connected worker without session key. *)
Lemma C9_wallet_assignment_without_session_key_witness :
  let st := AppExamples.state (AppExamples.app None PNone None) in
  let processed :=
    WorkerApp._process_message (L := ToyLibs.toy)
      ToyLibs.wallet_assignment_frame st in
  fst processed = Ok tt /\
  WorkerApp.wallets (WorkerApp.self (snd processed)) = [] /\
  sent_messages (events (WorkerApp.env (snd processed))) = [] /\
  In (EvLog ERROR "wallet assignment failed")
     (events (WorkerApp.env (snd processed))).
Proof.
  intros st processed.
  exact (proj2 (@C9_wallet_assignment_without_session_key ToyLibs.toy
                  ToyLibs.wallet_assignment_frame
                  ToyLibs.wallet_assignment_message st
                  eq_refl eq_refl eq_refl)).
Defined.

(** ** The session key *)

Module KeyFacts.
Import WorkerApp AppFacts.

Section WithLibs.
Context {L : Libs}.

(** The key [_initialize_encryption] derives from the keys the
    application holds. *)
Definition derived_key (s : Self) : result bytes :=
  EncryptionUtils.perform_key_exchange_x25519
    (opt_str (worker_private_key s)) (coordinator_public_key s).

(** The session key, when there is one, is the key derived from the
    worker's private key and the coordinator public key the application
    knows. *)
Definition session_key_consistent (s : Self) : Prop :=
  match shared_key s with
  | Some k => truthy (coordinator_public_key s) = true /\ derived_key s = Ok k
  | None => True
  end.

Definition registered (s : Self) : Self :=
  match metrics s with
  | Some m => set_metrics (Some (set_worker_status "registered" m)) s
  | None => s
  end.

(** A message without key, or a key that arrives when one is known: the
    handler logs and updates the metrics, nothing else. *)
Lemma _handle_registration_success_ignores (message : dict) (s : Self) (e : Env) :
  truthy (get message "coordinator_public_key_x25519")
    && negb (truthy (coordinator_public_key s)) = false ->
  _handle_registration_success message {| self := s; env := e |} =
  (Ok tt,
   {| self := registered s;
      env := EngineFacts.extend [EvLog INFO "registration succeeded"] e |}).
Proof.
  intros Hguard. destruct e as [out evs].
  unfold _handle_registration_success, registered, EngineFacts.extend.
  run_W. rewrite Hguard. run_W. reflexivity.
Qed.

(** The first key: it is stored, and the session key is derived from it
    when encryption is enabled and the worker has a private key. *)
Lemma _handle_registration_success_derives (message : dict) (s : Self) (e : Env) :
  let key := get message "coordinator_public_key_x25519" in
  let s1 := set_coordinator_public_key key s in
  truthy key = true ->
  truthy (coordinator_public_key s) = false ->
  Config.encryption_enabled (config s) = true ->
  truthy (opt_str (worker_private_key s)) = true ->
  _handle_registration_success message {| self := s; env := e |} =
  match derived_key s1 with
  | Ok k =>
      (Ok tt,
       {| self := registered (set_shared_key (Some k) s1);
          env := EngineFacts.extend
                   [EvLog INFO "encryption initialized";
                    EvLog INFO "registration succeeded"] e |})
  | Raise x =>
      (Raise (ValueError ("encryption initialization error: " ++ str_exc x)),
       {| self := s1;
          env := EngineFacts.extend [EvLog INFO "registration succeeded"] e |})
  end.
Proof.
  intros key s1 Hkey Hknown Henc Hpriv. subst key s1. destruct e as [out evs].
  unfold _handle_registration_success, _initialize_encryption, registered,
    derived_key, EngineFacts.extend.
  run_W. rewrite Hkey, Hknown. run_W. rewrite Henc. run_W.
  rewrite Hpriv, Hkey. run_W.
  destruct (EncryptionUtils.perform_key_exchange_x25519 _ _); run_W;
    reflexivity.
Qed.

Lemma registered_keys (s : Self) :
  shared_key (registered s) = shared_key s /\
  coordinator_public_key (registered s) = coordinator_public_key s /\
  worker_private_key (registered s) = worker_private_key s.
Proof. unfold registered. now destruct (metrics s). Qed.

Lemma session_key_consistent_registered (s : Self) :
  session_key_consistent s -> session_key_consistent (registered s).
Proof.
  unfold session_key_consistent, derived_key.
  destruct (registered_keys s) as (-> & -> & ->). auto.
Qed.

(** [_handle_registration_success] keeps the session key consistent. *)
Lemma _handle_registration_success_consistent (message : dict) (st : State) :
  session_key_consistent (self st) ->
  session_key_consistent
    (self (snd (_handle_registration_success message st))).
Proof.
  intros Hinv. destruct st as [s [out evs]]. cbn [self] in Hinv.
  unfold _handle_registration_success, _initialize_encryption.
  run_W.
  destruct (truthy (get message "coordinator_public_key_x25519")) eqn:Hkey;
    run_W.
  2:{ fold (registered s). now apply session_key_consistent_registered. }
  destruct (truthy (coordinator_public_key s)) eqn:Hknown; run_W.
  { fold (registered s). now apply session_key_consistent_registered. }
  assert (Hnone : shared_key s = None).
  { unfold session_key_consistent in Hinv.
    destruct (shared_key s); [|reflexivity].
    destruct Hinv as [Ht _]. congruence. }
  destruct (Config.encryption_enabled (config s)); run_W.
  2:{ match goal with
      | |- session_key_consistent ?x =>
          change x with (registered (set_coordinator_public_key
                           (get message "coordinator_public_key_x25519") s))
      end.
      apply session_key_consistent_registered.
      unfold session_key_consistent. cbn. now rewrite Hnone. }
  destruct (truthy (opt_str (worker_private_key s))) eqn:Hpriv; run_W.
  2:{ match goal with
      | |- session_key_consistent ?x =>
          change x with (registered (set_coordinator_public_key
                           (get message "coordinator_public_key_x25519") s))
      end.
      apply session_key_consistent_registered.
      unfold session_key_consistent. cbn. now rewrite Hnone. }
  rewrite Hkey. run_W.
  destruct (EncryptionUtils.perform_key_exchange_x25519 _ _) as [k|x] eqn:Hx;
    run_W.
  - match goal with
    | |- session_key_consistent ?x =>
        change x with (registered (set_shared_key (Some k)
                         (set_coordinator_public_key
                            (get message "coordinator_public_key_x25519") s)))
    end.
    apply session_key_consistent_registered.
    unfold session_key_consistent, derived_key. cbn. auto.
  - unfold session_key_consistent. cbn. now rewrite Hnone.
Qed.

End WithLibs.
End KeyFacts.

Module KeyExamples.
Import WorkerApp.

Definition private_key : pystr := Base64.b64encode (repeat x01 32).
Definition coordinator_key_A : pystr := Base64.b64encode (repeat x02 32).
Definition coordinator_key_B : pystr := Base64.b64encode (repeat x05 32).

(** The session keys the stand-in libraries derive with A and with B. *)
Definition session_key_A : bytes := repeat x03 32.
Definition session_key_B : bytes := repeat x06 32.

(** The worker of [AppExamples] with encryption enabled and a private
    key, knowing the coordinator key [known] and holding the session key
    [key]. *)
Definition app (known : pyval) (key : option bytes) : Self :=
  let base := AppExamples.app key known None in
  {| config :=
       {| Config.worker_id := py "worker-1";
          Config.worker_region := py "unknown";
          Config.worker_name := None;
          Config.worker_description := None;
          Config.api_key := py "key";
          Config.worker_private_key_x25519 := Some private_key;
          Config.worker_public_key_x25519 := None;
          Config.coordinator_public_key_x25519 := None;
          Config.encryption_enabled := true;
          Config.solana_private_key := py "";
          Config.max_slippage := 5 # 100;
          Config.trade_amount_sol := 1 # 100;
          Config.max_wallets_per_worker := 10;
          Config.max_concurrent_trades := 5;
          Config.max_trade_size_sol := 1;
          Config.min_trade_size_sol := 1 # 1000;
          Config.daily_trade_limit_sol := 10;
          Config.retry_delay := 1;
          Config.backoff_factor := 2;
          Config.debug_websocket := false;
          Config.mock_trading := true;
          Config.metrics_enabled := false;
          Config.notifications_enabled := false |};
     worker_id := worker_id base;
     websocket := websocket base;
     is_running := is_running base;
     reconnect_attempts := reconnect_attempts base;
     max_reconnect_attempts := max_reconnect_attempts base;
     metrics := metrics base;
     worker_private_key := Some private_key;
     coordinator_public_key := known;
     shared_key := key;
     wallets := wallets base;
     trading_engine := trading_engine base;
     http_client := http_client base;
     solana_client := solana_client base;
     stats := stats base |}.

(** [registration_success] carrying the coordinator key [key]. *)
Definition registration_success (key : pystr) : dict :=
  [ (py "type", PStr (py "registration_success"));
    (py "coordinator_public_key_x25519", PStr key) ].

End KeyExamples.

(** C8, as the code has it.  [_handle_registration_success] keeps the
    session key consistent: when there is one, it is the key derived from
    the worker's private key and the coordinator public key the
    application knows.  The key a [registration_success] message carries
    is used only when no coordinator key is known yet: then it is stored
    and, with encryption enabled and a private key configured, the
    session key derived from it is installed.  When a coordinator key is
    already known, the message's key is ignored: known key and session
    key stay as they are. *)
Theorem C8_session_key_derived_for_first_key_only {L : Libs}
    (message : dict) (st : WorkerApp.State) :
  let s := WorkerApp.self st in
  let key := get message "coordinator_public_key_x25519" in
  let s' := WorkerApp.self
              (snd (WorkerApp._handle_registration_success message st)) in
  (KeyFacts.session_key_consistent s -> KeyFacts.session_key_consistent s') /\
  (truthy (WorkerApp.coordinator_public_key s) = true ->
   WorkerApp.coordinator_public_key s' = WorkerApp.coordinator_public_key s /\
   WorkerApp.shared_key s' = WorkerApp.shared_key s) /\
  (truthy key = true ->
   truthy (WorkerApp.coordinator_public_key s) = false ->
   Config.encryption_enabled (WorkerApp.config s) = true ->
   truthy (opt_str (WorkerApp.worker_private_key s)) = true ->
   WorkerApp.coordinator_public_key s' = key /\
   forall k,
     EncryptionUtils.perform_key_exchange_x25519
       (opt_str (WorkerApp.worker_private_key s)) key = Ok k ->
     WorkerApp.shared_key s' = Some k).
Proof.
  intros s key s'. subst s key s'. split; [|split].
  - apply KeyFacts._handle_registration_success_consistent.
  - intros Hknown. destruct st as [s e]. cbn [WorkerApp.self].
    rewrite KeyFacts._handle_registration_success_ignores
      by (cbn [WorkerApp.self] in Hknown; rewrite Hknown;
          apply andb_false_r).
    cbn [snd WorkerApp.self].
    destruct (KeyFacts.registered_keys s) as (-> & -> & _). split; reflexivity.
  - intros Hkey Hknown Henc Hpriv. destruct st as [s e].
    cbn [WorkerApp.self] in *.
    rewrite (KeyFacts._handle_registration_success_derives message s e
               Hkey Hknown Henc Hpriv).
    unfold KeyFacts.derived_key.
    cbn [WorkerApp.worker_private_key WorkerApp.coordinator_public_key
         WorkerApp.set_coordinator_public_key].
    destruct (EncryptionUtils.perform_key_exchange_x25519 _ _) as [k|x];
      cbn [snd WorkerApp.self].
    + destruct (KeyFacts.registered_keys
                  (WorkerApp.set_shared_key (Some k)
                     (WorkerApp.set_coordinator_public_key
                        (get message "coordinator_public_key_x25519") s)))
        as (-> & -> & _).
      split; [reflexivity|]. intros k' [= <-]. reflexivity.
    + split; [reflexivity|]. intros k' [=].
Qed.

(** The key A is adopted by a worker that knows no key; the key B is
    ignored by a worker that knows A. *)
Lemma C8_session_key_derived_for_first_key_only_witness :
  let first := AppExamples.state (KeyExamples.app PNone None) in
  let later := AppExamples.state
                 (KeyExamples.app (PStr KeyExamples.coordinator_key_A)
                                  (Some KeyExamples.session_key_A)) in
  let after st message :=
    WorkerApp.self
      (snd (WorkerApp._handle_registration_success (L := ToyLibs.toy)
              message st)) in
  (WorkerApp.coordinator_public_key
     (after first (KeyExamples.registration_success KeyExamples.coordinator_key_A))
     = PStr KeyExamples.coordinator_key_A /\
   WorkerApp.shared_key
     (after first (KeyExamples.registration_success KeyExamples.coordinator_key_A))
     = Some KeyExamples.session_key_A) /\
  (WorkerApp.coordinator_public_key
     (after later (KeyExamples.registration_success KeyExamples.coordinator_key_B))
     = PStr KeyExamples.coordinator_key_A /\
   WorkerApp.shared_key
     (after later (KeyExamples.registration_success KeyExamples.coordinator_key_B))
     = Some KeyExamples.session_key_A) /\
  KeyFacts.session_key_consistent (L := ToyLibs.toy)
    (after later (KeyExamples.registration_success KeyExamples.coordinator_key_B)).
Proof.
  intros first later after. subst after. cbv beta.
  pose proof (@C8_session_key_derived_for_first_key_only ToyLibs.toy
                (KeyExamples.registration_success KeyExamples.coordinator_key_A)
                first) as H1.
  pose proof (@C8_session_key_derived_for_first_key_only ToyLibs.toy
                (KeyExamples.registration_success KeyExamples.coordinator_key_B)
                later) as H2.
  cbv zeta in H1, H2.
  destruct H1 as (_ & _ & H1). destruct H2 as (I2 & H2 & _).
  split; [|split].
  - destruct H1 as [Hk Hs]; try reflexivity.
    split; [exact Hk|]. apply Hs. vm_compute. reflexivity.
  - apply H2. reflexivity.
  - apply I2. split; vm_compute; reflexivity.
Defined.

(** C8 as stated fails: the worker knows the coordinator key A and holds
    the session key derived from it; a [registration_success] message
    carries the key B.  The known key stays A and the session key stays
    the one of A, which is not the key derived from B. *)
Lemma C8_new_key_ignored_counterexample :
  let st := AppExamples.state
              (KeyExamples.app (PStr KeyExamples.coordinator_key_A)
                               (Some KeyExamples.session_key_A)) in
  let s' := WorkerApp.self
              (snd (WorkerApp._handle_registration_success (L := ToyLibs.toy)
                      (KeyExamples.registration_success
                         KeyExamples.coordinator_key_B) st)) in
  EncryptionUtils.perform_key_exchange_x25519 (L := ToyLibs.toy)
    (PStr KeyExamples.private_key) (PStr KeyExamples.coordinator_key_B)
    = Ok KeyExamples.session_key_B /\
  WorkerApp.shared_key s' = Some KeyExamples.session_key_A /\
  WorkerApp.shared_key s' <> Some KeyExamples.session_key_B /\
  WorkerApp.coordinator_public_key s' = PStr KeyExamples.coordinator_key_A.
Proof.
  cbv zeta. repeat split; try (vm_compute; reflexivity).
  vm_compute. discriminate.
Qed.

(** ** Answering a trade command *)

Module PumpFacts.
Import WorkerApp AppFacts.

Section WithLibs.
Context {L : Libs}.

(** The application after one more message was sent. *)
Definition sent_one (s : Self) : Self :=
  set_stats {| start_time := start_time (stats s);
               messages_sent := messages_sent (stats s) + 1;
               messages_received := messages_received (stats s);
               trades_executed := trades_executed (stats s);
               errors := errors (stats s);
               last_heartbeat := last_heartbeat (stats s) |} s.

Lemma serializable_get (d : dict) (k : string) :
  serializable (PDict d) = true -> serializable (get d k) = true.
Proof.
  unfold get. cbn [serializable]. generalize (py k) as key.
  induction d as [|[k' v] d IH]; intros key; cbn [dict_get forallb snd].
  - reflexivity.
  - intros H. apply andb_true_iff in H. destruct H as [Hv Hd].
    destruct (pystr_eqb key k'); [exact Hv | now apply IH].
Qed.

Ltac pick_new :=
  first [ eexists [_]; split; [reflexivity|]
        | eexists [_; _]; split; [reflexivity|]
        | eexists [_; _; _]; split; [reflexivity|] ];
  split; reflexivity.

(** On an open connection whose transport delivers, with a session key
    of valid length if there is one, [_send_message] sends the message,
    counts it, and returns. *)
Lemma _send_message_delivers (m : pyval) (s : Self) (e : Env) :
  websocket_open (websocket s) = true ->
  serializable m = true ->
  (forall i, send_reply (outside e) i = true) ->
  (forall k, shared_key s = Some k -> aes_key_ok k = true) ->
  exists new,
    _send_message m {| self := s; env := e |}
      = (Ok tt, {| self := sent_one s; env := EngineFacts.extend new e |}) /\
    sent_messages (new ++ events e) = sent_messages (events e) ++ [m] /\
    EngineFacts.no_execution new.
Proof.
  intros Hopen Hser Hsend Hkey. destruct e as [out evs].
  cbn [outside] in Hsend.
  unfold _send_message, json_dumps, sent_one, EngineFacts.extend. run_W.
  rewrite Hopen, Hser. run_W.
  destruct (Config.encryption_enabled (config s) && key_present (shared_key s))
    eqn:Henc.
  - apply andb_true_iff in Henc. destruct Henc as [_ Hpresent].
    destruct (shared_key s) as [k|] eqn:Hk; [|discriminate].
    destruct (EncryptionFacts.encrypt_aes_gcm_ok (json_text m) k
                (entropy out (List.length evs))
                (EncryptionFacts.is_ascii_encodable _ (json_text_ascii m))
                (Hkey k eq_refl)) as (pt & _ & Hencrypt).
    cbv zeta in Hencrypt.
    unfold _encrypt_message. run_W. rewrite Hk, Hencrypt. run_W.
    cbn [serializable forallb snd andb].
    unfold websocket_send. run_W. rewrite Hsend.
    destruct (Config.debug_websocket (config s)); run_W; pick_new.
  - run_W. unfold websocket_send. run_W. rewrite Hsend.
    destruct (Config.debug_websocket (config s)); run_W; pick_new.
Qed.

(** The application after a [pump_result] went out. *)
Definition answered (eng : TradingEngine.Self) (s : Self) : Self :=
  let s1 := sent_one (set_trading_engine (Some eng) s) in
  let s2 :=
    set_stats {| start_time := start_time (stats s1);
                 messages_sent := messages_sent (stats s1);
                 messages_received := messages_received (stats s1);
                 trades_executed := trades_executed (stats s1) + 1;
                 errors := errors (stats s1);
                 last_heartbeat := last_heartbeat (stats s1) |} s1 in
  match metrics s2 with
  | Some m => set_metrics (Some (increment_trades m)) s2
  | None => s2
  end.

Lemma answered_connection (eng : TradingEngine.Self) (s : Self) :
  websocket (answered eng s) = websocket s /\
  is_running (answered eng s) = is_running s /\
  reconnect_attempts (answered eng s) = reconnect_attempts s.
Proof. unfold answered. cbv zeta. now destruct (metrics _). Qed.

(** The [pump_result] message for the result [res], stamped at [t]. *)
Definition pump_result (s : Self) (message : dict)
    (res : TradingEngine.TradeResult) (t : Z) : pyval :=
  PDict [ (py "type", PStr (py "pump_result"));
          (py "worker_id", PStr (worker_id s));
          (py "command_id", get message "command_id");
          (py "result", TradingEngine.to_dict res);
          (py "timestamp", PStr (isoformat t)) ].

Lemma opt_str_serializable (o : option pystr) : serializable (opt_str o) = true.
Proof. now destruct o. Qed.

Lemma pump_result_serializable (s : Self) (message : dict)
    (e e1 : Env) (x : exc) (t : Z) :
  serializable (PDict message) = true ->
  serializable
    (pump_result s message (EngineFacts.rejection_result message e e1 x) t)
  = true.
Proof.
  intros Hm. unfold pump_result, EngineFacts.rejection_result,
    TradingEngine.to_dict.
  cbn [serializable forallb snd TradingEngine.success
       TradingEngine.transaction_id TradingEngine.error_message
       TradingEngine.token_address TradingEngine.amount_sol
       TradingEngine.price_impact TradingEngine.gas_used
       TradingEngine.execution_time_ms TradingEngine.timestamp
       TradingEngine.opt_int TradingEngine.opt_float opt_str].
  rewrite !(serializable_get message _ Hm). reflexivity.
Qed.

(** [_handle_pump_command] on a command the engine rejects. *)
Lemma _handle_pump_command_rejected (message : dict) (s : Self) (e : Env)
    (eng : TradingEngine.Self) (x : exc) (st1 : TradingEngine.State) :
  let e0 := EngineFacts.extend [EvLog INFO "pump command received"] e in
  trading_engine s = Some eng ->
  EngineFacts.validate message eng
    {| TradingEngine.self := eng;
       TradingEngine.env := EngineFacts.extend [EvNow] e0 |} = (Raise x, st1) ->
  websocket_open (websocket s) = true ->
  serializable (PDict message) = true ->
  (forall i, send_reply (outside e) i = true) ->
  (forall k, shared_key s = Some k -> aes_key_ok k = true) ->
  exists new t,
    let res := EngineFacts.rejection_result message e0 (TradingEngine.env st1) x in
    _handle_pump_command message {| self := s; env := e |} =
      (Ok tt, {| self := answered (TradingEngine.self st1) s;
                 env := EngineFacts.extend new e |}) /\
    sent_messages (new ++ events e)
      = sent_messages (events e) ++ [pump_result s message res t] /\
    EngineFacts.no_execution new.
Proof.
  intros e0 Heng Hv Hopen Hser Hsend Hkey.
  destruct (EngineFacts.validate_effect message eng eng _ _ _ Hv)
    as [_ (new1 & He1 & Hq1)].
  destruct st1 as [eng1 e1]. cbn [TradingEngine.env TradingEngine.self] in *.
  subst e1 e0.
  destruct e as [out evs]. cbn [outside events] in *.
  unfold _handle_pump_command. run_W. rewrite Heng. run_W.
  unfold with_engine. cbn [trading_engine self env]. rewrite Heng.
  unfold EngineFacts.extend in Hv. cbn [app outside events] in Hv.
  rewrite (EngineFacts.execute_pump_trade_rejected message eng
             {| outside := out;
                events := EvLog INFO "pump command received" :: evs |} x _ Hv).
  cbn [TradingEngine.self TradingEngine.env EngineFacts.extend outside events
       app]. run_W.
  match goal with
  | |- context [_send_message ?m ?st] =>
      destruct (_send_message_delivers m (self st) (env st)) as (new2 & Hs & Hm & Hq2)
  end; cbn [self env outside websocket shared_key set_trading_engine];
    try assumption.
  { apply pump_result_serializable. exact Hser. }
  cbn [self env] in Hs. rewrite Hs. clear Hs.
  unfold EngineFacts.extend. cbn [outside events]. run_W.
  unfold EngineFacts.extend in Hm. cbn [env events outside app] in Hm.
  exists (new2 ++ [EvNow; EvNow; EvLog ERROR "pump failed"; EvNow]
             ++ new1 ++ [EvNow; EvLog INFO "pump command received"]).
  eexists. cbv zeta. split; [|split].
  - unfold answered. cbv zeta. f_equal. f_equal. f_equal.
    rewrite <- !app_assoc. reflexivity.
  - rewrite <- !app_assoc. cbn [app] in *. rewrite Hm. clear Hm.
    f_equal; [|reflexivity]. cbn [sent_messages].
    rewrite (EngineFacts.only_validation_sent new1 _ Hq1). reflexivity.
  - unfold EngineFacts.no_execution in *. rewrite !forallb_app.
    rewrite Hq2.
    rewrite (EngineFacts.only_validation_no_execution new1 Hq1).
    reflexivity.
Qed.

End WithLibs.
End PumpFacts.

(** The engine [eng], called when the run is [e], rejects [command] with
    the reason [x]: the validation sequence of [execute_pump_trade]
    raises [x]. *)
Definition rejects {L : Libs} (eng : TradingEngine.Self) (command : dict)
    (e : Env) (x : exc) : Prop :=
  exists st1,
    EngineFacts.validate command eng
      {| TradingEngine.self := eng;
         TradingEngine.env := EngineFacts.extend [EvNow] e |} = (Raise x, st1).

(** The [type] field of a message. *)
Definition message_type (m : pyval) : pyval :=
  match m with
  | PDict d => get d "type"
  | _ => PNone
  end.

(** C5, as the code has it.  Let the engine reject a trade command with
    reason [x] (missing token address, wallet not initialized, size out
    of bounds, daily limit exceeded, insufficient funds).  On an open
    connection whose transport delivers (the session key, if any, being of
    valid length), [_handle_pump_command] returns normally and sends
    exactly one message: a [pump_result] with the command's [command_id]
    whose result has [success = False] and [x] as error message.  No
    execution event occurs, and [websocket], [is_running] and
    [reconnect_attempts] are unchanged. *)
Theorem C5_rejected_trade_is_reported_in_pump_result {L : Libs}
    (message : dict) (s : WorkerApp.Self) (e : Env)
    (eng : TradingEngine.Self) (x : exc) :
  WorkerApp.trading_engine s = Some eng ->
  rejects eng message
          (EngineFacts.extend [EvLog INFO "pump command received"] e) x ->
  WorkerApp.websocket_open (WorkerApp.websocket s) = true ->
  serializable (PDict message) = true ->
  (forall i, send_reply (outside e) i = true) ->
  (forall k, WorkerApp.shared_key s = Some k -> aes_key_ok k = true) ->
  exists s' new res t,
    WorkerApp._handle_pump_command message
      {| WorkerApp.self := s; WorkerApp.env := e |}
      = (Ok tt, {| WorkerApp.self := s';
                   WorkerApp.env := EngineFacts.extend new e |}) /\
    sent_messages (new ++ events e)
      = sent_messages (events e) ++ [PumpFacts.pump_result s message res t] /\
    message_type (PumpFacts.pump_result s message res t)
      = PStr (py "pump_result") /\
    TradingEngine.success res = false /\
    TradingEngine.error_message res = Some (py (str_exc x)) /\
    EngineFacts.no_execution new /\
    WorkerApp.websocket s' = WorkerApp.websocket s /\
    WorkerApp.is_running s' = WorkerApp.is_running s /\
    WorkerApp.reconnect_attempts s' = WorkerApp.reconnect_attempts s.
Proof.
  intros Heng [st1 Hv] Hopen Hser Hsend Hkey.
  destruct (PumpFacts._handle_pump_command_rejected message s e eng x st1
              Heng Hv Hopen Hser Hsend Hkey) as (new & t & Hrun & Hsent & Hq).
  cbv zeta in Hrun, Hsent.
  destruct (PumpFacts.answered_connection (TradingEngine.self st1) s)
    as (Hws & Hrunning & Hattempts).
  do 4 eexists. split; [exact Hrun|]. split; [exact Hsent|].
  repeat split; assumption.
Qed.

(** A command for 2.0 SOL, above the maximum of 1.0. *)
Lemma C5_rejected_trade_is_reported_in_pump_result_witness :
  let s := AppExamples.app None PNone (Some (Examples.engine false 0 20000)) in
  let e := Examples.env0 (Some 5000000000) in
  exists s' new res t,
    WorkerApp._handle_pump_command (L := ToyLibs.toy) (Examples.pump_command 2)
      {| WorkerApp.self := s; WorkerApp.env := e |}
      = (Ok tt, {| WorkerApp.self := s';
                   WorkerApp.env := EngineFacts.extend new e |}) /\
    sent_messages (new ++ events e)
      = sent_messages (events e)
        ++ [PumpFacts.pump_result (L := ToyLibs.toy) s (Examples.pump_command 2) res t] /\
    message_type (PumpFacts.pump_result (L := ToyLibs.toy) s (Examples.pump_command 2) res t)
      = PStr (py "pump_result") /\
    TradingEngine.success res = false /\
    TradingEngine.error_message res
      = Some (py (str_exc EngineFacts.too_large)) /\
    EngineFacts.no_execution new /\
    WorkerApp.websocket s' = WorkerApp.websocket s /\
    WorkerApp.is_running s' = WorkerApp.is_running s /\
    WorkerApp.reconnect_attempts s' = WorkerApp.reconnect_attempts s.
Proof.
  intros s e.
  apply (@C5_rejected_trade_is_reported_in_pump_result ToyLibs.toy
           (Examples.pump_command 2) s e (Examples.engine false 0 20000)
           EngineFacts.too_large).
  - reflexivity.
  - apply (LimitFacts.validate_too_large_reason (L := ToyLibs.toy)
             (Examples.pump_command 2) (Examples.engine false 0 20000) _ 2%Q);
      [reflexivity | discriminate | reflexivity | reflexivity].
  - reflexivity.
  - reflexivity.
  - intros i. reflexivity.
  - intros k [=].
Defined.

(** C5 as stated fails: a command above the maximal trade size is
    rejected by the validation, and the one message the worker sends back
    is of type [pump_result], not [pump_error]. *)
Lemma C5_not_pump_error_counterexample :
  let st := AppExamples.state
              (AppExamples.app None PNone (Some (Examples.engine false 0 20000))) in
  let st' := snd (WorkerApp._handle_pump_command (L := ToyLibs.toy)
                    (Examples.pump_command 2) st) in
  exists m,
    sent_messages (events (WorkerApp.env st')) = [m] /\
    message_type m = PStr (py "pump_result") /\
    message_type m <> PStr (py "pump_error").
Proof.
  cbv zeta. eexists. split; [vm_compute; reflexivity|].
  split; [reflexivity | vm_compute; discriminate].
Qed.

(** ** Connecting to the coordinator *)

(** The number of [websockets.connect] calls of a run. *)
Fixpoint connection_attempts (evs : list Event) : Z :=
  match evs with
  | [] => 0
  | EvConnect :: evs' => connection_attempts evs' + 1
  | _ :: evs' => connection_attempts evs'
  end.

Module ConnectFacts.
Import WorkerApp AppFacts.

Section WithLibs.
Context {L : Libs}.

(** The application after a failed connection attempt. *)
Definition failed_once (s : Self) : Self :=
  count_error (set_reconnect_attempts (reconnect_attempts s + 1) s).

(** What a failed attempt adds to the run: the call, the error record
    and, when another attempt follows, the wait. *)
Definition failure_events (retry : bool) (delay : Q) : list Event :=
  (if retry then [EvSleep delay; EvLog INFO "retrying"] else [])
  ++ [EvLog ERROR "connection failed"; EvConnect].

Lemma failed_once_fields (s : Self) :
  reconnect_attempts (failed_once s) = reconnect_attempts s + 1 /\
  max_reconnect_attempts (failed_once s) = max_reconnect_attempts s /\
  is_running (failed_once s) = is_running s /\
  config (failed_once s) = config s.
Proof. unfold failed_once, count_error. now destruct (metrics _). Qed.

(** The loop ends when the worker is stopped or the attempts are used
    up. *)
Lemma connect_loop_stops (fuel : nat) (delay : Q) (st : State) :
  is_running (self st)
    && (reconnect_attempts (self st) <? max_reconnect_attempts (self st))
  = false ->
  connect_loop (Datatypes.S fuel) delay st = (Ok (Some false), st).
Proof.
  intros Hcond. destruct st as [s e]. cbn [self] in Hcond.
  cbn [connect_loop]. run_W. rewrite Hcond. reflexivity.
Qed.

(** One iteration whose connection attempt fails. *)
Lemma connect_loop_failure (fuel : nat) (delay : Q) (s : Self) (e : Env) :
  is_running s = true ->
  reconnect_attempts s < max_reconnect_attempts s ->
  connect_reply (outside e) (List.length (events e)) = false ->
  let retry := reconnect_attempts s + 1 <? max_reconnect_attempts s in
  connect_loop (Datatypes.S fuel) delay {| self := s; env := e |} =
  connect_loop fuel
    (if retry then (delay * Config.backoff_factor (config s))%Q else delay)
    {| self := failed_once s;
       env := EngineFacts.extend (failure_events retry delay) e |}.
Proof.
  intros Hrun Hlt Hreply retry. subst retry. destruct e as [out evs].
  cbn [outside events] in Hreply.
  cbn [connect_loop]. unfold websockets_connect. run_W.
  rewrite Hrun. apply Z.ltb_lt in Hlt. rewrite Hlt. run_W.
  rewrite Hreply. run_W.
  unfold failed_once, count_error, failure_events, EngineFacts.extend.
  destruct (reconnect_attempts s + 1 <? max_reconnect_attempts s); run_W;
    destruct (metrics s); reflexivity.
Qed.

Lemma connection_attempts_failure (retry : bool) (delay : Q) (evs : list Event) :
  connection_attempts (failure_events retry delay ++ evs)
  = connection_attempts evs + 1.
Proof. now destruct retry. Qed.

(** With an unreachable coordinator the loop gives up after
    [max_reconnect_attempts] failures in a row, however much fuel is
    left. *)
Lemma connect_loop_unreachable (n : nat) :
  forall (fuel : nat) (delay : Q) (s : Self) (e : Env),
    is_running s = true ->
    (forall i, connect_reply (outside e) i = false) ->
    reconnect_attempts s <= max_reconnect_attempts s ->
    Z.to_nat (max_reconnect_attempts s - reconnect_attempts s) = n ->
    (n < fuel)%nat ->
    exists st',
      connect_loop fuel delay {| self := s; env := e |} = (Ok (Some false), st') /\
      reconnect_attempts (self st') = max_reconnect_attempts s /\
      connection_attempts (events (env st'))
        = connection_attempts (events e) + Z.of_nat n.
Proof.
  induction n as [|n IH]; intros fuel delay s e Hrun Hout Hle Hn Hfuel.
  - destruct fuel as [|fuel]; [lia|].
    rewrite connect_loop_stops.
    + eexists. split; [reflexivity|]. cbn [self env]. split; lia.
    + cbn [self]. rewrite Hrun. cbn [andb]. apply Z.ltb_ge. lia.
  - destruct fuel as [|fuel]; [lia|].
    rewrite connect_loop_failure by (auto; lia). cbv zeta.
    destruct (failed_once_fields s) as (Ha & Hm & Hr & _).
    edestruct (IH fuel) as (st' & Hloop & Hatt & Hconn); cycle 5.
    + rewrite Hloop. exists st'. split; [reflexivity|].
      split; [rewrite Hatt; exact Hm|].
      rewrite Hconn. cbn [EngineFacts.extend events].
      rewrite connection_attempts_failure. lia.
    + rewrite Hr. exact Hrun.
    + intros i. cbn [EngineFacts.extend outside]. apply Hout.
    + rewrite Ha, Hm. lia.
    + rewrite Ha, Hm. lia.
    + lia.
Qed.

(** The waits of [k] failures in a row: each is the previous one times
    the backoff factor. *)
Fixpoint backoff_waits (k : nat) (delay factor : Q) : list Q :=
  match k with
  | O => []
  | Datatypes.S k' => delay :: backoff_waits k' (delay * factor)%Q factor
  end.

Lemma sleeps_app (a b : list Event) : sleeps (a ++ b) = sleeps b ++ sleeps a.
Proof.
  induction a as [|ev a IH]; cbn [app sleeps].
  - now rewrite app_nil_r.
  - destruct ev; rewrite ?IH; try reflexivity. now rewrite app_assoc.
Qed.

(** [k] failures in a row, with attempts to spare: [k] iterations of the
    loop, [k] waits. *)
Lemma connect_loop_failures (k : nat) :
  forall (fuel : nat) (delay : Q) (s : Self) (e : Env),
    is_running s = true ->
    (forall i, connect_reply (outside e) i = false) ->
    reconnect_attempts s + Z.of_nat k < max_reconnect_attempts s ->
    exists delay' s' e',
      connect_loop (k + fuel) delay {| self := s; env := e |}
        = connect_loop fuel delay' {| self := s'; env := e' |} /\
      reconnect_attempts s' = reconnect_attempts s + Z.of_nat k /\
      sleeps (events e')
        = sleeps (events e)
          ++ backoff_waits k delay (Config.backoff_factor (config s)).
Proof.
  induction k as [|k IH]; intros fuel delay s e Hrun Hout Hlt.
  - exists delay, s, e. split; [reflexivity|]. split; [lia|].
    cbn [backoff_waits]. now rewrite app_nil_r.
  - cbn [Nat.add]. rewrite connect_loop_failure by (auto; lia). cbv zeta.
    assert (Hretry : (reconnect_attempts s + 1 <? max_reconnect_attempts s) = true)
      by (apply Z.ltb_lt; lia).
    rewrite Hretry.
    destruct (failed_once_fields s) as (Ha & Hm & Hr & Hc).
    edestruct (IH fuel (delay * Config.backoff_factor (config s))%Q
                 (failed_once s)
                 (EngineFacts.extend (failure_events true delay) e))
      as (delay' & s' & e' & Hloop & Hatt & Hsl).
    + rewrite Hr. exact Hrun.
    + intros i. cbn [EngineFacts.extend outside]. apply Hout.
    + rewrite Ha, Hm. lia.
    + rewrite Hloop. exists delay', s', e'. split; [reflexivity|].
      split; [rewrite Hatt, Ha; lia|].
      rewrite Hsl, Hc. cbn [EngineFacts.extend events].
      rewrite sleeps_app. cbn [failure_events app sleeps backoff_waits].
      now rewrite <- app_assoc.
Qed.

(** *** A connection resets the counter *)

Ltac finish :=
  run_W;
  repeat match goal with
         | |- context [Config.debug_websocket ?c] =>
             destruct (Config.debug_websocket c); run_W
         | |- context [match metrics ?s with _ => _ end] =>
             destruct (metrics s); run_W
         end;
  reflexivity.

Lemma _send_message_attempts (m : pyval) (st : State) :
  reconnect_attempts (self (snd (_send_message m st)))
  = reconnect_attempts (self st).
Proof.
  destruct st as [s [out evs]].
  unfold _send_message, json_dumps. run_W.
  destruct (websocket_open (websocket s)); run_W; [|reflexivity].
  destruct (serializable m); [|finish]. run_W.
  destruct (Config.encryption_enabled (config s) && key_present (shared_key s)).
  - unfold _encrypt_message. run_W.
    destruct (EncryptionUtils.encrypt_aes_gcm _ _ _) as [[[c n] t]|x];
      [|finish].
    run_W. cbn [serializable forallb snd andb]. unfold websocket_send. run_W.
    destruct (send_reply out _); finish.
  - run_W. unfold websocket_send. run_W.
    destruct (send_reply out _); finish.
Qed.

Lemma _send_registration_attempts (st : State) :
  reconnect_attempts (self (snd (_send_registration st)))
  = reconnect_attempts (self st).
Proof.
  unfold _send_registration. run_W.
  match goal with
  | |- context [_send_message ?m st] =>
      pose proof (_send_message_attempts m st) as H;
      destruct (_send_message m st) as [[[]|x] [s1 [out1 evs1]]]
  end; exact H.
Qed.

(** When [connect_loop] reports success, the counter is zero. *)
Lemma connect_loop_success (fuel : nat) :
  forall (delay : Q) (st st' : State),
    connect_loop fuel delay st = (Ok (Some true), st') ->
    reconnect_attempts (self st') = 0.
Proof.
  induction fuel as [|fuel IH]; intros delay [s [out evs]] st';
    cbn [connect_loop]; run_W; [discriminate|].
  destruct (is_running s
            && (reconnect_attempts s <? max_reconnect_attempts s));
    run_W; [|discriminate].
  unfold websockets_connect. run_W.
  destruct (connect_reply out (List.length evs)); run_W.
  - match goal with
    | |- context [_send_registration ?st] =>
        pose proof (_send_registration_attempts st) as Hreg;
        destruct (_send_registration st) as [[[]|x] [s1 [out1 evs1]]]
    end; cbn [self snd reconnect_attempts set_reconnect_attempts
              set_websocket] in Hreg; run_W.
    + intros [= <-]. cbn [self]. destruct (metrics s1); exact Hreg.
    + match goal with
      | |- context [if ?b then _ else _] => destruct b
      end; run_W; apply IH.
  - match goal with
    | |- context [if ?b then _ else _] => destruct b
    end; run_W; apply IH.
Qed.

End WithLibs.
End ConnectFacts.

(** C6.  Let the worker be running with a zero attempt counter and let
    every connection attempt fail.
    - With [retry_delay = 1.0], [backoff_factor = 2.0] and more than
      three attempts allowed (the source allows 10), the first three
      failures make the worker wait 1.0, 2.0 and 4.0 seconds.
    - The loop gives up ([connect_to_coordinator] returns [False]) after
      exactly [max_reconnect_attempts] attempts, the counter then being
      [max_reconnect_attempts].
    - Whenever [connect_to_coordinator] returns [True], from any state,
      the counter is zero. *)
Theorem C6_reconnection_backoff {L : Libs} (s : WorkerApp.Self) (e : Env) :
  WorkerApp.is_running s = true ->
  WorkerApp.reconnect_attempts s = 0 ->
  (forall i, connect_reply (outside e) i = false) ->
  let st := {| WorkerApp.self := s; WorkerApp.env := e |} in
  (Config.retry_delay (WorkerApp.config s) = 1%Q ->
   Config.backoff_factor (WorkerApp.config s) = 2%Q ->
   3 < WorkerApp.max_reconnect_attempts s ->
   sleeps (events (WorkerApp.env (snd (WorkerApp.connect_to_coordinator 3 st))))
   = sleeps (events e) ++ [1%Q; 2%Q; 4%Q]) /\
  (0 <= WorkerApp.max_reconnect_attempts s ->
   forall fuel,
     (Z.to_nat (WorkerApp.max_reconnect_attempts s) < fuel)%nat ->
     exists st',
       WorkerApp.connect_to_coordinator fuel st = (Ok (Some false), st') /\
       WorkerApp.reconnect_attempts (WorkerApp.self st')
         = WorkerApp.max_reconnect_attempts s /\
       connection_attempts (events (WorkerApp.env st'))
         = connection_attempts (events e) + WorkerApp.max_reconnect_attempts s) /\
  (forall fuel st0 st',
     WorkerApp.connect_to_coordinator fuel st0 = (Ok (Some true), st') ->
     WorkerApp.reconnect_attempts (WorkerApp.self st') = 0).
Proof.
  intros Hrun Hzero Hout st. subst st. split; [|split].
  - intros Hdelay Hfactor Hmax.
    destruct e as [out evs]. cbn [outside events] in *.
    unfold WorkerApp.connect_to_coordinator. run_W.
    destruct (ConnectFacts.connect_loop_failures 3 0
                (Config.retry_delay (WorkerApp.config s)) s
                {| outside := out;
                   events := EvLog INFO "connecting to the coordinator" :: evs |}
                Hrun Hout)
      as (delay' & s' & e' & Hloop & _ & Hsleeps).
    { rewrite Hzero. cbn. lia. }
    cbn [Nat.add] in Hloop. rewrite Hloop. cbn [WorkerApp.connect_loop].
    run_W. rewrite Hsleeps, Hdelay, Hfactor. reflexivity.
  - intros Hmax fuel Hfuel. destruct e as [out evs].
    unfold WorkerApp.connect_to_coordinator. run_W.
    destruct (ConnectFacts.connect_loop_unreachable
                (Z.to_nat (WorkerApp.max_reconnect_attempts s)) fuel
                (Config.retry_delay (WorkerApp.config s)) s
                {| outside := out;
                   events := EvLog INFO "connecting to the coordinator" :: evs |}
                Hrun Hout)
      as (st' & Hloop & Hatt & Hconn); try lia.
    exists st'. rewrite Hloop. split; [reflexivity|]. split; [exact Hatt|].
    rewrite Hconn. cbn [events connection_attempts]. lia.
  - intros fuel [s0 [out0 evs0]] st'.
    unfold WorkerApp.connect_to_coordinator. run_W.
    apply ConnectFacts.connect_loop_success.
Qed.

(** The default settings, with 10 attempts allowed and a coordinator
    that refuses every connection. *)
Lemma C6_reconnection_backoff_witness :
  let st := {| WorkerApp.self := AppExamples.app None PNone None;
               WorkerApp.env :=
                 {| outside := Examples.outside_with None false;
                    events := [] |} |} in
  sleeps (events (WorkerApp.env
                    (snd (WorkerApp.connect_to_coordinator (L := ToyLibs.toy)
                            3 st))))
    = [1%Q; 2%Q; 4%Q] /\
  exists st',
    WorkerApp.connect_to_coordinator (L := ToyLibs.toy) 11 st
      = (Ok (Some false), st') /\
    WorkerApp.reconnect_attempts (WorkerApp.self st') = 10 /\
    connection_attempts (events (WorkerApp.env st')) = 10.
Proof.
  intros st.
  destruct (@C6_reconnection_backoff ToyLibs.toy
              (AppExamples.app None PNone None)
              {| outside := Examples.outside_with None false; events := [] |})
    as (Hwaits & Hstop & _).
  - reflexivity.
  - reflexivity.
  - intros i. reflexivity.
  - split.
    + apply Hwaits; [reflexivity | reflexivity | reflexivity].
    + apply (Hstop ltac:(discriminate) 11%nat). cbn. lia.
Defined.

(* ===================================================================== *)
(** ** Waiting for the confirmation of a transaction *)
(* ===================================================================== *)

(** The number of status polls in a run. *)
Fixpoint polls (evs : list Event) : nat :=
  match evs with
  | [] => 0
  | EvGetSignatureStatus _ :: evs' => Datatypes.S (polls evs')
  | _ :: evs' => polls evs'
  end.

(** The node answers the event at position [i] with a confirmed status. *)
Definition confirms (out : Outside) (i : nat) : Prop :=
  exists status,
    signature_status_reply out i = Some (Some status) /\
    confirmation_status status = true.

(** The events of the confirmation loop: polls, pauses and log records. *)
Definition is_polling_event (ev : Event) : bool :=
  match ev with
  | EvGetSignatureStatus _ | EvSleep _ | EvLog _ _ => true
  | _ => false
  end.

Module ConfirmationFacts.
Import TradingEngine.

Lemma polls_app (a b : list Event) : polls (a ++ b) = (polls a + polls b)%nat.
Proof.
  induction a as [|ev a IH]; [reflexivity|].
  destruct ev; cbn [app polls]; rewrite IH; reflexivity.
Qed.

(** The state the loop runs in. *)
Definition at_ (s : Self) (out : Outside) (evs : list Event) : State :=
  {| self := s; env := {| outside := out; events := evs |} |}.

(** One round that neither confirmed nor gave up: the loop paused for a
    second and goes on with the next attempt. *)
Definition next_round (tx_id : pystr) (evs : list Event) : list Event :=
  EvSleep 1 :: EvGetSignatureStatus tx_id :: evs.

(** The outcomes of one round, by the answer of the node. *)
Lemma _wait_for_confirmation_loop_round (n : nat) (attempt max_retries : Z)
    (tx_id : pystr) (s : Self) (out : Outside) (evs : list Event) :
  let go_on :=
    _wait_for_confirmation_loop n (attempt + 1) max_retries tx_id
      (at_ s out (next_round tx_id evs)) in
  let last_round (text : string) :=
    if attempt =? max_retries - 1
    then (Raise (ValueError ("confirmation timeout exceeded: " ++ text)),
          at_ s out (EvGetSignatureStatus tx_id :: evs))
    else go_on in
  _wait_for_confirmation_loop (Datatypes.S n) attempt max_retries tx_id
    (at_ s out evs) =
  match signature_status_reply out (List.length evs) with
  | None => last_round "SolanaRpcException"%string
  | Some None => go_on
  | Some (Some status) =>
      if confirmation_status status
      then (Ok tt, at_ s out (EvLog DEBUG "transaction confirmed"
                                :: EvGetSignatureStatus tx_id :: evs))
      else if err status then last_round "transaction rejected"%string
      else go_on
  end.
Proof.
  unfold at_, next_round. cbn [_wait_for_confirmation_loop]. run_M.
  destruct (signature_status_reply out (List.length evs))
    as [[[conf er]|]|]; run_M.
  - cbn [confirmation_status err]. destruct conf; run_M; [reflexivity|].
    destruct er; run_M; [|reflexivity].
    destruct (attempt =? max_retries - 1); reflexivity.
  - reflexivity.
  - unfold rpc_error. run_M.
    destruct (attempt =? max_retries - 1); reflexivity.
Qed.

(** What the loop does, whatever the node answers: it leaves the engine
    alone, polls at most [remaining] times, and fails with [ValueError]
    only; when it returns, a poll of this call was answered
    "confirmed". *)
Lemma _wait_for_confirmation_loop_effect (remaining : nat) :
  forall (attempt max_retries : Z) (tx_id : pystr) (s : Self)
         (out : Outside) (evs : list Event),
  exists new r,
    _wait_for_confirmation_loop remaining attempt max_retries tx_id
      (at_ s out evs) = (r, at_ s out (new ++ evs)) /\
    forallb is_polling_event new = true /\
    (polls new <= remaining)%nat /\
    match r with
    | Ok _ =>
        exists i, (List.length evs <= i < List.length (new ++ evs))%nat /\
                  confirms out i
    | Raise x => exists m, x = ValueError m
    end.
Proof.
  induction remaining as [|n IH]; intros attempt max_retries tx_id s out evs.
  - exists [], (Raise (ValueError "timed out waiting for the confirmation")).
    repeat split; eauto.
  - rewrite _wait_for_confirmation_loop_round. cbv zeta.
    assert (Hgo : exists new r,
      _wait_for_confirmation_loop n (attempt + 1) max_retries tx_id
        (at_ s out (next_round tx_id evs)) = (r, at_ s out (new ++ evs)) /\
      forallb is_polling_event new = true /\
      (polls new <= Datatypes.S n)%nat /\
      match r with
      | Ok _ =>
          exists i, (List.length evs <= i < List.length (new ++ evs))%nat /\
                    confirms out i
      | Raise x => exists m, x = ValueError m
      end).
    { destruct (IH (attempt + 1) max_retries tx_id s out (next_round tx_id evs))
        as (new & r & Hrun & Hev & Hpolls & Hr).
      exists (new ++ [EvSleep 1; EvGetSignatureStatus tx_id]), r.
      rewrite <- app_assoc. split; [exact Hrun|].
      split; [rewrite forallb_app, Hev; reflexivity|].
      split; [rewrite polls_app; cbn [polls]; lia|].
      destruct r; [|exact Hr].
      destruct Hr as (j & Hj & Hc). exists j. split; [|exact Hc].
      unfold next_round in Hj. cbn [List.length app] in *.
      rewrite !length_app in *. cbn [List.length] in *. lia. }
    assert (Hstop : forall text, exists new r,
      (Raise (ValueError ("confirmation timeout exceeded: " ++ text)),
       at_ s out (EvGetSignatureStatus tx_id :: evs))
      = (r : result unit, at_ s out (new ++ evs)) /\
      forallb is_polling_event new = true /\
      (polls new <= Datatypes.S n)%nat /\
      match r with
      | Ok _ =>
          exists i, (List.length evs <= i < List.length (new ++ evs))%nat /\
                    confirms out i
      | Raise x => exists m, x = ValueError m
      end).
    { intros text. eexists [_], (Raise _). split; [reflexivity|].
      repeat split; [cbn; lia | eauto]. }
    destruct (signature_status_reply out (List.length evs))
      as [[status|]|] eqn:Hreply.
    + destruct (confirmation_status status) eqn:Hconf.
      * eexists [_; _], (Ok tt). split; [reflexivity|].
        repeat split; [cbn; lia|].
        exists (List.length evs). split; [cbn [List.length app]; lia|].
        exists status. split; assumption.
      * destruct (err status); [|exact Hgo].
        destruct (attempt =? max_retries - 1); [apply Hstop | exact Hgo].
    + exact Hgo.
    + destruct (attempt =? max_retries - 1); [apply Hstop | exact Hgo].
Qed.

(** A node that never reports the transaction confirmed: the loop uses
    all its rounds and fails with [ValueError]. *)
Lemma _wait_for_confirmation_loop_unconfirmed (remaining : nat) :
  forall (attempt max_retries : Z) (tx_id : pystr) (s : Self)
         (out : Outside) (evs : list Event),
  (forall i, ~ confirms out i) ->
  attempt + Z.of_nat remaining = max_retries ->
  exists new m,
    _wait_for_confirmation_loop remaining attempt max_retries tx_id
      (at_ s out evs) = (Raise (ValueError m), at_ s out (new ++ evs)) /\
    polls new = remaining.
Proof.
  induction remaining as [|n IH];
    intros attempt max_retries tx_id s out evs Hnever Hrounds.
  - exists [], "timed out waiting for the confirmation"%string. split; reflexivity.
  - rewrite _wait_for_confirmation_loop_round. cbv zeta.
    assert (Hgo : exists new m,
      _wait_for_confirmation_loop n (attempt + 1) max_retries tx_id
        (at_ s out (next_round tx_id evs))
      = (Raise (ValueError m), at_ s out (new ++ evs)) /\
      polls new = Datatypes.S n).
    { destruct (IH (attempt + 1) max_retries tx_id s out
                  (next_round tx_id evs) Hnever ltac:(lia))
        as (new & m & Hrun & Hpolls).
      exists (new ++ [EvSleep 1; EvGetSignatureStatus tx_id]), m.
      rewrite <- app_assoc. split; [exact Hrun|].
      rewrite polls_app. cbn [polls]. lia. }
    assert (Hstop : forall text,
      (attempt =? max_retries - 1) = true ->
      exists new m,
        (Raise (ValueError ("confirmation timeout exceeded: " ++ text)),
         at_ s out (EvGetSignatureStatus tx_id :: evs))
        = (Raise (ValueError m) : result unit, at_ s out (new ++ evs)) /\
        polls new = Datatypes.S n).
    { intros text Hlast. apply Z.eqb_eq in Hlast.
      eexists [_], _. split; [reflexivity|]. cbn [polls]. lia. }
    destruct (signature_status_reply out (List.length evs))
      as [[status|]|] eqn:Hreply.
    + destruct (confirmation_status status) eqn:Hconf.
      * exfalso. apply (Hnever (List.length evs)). exists status. now split.
      * destruct (err status); [|exact Hgo].
        destruct (attempt =? max_retries - 1) eqn:Hlast;
          [now apply Hstop | exact Hgo].
    + exact Hgo.
    + destruct (attempt =? max_retries - 1) eqn:Hlast;
        [now apply Hstop | exact Hgo].
Qed.

End ConfirmationFacts.

(** X1. [_wait_for_confirmation] polls the status of the transaction at
    most 30 times, does nothing else to the outside than poll, pause and
    log, and leaves the engine as it was.  It returns only if one of its
    polls was answered with a confirmed status; every failure is a
    [ValueError]. *)
Theorem wait_for_confirmation_is_bounded
    (tx_id : pystr) (s : TradingEngine.Self) (out : Outside)
    (evs : list Event) :
  exists new r,
    TradingEngine._wait_for_confirmation tx_id (ConfirmationFacts.at_ s out evs)
      = (r, ConfirmationFacts.at_ s out (new ++ evs)) /\
    forallb is_polling_event new = true /\
    (polls new <= 30)%nat /\
    match r with
    | Ok _ =>
        exists i, (List.length evs <= i < List.length (new ++ evs))%nat /\
                  confirms out i
    | Raise x => exists m, x = ValueError m
    end.
Proof.
  apply ConfirmationFacts._wait_for_confirmation_loop_effect.
Qed.

(** X2. When the node never reports the transaction confirmed (it
    answers "pending", "rejected", or fails), [_wait_for_confirmation]
    polls exactly 30 times and then raises [ValueError]. *)
Theorem wait_for_confirmation_times_out
    (tx_id : pystr) (s : TradingEngine.Self) (out : Outside)
    (evs : list Event) :
  (forall i, ~ confirms out i) ->
  exists new m,
    TradingEngine._wait_for_confirmation tx_id (ConfirmationFacts.at_ s out evs)
      = (Raise (ValueError m), ConfirmationFacts.at_ s out (new ++ evs)) /\
    polls new = 30%nat.
Proof.
  intros Hnever.
  apply ConfirmationFacts._wait_for_confirmation_loop_unconfirmed;
    [exact Hnever | reflexivity].
Qed.

(** The RPC node is down: every status query raises. *)
Definition node_down : Outside :=
  {| clock := fun _ => 0;
     entropy := fun _ _ => x00;
     balance_reply := fun _ => None;
     blockhash_reply := fun _ => None;
     send_transaction_reply := fun _ => None;
     signature_status_reply := fun _ => None;
     health_reply := fun _ => false;
     http_reply := fun _ => HttpRaises;
     memory_reply := fun _ => None;
     connect_reply := fun _ => false;
     send_reply := fun _ => false |}.

Lemma wait_for_confirmation_times_out_witness :
  exists new m,
    TradingEngine._wait_for_confirmation (py "signature")
      (ConfirmationFacts.at_ (Examples.engine false 0 20000) node_down [])
      = (Raise (ValueError m),
         ConfirmationFacts.at_ (Examples.engine false 0 20000) node_down
           (new ++ [])) /\
    polls new = 30%nat.
Proof.
  apply (wait_for_confirmation_times_out (py "signature")
           (Examples.engine false 0 20000) node_down []).
  intros i [status [Hreply _]]. discriminate Hreply.
Defined.

(** X3. A "rejected" status does not end the wait.  If the first poll is
    answered with an error status and the next one with a confirmed
    status, [_wait_for_confirmation] pauses one second in between and
    returns normally after two polls. *)
Theorem rejected_status_is_polled_again
    (tx_id : pystr) (s : TradingEngine.Self) (out : Outside)
    (evs : list Event) :
  signature_status_reply out (List.length evs)
    = Some (Some {| confirmation_status := false; err := true |}) ->
  confirms out (2 + List.length evs) ->
  TradingEngine._wait_for_confirmation tx_id (ConfirmationFacts.at_ s out evs)
  = (Ok tt,
     ConfirmationFacts.at_ s out
       ([EvLog DEBUG "transaction confirmed"; EvGetSignatureStatus tx_id;
         EvSleep 1; EvGetSignatureStatus tx_id] ++ evs)).
Proof.
  intros Hfirst (status & Hsecond & Hconf).
  unfold TradingEngine._wait_for_confirmation.
  rewrite ConfirmationFacts._wait_for_confirmation_loop_round. cbv zeta.
  rewrite Hfirst. cbn [confirmation_status err Z.eqb Z.sub Z.add Z.opp Z.pos_sub
                       Pos.pred_double].
  change (0 =? 30 - 1) with false. cbv iota.
  rewrite ConfirmationFacts._wait_for_confirmation_loop_round. cbv zeta.
  unfold ConfirmationFacts.next_round. cbn [List.length].
  change (2 + List.length evs)%nat
    with (Datatypes.S (Datatypes.S (List.length evs))) in Hsecond.
  rewrite Hsecond, Hconf. reflexivity.
Qed.

(** A node that first reports the transaction rejected and from then on
    confirmed. *)
Definition rejected_then_confirmed : Outside :=
  {| clock := fun _ => 0;
     entropy := fun _ _ => x00;
     balance_reply := fun _ => None;
     blockhash_reply := fun _ => None;
     send_transaction_reply := fun _ => None;
     signature_status_reply :=
       fun i => Some (Some {| confirmation_status := negb (Nat.eqb i 0);
                              err := true |});
     health_reply := fun _ => false;
     http_reply := fun _ => HttpRaises;
     memory_reply := fun _ => None;
     connect_reply := fun _ => false;
     send_reply := fun _ => false |}.

Lemma rejected_status_is_polled_again_witness :
  TradingEngine._wait_for_confirmation (py "signature")
    (ConfirmationFacts.at_ (Examples.engine false 0 20000)
       rejected_then_confirmed [])
  = (Ok tt,
     ConfirmationFacts.at_ (Examples.engine false 0 20000)
       rejected_then_confirmed
       ([EvLog DEBUG "transaction confirmed";
         EvGetSignatureStatus (py "signature");
         EvSleep 1; EvGetSignatureStatus (py "signature")] ++ [])).
Proof.
  apply (rejected_status_is_polled_again (py "signature")
           (Examples.engine false 0 20000) rejected_then_confirmed []).
  - reflexivity.
  - eexists. split; reflexivity.
Defined.

(* ===================================================================== *)
(** ** The execution of a trade *)
(* ===================================================================== *)

(** The number of transactions submitted to the network in a run. *)
Fixpoint submissions (evs : list Event) : nat :=
  match evs with
  | [] => 0
  | EvSendTransaction _ :: evs' => Datatypes.S (submissions evs')
  | _ :: evs' => submissions evs'
  end.

(** The wire texts of the frames handed to the transport, delivered or
    not, oldest first. *)
Fixpoint wires (evs : list Event) : list pystr :=
  match evs with
  | [] => []
  | EvSend _ wire _ :: evs' => wires evs' ++ [wire]
  | _ :: evs' => wires evs'
  end.

(** The events [l] of a run that started with [evs], without [evs]. *)
Ltac prefix_of l evs :=
  lazymatch l with
  | evs => constr:(@nil Event)
  | ?n ++ evs => constr:(n)
  | ?a :: ?tl => let p := prefix_of tl evs in constr:(a :: p)
  | ?n ++ ?tl => let p := prefix_of tl evs in constr:(n ++ p)
  end.

(** Name the events a run added to [evs], and its result. *)
Ltac frame evs :=
  lazymatch goal with
  | |- exists new, exists r, (_, {| TradingEngine.self := _; TradingEngine.env :=
             {| outside := _; events := ?l |} |}) = _ /\ _ =>
      let p := prefix_of l evs in
      exists p; eexists; split;
      [ cbn [app]; rewrite <- ?app_assoc; cbn [app]; reflexivity | ]
  end.

Module TradeFacts.
Import TradingEngine.

Import ConfirmationFacts.

Lemma submissions_app (a b : list Event) :
  submissions (a ++ b) = (submissions a + submissions b)%nat.
Proof.
  induction a as [|ev a IH]; [reflexivity|].
  destruct ev; cbn [app submissions]; rewrite IH; reflexivity.
Qed.

Lemma wires_app (a b : list Event) : wires (a ++ b) = wires b ++ wires a.
Proof.
  induction a as [|ev a IH]; cbn [app wires].
  - now rewrite app_nil_r.
  - destruct ev; try exact IH. now rewrite IH, app_assoc.
Qed.

(** Where no frame was handed to the transport, none was delivered. *)
Lemma wires_nil_sent_messages (evs : list Event) :
  wires evs = [] -> sent_messages evs = [].
Proof.
  induction evs as [|ev evs IH]; [reflexivity|].
  destruct ev; cbn [wires sent_messages]; auto.
  intros H. now destruct (wires evs).
Qed.

Lemma polling_sends_nothing (evs : list Event) :
  forallb is_polling_event evs = true -> wires evs = [].
Proof.
  induction evs as [|ev evs IH]; [reflexivity|].
  cbn [forallb]. intros H. apply andb_true_iff in H. destruct H as [Hev H].
  destruct ev; try discriminate; cbn [wires]; auto.
Qed.

Lemma validation_sends_nothing (evs : list Event) :
  EngineFacts.only_validation evs -> wires evs = [].
Proof.
  unfold EngineFacts.only_validation.
  induction evs as [|ev evs IH]; [reflexivity|].
  cbn [forallb]. intros H. apply andb_true_iff in H. destruct H as [Hev H].
  destruct ev; try discriminate; cbn [wires]; auto.
Qed.

Lemma polling_submits_nothing (evs : list Event) :
  forallb is_polling_event evs = true -> submissions evs = 0%nat.
Proof.
  induction evs as [|ev evs IH]; [reflexivity|].
  cbn [forallb]. intros H. apply andb_true_iff in H. destruct H as [Hev H].
  destruct ev; try discriminate; cbn [submissions]; auto.
Qed.

Lemma validation_submits_nothing (evs : list Event) :
  EngineFacts.only_validation evs -> submissions evs = 0%nat.
Proof.
  unfold EngineFacts.only_validation.
  induction evs as [|ev evs IH]; [reflexivity|].
  cbn [forallb]. intros H. apply andb_true_iff in H. destruct H as [Hev H].
  destruct ev; try discriminate; cbn [submissions]; auto.
Qed.

Ltac flat := cbn [app]; rewrite <- ?app_assoc; cbn [app]; rewrite <- ?app_assoc.

Ltac no_submission :=
  repeat (progress (cbn [submissions wires];
                    rewrite ?submissions_app, ?wires_app));
  repeat match goal with
  | H : submissions _ = _ |- _ => rewrite H
  | H : wires _ = _ |- _ => rewrite H
  end; cbn [Nat.add app]; try reflexivity; try lia.

Ltac quiet := split; no_submission.

Section WithLibs.
Context {L : Libs}.

(** The token lookup never fails and only queries the price service. *)
Lemma _get_token_info_effect (token : pyval) (s : Self) (out : Outside)
    (evs : list Event) :
  exists new v,
    _get_token_info token (at_ s out evs) = (Ok v, at_ s out (new ++ evs)) /\
    submissions new = 0%nat /\ wires new = [].
Proof.
  unfold _get_token_info, at_. run_M.
  destruct (http_reply out (List.length evs)) as [|code|data]; run_M.
  - eexists [_; _], _. repeat split.
  - eexists [_], _. repeat split.
  - destruct (obj_get data _ _) as [inner|x]; run_M.
    + destruct (obj_get inner _ _) as [v|x]; run_M.
      * eexists [_], _. repeat split.
      * eexists [_; _], _. repeat split.
    + eexists [_; _], _. repeat split.
Qed.

Lemma _calculate_token_amount_effect (token amount : pyval) (s : Self)
    (out : Outside) (evs : list Event) :
  exists new r,
    _calculate_token_amount token amount (at_ s out evs)
      = (r, at_ s out (new ++ evs)) /\
    submissions new = 0%nat /\ wires new = [].
Proof.
  unfold _calculate_token_amount.
  destruct (_get_token_info_effect token s out evs)
    as (n1 & v & Hrun & H1 & W1).
  unfold at_ in *. run_M. rewrite Hrun. run_M.
  destruct (truthy v); run_M;
    [destruct (obj_get v _ _) as [price|]; run_M;
       [destruct (py_float price) as [price_sol|]; run_M;
          [destruct (Qle_bool price_sol 0); run_M|]|]|];
    destruct (number amount) as [a|]; run_M;
    frame evs; quiet.
Qed.

Lemma _build_pump_transaction_effect (token amount : pyval) (token_amount : Z)
    (slippage : pyval) (s : Self) (out : Outside) (evs : list Event) :
  exists new r,
    _build_pump_transaction token amount token_amount slippage (at_ s out evs)
      = (r, at_ s out (new ++ evs)) /\
    submissions new = 0%nat /\ wires new = [].
Proof.
  unfold _build_pump_transaction, at_. run_M.
  destruct (blockhash_reply out (List.length evs)); run_M;
    [destruct (trading_keypair s); run_M|];
    frame evs; quiet.
Qed.

(** What a real trade does.  When it returns, the result reports a
    success, exactly one transaction was submitted and seen confirmed,
    and the amount was added to the daily volume.  When it fails, it
    raises [ValueError], the engine is as before, and at most one
    transaction was submitted. *)
Lemma _execute_real_trade_effect (token amount slippage : pyval) (start : Z)
    (s : Self) (out : Outside) (evs : list Event) :
  exists new r,
    match r with
    | Ok res =>
        exists a,
          as_number amount = Some a /\
          _execute_real_trade token amount slippage start (at_ s out evs)
          = (Ok res,
             at_ (set_daily_volume_used (daily_volume_used s + a) s) out
                 (new ++ evs)) /\
          success res = true /\
          error_message res = None /\
          (exists tx, transaction_id res = Some tx) /\
          amount_sol res = amount /\
          token_address res = token /\
          (exists ms, execution_time_ms res = Some ms) /\
          submissions new = 1%nat /\
          wires new = [] /\
          exists i, (List.length evs <= i < List.length (new ++ evs))%nat /\
                    confirms out i
    | Raise x =>
        _execute_real_trade token amount slippage start (at_ s out evs)
        = (Raise x, at_ s out (new ++ evs)) /\
        (exists m, x = ValueError m) /\
        (submissions new <= 1)%nat /\
        wires new = []
    end.
Proof.
  unfold _execute_real_trade.
  destruct (_get_token_info_effect token s out evs)
    as (n1 & info & Hrun1 & H1 & W1).
  unfold at_ in *. run_M. rewrite Hrun1. run_M.
  destruct (truthy info); run_M.
  2:{ eexists (_ :: n1), (Raise _). split; [reflexivity|].
      split; [eauto | quiet]. }
  destruct (_calculate_token_amount_effect token amount s out (n1 ++ evs))
    as (n2 & r2 & Hrun2 & H2 & W2).
  unfold at_ in *. rewrite Hrun2. destruct r2 as [token_amount|x]; run_M.
  2:{ eexists (_ :: n2 ++ n1), (Raise _). flat.
      split; [reflexivity|]. split; [eauto | quiet]. }
  destruct (_build_pump_transaction_effect token amount token_amount slippage
              s out (n2 ++ n1 ++ evs)) as (n3 & r3 & Hrun3 & H3 & W3).
  unfold at_ in *. rewrite Hrun3. destruct r3 as [transaction|x]; run_M.
  2:{ eexists (_ :: n3 ++ n2 ++ n1), (Raise _). flat.
      split; [reflexivity|]. split; [eauto | quiet]. }
  destruct (trading_keypair s) as [kp|]; run_M.
  2:{ eexists (_ :: n3 ++ n2 ++ n1), (Raise _). flat.
      split; [reflexivity|]. split; [eauto | quiet]. }
  destruct (send_transaction_reply out _) as [tx_id|]; run_M.
  2:{ eexists (_ :: _ :: n3 ++ n2 ++ n1), (Raise _). flat.
      split; [reflexivity|]. split; [eauto | quiet]. }
  match goal with
  | |- context [_wait_for_confirmation tx_id
                  {| self := s; env := {| outside := out; events := ?l |} |}] =>
      destruct (ConfirmationFacts._wait_for_confirmation_loop_effect
                  30 0 30 tx_id s out l) as (n4 & r4 & Hrun4 & Hev & _ & Hr4)
  end.
  pose proof (polling_sends_nothing _ Hev) as W4.
  apply polling_submits_nothing in Hev.
  unfold at_, _wait_for_confirmation in *. rewrite Hrun4.
  destruct r4 as [[]|x]; run_M.
  2:{ eexists (_ :: n4 ++ _ :: n3 ++ n2 ++ n1), (Raise _). flat.
      split; [reflexivity|]. split; [eauto | quiet]. }
  unfold py_radd. destruct (as_number amount) as [a|]; run_M.
  2:{ eexists (_ :: _ :: n4 ++ _ :: n3 ++ n2 ++ n1), (Raise _). flat.
      split; [reflexivity|]. split; [eauto | quiet]. }
  eexists (_ :: _ :: _ :: n4 ++ _ :: n3 ++ n2 ++ n1), (Ok _).
  exists a. split; [reflexivity|]. flat.
  split; [reflexivity|]. cbn [success error_message transaction_id amount_sol
                              execution_time_ms token_address].
  repeat split; eauto; [no_submission | no_submission |].
  destruct Hr4 as (i & Hi & Hc). exists i. split; [|exact Hc].
  cbn [List.length app] in *. rewrite ?length_app in *.
  cbn [List.length] in *. rewrite ?length_app in *. lia.
Qed.

(** The statistics after a result with the numeric amount [a] was
    recorded. *)
Definition recorded (res : TradeResult) (a : Q) (st : TradeStats)
  : TradeStats :=
  {| total_trades := total_trades st + 1;
     successful_trades :=
       if success res then successful_trades st + 1 else successful_trades st;
     failed_trades :=
       if success res then failed_trades st else failed_trades st + 1;
     total_volume_sol :=
       if success res && truthy (amount_sol res)
       then (total_volume_sol st + a)%Q else total_volume_sol st;
     average_execution_time :=
       match execution_time_ms res with
       | Some ms =>
           if ms =? 0 then average_execution_time st
           else ((average_execution_time st * inject_Z (total_trades st + 1 - 1)
                  + inject_Z ms) / inject_Z (total_trades st + 1))%Q
       | None => average_execution_time st
       end |}.

(** Recording a result whose amount is a number cannot fail, and touches
    the statistics only. *)
Lemma _update_trade_stats_run (res : TradeResult) (a : Q) (s : Self)
    (out : Outside) (evs : list Event) :
  as_number (amount_sol res) = Some a ->
  _update_trade_stats res (at_ s out evs)
  = (Ok tt, at_ (set_trade_stats (recorded res a (trade_stats s)) s) out evs).
Proof.
  intros Ha.
  unfold _update_trade_stats, at_, py_radd, recorded, set_trade_stats.
  rewrite Ha. run_M.
  destruct (success res); run_M;
    [destruct (truthy (amount_sol res)); run_M|];
    (destruct (execution_time_ms res) as [ms|]; run_M;
       [destruct (ms =? 0); run_M|]);
    reflexivity.
Qed.

(** A validation that passes has checked the daily limit for the amount
    of the command, on the engine it leaves behind. *)
Lemma validate_passed (command : dict) (s0 s : Self) (e : Env) (st1 : State) :
  EngineFacts.validate command s0 {| self := s; env := e |} = (Ok tt, st1) ->
  exists a new,
    as_number (EngineFacts.amount_of command s0) = Some a /\
    self st1 = EngineFacts.after_reset
                 (date_of (EngineFacts.next_instant
                             (EngineFacts.extend [EvLog INFO "executing pump"] e)))
                 s /\
    env st1 = EngineFacts.extend new e /\
    EngineFacts.only_validation new /\
    Qlt_bool (daily_volume_limit (self st1))
             (daily_volume_used (self st1) + a) = false.
Proof.
  destruct e as [out evs]. unfold EngineFacts.validate. run_M.
  destruct (truthy (get command "token_address")); run_M; [|discriminate].
  destruct (trading_keypair s) as [kp|] eqn:Hkp; run_M; [|discriminate].
  destruct (as_number (EngineFacts.amount_of command s0)) as [a|] eqn:Ha.
  - rewrite (EngineFacts._check_trade_limits_run _ a s _ Ha). cbv zeta.
    unfold EngineFacts.next_instant, EngineFacts.extend.
    cbn [outside events app List.length].
    set (s1 := EngineFacts.after_reset _ s).
    assert (Hkp1 : trading_keypair s1 = Some kp).
    { subst s1. unfold EngineFacts.after_reset.
      destruct (last_reset_day s <? _); exact Hkp. }
    rewrite Hkp1.
    repeat match goal with
    | |- context [if Qlt_bool ?x ?y then _ else _] =>
        destruct (Qlt_bool x y) eqn:?; [discriminate|]
    end.
    intros [= <-]. exists a. eexists (_ ++ [_; _]).
    split; [reflexivity|]. split; [reflexivity|].
    cbn [env self]. rewrite <- app_assoc. split; [reflexivity|].
    split; [|assumption].
    unfold EngineFacts.only_validation. rewrite forallb_app.
    now rewrite EngineFacts.balance_events_quiet.
  - unfold _check_trade_limits, py_gt. rewrite Ha. run_M.
    destruct (last_reset_day s <? _); run_M; discriminate.
Qed.

(** The daily reset keeps the volume within a non-negative limit. *)
Lemma after_reset_within (today : Z) (s : Self) :
  (0 <= daily_volume_limit s)%Q ->
  (daily_volume_used s <= daily_volume_limit s)%Q ->
  (daily_volume_used (EngineFacts.after_reset today s)
   <= daily_volume_limit (EngineFacts.after_reset today s))%Q.
Proof.
  intros H0 H. unfold EngineFacts.after_reset.
  destruct (last_reset_day s <? today); [exact H0 | exact H].
Qed.

Lemma after_reset_fields (today : Z) (s : Self) :
  config (EngineFacts.after_reset today s) = config s /\
  daily_volume_limit (EngineFacts.after_reset today s) = daily_volume_limit s /\
  trading_keypair (EngineFacts.after_reset today s) = trading_keypair s /\
  trade_stats (EngineFacts.after_reset today s) = trade_stats s.
Proof.
  unfold EngineFacts.after_reset.
  destruct (last_reset_day s <? today); repeat split.
Qed.

(** Everything the properties below need to know about one call of
    [execute_pump_trade]. *)
Record outcome (command : dict) (s : Self) (out : Outside)
    (evs new : list Event) (res : TradeResult) (s' : Self) : Prop := {
  outcome_submissions : (submissions new <= 1)%nat;
  outcome_mock :
    Config.mock_trading (config s) = true -> submissions new = 0%nat;
  outcome_config : config s' = config s;
  outcome_limit : daily_volume_limit s' = daily_volume_limit s;
  outcome_keypair : trading_keypair s' = trading_keypair s;
  outcome_within :
    (0 <= daily_volume_limit s)%Q ->
    (daily_volume_used s <= daily_volume_limit s)%Q ->
    (daily_volume_used s' <= daily_volume_limit s')%Q;
  outcome_silent : wires new = [];
  outcome_fields :
    token_address res = get command "token_address" /\
    (amount_sol res = get command "amount_sol" \/
     amount_sol res = EngineFacts.amount_of command s);
  outcome_result :
    if success res
    then error_message res = None /\
         (exists tx, transaction_id res = Some tx) /\
         (Config.mock_trading (config s) = true ->
          trade_stats s' = trade_stats s) /\
         (Config.mock_trading (config s) = false ->
          submissions new = 1%nat /\
          (exists i, (List.length evs <= i < List.length (new ++ evs))%nat /\
                     confirms out i) /\
          exists a, as_number (amount_sol res) = Some a /\
                    trade_stats s' = recorded res a (trade_stats s))
    else (exists m, error_message res = Some m) /\
         transaction_id res = None /\
         trade_stats s' = trade_stats s
}.

Lemma execute_pump_trade_outcome (command : dict) (s : Self) (out : Outside)
    (evs : list Event) :
  exists new res s',
    execute_pump_trade command (at_ s out evs)
    = (Ok res, at_ s' out (new ++ evs)) /\
    outcome command s out evs new res s'.
Proof.
  unfold at_. rewrite EngineFacts.execute_pump_trade_shape. run_M.
  destruct (EngineFacts.validate command s _) as [[[]|x] st1] eqn:Hv.
  - (* the validation passed *)
    apply validate_passed in Hv.
    destruct Hv as (a & n1 & Ha & Hs1 & He1 & Hq1 & Hlim).
    pose proof (validation_sends_nothing _ Hq1) as Wq1.
    apply validation_submits_nothing in Hq1.
    destruct st1 as [s1 e1]. cbn [self env] in *. subst e1.
    unfold EngineFacts.extend. cbn [outside events app].
    set (today := date_of _) in Hs1.
    destruct (after_reset_fields today s) as (Hcfg & Hl & Hk & Hts).
    rewrite <- Hs1 in Hcfg, Hl, Hk, Hts.
    unfold EngineFacts.execute_validated. run_M.
    destruct (Config.mock_trading (config s1)) eqn:Hmock.
    + (* simulation *)
      unfold _mock_trade. run_M.
      eexists (_ :: _ :: _ :: _ :: _ :: n1 ++ [_]), _, s1. flat.
      split; [reflexivity|].
      constructor; try assumption; cbn [success error_message transaction_id].
      * no_submission.
      * intros _. no_submission.
      * intros H0 H. rewrite Hs1. now apply after_reset_within.
      * no_submission.
      * split; [reflexivity | right; reflexivity].
      * rewrite <- Hcfg, Hmock. split; [reflexivity|]. split; [eauto|].
        split; [intros _; exact Hts | discriminate].
    + (* real trade *)
      match goal with
      | |- context [_execute_real_trade ?t ?am ?sl ?st
                      {| self := s1; env := {| outside := out; events := ?l |} |}] =>
          destruct (_execute_real_trade_effect t am sl st s1 out l)
            as (n2 & r2 & Hr2)
      end.
      unfold at_ in Hr2. destruct r2 as [res|x].
      * destruct Hr2 as (a' & Ha' & Hrun & Hsucc & Herr & Htx & Ham & Htok & Hms
                         & Hsub & W2 & i & Hi & Hconf).
        rewrite Hrun. run_M.
        rewrite Ha in Ha'. injection Ha' as <-.
        match goal with
        | |- context [_update_trade_stats res
                        {| self := ?s2; env := {| outside := out; events := ?l |} |}] =>
            pose proof (_update_trade_stats_run res a s2 out l
                          ltac:(rewrite Ham; exact Ha)) as Hrun3
        end.
        unfold at_ in Hrun3. rewrite Hrun3. run_M.
        eexists (n2 ++ n1 ++ [_]), _, _. flat. split; [reflexivity|].
        constructor; cbn [config daily_volume_limit trading_keypair
                          daily_volume_used set_trade_stats
                          set_daily_volume_used];
          try assumption.
        -- no_submission.
        -- rewrite <- Hcfg, Hmock. discriminate.
        -- intros _ _. now apply Qlt_bool_false_iff.
        -- no_submission.
        -- rewrite Htok, Ham. split; [reflexivity | right; reflexivity].
        -- rewrite Hsucc. split; [assumption|]. split; [assumption|].
           rewrite <- Hcfg, Hmock. split; [discriminate|]. intros _.
           split; [no_submission|]. split.
           ++ exists i. split; [|exact Hconf].
              cbn [List.length app] in *. rewrite ?length_app in *.
              cbn [List.length] in *. lia.
           ++ exists a. split; [rewrite Ham; exact Ha|].
              cbn [trade_stats]. now rewrite Hts.
      * destruct Hr2 as (Hrun & (m & ->) & Hsub & W2).
        rewrite Hrun. unfold EngineFacts.rejected. run_M.
        eexists (_ :: _ :: _ :: n2 ++ n1 ++ [_]), _, s1. flat.
        split; [reflexivity|].
        constructor; try assumption;
          cbn [success error_message transaction_id].
        -- no_submission.
        -- rewrite <- Hcfg, Hmock. discriminate.
        -- intros H0 H. rewrite Hs1. now apply after_reset_within.
        -- no_submission.
        -- split; [reflexivity | left; reflexivity].
        -- repeat split; eauto.
  - (* the validation failed *)
    pose proof (EngineFacts.validate_effect command s s _ _ _ Hv) as [Hs1 Hq].
    destruct Hq as (n1 & He1 & Hq1).
    pose proof (validation_sends_nothing _ Hq1) as Wq1.
    apply validation_submits_nothing in Hq1.
    destruct st1 as [s1 e1]. cbn [self env] in *. subst e1.
    unfold EngineFacts.extend. cbn [outside events app].
    unfold EngineFacts.rejected. run_M.
    eexists (_ :: _ :: _ :: n1 ++ [_]), _, s1. flat.
    split; [reflexivity|].
    assert (Hf : config s1 = config s /\
                 daily_volume_limit s1 = daily_volume_limit s /\
                 trading_keypair s1 = trading_keypair s /\
                 trade_stats s1 = trade_stats s).
    { destruct Hs1 as [->| ->]; [repeat split | apply after_reset_fields]. }
    destruct Hf as (Hcfg & Hl & Hk & Hts).
    constructor; try assumption; cbn [success error_message transaction_id].
    + no_submission.
    + intros _. no_submission.
    + intros H0 H. destruct Hs1 as [->| ->];
        [exact H | now apply after_reset_within].
    + no_submission.
    + split; [reflexivity | left; reflexivity].
    + repeat split; eauto.
Qed.

End WithLibs.
End TradeFacts.

(** X4. [execute_pump_trade] never raises: whatever the command and
    whatever the node, the price service and the clock answer, it returns
    a result.  A result with [success = True] carries a transaction id and
    no error message; a result with [success = False] carries an error
    message and no transaction id. *)
Theorem execute_pump_trade_always_returns {L : Libs}
    (command : dict) (st : TradingEngine.State) :
  exists res st',
    TradingEngine.execute_pump_trade command st = (Ok res, st') /\
    (TradingEngine.success res = true ->
     TradingEngine.error_message res = None /\
     exists tx, TradingEngine.transaction_id res = Some tx) /\
    (TradingEngine.success res = false ->
     (exists m, TradingEngine.error_message res = Some m) /\
     TradingEngine.transaction_id res = None).
Proof.
  destruct st as [s [out evs]].
  destruct (TradeFacts.execute_pump_trade_outcome command s out evs)
    as (new & res & s' & Hrun & H).
  exists res. eexists. split; [exact Hrun|].
  pose proof (TradeFacts.outcome_result _ _ _ _ _ _ _ H) as Hres.
  destruct (TradingEngine.success res).
  - split; [intros _ | discriminate]. destruct Hres as (He & Htx & _).
    now split.
  - split; [discriminate | intros _]. destruct Hres as (He & Htx & _).
    now split.
Qed.

(** X5. The daily limit is an invariant of the engine.  If the limit is
    not negative and the volume used is within it, then after any call of
    [execute_pump_trade] the limit is the same and the volume used is
    still within it. *)
Theorem daily_volume_stays_within_limit {L : Libs}
    (command : dict) (s : TradingEngine.Self) (e : Env) :
  (0 <= TradingEngine.daily_volume_limit s)%Q ->
  (TradingEngine.daily_volume_used s <= TradingEngine.daily_volume_limit s)%Q ->
  let s' := TradingEngine.self
              (snd (TradingEngine.execute_pump_trade command
                      {| TradingEngine.self := s; TradingEngine.env := e |})) in
  TradingEngine.daily_volume_limit s' = TradingEngine.daily_volume_limit s /\
  (TradingEngine.daily_volume_used s' <= TradingEngine.daily_volume_limit s)%Q.
Proof.
  intros H0 Hused. destruct e as [out evs].
  destruct (TradeFacts.execute_pump_trade_outcome command s out evs)
    as (new & res & s' & Hrun & H).
  unfold ConfirmationFacts.at_ in Hrun. cbv zeta. rewrite Hrun.
  cbn [snd TradingEngine.self].
  split; [apply (TradeFacts.outcome_limit _ _ _ _ _ _ _ H)|].
  rewrite <- (TradeFacts.outcome_limit _ _ _ _ _ _ _ H).
  now apply (TradeFacts.outcome_within _ _ _ _ _ _ _ H).
Qed.

(** A real trade of 0.01 SOL on an engine that has used 9.995 of its 10
    SOL: the volume used stays within the limit. *)
Lemma daily_volume_stays_within_limit_witness :
  let s := Examples.engine false (9995 # 1000) 20000 in
  let s' := TradingEngine.self
              (snd (TradingEngine.execute_pump_trade (L := ToyLibs.toy)
                      (Examples.pump_command (1 # 100))
                      {| TradingEngine.self := s;
                         TradingEngine.env := Examples.env0 (Some 5000000000) |})) in
  TradingEngine.daily_volume_limit s' = TradingEngine.daily_volume_limit s /\
  (TradingEngine.daily_volume_used s' <= TradingEngine.daily_volume_limit s)%Q.
Proof.
  apply (@daily_volume_stays_within_limit ToyLibs.toy
           (Examples.pump_command (1 # 100))
           (Examples.engine false (9995 # 1000) 20000)
           (Examples.env0 (Some 5000000000))).
  - unfold Qle; cbn; lia.
  - unfold Qle; cbn; lia.
Defined.

(** X6. One command submits at most one transaction.  In simulation mode
    it submits none.  In real mode a result with [success = True] means
    that exactly one transaction was submitted and that a status poll of
    this call was answered "confirmed". *)
Theorem at_most_one_transaction_per_command {L : Libs}
    (command : dict) (s : TradingEngine.Self) (out : Outside)
    (evs : list Event) :
  exists new res s',
    TradingEngine.execute_pump_trade command (ConfirmationFacts.at_ s out evs)
    = (Ok res, ConfirmationFacts.at_ s' out (new ++ evs)) /\
    (submissions new <= 1)%nat /\
    (Config.mock_trading (TradingEngine.config s) = true ->
     submissions new = 0%nat) /\
    (Config.mock_trading (TradingEngine.config s) = false ->
     TradingEngine.success res = true ->
     submissions new = 1%nat /\
     exists i, (List.length evs <= i < List.length (new ++ evs))%nat /\
               confirms out i).
Proof.
  destruct (TradeFacts.execute_pump_trade_outcome command s out evs)
    as (new & res & s' & Hrun & H).
  exists new, res, s'. split; [exact Hrun|].
  split; [apply (TradeFacts.outcome_submissions _ _ _ _ _ _ _ H)|].
  split; [apply (TradeFacts.outcome_mock _ _ _ _ _ _ _ H)|].
  intros Hreal Hsucc.
  pose proof (TradeFacts.outcome_result _ _ _ _ _ _ _ H) as Hres.
  rewrite Hsucc in Hres. destruct Hres as (_ & _ & _ & Hres).
  destruct (Hres Hreal) as (Hsub & Hconf & _). now split.
Qed.

(** X7. Only a successful real trade is counted.  A call of
    [execute_pump_trade] never changes [failed_trades]; it either leaves
    [trade_stats] as it was, or it ran in real mode, reports a success,
    and has added one to [total_trades] and one to
    [successful_trades]. *)
Theorem only_successful_real_trades_are_counted {L : Libs}
    (command : dict) (st : TradingEngine.State) :
  let run := TradingEngine.execute_pump_trade command st in
  let before := TradingEngine.trade_stats (TradingEngine.self st) in
  let after := TradingEngine.trade_stats (TradingEngine.self (snd run)) in
  TradingEngine.failed_trades after = TradingEngine.failed_trades before /\
  (after = before \/
   Config.mock_trading (TradingEngine.config (TradingEngine.self st)) = false /\
   (exists res, fst run = Ok res /\ TradingEngine.success res = true) /\
   TradingEngine.total_trades after = TradingEngine.total_trades before + 1 /\
   TradingEngine.successful_trades after
   = TradingEngine.successful_trades before + 1).
Proof.
  destruct st as [s [out evs]].
  destruct (TradeFacts.execute_pump_trade_outcome command s out evs)
    as (new & res & s' & Hrun & H).
  unfold ConfirmationFacts.at_ in Hrun. cbv zeta. rewrite Hrun.
  cbn [fst snd TradingEngine.self].
  pose proof (TradeFacts.outcome_result _ _ _ _ _ _ _ H) as Hres.
  destruct (TradingEngine.success res) eqn:Hsucc.
  - destruct Hres as (_ & _ & Hmock & Hreal).
    destruct (Config.mock_trading (TradingEngine.config s)).
    + rewrite (Hmock eq_refl). split; [reflexivity | now left].
    + destruct (Hreal eq_refl) as (_ & _ & a & _ & ->).
      unfold TradeFacts.recorded. rewrite Hsucc.
      cbn [TradingEngine.failed_trades TradingEngine.total_trades
           TradingEngine.successful_trades].
      split; [reflexivity|]. right. repeat split. now exists res.
  - destruct Hres as (_ & _ & ->). split; [reflexivity | now left].
Qed.

(* ===================================================================== *)
(** ** The statistics of the engine *)
(* ===================================================================== *)

(** The counters as [execute_pump_trade] keeps them: no failure is ever
    recorded, so every recorded trade is a success. *)
Definition only_successes (st : TradingEngine.TradeStats) : Prop :=
  TradingEngine.failed_trades st = 0 /\
  TradingEngine.successful_trades st = TradingEngine.total_trades st /\
  0 <= TradingEngine.total_trades st.

Module StatsInvariants.
Import TradingEngine.

Lemma success_rate_none (st : TradeStats) :
  successful_trades st = total_trades st -> total_trades st = 0 ->
  (EngineReport.success_rate st == 0)%Q.
Proof.
  intros Hs Ht. unfold EngineReport.success_rate. rewrite Hs, Ht.
  reflexivity.
Qed.

Lemma success_rate_all (st : TradeStats) :
  successful_trades st = total_trades st -> 0 < total_trades st ->
  (EngineReport.success_rate st == 100)%Q.
Proof.
  intros Hs Ht. unfold EngineReport.success_rate. rewrite Hs.
  rewrite Z.max_l by lia.
  assert (Hnz : ~ (inject_Z (total_trades st) == 0)%Q).
  { unfold Qeq. cbn. lia. }
  field. exact Hnz.
Qed.

(** The first execution time recorded becomes the average. *)
Lemma recorded_first (res : TradeResult) (a : Q) (st : TradeStats) (ms : Z) :
  execution_time_ms res = Some ms -> ms <> 0 -> total_trades st = 0 ->
  (average_execution_time st == 0)%Q ->
  (average_execution_time (TradeFacts.recorded res a st) == inject_Z ms)%Q.
Proof.
  intros Hms Hnz Ht Havg. unfold TradeFacts.recorded.
  cbn [average_execution_time]. rewrite Hms, Ht.
  destruct (Z.eqb_spec ms 0) as [->|_]; [contradiction|].
  change (inject_Z (0 + 1 - 1)) with 0%Q.
  change (inject_Z (0 + 1)) with 1%Q.
  rewrite Havg. field.
Qed.

(** A result without execution time, or with the time 0, leaves the
    average alone. *)
Lemma recorded_untimed (res : TradeResult) (a : Q) (st : TradeStats) :
  execution_time_ms res = None \/ execution_time_ms res = Some 0 ->
  average_execution_time (TradeFacts.recorded res a st)
  = average_execution_time st.
Proof.
  unfold TradeFacts.recorded. cbn [average_execution_time].
  intros [-> | ->]; reflexivity.
Qed.

End StatsInvariants.

(** X8. What [_update_trade_stats] does to the average execution
    time.  Recording a result with a numeric amount returns normally and
    counts one more trade.  A result whose execution time is 0, or
    missing, is counted all the same, but the average is left as it was:
    the test [if result.execution_time_ms] takes 0 for no time at all.
    On an engine that has recorded nothing yet (no trade counted, average
    0.0), a result with an execution time [ms] other than 0 (and below
    2^53 in size, so that it is a float) makes the average [ms]. *)
Theorem average_execution_time_leaves_out_zero_times
    (res : TradingEngine.TradeResult) (a : Q)
    (s : TradingEngine.Self) (e : Env) :
  as_number (TradingEngine.amount_sol res) = Some a ->
  let run := TradingEngine._update_trade_stats res
               {| TradingEngine.self := s; TradingEngine.env := e |} in
  let before := TradingEngine.trade_stats s in
  let after := TradingEngine.trade_stats (TradingEngine.self (snd run)) in
  fst run = Ok tt /\
  TradingEngine.total_trades after = TradingEngine.total_trades before + 1 /\
  (TradingEngine.execution_time_ms res = None \/
   TradingEngine.execution_time_ms res = Some 0 ->
   TradingEngine.average_execution_time after
   = TradingEngine.average_execution_time before) /\
  (forall ms : Z,
     TradingEngine.execution_time_ms res = Some ms ->
     ms <> 0 -> Z.abs ms < 2 ^ 53 ->
     TradingEngine.total_trades before = 0 ->
     (TradingEngine.average_execution_time before == 0)%Q ->
     (TradingEngine.average_execution_time after == inject_Z ms)%Q).
Proof.
  intros Ha. destruct e as [out evs].
  pose proof (TradeFacts._update_trade_stats_run res a s out evs Ha) as Hrun.
  unfold ConfirmationFacts.at_ in Hrun. cbv zeta. rewrite Hrun.
  cbn [fst snd TradingEngine.self TradingEngine.trade_stats
       TradingEngine.set_trade_stats].
  split; [reflexivity|]. split; [reflexivity|]. split.
  - apply StatsInvariants.recorded_untimed.
  - intros ms Hms Hnz _ Ht Havg.
    now apply StatsInvariants.recorded_first.
Qed.

(** A first trade of 250 ms on a new engine, and a trade of 0 ms. *)
Lemma average_execution_time_leaves_out_zero_times_witness :
  let result (ms : Z) :=
    {| TradingEngine.success := true;
       TradingEngine.transaction_id := Some (py "signature");
       TradingEngine.error_message := None;
       TradingEngine.token_address := PStr (py "TOKEN1");
       TradingEngine.amount_sol := PFloat (1 # 100);
       TradingEngine.price_impact := None;
       TradingEngine.gas_used := None;
       TradingEngine.execution_time_ms := Some ms;
       TradingEngine.timestamp := None |} in
  let s := Examples.engine false 0 20000 in
  let after (ms : Z) :=
    TradingEngine.trade_stats
      (TradingEngine.self
         (snd (TradingEngine._update_trade_stats (result ms)
                 {| TradingEngine.self := s;
                    TradingEngine.env := Examples.env0 None |}))) in
  (TradingEngine.average_execution_time (after 250%Z) == 250)%Q /\
  TradingEngine.total_trades (after 0) = 1 /\
  TradingEngine.average_execution_time (after 0)
  = TradingEngine.average_execution_time (TradingEngine.trade_stats s).
Proof.
  intros result s after.
  destruct (average_execution_time_leaves_out_zero_times (result 250)
              (1 # 100) s (Examples.env0 None) eq_refl)
    as (_ & _ & _ & Hfirst).
  destruct (average_execution_time_leaves_out_zero_times (result 0)
              (1 # 100) s (Examples.env0 None) eq_refl)
    as (_ & Hcount & Hzero & _).
  split; [|split].
  - apply (Hfirst 250); [reflexivity | discriminate | reflexivity
                        | reflexivity | reflexivity].
  - exact Hcount.
  - apply Hzero. right. reflexivity.
Defined.

(** X9. The success rate [get_stats] reports is 0 or 100.  A new engine
    has recorded only successes (none); [execute_pump_trade] keeps it that
    way; and on such statistics [get_stats] gives the [success_rate] 0
    when no trade was recorded and 100 otherwise, and [failed_trades]
    0. *)
Theorem success_rate_is_0_or_100 {L : Libs}
    (command : dict) (s : TradingEngine.Self) (e : Env)
    (cfg : Config.WorkerConfig) (today : Z) :
  only_successes (TradingEngine.trade_stats (TradingEngine.__init__ cfg today)) /\
  (only_successes (TradingEngine.trade_stats s) ->
   let s' := TradingEngine.self
               (snd (TradingEngine.execute_pump_trade command
                       {| TradingEngine.self := s; TradingEngine.env := e |})) in
   only_successes (TradingEngine.trade_stats s') /\
   get (EngineReport.get_stats s') "failed_trades" = PInt 0 /\
   exists rate,
     get (EngineReport.get_stats s') "success_rate" = PFloat rate /\
     (TradingEngine.total_trades (TradingEngine.trade_stats s') = 0 ->
      (rate == 0)%Q) /\
     (TradingEngine.total_trades (TradingEngine.trade_stats s') <> 0 ->
      (rate == 100)%Q)).
Proof.
  split; [repeat split; cbn; lia|].
  intros (Hf & Hs & Ht).
  pose proof (only_successful_real_trades_are_counted command
                {| TradingEngine.self := s; TradingEngine.env := e |}) as Hstep.
  cbv zeta in Hstep |- *. cbn [TradingEngine.self] in Hstep.
  set (s' := TradingEngine.self (snd _)) in *.
  destruct Hstep as (Hf' & Hstep).
  assert (Hinv : only_successes (TradingEngine.trade_stats s')).
  { destruct Hstep as [->|(_ & _ & Ht' & Hs')]; [now repeat split|].
    repeat split; lia. }
  split; [exact Hinv|]. destruct Hinv as (Hf1 & Hs1 & Ht1).
  split; [change (PInt (TradingEngine.failed_trades
                          (TradingEngine.trade_stats s')) = PInt 0);
          now rewrite Hf1|].
  exists (EngineReport.success_rate (TradingEngine.trade_stats s')).
  split; [reflexivity|]. split.
  - now apply StatsInvariants.success_rate_none.
  - intros Hnz. apply StatsInvariants.success_rate_all; [exact Hs1 | lia].
Qed.

(** A real trade on a fresh engine: one success, rate 100. *)
Lemma success_rate_is_0_or_100_witness :
  let s := Examples.engine false 0 20000 in
  let s' := TradingEngine.self
              (snd (TradingEngine.execute_pump_trade (L := ToyLibs.toy)
                      (Examples.pump_command (1 # 100))
                      {| TradingEngine.self := s;
                         TradingEngine.env := Examples.env0 (Some 5000000000) |})) in
  only_successes (TradingEngine.trade_stats s') /\
  get (EngineReport.get_stats s') "failed_trades" = PInt 0 /\
  exists rate,
    get (EngineReport.get_stats s') "success_rate" = PFloat rate /\
    (TradingEngine.total_trades (TradingEngine.trade_stats s') = 0 ->
     (rate == 0)%Q) /\
    (TradingEngine.total_trades (TradingEngine.trade_stats s') <> 0 ->
     (rate == 100)%Q).
Proof.
  apply (proj2 (@success_rate_is_0_or_100 ToyLibs.toy
                  (Examples.pump_command (1 # 100))
                  (Examples.engine false 0 20000)
                  (Examples.env0 (Some 5000000000))
                  (Examples.cfg false) 20000)).
  repeat split; cbn; lia.
Defined.

(* ===================================================================== *)
(** ** Settings, initialization and the first command *)
(* ===================================================================== *)

Module InitFacts.
Import TradingEngine.

Section WithLibs.
Context {L : Libs}.

(** What a command that fails its validation leaves behind. *)
Lemma rejected_outcome (command : dict) (s : Self) (e : Env) (x : exc)
    (st1 : State) :
  EngineFacts.validate command s
    {| self := s; env := EngineFacts.extend [EvNow] e |} = (Raise x, st1) ->
  exists res new s',
    execute_pump_trade command {| self := s; env := e |}
    = (Ok res, {| self := s'; env := EngineFacts.extend new e |}) /\
    success res = false /\
    error_message res = Some (py (str_exc x)) /\
    submissions new = 0%nat /\
    exists today, s' = EngineFacts.after_reset today s.
Proof.
  intros Hv.
  rewrite (EngineFacts.execute_pump_trade_rejected command s e x st1 Hv).
  pose proof (EngineFacts.validate_effect command s s _ _ _ Hv) as [Hs Hq].
  destruct Hq as (n1 & He1 & Hq1).
  apply TradeFacts.validation_submits_nothing in Hq1.
  destruct st1 as [s1 e1]. cbn [self env] in *. subst e1.
  destruct e as [out evs]. unfold EngineFacts.extend. cbn [outside events app].
  eexists. exists ([EvNow; EvLog ERROR "pump failed"; EvNow] ++ n1 ++ [EvNow]), s1.
  rewrite <- !app_assoc. cbn [app]. split; [reflexivity|].
  split; [reflexivity|]. split; [reflexivity|]. split.
  - TradeFacts.no_submission.
  - destruct Hs as [->| ->]; [|eauto].
    exists (last_reset_day s). unfold EngineFacts.after_reset.
    now rewrite Z.ltb_irrefl.
Qed.

(** An amount below the minimum never passes the validation. *)
Lemma validate_below_minimum (command : dict) (s : Self) (e : Env) (a : Q) :
  as_number (EngineFacts.amount_of command s) = Some a ->
  (a < Config.min_trade_size_sol (config s))%Q ->
  exists x st1,
    EngineFacts.validate command s {| self := s; env := e |} = (Raise x, st1).
Proof.
  intros Ha Hlt. destruct e as [out evs]. unfold EngineFacts.validate. run_M.
  destruct (truthy (get command "token_address")); run_M; [|eauto].
  destruct (trading_keypair s); run_M; [|eauto].
  rewrite (EngineFacts._check_trade_limits_run _ a s _ Ha). cbv zeta.
  apply Qlt_bool_iff in Hlt. unfold EngineFacts.after_reset.
  destruct (last_reset_day s <? _);
    cbn [config set_last_reset_day set_daily_volume_used]; rewrite Hlt;
    destruct (Qlt_bool _ a); eauto.
Qed.

(** Without a wallet no command passes the validation. *)
Lemma validate_without_wallet (command : dict) (s0 s : Self) (e : Env) :
  trading_keypair s = None ->
  exists x st1,
    EngineFacts.validate command s0 {| self := s; env := e |} = (Raise x, st1) /\
    (x = ValueError "token address is missing" \/
     x = ValueError "trading wallet is not initialized").
Proof.
  intros Hkp. destruct e as [out evs]. unfold EngineFacts.validate. run_M.
  destruct (truthy (get command "token_address")); run_M; [|eauto].
  rewrite Hkp. run_M. eauto.
Qed.

End WithLibs.
End InitFacts.

(** X10. Settings that passed [validate_amounts] make the engine refuse
    every amount that is not positive.  For a command whose amount is a
    number [a <= 0], [execute_pump_trade] returns a result with
    [success = False] and submits no transaction; the engine is as
    before, up to the reset of the volume on a new day. *)
Theorem validated_settings_refuse_non_positive_amounts {L : Libs}
    (command : dict) (s : TradingEngine.Self) (e : Env) (a : Q) :
  (exists v, ConfigValidators.validate_amounts
               (Config.min_trade_size_sol (TradingEngine.config s)) = Ok v) ->
  as_number (EngineFacts.amount_of command s) = Some a ->
  (a <= 0)%Q ->
  exists res new s',
    TradingEngine.execute_pump_trade command
      {| TradingEngine.self := s; TradingEngine.env := e |}
    = (Ok res, {| TradingEngine.self := s';
                  TradingEngine.env := EngineFacts.extend new e |}) /\
    TradingEngine.success res = false /\
    submissions new = 0%nat /\
    exists today, s' = EngineFacts.after_reset today s.
Proof.
  intros [v Hv] Ha Hle.
  assert (Hmin : (a < Config.min_trade_size_sol (TradingEngine.config s))%Q).
  { unfold ConfigValidators.validate_amounts in Hv.
    destruct (Qle_bool _ 0) eqn:Hb; [discriminate|].
    eapply Qle_lt_trans; [exact Hle|].
    apply Qnot_le_lt. intros Hc. apply Qle_bool_iff in Hc. congruence. }
  destruct (InitFacts.validate_below_minimum command s
              (EngineFacts.extend [EvNow] e) a Ha Hmin) as (x & st1 & Hval).
  destruct (InitFacts.rejected_outcome command s e x st1 Hval)
    as (res & new & s' & Hrun & Hsucc & _ & Hsub & Hused).
  exists res, new, s'. now repeat split.
Qed.

(** The default settings, and a command that asks to trade -1 SOL. *)
Lemma validated_settings_refuse_non_positive_amounts_witness :
  let s := Examples.engine false 0 20000 in
  let e := Examples.env0 (Some 5000000000) in
  exists res new s',
    TradingEngine.execute_pump_trade (L := ToyLibs.toy)
      (Examples.pump_command (-1))
      {| TradingEngine.self := s; TradingEngine.env := e |}
    = (Ok res, {| TradingEngine.self := s';
                  TradingEngine.env := EngineFacts.extend new e |}) /\
    TradingEngine.success res = false /\
    submissions new = 0%nat /\
    exists today, s' = EngineFacts.after_reset today s.
Proof.
  apply (@validated_settings_refuse_non_positive_amounts ToyLibs.toy
           (Examples.pump_command (-1)) (Examples.engine false 0 20000)
           (Examples.env0 (Some 5000000000)) (-1)%Q).
  - eexists. reflexivity.
  - reflexivity.
  - unfold Qle; cbn; lia.
Defined.

(** X11. The initialization of the engine depends on the configured key
    only, not on the RPC node.  With an empty [solana_private_key] it
    returns and leaves the engine without wallet; with a key that decodes
    to a keypair it returns with that keypair as trading wallet, whether
    the balance query succeeds or not; with any other key it raises the
    decoding error and leaves the engine as it was. *)
Theorem engine_initialization_depends_on_the_key_only {L : Libs}
    (s : TradingEngine.Self) (e : Env) :
  let key := Config.solana_private_key (TradingEngine.config s) in
  let run := TradingEngine.initialize
               {| TradingEngine.self := s; TradingEngine.env := e |} in
  match key with
  | [] => fst run = Ok tt /\ TradingEngine.self (snd run) = s
  | _ :: _ =>
      match b58decode key with
      | None =>
          fst run = Raise (ValueError "Invalid base58 string") /\
          TradingEngine.self (snd run) = s
      | Some private_key_bytes =>
          match keypair_from_bytes private_key_bytes with
          | None =>
              fst run = Raise (ValueError "invalid keypair bytes") /\
              TradingEngine.self (snd run) = s
          | Some kp =>
              fst run = Ok tt /\
              TradingEngine.self (snd run)
              = TradingEngine.set_trading_keypair (Some kp) s
          end
      end
  end.
Proof.
  destruct e as [out evs]. cbv zeta. unfold TradingEngine.initialize. run_M.
  destruct (Config.solana_private_key (TradingEngine.config s)) as [|c key];
    run_M; [split; reflexivity|].
  destruct (b58decode (c :: key)) as [b|]; run_M; [|split; reflexivity].
  destruct (keypair_from_bytes b) as [kp|]; run_M; [|split; reflexivity].
  destruct (balance_reply out _); run_M;
    destruct (Qlt_bool _ _); run_M; split; reflexivity.
Qed.

(** X12. An engine without wallet (no key configured) trades nothing:
    every command gets a result with [success = False] whose error
    message is "token address is missing" or "trading wallet is not
    initialized", and no transaction is submitted. *)
Theorem engine_without_wallet_trades_nothing {L : Libs}
    (command : dict) (s : TradingEngine.Self) (e : Env) :
  TradingEngine.trading_keypair s = None ->
  exists res new s' x,
    TradingEngine.execute_pump_trade command
      {| TradingEngine.self := s; TradingEngine.env := e |}
    = (Ok res, {| TradingEngine.self := s';
                  TradingEngine.env := EngineFacts.extend new e |}) /\
    TradingEngine.success res = false /\
    TradingEngine.error_message res = Some (py (str_exc x)) /\
    (x = ValueError "token address is missing" \/
     x = ValueError "trading wallet is not initialized") /\
    submissions new = 0%nat.
Proof.
  intros Hkp.
  destruct (InitFacts.validate_without_wallet command s s
              (EngineFacts.extend [EvNow] e) Hkp) as (x & st1 & Hval & Hx).
  destruct (InitFacts.rejected_outcome command s e x st1 Hval)
    as (res & new & s' & Hrun & Hsucc & Herr & Hsub & _).
  exists res, new, s', x. now repeat split.
Qed.

(** The engine as [__init__] builds it from the default settings. *)
Lemma engine_without_wallet_trades_nothing_witness :
  let s := TradingEngine.__init__ (Examples.cfg false) 20000 in
  let e := Examples.env0 (Some 5000000000) in
  exists res new s' x,
    TradingEngine.execute_pump_trade (L := ToyLibs.toy)
      (Examples.pump_command (1 # 100))
      {| TradingEngine.self := s; TradingEngine.env := e |}
    = (Ok res, {| TradingEngine.self := s';
                  TradingEngine.env := EngineFacts.extend new e |}) /\
    TradingEngine.success res = false /\
    TradingEngine.error_message res = Some (py (str_exc x)) /\
    (x = ValueError "token address is missing" \/
     x = ValueError "trading wallet is not initialized") /\
    submissions new = 0%nat.
Proof.
  apply (@engine_without_wallet_trades_nothing ToyLibs.toy
           (Examples.pump_command (1 # 100))
           (TradingEngine.__init__ (Examples.cfg false) 20000)
           (Examples.env0 (Some 5000000000))).
  reflexivity.
Defined.

(* ===================================================================== *)
(** ** Framing of encrypted data, hashes and tokens *)
(* ===================================================================== *)

(** A text without [":"]. *)
Definition colon_free (s : pystr) : bool := forallb (fun c => negb (c =? 58)) s.

(** The number of [":"] in a text. *)
Fixpoint colons (s : pystr) : nat :=
  match s with
  | [] => 0
  | c :: s' => if c =? 58 then Datatypes.S (colons s') else colons s'
  end.

Module FramingFacts.
Import Base64 EncryptionUtils.

Lemma b2a_not_colon (i : Z) : 0 <= i < 64 -> negb (b2a i =? 58) = true.
Proof.
  intros Hi. apply negb_true_iff, Z.eqb_neq. unfold b2a.
  repeat match goal with
  | |- context [?a <? ?b] => destruct (Z.ltb_spec a b)
  | |- context [?a =? ?b] => destruct (Z.eqb_spec a b)
  end; lia.
Qed.

Lemma b64encode_colon_free (s : bytes) : colon_free (b64encode s) = true.
Proof.
  unfold colon_free.
  induction s as [|x|x y|x y z rest IH] using Base64Facts.bytes_ind3;
    cbn [b64encode forallb];
    try pose proof (byte_to_Z_range x); try pose proof (byte_to_Z_range y);
    try pose proof (byte_to_Z_range z);
    rewrite ?b2a_not_colon by Base64Facts.sextet; cbn [andb]; auto.
Qed.

Lemma b64encode_length (s : bytes) :
  List.length (b64encode s) = (4 * ((List.length s + 2) / 3))%nat.
Proof.
  induction s as [|x|x y|x y z rest IH] using Base64Facts.bytes_ind3;
    try reflexivity.
  cbn [b64encode List.length]. rewrite IH.
  replace (Datatypes.S (Datatypes.S (Datatypes.S (List.length rest))) + 2)%nat
    with ((List.length rest + 2) + 1 * 3)%nat by lia.
  rewrite Nat.div_add by lia. lia.
Qed.

Lemma split_colon_aux_last (s acc : pystr) :
  colon_free s = true -> split_colon_aux s acc = [rev acc ++ s].
Proof.
  revert acc. induction s as [|c s IH]; intros acc Hs.
  - cbn. now rewrite app_nil_r.
  - cbn [colon_free forallb] in Hs. apply andb_true_iff in Hs.
    destruct Hs as [Hc Hs]. apply negb_true_iff in Hc.
    cbn [split_colon_aux]. rewrite Hc, (IH (c :: acc) Hs).
    cbn [rev]. now rewrite <- app_assoc.
Qed.

Lemma split_colon_aux_part (s rest acc : pystr) :
  colon_free s = true ->
  split_colon_aux (s ++ 58 :: rest) acc
  = (rev acc ++ s) :: split_colon_aux rest [].
Proof.
  revert acc. induction s as [|c s IH]; intros acc Hs.
  - cbn. now rewrite app_nil_r.
  - cbn [colon_free forallb] in Hs. apply andb_true_iff in Hs.
    destruct Hs as [Hc Hs]. apply negb_true_iff in Hc.
    cbn [split_colon_aux app]. rewrite Hc, (IH (c :: acc) Hs).
    cbn [rev]. now rewrite <- app_assoc.
Qed.

(** [split(":")] undoes the framing of three texts without [":"]. *)
Lemma split_colon_join_colon (a b c : pystr) :
  colon_free a = true -> colon_free b = true -> colon_free c = true ->
  split_colon (join_colon a b c) = [a; b; c].
Proof.
  intros Ha Hb Hc. unfold split_colon, join_colon.
  rewrite (split_colon_aux_part a _ [] Ha).
  rewrite (split_colon_aux_part b _ [] Hb).
  now rewrite (split_colon_aux_last c [] Hc).
Qed.

(** [split(":")] gives one part more than there are colons. *)
Lemma split_colon_aux_length (s acc : pystr) :
  List.length (split_colon_aux s acc) = Datatypes.S (colons s).
Proof.
  revert acc. induction s as [|c s IH]; intros acc; [reflexivity|].
  cbn [split_colon_aux colons]. destruct (c =? 58); cbn [List.length];
    now rewrite IH.
Qed.

Lemma utf8_encode_ascii (s : pystr) :
  is_ascii s = true -> Utf8.encode s = Some (map byte_of_Z s).
Proof.
  unfold is_ascii. induction s as [|c s IH]; [reflexivity|].
  cbn [forallb]. intros Hs. apply andb_true_iff in Hs. destruct Hs as [Hc Hs].
  apply andb_true_iff in Hc. destruct Hc as [H0 H1].
  apply Z.leb_le in H0. apply Z.ltb_lt in H1.
  cbn [Utf8.encode map]. rewrite (IH Hs). unfold Utf8.encode_char.
  destruct (Z.ltb_spec c 0); [lia|].
  destruct (Z.ltb_spec c 0x80); [reflexivity | lia].
Qed.

Lemma ascii_bytes (s : pystr) :
  is_ascii s = true -> map byte_to_Z (map byte_of_Z s) = s.
Proof.
  unfold is_ascii. induction s as [|c s IH]; [reflexivity|].
  cbn [forallb]. intros Hs. apply andb_true_iff in Hs. destruct Hs as [Hc Hs].
  apply andb_true_iff in Hc. destruct Hc as [H0 H1].
  apply Z.leb_le in H0. apply Z.ltb_lt in H1.
  cbn [map]. rewrite (IH Hs), byte_to_of_Z by lia. reflexivity.
Qed.

Lemma pystr_eqb_eq (a b : pystr) : pystr_eqb a b = true <-> a = b.
Proof.
  revert b. induction a as [|x a IH]; intros [|y b]; cbn [pystr_eqb];
    try (split; [discriminate | intros [=]]); [tauto|].
  rewrite andb_true_iff, Z.eqb_eq, IH. split.
  - intros [-> ->]. reflexivity.
  - intros [= -> ->]. now split.
Qed.

Section WithLibs.
Context {L : Libs}.

Lemma ok_triple {A B C} (a a' : A) (b b' : B) (c c' : C) :
  @Ok (A * B * C) (a, b, c) = Ok (a', b', c') -> a = a' /\ b = b' /\ c = c'.
Proof. intros [= -> -> ->]. now repeat split. Qed.

(** Whatever [encrypt_aes_gcm] returns, [decrypt_aes_gcm] turns back
    into the text, and none of the three parts holds a colon. *)
Lemma encrypt_aes_gcm_inverted (m : pystr) (key : option bytes)
    (entropy : nat -> byte) (ciphertext nonce tag : pystr) :
  encrypt_aes_gcm m key entropy = Ok (ciphertext, nonce, tag) ->
  colon_free ciphertext = true /\ colon_free nonce = true /\
  colon_free tag = true /\
  decrypt_aes_gcm ciphertext nonce tag key = Ok m.
Proof.
  unfold encrypt_aes_gcm, AESGCM, str_encode_utf8, AESGCM_encrypt.
  destruct key as [k|]; [|discriminate].
  destruct (aes_key_ok k) eqn:Hk; [|discriminate]. cbn [rbind].
  destruct (Utf8.encode m) as [pt|] eqn:Hpt; [|discriminate]. cbn [rbind].
  assert (Hn : aes_nonce_ok (os_urandom entropy 12) = true).
  { unfold aes_nonce_ok. now rewrite EncryptionFacts.os_urandom_length. }
  rewrite Hn. cbn [rbind reraise_as_ValueError]. intros E.
  apply ok_triple in E. destruct E as (<- & <- & <-).
  rewrite !b64encode_colon_free. do 3 (split; [reflexivity|]).
  unfold decrypt_aes_gcm.
  rewrite !Base64Facts.b64decode_b64encode. cbn [rbind].
  unfold AESGCM. rewrite Hk. cbn [rbind].
  rewrite slice_until_last_app_slice_last. unfold AESGCM_decrypt.
  rewrite Hn, aesgcm_decrypt_encrypt by assumption.
  cbn [rbind]. unfold bytes_decode_utf8.
  now rewrite (Utf8Facts.decode_encode m pt Hpt).
Qed.

(** Decryption undoes encryption under every key of valid length. *)
Lemma decrypt_aes_gcm_encrypt_aes_gcm (m : pystr) (k : bytes)
    (entropy : nat -> byte) :
  Utf8.encodable m = true -> aes_key_ok k = true ->
  exists ciphertext nonce tag,
    encrypt_aes_gcm m (Some k) entropy = Ok (ciphertext, nonce, tag) /\
    colon_free ciphertext = true /\ colon_free nonce = true /\
    colon_free tag = true /\
    decrypt_aes_gcm ciphertext nonce tag (Some k) = Ok m.
Proof.
  intros Hm Hk.
  destruct (EncryptionFacts.encrypt_aes_gcm_ok m k entropy Hm Hk)
    as (pt & Hpt & He).
  cbv zeta in He. do 3 eexists. split; [exact He|].
  exact (encrypt_aes_gcm_inverted _ _ _ _ _ _ He).
Qed.

(** The framed triple, as [decrypt_wallet_key] reads it. *)
Lemma decrypt_wallet_key_join_colon (m : pystr) (key : option bytes)
    (entropy : nat -> byte) (ciphertext nonce tag : pystr) :
  encrypt_aes_gcm m key entropy = Ok (ciphertext, nonce, tag) ->
  colons (join_colon ciphertext nonce tag) = 2%nat /\
  split_colon (join_colon ciphertext nonce tag) = [ciphertext; nonce; tag] /\
  decrypt_wallet_key (PStr (join_colon ciphertext nonce tag)) key = Ok m.
Proof.
  intros He.
  destruct (encrypt_aes_gcm_inverted _ _ _ _ _ _ He) as (Hc & Hn & Ht & Hd).
  pose proof (split_colon_join_colon _ _ _ Hc Hn Ht) as Hsplit.
  pose proof (split_colon_aux_length (join_colon ciphertext nonce tag) [])
    as Hlen.
  fold (split_colon (join_colon ciphertext nonce tag)) in Hlen.
  rewrite Hsplit in Hlen. cbn [List.length] in Hlen.
  split; [lia|]. split; [exact Hsplit|].
  unfold decrypt_wallet_key. now rewrite Hsplit.
Qed.

End WithLibs.
End FramingFacts.

(** X13. The wallet key survives its transport format.  For every
    encodable text and every key of a length AES accepts,
    [encrypt_wallet_key] returns a text ["ciphertext:nonce:tag"] with
    exactly two colons, and [decrypt_wallet_key] of that text under the same
    key returns the original. *)
Theorem wallet_key_roundtrip {L : Libs}
    (private_key_base58 : pystr) (k : bytes) (entropy : nat -> byte) :
  Utf8.encodable private_key_base58 = true ->
  aes_key_ok k = true ->
  exists encrypted,
    EncryptionUtils.encrypt_wallet_key private_key_base58 (Some k) entropy
      = Ok encrypted /\
    colons encrypted = 2%nat /\
    EncryptionUtils.decrypt_wallet_key (PStr encrypted) (Some k)
      = Ok private_key_base58.
Proof.
  intros Hm Hk.
  destruct (FramingFacts.decrypt_aes_gcm_encrypt_aes_gcm
              private_key_base58 k entropy Hm Hk)
    as (c & n & t & He & _).
  exists (join_colon c n t).
  unfold EncryptionUtils.encrypt_wallet_key.
  rewrite He. cbn [EncryptionUtils.rbind]. split; [reflexivity|].
  destruct (FramingFacts.decrypt_wallet_key_join_colon _ _ _ _ _ _ He)
    as (Hcolons & _ & Hd).
  now split.
Qed.

Lemma wallet_key_roundtrip_witness :
  exists encrypted,
    EncryptionUtils.encrypt_wallet_key (L := ToyLibs.toy)
      (py "3mJr7AoUXx2Wqd") (Some (repeat x07 32)) (fun _ => x00)
      = Ok encrypted /\
    colons encrypted = 2%nat /\
    EncryptionUtils.decrypt_wallet_key (L := ToyLibs.toy)
      (PStr encrypted) (Some (repeat x07 32))
      = Ok (py "3mJr7AoUXx2Wqd").
Proof.
  apply (@wallet_key_roundtrip ToyLibs.toy (py "3mJr7AoUXx2Wqd")
           (repeat x07 32) (fun _ => x00)).
  - reflexivity.
  - reflexivity.
Defined.

(** X14. [decrypt_wallet_key] on a text fails with [ValueError] only, and
    it fails without looking at the key whenever the text does not have
    exactly two colons. *)
Theorem decrypt_wallet_key_rejects_bad_framing {L : Libs}
    (encrypted : pystr) (key : option bytes) :
  (forall x,
     EncryptionUtils.decrypt_wallet_key (PStr encrypted) key = Raise x ->
     exists m, x = ValueError m) /\
  (colons encrypted <> 2%nat ->
   exists m,
     forall key',
       EncryptionUtils.decrypt_wallet_key (PStr encrypted) key'
       = Raise (ValueError m)).
Proof.
  pose proof (FramingFacts.split_colon_aux_length encrypted []) as Hlen.
  fold (split_colon encrypted) in Hlen.
  unfold EncryptionUtils.decrypt_wallet_key. split.
  - intros x.
    destruct (split_colon encrypted) as [|a [|b [|c [|d l]]]];
      try (intros [= <-]; eauto).
    unfold EncryptionUtils.decrypt_aes_gcm, EncryptionUtils.reraise_as_ValueError.
    match goal with |- context [match ?r with Ok _ => _ | Raise _ => _ end] =>
      destruct r end; [discriminate | intros [= <-]; eauto].
  - intros Hn.
    destruct (split_colon encrypted) as [|a [|b [|c [|d l]]]];
      cbn [List.length] in Hlen; try (eexists; intros; reflexivity).
    lia.
Qed.

Lemma decrypt_wallet_key_rejects_bad_framing_witness :
  exists m,
    forall key',
      EncryptionUtils.decrypt_wallet_key (L := ToyLibs.toy)
        (PStr (py "abc:def")) key'
      = Raise (ValueError m).
Proof.
  apply (proj2 (@decrypt_wallet_key_rejects_bad_framing ToyLibs.toy
                  (py "abc:def") None)).
  cbn. lia.
Defined.

(** A stand-in for [hashlib], to run the examples. *)
Module ToyHash.

Definition pbkdf2 (password salt : bytes) (iterations : Z) : bytes :=
  firstn 32 (password ++ salt ++ repeat x00 32).

Lemma pbkdf2_length password salt iterations :
  List.length (pbkdf2 password salt iterations) = 32%nat.
Proof.
  unfold pbkdf2. rewrite firstn_length_le; [reflexivity|].
  rewrite !length_app, repeat_length. lia.
Qed.

#[export] Instance toy : HashLib := {|
  pbkdf2_hmac_sha256 := pbkdf2;
  pbkdf2_hmac_sha256_length := pbkdf2_length;
  sha256_hexdigest := fun b => map byte_to_Z (firstn 8 (b ++ repeat x00 8))
|}.

End ToyHash.

Module ToolFacts.
Import EncryptionUtils EncryptionTools.

Section WithLibs.
Context {L : Libs} {H : HashLib}.

(** Decoding, as bytes, the text the encoder produced. *)
Lemma b64decode_bytes_b64encode (s : bytes) :
  exists encoded,
    str_encode_utf8 (Base64.b64encode s) = Ok encoded /\
    b64decode_bytes encoded = Ok s.
Proof.
  pose proof (Base64Facts.b64encode_ascii s) as Hascii.
  exists (map byte_of_Z (Base64.b64encode s)). split.
  - unfold str_encode_utf8.
    now rewrite (FramingFacts.utf8_encode_ascii _ Hascii).
  - unfold b64decode_bytes.
    now rewrite (FramingFacts.ascii_bytes _ Hascii),
                Base64Facts.a2b_loop_b64encode.
Qed.

(** The three fields of the encrypted record. *)
Lemma record_fields (salt nonce ciphertext : bytes) :
  List.length salt = 16%nat -> List.length nonce = 12%nat ->
  let data := salt ++ nonce ++ ciphertext in
  firstn 16 data = salt /\
  firstn 12 (skipn 16 data) = nonce /\
  skipn 28 data = ciphertext.
Proof.
  intros Hs Hn data. subst data. repeat split.
  - rewrite firstn_app, Hs, Nat.sub_diag, firstn_O, app_nil_r.
    rewrite <- Hs. apply firstn_all.
  - rewrite skipn_app, Hs, Nat.sub_diag, skipn_O.
    rewrite <- Hs at 1. rewrite skipn_all. cbn [app].
    rewrite firstn_app, Hn, Nat.sub_diag, firstn_O, app_nil_r.
    rewrite <- Hn. apply firstn_all.
  - rewrite skipn_app, Hs. rewrite (skipn_all2 salt) by lia. cbn [app].
    replace (28 - 16)%nat with 12%nat by lia.
    rewrite skipn_app, Hn, Nat.sub_diag, skipn_O.
    rewrite <- Hn at 1. rewrite skipn_all. reflexivity.
Qed.

End WithLibs.
End ToolFacts.

(** X15. Password encryption round trip.  For every encodable text and
    password, [encrypt_sensitive_data] returns a text, and
    [decrypt_sensitive_data] of that text with the same password returns
    the original: the salt and the nonce are recovered from the first 28
    bytes of the record, whatever [os.urandom] drew. *)
Theorem sensitive_data_roundtrip {L : Libs} {H : HashLib}
    (data password : pystr) (entropy_salt entropy_nonce : nat -> byte) :
  Utf8.encodable data = true ->
  Utf8.encodable password = true ->
  exists encrypted,
    EncryptionTools.encrypt_sensitive_data data password
      entropy_salt entropy_nonce = Ok encrypted /\
    EncryptionTools.decrypt_sensitive_data encrypted password = Ok data.
Proof.
  intros Hdata Hpw.
  destruct (Utf8Facts.encode_encodable data Hdata) as [db Hdb].
  destruct (Utf8Facts.encode_encodable password Hpw) as [pb Hpb].
  set (salt := os_urandom entropy_salt 16).
  set (nonce := os_urandom entropy_nonce 12).
  set (key := pbkdf2_hmac_sha256 pb salt 100000).
  assert (Hkey : aes_key_ok key = true).
  { unfold aes_key_ok. subst key. now rewrite pbkdf2_hmac_sha256_length. }
  assert (Hnonce : aes_nonce_ok nonce = true).
  { unfold aes_nonce_ok. subst nonce.
    now rewrite EncryptionFacts.os_urandom_length. }
  exists (Base64.b64encode (salt ++ nonce ++ aesgcm_encrypt key nonce db)).
  split.
  - unfold EncryptionTools.encrypt_sensitive_data,
      EncryptionUtils.str_encode_utf8, EncryptionUtils.AESGCM,
      EncryptionUtils.AESGCM_encrypt.
    rewrite Hpb, Hdb. cbn [EncryptionUtils.rbind]. fold salt. fold key.
    rewrite Hkey. cbn [EncryptionUtils.rbind]. fold nonce. rewrite Hnonce.
    reflexivity.
  - unfold EncryptionTools.decrypt_sensitive_data.
    destruct (ToolFacts.b64decode_bytes_b64encode
                (salt ++ nonce ++ aesgcm_encrypt key nonce db))
      as (encoded & Henc & Hdec).
    rewrite Henc. cbn [EncryptionUtils.rbind].
    rewrite Hdec. cbn [EncryptionUtils.rbind].
    destruct (ToolFacts.record_fields salt nonce
                (aesgcm_encrypt key nonce db)) as (-> & -> & ->);
      [apply EncryptionFacts.os_urandom_length
      |apply EncryptionFacts.os_urandom_length|].
    unfold EncryptionUtils.str_encode_utf8 at 1. rewrite Hpb.
    cbn [EncryptionUtils.rbind]. fold key.
    unfold EncryptionUtils.AESGCM. rewrite Hkey. cbn [EncryptionUtils.rbind].
    unfold EncryptionUtils.AESGCM_decrypt.
    rewrite Hnonce, aesgcm_decrypt_encrypt by assumption.
    cbn [EncryptionUtils.rbind EncryptionUtils.reraise_as_ValueError].
    unfold EncryptionUtils.bytes_decode_utf8.
    now rewrite (Utf8Facts.decode_encode data db Hdb).
Qed.

Lemma sensitive_data_roundtrip_witness :
  exists encrypted,
    EncryptionTools.encrypt_sensitive_data (L := ToyLibs.toy) (H := ToyHash.toy)
      (py "seed phrase") (py "password") (fun _ => x01) (fun _ => x02)
      = Ok encrypted /\
    EncryptionTools.decrypt_sensitive_data (L := ToyLibs.toy) (H := ToyHash.toy)
      encrypted (py "password")
      = Ok (py "seed phrase").
Proof.
  apply (@sensitive_data_roundtrip ToyLibs.toy ToyHash.toy
           (py "seed phrase") (py "password") (fun _ => x01) (fun _ => x02)).
  - reflexivity.
  - reflexivity.
Defined.

(** X16. [verify_message_integrity] accepts a signature exactly when
    [sign_message] produces it from the same message and the same key
    text: verification is signing again and comparing, so the "public
    key" that verifies is the text that signed.  [sign_message] fails
    with [ValueError] only (the text cannot be encoded), and the
    verification never raises. *)
Theorem signature_is_verified_by_signing_again {H : HashLib}
    (message signature key : pystr) :
  (EncryptionTools.verify_message_integrity message signature key = true <->
   EncryptionTools.sign_message message key = Ok signature) /\
  (forall x, EncryptionTools.sign_message message key = Raise x ->
             exists m, x = ValueError m).
Proof.
  unfold EncryptionTools.verify_message_integrity, EncryptionTools.sign_message,
    EncryptionUtils.reraise_as_ValueError, EncryptionUtils.rbind.
  destruct (EncryptionUtils.str_encode_utf8 (message ++ key)) as [b|x]; split.
  - rewrite FramingFacts.pystr_eqb_eq. split; [now intros -> | now intros [=]].
  - discriminate.
  - split; discriminate.
  - intros y [= <-]. eauto.
Qed.

(** X17. [generate_secure_token] of a length [n >= 0] returns an ASCII
    text of [4 * ceil(n / 3)] characters (44 for the default 32) that
    Base64-decodes to the [n] bytes [os.urandom] drew; a negative length
    raises [ValueError]. *)
Theorem secure_token_encodes_the_random_bytes
    (n : Z) (entropy : nat -> byte) :
  (0 <= n ->
   exists token,
     EncryptionTools.generate_secure_token n entropy = Ok token /\
     Z.of_nat (List.length token) = 4 * ((n + 2) / 3) /\
     Base64.is_ascii token = true /\
     Base64.b64decode token = Ok (os_urandom entropy (Z.to_nat n))) /\
  (n < 0 ->
   exists m,
     EncryptionTools.generate_secure_token n entropy = Raise (ValueError m)).
Proof.
  unfold EncryptionTools.generate_secure_token. split; intros Hn.
  - destruct (Z.ltb_spec n 0); [lia|]. eexists. split; [reflexivity|].
    rewrite FramingFacts.b64encode_length, EncryptionFacts.os_urandom_length,
      Base64Facts.b64encode_ascii, Base64Facts.b64decode_b64encode.
    repeat split.
    rewrite Nat2Z.inj_mul, Nat2Z.inj_div, Nat2Z.inj_add, Z2Nat.id by lia.
    reflexivity.
  - destruct (Z.ltb_spec n 0); [eauto | lia].
Qed.

Lemma secure_token_encodes_the_random_bytes_witness :
  exists token,
    EncryptionTools.generate_secure_token 32 (fun _ => x2a) = Ok token /\
    Z.of_nat (List.length token) = 44 /\
    Base64.is_ascii token = true /\
    Base64.b64decode token = Ok (os_urandom (fun _ => x2a) 32).
Proof.
  apply (proj1 (secure_token_encodes_the_random_bytes 32 (fun _ => x2a))).
  lia.
Defined.

(** X18. [hash_api_key] of an encodable key returns the Base64 text of
    the 32 derived bytes: 44 ASCII characters that decode to the
    PBKDF2 output for the fixed salt. *)
Theorem api_key_hash_is_44_characters {H : HashLib} (api_key : pystr) :
  Utf8.encodable api_key = true ->
  exists key_bytes hash,
    Utf8.encode api_key = Some key_bytes /\
    EncryptionTools.hash_api_key api_key = Ok hash /\
    List.length hash = 44%nat /\
    Base64.is_ascii hash = true /\
    Base64.b64decode hash
    = Ok (pbkdf2_hmac_sha256 key_bytes EncryptionTools.api_key_salt 100000).
Proof.
  intros Hk. destruct (Utf8Facts.encode_encodable api_key Hk) as [kb Hkb].
  exists kb. eexists. split; [exact Hkb|].
  unfold EncryptionTools.hash_api_key, EncryptionUtils.str_encode_utf8.
  rewrite Hkb. cbn [EncryptionUtils.rbind]. split; [reflexivity|].
  rewrite FramingFacts.b64encode_length, pbkdf2_hmac_sha256_length,
    Base64Facts.b64encode_ascii, Base64Facts.b64decode_b64encode.
  repeat split.
Qed.

Lemma api_key_hash_is_44_characters_witness :
  exists key_bytes hash,
    Utf8.encode (py "key") = Some key_bytes /\
    EncryptionTools.hash_api_key (H := ToyHash.toy) (py "key") = Ok hash /\
    List.length hash = 44%nat /\
    Base64.is_ascii hash = true /\
    Base64.b64decode hash
    = Ok (pbkdf2_hmac_sha256 (HashLib := ToyHash.toy) key_bytes
            EncryptionTools.api_key_salt 100000).
Proof.
  apply (@api_key_hash_is_44_characters ToyHash.toy (py "key")).
  reflexivity.
Defined.

(* ===================================================================== *)
(** ** Sending *)
(* ===================================================================== *)

(** [s'] differs from [s] at most in the connection object, in
    [messages_sent] and in the metrics. *)
Record same_but_sending (s s' : WorkerApp.Self) : Prop := {
  same_config : WorkerApp.config s' = WorkerApp.config s;
  same_worker_id : WorkerApp.worker_id s' = WorkerApp.worker_id s;
  same_is_running : WorkerApp.is_running s' = WorkerApp.is_running s;
  same_reconnect_attempts :
    WorkerApp.reconnect_attempts s' = WorkerApp.reconnect_attempts s;
  same_max_reconnect_attempts :
    WorkerApp.max_reconnect_attempts s' = WorkerApp.max_reconnect_attempts s;
  same_worker_private_key :
    WorkerApp.worker_private_key s' = WorkerApp.worker_private_key s;
  same_coordinator_public_key :
    WorkerApp.coordinator_public_key s' = WorkerApp.coordinator_public_key s;
  same_shared_key : WorkerApp.shared_key s' = WorkerApp.shared_key s;
  same_wallets : WorkerApp.wallets s' = WorkerApp.wallets s;
  same_trading_engine : WorkerApp.trading_engine s' = WorkerApp.trading_engine s;
  same_http_client : WorkerApp.http_client s' = WorkerApp.http_client s;
  same_solana_client : WorkerApp.solana_client s' = WorkerApp.solana_client s;
  same_start_time :
    WorkerApp.start_time (WorkerApp.stats s')
    = WorkerApp.start_time (WorkerApp.stats s);
  same_messages_received :
    WorkerApp.messages_received (WorkerApp.stats s')
    = WorkerApp.messages_received (WorkerApp.stats s);
  same_trades_executed :
    WorkerApp.trades_executed (WorkerApp.stats s')
    = WorkerApp.trades_executed (WorkerApp.stats s);
  same_errors :
    WorkerApp.errors (WorkerApp.stats s') = WorkerApp.errors (WorkerApp.stats s);
  same_last_heartbeat :
    WorkerApp.last_heartbeat (WorkerApp.stats s')
    = WorkerApp.last_heartbeat (WorkerApp.stats s);
  same_or_closed :
    WorkerApp.websocket s' = WorkerApp.websocket s \/
    WorkerApp.websocket s' = Some {| WorkerApp.closed := true |}
}.

(** The events of sending: the frame, the draw of a nonce and log
    records. *)
Definition is_sending_event (ev : Event) : bool :=
  match ev with
  | EvSend _ _ _ | EvUrandom _ | EvLog _ _ => true
  | _ => false
  end.

Module SendFacts.
Import WorkerApp AppFacts.

(** The state of the application in a run. *)
Definition at_ (s : Self) (out : Outside) (evs : list Event) : State :=
  {| self := s; env := {| outside := out; events := evs |} |}.

Lemma sent_messages_app (a b : list Event) :
  sent_messages (a ++ b) = sent_messages b ++ sent_messages a.
Proof.
  induction a as [|ev a IH]; cbn [app sent_messages].
  - now rewrite app_nil_r.
  - destruct ev; try exact IH. destruct delivered; [|exact IH].
    now rewrite IH, app_assoc.
Qed.

Lemma same_but_sending_refl (s : Self) : same_but_sending s s.
Proof. constructor; auto. Qed.

Lemma same_but_sending_trans (a b c : Self) :
  same_but_sending a b -> same_but_sending b c -> same_but_sending a c.
Proof.
  intros [] []. constructor; try congruence.
  destruct same_or_closed1 as [-> | ->]; auto.
Qed.

Lemma same_but_sending_count_error (s : Self) :
  same_but_sending s (count_error s).
Proof. unfold count_error. destruct (metrics s); constructor; auto. Qed.

Lemma same_but_sending_sent_one (s : Self) :
  same_but_sending s (PumpFacts.sent_one s).
Proof. constructor; auto. Qed.

Lemma same_but_sending_closed (s : Self) :
  same_but_sending s (set_websocket (Some {| closed := true |}) s).
Proof. constructor; auto. Qed.

Section WithLibs.
Context {L : Libs}.

(** The envelope of an encrypted frame. *)
Definition envelope (encrypted_data : pystr) : pyval :=
  PDict [ (py "type", PStr (py "encrypted"));
          (py "data", PStr encrypted_data) ].

(** Whether [_send_message] encrypts. *)
Definition encrypts (s : Self) : bool :=
  Config.encryption_enabled (config s) && key_present (shared_key s).

(** The wire text [wire] carries the message [m] as [_send_message]
    frames it in the application [s]: the JSON text of [m], or, on an
    encrypted channel, the JSON text of an envelope whose data decrypt to
    the JSON text of [m] under the session key. *)
Definition carries (s : Self) (m : pyval) (wire : pystr) : Prop :=
  if encrypts s
  then exists encrypted_data key,
         shared_key s = Some key /\
         wire = json_text (envelope encrypted_data) /\
         colons encrypted_data = 2%nat /\
         EncryptionUtils.decrypt_wallet_key (PStr encrypted_data) (Some key)
         = Ok (json_text m)
  else wire = json_text m.

(** [_send_message], by cases. *)
Lemma _send_message_effect (m : pyval) (s : Self) (out : Outside)
    (evs : list Event) :
  exists new r s',
    _send_message m (at_ s out evs) = (r, at_ s' out (new ++ evs)) /\
    same_but_sending s s' /\
    (forall wire, In wire (wires new) -> carries s m wire) /\
    (List.length (wires new) <= 1)%nat /\
    forallb is_sending_event new = true /\
    match r with
    | Ok _ =>
        sent_messages new = [m] /\
        messages_sent (stats s') = messages_sent (stats s) + 1 /\
        websocket s' = websocket s /\
        websocket_open (websocket s) = true /\
        metrics s' = metrics s
    | Raise x =>
        sent_messages new = [] /\
        messages_sent (stats s') = messages_sent (stats s) /\
        if websocket_open (websocket s)
        then metrics s' = metrics (count_error s)
        else x = RuntimeError "WebSocket connection is closed" /\
             new = [] /\ s' = s
    end.
Proof.
  unfold _send_message, at_, json_dumps, carries, encrypts. run_W.
  destruct (websocket_open (websocket s)) eqn:Hopen; run_W.
  2:{ exists [], (Raise (RuntimeError "WebSocket connection is closed")), s.
      split; [reflexivity|]. split; [apply same_but_sending_refl|].
      split; [intros w []|]. split; [cbn; lia|]. split; [reflexivity|]. repeat split. }
  destruct (serializable m) eqn:Hser; run_W.
  2:{ eexists [_], (Raise _), (count_error s).
      split; [unfold count_error; destruct (metrics s); reflexivity|].
      split; [apply same_but_sending_count_error|].
      split; [intros w []|]. split; [cbn; lia|]. split; [reflexivity|].
      unfold count_error; destruct (metrics s); repeat split. }
  destruct (Config.encryption_enabled (config s) && key_present (shared_key s))
    eqn:Henc.
  - apply andb_true_iff in Henc. destruct Henc as [_ Hpresent].
    destruct (shared_key s) as [k|] eqn:Hk; [|discriminate].
    unfold _encrypt_message. run_W. rewrite Hk.
    destruct (EncryptionUtils.encrypt_aes_gcm (json_text m) (Some k)
                (entropy out (List.length evs))) as [[[c n] t]|x] eqn:He;
      run_W.
    + cbn [serializable forallb snd andb]. unfold websocket_send. run_W.
      destruct (FramingFacts.decrypt_wallet_key_join_colon _ _ _ _ _ _ He)
        as (Hcolons & _ & Hd).
      assert (Hwire : forall w,
                In w [json_text (envelope (join_colon c n t))] ->
                exists encrypted_data key,
                  Some k = Some key /\
                  w = json_text (envelope encrypted_data) /\
                  colons encrypted_data = 2%nat /\
                  EncryptionUtils.decrypt_wallet_key (PStr encrypted_data)
                    (Some key) = Ok (json_text m)).
      { intros w [<-|[]]. exists (join_colon c n t), k. now repeat split. }
      destruct (send_reply out _); run_W.
      * destruct (Config.debug_websocket (config s)); run_W;
          [eexists [_; _; _], (Ok tt), _ | eexists [_; _], (Ok tt), _];
          (split; [reflexivity|]);
          (split; [apply same_but_sending_sent_one|]);
          (split; [exact Hwire|]); (split; [cbn; lia|]);
          (split; [reflexivity|]); repeat split.
      * eexists [_; _; _], (Raise _),
          (count_error (set_websocket (Some {| closed := true |}) s)).
        split; [unfold count_error; cbn [metrics set_websocket];
                destruct (metrics s); reflexivity|].
        split; [eapply same_but_sending_trans;
                [apply same_but_sending_closed
                |apply same_but_sending_count_error]|].
        split; [exact Hwire|]. split; [cbn; lia|]. split; [reflexivity|].
        unfold count_error; cbn [metrics set_websocket];
          destruct (metrics s); repeat split.
    + eexists [_; _; _], (Raise _), (count_error s).
      split; [unfold count_error; destruct (metrics s); reflexivity|].
      split; [apply same_but_sending_count_error|].
      split; [intros w []|]. split; [cbn; lia|]. split; [reflexivity|].
      unfold count_error; destruct (metrics s); repeat split.
  - run_W. unfold websocket_send. run_W.
    assert (Hwire : forall w, In w [json_text m] -> w = json_text m).
    { now intros w [<-|[]]. }
    destruct (send_reply out _); run_W.
    + destruct (Config.debug_websocket (config s)); run_W;
        [eexists [_; _], (Ok tt), _ | eexists [_], (Ok tt), _];
        (split; [reflexivity|]);
        (split; [apply same_but_sending_sent_one|]);
        (split; [exact Hwire|]); (split; [cbn; lia|]);
        (split; [reflexivity|]); repeat split.
    + eexists [_; _], (Raise _),
        (count_error (set_websocket (Some {| closed := true |}) s)).
      split; [unfold count_error; cbn [metrics set_websocket];
              destruct (metrics s); reflexivity|].
      split; [eapply same_but_sending_trans;
              [apply same_but_sending_closed
              |apply same_but_sending_count_error]|].
      split; [exact Hwire|]. split; [cbn; lia|]. split; [reflexivity|].
      unfold count_error; cbn [metrics set_websocket];
        destruct (metrics s); repeat split.
Qed.

(** On an open connection whose transport delivers, with a session key
    of valid length if there is one: the message is sent, and nothing
    happens but sending. *)
Lemma _send_message_delivered (m : pyval) (s : Self) (out : Outside)
    (evs : list Event) :
  websocket_open (websocket s) = true ->
  serializable m = true ->
  (forall i, send_reply out i = true) ->
  (forall k, shared_key s = Some k -> aes_key_ok k = true) ->
  exists new,
    _send_message m (at_ s out evs)
    = (Ok tt, at_ (PumpFacts.sent_one s) out (new ++ evs)) /\
    sent_messages new = [m] /\
    forallb is_sending_event new = true.
Proof.
  intros Hopen Hser Hsend Hkey.
  destruct (PumpFacts._send_message_delivers m s
              {| outside := out; events := evs |} Hopen Hser Hsend Hkey)
    as (n1 & Hrun1 & _).
  destruct (_send_message_effect m s out evs)
    as (n2 & r & s' & Hrun2 & _ & _ & _ & Hevents & Hr).
  unfold at_, EngineFacts.extend in *. cbn [outside events] in Hrun1.
  rewrite Hrun1 in Hrun2.
  assert (Hn : n1 = n2).
  { apply (app_inv_tail evs). congruence. }
  subst n2. exists n1.
  assert (Hok : r = Ok tt) by congruence. subst r.
  split; [exact Hrun1|]. split; [apply Hr | exact Hevents].
Qed.

(** [_decrypt_message] on a framed text: the state changes only when
    the decryption fails, by one log record. *)
Lemma _decrypt_message_run (data ciphertext nonce tag : pystr) (st : State) :
  split_colon data = [ciphertext; nonce; tag] ->
  _decrypt_message (PStr data) st =
  match EncryptionUtils.decrypt_aes_gcm ciphertext nonce tag
          (shared_key (self st)) with
  | Ok text => (Ok text, st)
  | Raise x =>
      (Raise x,
       {| self := self st;
          env := EngineFacts.extend [EvLog ERROR "decryption failed"] (env st) |})
  end.
Proof.
  intros Hsplit. destruct st as [s [out evs]].
  unfold _decrypt_message. rewrite Hsplit. run_W.
  destruct (EncryptionUtils.decrypt_aes_gcm _ _ _ _); reflexivity.
Qed.

(** What [decrypt_wallet_key] decrypts, [_decrypt_message] decrypts, in
    every application that holds the key, without any effect. *)
Lemma decrypt_wallet_key_as_message (data text : pystr) (st : State) :
  EncryptionUtils.decrypt_wallet_key (PStr data) (shared_key (self st))
    = Ok text ->
  _decrypt_message (PStr data) st = (Ok text, st).
Proof.
  unfold EncryptionUtils.decrypt_wallet_key.
  destruct (split_colon data) as [|c [|n [|t [|d l]]]] eqn:Hsplit;
    try discriminate.
  intros Hd. rewrite (_decrypt_message_run data c n t st Hsplit).
  now rewrite Hd.
Qed.

End WithLibs.
End SendFacts.

(** X19. [messages_sent] counts the frames delivered.  Whatever the
    message and the state, [_send_message] hands at most one frame to the
    transport; [messages_sent] goes up by the number of frames delivered,
    which is one when the call returns and zero when it raises; nothing
    else changes but the metrics and, when the transport fails, the
    connection.  On a closed connection the call raises [RuntimeError]
    and does nothing. *)
Theorem messages_sent_counts_the_frames_delivered {L : Libs}
    (m : pyval) (s : WorkerApp.Self) (out : Outside) (evs : list Event) :
  exists new r s',
    WorkerApp._send_message m (SendFacts.at_ s out evs)
      = (r, SendFacts.at_ s' out (new ++ evs)) /\
    same_but_sending s s' /\
    (List.length (wires new) <= 1)%nat /\
    WorkerApp.messages_sent (WorkerApp.stats s')
    = WorkerApp.messages_sent (WorkerApp.stats s)
      + Z.of_nat (List.length (sent_messages new)) /\
    sent_messages new = match r with Ok _ => [m] | Raise _ => [] end /\
    (WorkerApp.websocket_open (WorkerApp.websocket s) = false ->
     r = Raise (RuntimeError "WebSocket connection is closed") /\
     new = [] /\ s' = s).
Proof.
  destruct (SendFacts._send_message_effect m s out evs)
    as (new & r & s' & Hrun & Hsame & _ & Hone & _ & Hr).
  exists new, r, s'. split; [exact Hrun|]. split; [exact Hsame|].
  split; [exact Hone|]. destruct r as [[]|x].
  - destruct Hr as (Hsent & Hcount & _ & Hopen & _). rewrite Hsent.
    split; [exact Hcount|]. split; [reflexivity|]. congruence.
  - destruct Hr as (Hsent & Hcount & Hclosed). rewrite Hsent.
    split; [cbn; lia|]. split; [reflexivity|]. intros Hopen.
    rewrite Hopen in Hclosed. destruct Hclosed as (-> & -> & ->).
    now repeat split.
Qed.

(** A worker whose connection was closed. *)
Lemma messages_sent_counts_the_frames_delivered_witness :
  let s := WorkerApp.set_websocket (Some {| WorkerApp.closed := true |})
             (AppExamples.app None PNone None) in
  let out := Examples.outside_with None true in
  exists new r s',
    WorkerApp._send_message (L := ToyLibs.toy) (PDict [(py "type", PStr (py "ping"))])
      (SendFacts.at_ s out [])
      = (r, SendFacts.at_ s' out (new ++ [])) /\
    r = Raise (RuntimeError "WebSocket connection is closed") /\
    new = [] /\ s' = s.
Proof.
  intros s out.
  destruct (@messages_sent_counts_the_frames_delivered ToyLibs.toy
              (PDict [(py "type", PStr (py "ping"))]) s out [])
    as (new & r & s' & Hrun & _ & _ & _ & _ & Hclosed).
  exists new, r, s'. split; [exact Hrun|]. apply Hclosed. reflexivity.
Defined.

(** X20. On an encrypted channel only envelopes reach the transport.
    When encryption is enabled and a session key is present, every frame
    [_send_message] hands to the transport is the JSON text of an envelope
    [{"type": "encrypted", "data": d}], and [_decrypt_message] of [d], in
    any application that holds the same session key, returns the JSON text
    of the message. *)
Theorem encrypted_channel_sends_envelopes_only {L : Libs}
    (m : pyval) (s : WorkerApp.Self) (out : Outside) (evs : list Event) :
  Config.encryption_enabled (WorkerApp.config s) = true ->
  WorkerApp.key_present (WorkerApp.shared_key s) = true ->
  exists new r s',
    WorkerApp._send_message m (SendFacts.at_ s out evs)
      = (r, SendFacts.at_ s' out (new ++ evs)) /\
    forall wire, In wire (wires new) ->
      exists encrypted_data,
        wire = json_text (SendFacts.envelope encrypted_data) /\
        forall peer : WorkerApp.State,
          WorkerApp.shared_key (WorkerApp.self peer) = WorkerApp.shared_key s ->
          WorkerApp._decrypt_message (PStr encrypted_data) peer
          = (Ok (json_text m), peer).
Proof.
  intros Henabled Hkey.
  destruct (SendFacts._send_message_effect m s out evs)
    as (new & r & s' & Hrun & _ & Hwire & _).
  exists new, r, s'. split; [exact Hrun|]. intros wire Hin.
  specialize (Hwire wire Hin). unfold SendFacts.carries, SendFacts.encrypts in Hwire.
  rewrite Henabled, Hkey in Hwire. cbn [andb] in Hwire.
  destruct Hwire as (d & key & Hk & -> & _ & Hd).
  exists d. split; [reflexivity|]. intros peer Hpeer.
  apply SendFacts.decrypt_wallet_key_as_message. now rewrite Hpeer, Hk.
Qed.

(** The worker of the key examples, holding the session key A. *)
Lemma encrypted_channel_sends_envelopes_only_witness :
  let s := KeyExamples.app (PStr KeyExamples.coordinator_key_A)
             (Some KeyExamples.session_key_A) in
  let out := Examples.outside_with None true in
  let m := PDict [(py "type", PStr (py "ping"))] in
  exists new r s',
    WorkerApp._send_message (L := ToyLibs.toy) m (SendFacts.at_ s out [])
      = (r, SendFacts.at_ s' out (new ++ [])) /\
    forall wire, In wire (wires new) ->
      exists encrypted_data,
        wire = @json_text ToyLibs.toy (SendFacts.envelope encrypted_data) /\
        forall peer : WorkerApp.State,
          WorkerApp.shared_key (WorkerApp.self peer) = WorkerApp.shared_key s ->
          WorkerApp._decrypt_message (L := ToyLibs.toy) (PStr encrypted_data) peer
          = (Ok (@json_text ToyLibs.toy m), peer).
Proof.
  intros s out m.
  apply (@encrypted_channel_sends_envelopes_only ToyLibs.toy m s out []).
  - reflexivity.
  - reflexivity.
Defined.

(** X21. The channel encryption round trip.  With a session key of a
    length AES accepts, [_encrypt_message] of an encodable text returns,
    its only effect being the draw of the nonce, and [_decrypt_message] of
    what it returned gives the text back in any application that holds the
    same key. *)
Theorem encrypt_message_decrypt_message_roundtrip {L : Libs}
    (text : pystr) (k : bytes) (s : WorkerApp.Self) (out : Outside)
    (evs : list Event) :
  WorkerApp.shared_key s = Some k ->
  aes_key_ok k = true ->
  Utf8.encodable text = true ->
  exists encrypted_data,
    WorkerApp._encrypt_message text (SendFacts.at_ s out evs)
      = (Ok encrypted_data, SendFacts.at_ s out (EvUrandom 12 :: evs)) /\
    forall peer : WorkerApp.State,
      WorkerApp.shared_key (WorkerApp.self peer) = Some k ->
      WorkerApp._decrypt_message (PStr encrypted_data) peer = (Ok text, peer).
Proof.
  intros Hk Hok Htext.
  destruct (FramingFacts.decrypt_aes_gcm_encrypt_aes_gcm text k
              (entropy out (List.length evs)) Htext Hok)
    as (c & n & t & He & _).
  exists (join_colon c n t). split.
  - unfold WorkerApp._encrypt_message, SendFacts.at_. run_W.
    rewrite Hk, He. reflexivity.
  - intros peer Hpeer.
    destruct (FramingFacts.decrypt_wallet_key_join_colon _ _ _ _ _ _ He)
      as (_ & _ & Hd).
    apply SendFacts.decrypt_wallet_key_as_message. now rewrite Hpeer.
Qed.

Lemma encrypt_message_decrypt_message_roundtrip_witness :
  let s := KeyExamples.app (PStr KeyExamples.coordinator_key_A)
             (Some KeyExamples.session_key_A) in
  let out := Examples.outside_with None true in
  exists encrypted_data,
    WorkerApp._encrypt_message (L := ToyLibs.toy) (py "hello")
      (SendFacts.at_ s out [])
      = (Ok encrypted_data, SendFacts.at_ s out (EvUrandom 12 :: [])) /\
    forall peer : WorkerApp.State,
      WorkerApp.shared_key (WorkerApp.self peer) = Some KeyExamples.session_key_A ->
      WorkerApp._decrypt_message (L := ToyLibs.toy) (PStr encrypted_data) peer
      = (Ok (py "hello"), peer).
Proof.
  intros s out.
  apply (@encrypt_message_decrypt_message_roundtrip ToyLibs.toy (py "hello")
           KeyExamples.session_key_A s out []).
  - reflexivity.
  - reflexivity.
  - reflexivity.
Defined.

(* ===================================================================== *)
(** ** Heartbeat, status and shutdown *)
(* ===================================================================== *)

Module HandlerFacts.
Import WorkerApp AppFacts SendFacts.

Section WithLibs.
Context {L : Libs}.

(** The health report never fails, changes nothing in the application
    and sends nothing. *)
Lemma _get_health_status_effect (s : Self) (out : Outside) (evs : list Event) :
  exists new health,
    _get_health_status (at_ s out evs) = (Ok health, at_ s out (new ++ evs)) /\
    wires new = [].
Proof.
  unfold _get_health_status, at_. run_W.
  destruct (solana_client s); run_W;
    [destruct (health_reply out _); run_W; unfold rpc_error; run_W|];
    [eexists [_; _], _ | eexists [_; _], _ | eexists [_], _];
    split; reflexivity.
Qed.

(** A message that holds a [datetime] is never sent. *)
Lemma _send_message_unserializable (m : pyval) (s : Self) (out : Outside)
    (evs : list Event) :
  serializable m = false ->
  exists new x,
    _send_message m (at_ s out evs)
    = (Raise x,
       at_ (if websocket_open (websocket s) then count_error s else s) out
           (new ++ evs)) /\
    wires new = [] /\
    (x = TypeError "Object of type datetime is not JSON serializable" \/
     x = RuntimeError "WebSocket connection is closed").
Proof.
  intros Hser. unfold _send_message, at_, json_dumps. run_W.
  destruct (websocket_open (websocket s)); run_W.
  - rewrite Hser. run_W. eexists [_], _.
    split; [unfold count_error; destruct (metrics s); reflexivity|].
    split; [reflexivity | now left].
  - exists [], (RuntimeError "WebSocket connection is closed").
    split; [reflexivity|]. split; [reflexivity | now right].
Qed.

Lemma wires_nil_app (a b : list Event) :
  wires a = [] -> wires b = [] -> wires (a ++ b) = [].
Proof. intros Ha Hb. now rewrite TradeFacts.wires_app, Ha, Hb. Qed.

Lemma stats_count_error (s : Self) : stats (count_error s) = stats s.
Proof. unfold count_error. now destruct (metrics s). Qed.

Lemma _handle_heartbeat_request_effect (message : dict) (s : Self)
    (out : Outside) (evs : list Event) :
  exists new x s',
    _handle_heartbeat_request message (at_ s out evs)
    = (Raise x, at_ s' out (new ++ evs)) /\
    wires new = [] /\
    stats s' = stats s /\
    (x = TypeError "Object of type datetime is not JSON serializable" \/
     x = RuntimeError "WebSocket connection is closed").
Proof.
  unfold _handle_heartbeat_request. unfold at_ at 1. run_W.
  destruct (_get_health_status_effect s out (EvNow :: evs))
    as (n1 & health & Hrun1 & Hw1).
  unfold at_ in Hrun1. rewrite Hrun1. run_W.
  match goal with
  | |- context [_send_message ?m _] =>
      destruct (_send_message_unserializable m s out (n1 ++ EvNow :: evs)
                  eq_refl) as (n2 & x & Hrun2 & Hw2 & Hx)
  end.
  unfold at_ in Hrun2. rewrite Hrun2. run_W.
  exists (n2 ++ n1 ++ [EvNow]), x. eexists.
  unfold at_. rewrite <- !app_assoc. cbn [app]. split; [reflexivity|].
  split; [now rewrite !TradeFacts.wires_app, Hw1, Hw2|].
  split; [destruct (websocket_open _); [apply stats_count_error | reflexivity]
         | exact Hx].
Qed.

Lemma _handle_status_request_effect (message : dict) (s : Self)
    (out : Outside) (evs : list Event) :
  exists new x s',
    _handle_status_request message (at_ s out evs)
    = (Raise x, at_ s' out (new ++ evs)) /\
    wires new = [] /\
    stats s' = stats s /\
    (x = TypeError "Object of type datetime is not JSON serializable" \/
     x = RuntimeError "WebSocket connection is closed").
Proof.
  unfold _handle_status_request. unfold at_ at 1. run_W.
  destruct (_get_health_status_effect s out (EvNow :: evs))
    as (n1 & health & Hrun1 & Hw1).
  unfold at_ in Hrun1. rewrite Hrun1. run_W.
  match goal with
  | |- context [_send_message ?m _] =>
      destruct (_send_message_unserializable m s out
                  (EvNow :: n1 ++ EvNow :: evs) eq_refl)
        as (n2 & x & Hrun2 & Hw2 & Hx)
  end.
  unfold at_ in Hrun2. rewrite Hrun2.
  exists (n2 ++ EvNow :: n1 ++ [EvNow]), x. eexists.
  unfold at_. rewrite <- !app_assoc. cbn [app]. rewrite <- !app_assoc.
  cbn [app]. split; [reflexivity|].
  split; [rewrite !TradeFacts.wires_app; cbn [wires];
          now rewrite !TradeFacts.wires_app, Hw1, Hw2|].
  split; [destruct (websocket_open _); [apply stats_count_error | reflexivity]
         | exact Hx].
Qed.

End WithLibs.
End HandlerFacts.

(** X22. A [heartbeat_request] and a [status_request] are never
    answered.  Both handlers put [self.stats], which holds the [datetime]
    of the start, into their response; [_send_message] cannot serialize
    it (or finds the connection closed), so in every state the handler
    raises, no frame reaches the transport, and the statistics, with
    [last_heartbeat], stay as they were. *)
Theorem heartbeat_and_status_are_never_answered {L : Libs}
    (message : dict) (s : WorkerApp.Self) (out : Outside) (evs : list Event) :
  let unanswered (handler : dict -> M WorkerApp.State unit) :=
    exists new x s',
      handler message (SendFacts.at_ s out evs)
      = (Raise x, SendFacts.at_ s' out (new ++ evs)) /\
      wires new = [] /\
      WorkerApp.stats s' = WorkerApp.stats s /\
      (x = TypeError "Object of type datetime is not JSON serializable" \/
       x = RuntimeError "WebSocket connection is closed") in
  unanswered WorkerApp._handle_heartbeat_request /\
  unanswered WorkerApp._handle_status_request.
Proof.
  split.
  - apply HandlerFacts._handle_heartbeat_request_effect.
  - apply HandlerFacts._handle_status_request_effect.
Qed.

Module ShutdownFacts.
Import WorkerApp SendFacts.

Lemma shutdown_effect (s : Self) (out : Outside) (evs : list Event) :
  exists new s',
    shutdown (at_ s out evs) = (Ok tt, at_ s' out (new ++ evs)) /\
    is_running s' = false /\
    (is_running s = true -> websocket_open (websocket s') = false) /\
    (is_running s = false -> new = [] /\ s' = s) /\
    wires new = [] /\
    wallets s' = wallets s /\
    trading_engine s' = trading_engine s /\
    shared_key s' = shared_key s /\
    stats s' = stats s.
Proof.
  unfold shutdown, at_. run_W.
  destruct (is_running s) eqn:Hrunning; run_W.
  2:{ exists [], s. now repeat split. }
  destruct (websocket s) as [[[|]]|] eqn:Hws;
    cbn [websocket_open closed negb]; run_W;
    destruct (http_client s); run_W;
    destruct (solana_client s); run_W;
    destruct (trading_engine s) eqn:Heng; run_W;
    destruct (metrics s); run_W;
    match goal with
    | |- exists new, exists s', (_, {| self := _; env :=
             {| outside := _; events := ?l |} |}) = _ /\ _ =>
        let p := prefix_of l evs in
        exists p; eexists; split; [reflexivity|]
    end;
    cbn [is_running websocket websocket_open closed negb wallets
         trading_engine shared_key stats set_metrics set_websocket
         set_is_running];
    repeat split; try discriminate; try assumption; try reflexivity;
    intros _; rewrite Hws; reflexivity.
Qed.

End ShutdownFacts.

(** X23. [shutdown] stops the worker once.  It never raises; afterwards
    the worker is not running; if it was running, its connection is no
    longer open, and calling [shutdown] again does nothing; if it was not
    running, nothing happens at all.  Wallets, trading engine, session key
    and statistics are not touched, and nothing is sent. *)
Theorem shutdown_stops_the_worker_once
    (s : WorkerApp.Self) (out : Outside) (evs : list Event) :
  exists new s',
    WorkerApp.shutdown (SendFacts.at_ s out evs)
      = (Ok tt, SendFacts.at_ s' out (new ++ evs)) /\
    WorkerApp.is_running s' = false /\
    (WorkerApp.is_running s = true ->
     WorkerApp.websocket_open (WorkerApp.websocket s') = false) /\
    (WorkerApp.is_running s = false -> new = [] /\ s' = s) /\
    WorkerApp.shutdown (SendFacts.at_ s' out (new ++ evs))
      = (Ok tt, SendFacts.at_ s' out (new ++ evs)) /\
    wires new = [] /\
    WorkerApp.wallets s' = WorkerApp.wallets s /\
    WorkerApp.trading_engine s' = WorkerApp.trading_engine s /\
    WorkerApp.shared_key s' = WorkerApp.shared_key s /\
    WorkerApp.stats s' = WorkerApp.stats s.
Proof.
  destruct (ShutdownFacts.shutdown_effect s out evs)
    as (new & s' & Hrun & Hstopped & Hclosed & Hidle & Hrest).
  exists new, s'. split; [exact Hrun|]. split; [exact Hstopped|].
  split; [exact Hclosed|]. split; [exact Hidle|]. split; [|exact Hrest].
  destruct (ShutdownFacts.shutdown_effect s' out (new ++ evs))
    as (new2 & s2 & Hrun2 & _ & _ & Hidle2 & _).
  destruct (Hidle2 Hstopped) as [-> ->]. exact Hrun2.
Qed.

(** The connected worker of the examples. *)
Lemma shutdown_stops_the_worker_once_witness :
  let s := AppExamples.app None PNone None in
  let out := Examples.outside_with None true in
  exists new s',
    WorkerApp.shutdown (SendFacts.at_ s out [])
      = (Ok tt, SendFacts.at_ s' out (new ++ [])) /\
    WorkerApp.is_running s' = false /\
    WorkerApp.websocket_open (WorkerApp.websocket s') = false.
Proof.
  intros s out.
  destruct (shutdown_stops_the_worker_once s out [])
    as (new & s' & Hrun & Hstopped & Hclosed & _).
  exists new, s'. split; [exact Hrun|]. split; [exact Hstopped|].
  apply Hclosed. reflexivity.
Defined.

(* ===================================================================== *)
(** ** The frames the worker receives *)
(* ===================================================================== *)

(** The message types [_process_message] dispatches on. *)
Definition known_types : list string :=
  [ "encrypted"; "registration_success"; "registration_error";
    "pump_command"; "heartbeat_request"; "wallet_assignment";
    "status_request" ]%string.

(** The [type] of the message is none of the known ones. *)
Definition unknown_type (message : dict) : bool :=
  forallb (fun t => negb (py_eq_str (get message "type") t)) known_types.

Module FrameFacts.
Import WorkerApp AppFacts SendFacts.

(** The application after one more frame was counted. *)
Definition received (s : Self) : Self :=
  set_stats {| start_time := start_time (stats s);
               messages_sent := messages_sent (stats s);
               messages_received := messages_received (stats s) + 1;
               trades_executed := trades_executed (stats s);
               errors := errors (stats s);
               last_heartbeat := last_heartbeat (stats s) |} s.

(** The run after the frame was logged, when the settings ask for it. *)
Definition logged (s : Self) (evs : list Event) : list Event :=
  if Config.debug_websocket (config s)
  then EvLog DEBUG "received" :: evs else evs.

Section WithLibs.
Context {L : Libs}.

(** The dispatch on the type of a plaintext message. *)
Definition dispatch (message : dict) : M State unit :=
  let message_type := get message "type" in
  if py_eq_str message_type "registration_success" then
    _handle_registration_success message
  else if py_eq_str message_type "registration_error" then
    _handle_registration_error message
  else if py_eq_str message_type "pump_command" then
    _handle_pump_command message
  else if py_eq_str message_type "heartbeat_request" then
    _handle_heartbeat_request message
  else if py_eq_str message_type "wallet_assignment" then
    _handle_wallet_assignment message
  else if py_eq_str message_type "status_request" then
    _handle_status_request message
  else log WARNING "unknown message type".

(** A frame that is the JSON text of an object which is not an
    envelope: it is counted, logged if asked for, and dispatched. *)
Lemma _process_message_body_plain (raw : pystr) (message : dict) (s : Self)
    (out : Outside) (evs : list Event) :
  json_loads raw = Some (PDict message) ->
  py_eq_str (get message "type") "encrypted" = false ->
  _process_message_body raw (at_ s out evs)
  = dispatch message (at_ (received s) out (logged s evs)).
Proof.
  intros Hjson Hplain.
  unfold _process_message_body, json_loads_text, as_dict, dispatch, at_,
    received, logged.
  rewrite Hjson. run_W.
  destruct (Config.debug_websocket (config s)); run_W; rewrite Hplain;
    reflexivity.
Qed.

Lemma logged_extends (s : Self) (evs : list Event) :
  exists new, logged s evs = new ++ evs /\ wires new = [].
Proof.
  unfold logged. destruct (Config.debug_websocket (config s));
    [exists [EvLog DEBUG "received"] | exists []]; split; reflexivity.
Qed.

End WithLibs.
End FrameFacts.

(** X24. The frames the worker drops.
    - A frame that is not JSON is not counted as received: its only
      effects are one ERROR record and one error in the metrics.
    - A frame that is JSON but not an object is counted as received, and
      then treated the same way.
    - An object whose [type] is none of the seven known ones is counted
      as received and answered by a WARNING record only.
    In all three cases [_process_message] returns normally and hands
    nothing to the transport. *)
Theorem dropped_frames {L : Libs}
    (raw : pystr) (s : WorkerApp.Self) (out : Outside) (evs : list Event) :
  (json_loads raw = None ->
   WorkerApp._process_message raw (SendFacts.at_ s out evs)
   = (Ok tt,
      SendFacts.at_ (AppFacts.count_error s) out
        (EvLog ERROR "message processing failed" :: evs))) /\
  (forall v,
     json_loads raw = Some v ->
     (forall d, v <> PDict d) ->
     WorkerApp._process_message raw (SendFacts.at_ s out evs)
     = (Ok tt,
        SendFacts.at_ (AppFacts.count_error (FrameFacts.received s)) out
          (EvLog ERROR "message processing failed" :: evs))) /\
  (forall message,
     json_loads raw = Some (PDict message) ->
     unknown_type message = true ->
     WorkerApp._process_message raw (SendFacts.at_ s out evs)
     = (Ok tt,
        SendFacts.at_ (FrameFacts.received s) out
          (EvLog WARNING "unknown message type" :: FrameFacts.logged s evs))).
Proof.
  split; [|split].
  - intros Hjson. rewrite AppFacts._process_message_catches.
    unfold WorkerApp._process_message_body, WorkerApp.json_loads_text,
      SendFacts.at_.
    rewrite Hjson. run_W. reflexivity.
  - intros v Hjson Hv. rewrite AppFacts._process_message_catches.
    unfold WorkerApp._process_message_body, WorkerApp.json_loads_text,
      WorkerApp.as_dict, SendFacts.at_.
    rewrite Hjson. run_W.
    destruct v; try reflexivity. now destruct (Hv d).
  - intros message Hjson Hunknown. rewrite AppFacts._process_message_catches.
    unfold unknown_type, known_types in Hunknown. cbn [forallb] in Hunknown.
    repeat (apply andb_true_iff in Hunknown;
            let H := fresh "T" in destruct Hunknown as [H Hunknown];
            apply negb_true_iff in H).
    rewrite (FrameFacts._process_message_body_plain raw message s out evs
               Hjson T).
    unfold FrameFacts.dispatch. rewrite T0, T1, T2, T3, T4, T5.
    unfold SendFacts.at_. run_W. reflexivity.
Qed.

(** A frame that is not JSON, with the stand-in parser. *)
Lemma dropped_frames_witness :
  let s := AppExamples.app None PNone None in
  let out := Examples.outside_with None true in
  WorkerApp._process_message (L := ToyLibs.toy) (py "not json")
    (SendFacts.at_ s out [])
  = (Ok tt,
     SendFacts.at_ (AppFacts.count_error s) out
       [EvLog ERROR "message processing failed"]).
Proof.
  intros s out.
  apply (proj1 (@dropped_frames ToyLibs.toy (py "not json") s out [])).
  reflexivity.
Defined.

(** X25. A [registration_error] stops a running worker.
    [_process_message] counts the frame and shuts the worker down:
    afterwards the worker is not running, its connection is not open, and
    nothing was handed to the transport.  From then on [_send_message]
    raises before it touches the transport, whatever the message. *)
Theorem registration_error_stops_the_worker {L : Libs}
    (raw : pystr) (message : dict)
    (s : WorkerApp.Self) (out : Outside) (evs : list Event) :
  json_loads raw = Some (PDict message) ->
  get message "type" = PStr (py "registration_error") ->
  WorkerApp.is_running s = true ->
  exists new s',
    WorkerApp._process_message raw (SendFacts.at_ s out evs)
    = (Ok tt, SendFacts.at_ s' out (new ++ evs)) /\
    WorkerApp.is_running s' = false /\
    WorkerApp.websocket_open (WorkerApp.websocket s') = false /\
    wires new = [] /\
    WorkerApp.messages_received (WorkerApp.stats s')
    = WorkerApp.messages_received (WorkerApp.stats s) + 1 /\
    forall (m : pyval) (out' : Outside) (evs' : list Event),
      WorkerApp._send_message m (SendFacts.at_ s' out' evs')
      = (Raise (RuntimeError "WebSocket connection is closed"),
         SendFacts.at_ s' out' evs').
Proof.
  intros Hjson Htype Hrunning.
  rewrite AppFacts._process_message_catches.
  rewrite (FrameFacts._process_message_body_plain raw message s out evs Hjson)
    by (rewrite Htype; reflexivity).
  unfold FrameFacts.dispatch. rewrite Htype.
  change (py_eq_str (PStr (py "registration_error")) "registration_success")
    with false.
  change (py_eq_str (PStr (py "registration_error")) "registration_error")
    with true.
  cbv iota. unfold WorkerApp._handle_registration_error.
  unfold SendFacts.at_ at 1. run_W.
  destruct (FrameFacts.logged_extends s evs) as (n0 & Hn0 & Hw0).
  destruct (ShutdownFacts.shutdown_effect (FrameFacts.received s) out
              (EvLog ERROR "registration failed" :: FrameFacts.logged s evs))
    as (n1 & s' & Hrun & Hstopped & Hclosed & _ & Hw1 & _ & _ & _ & Hstats).
  unfold SendFacts.at_ in Hrun. rewrite Hrun.
  exists (n1 ++ EvLog ERROR "registration failed" :: n0), s'.
  unfold SendFacts.at_. rewrite Hn0, <- app_assoc. cbn [app].
  split; [reflexivity|]. split; [exact Hstopped|].
  split; [exact (Hclosed Hrunning)|].
  split; [rewrite TradeFacts.wires_app; cbn [wires]; now rewrite Hw0, Hw1|].
  split; [now rewrite Hstats|].
  intros m out' evs'. unfold WorkerApp._send_message. run_W.
  rewrite (Hclosed Hrunning). reflexivity.
Qed.

(** The stand-in libraries with a parser that knows the
    [registration_error] frame as well. *)
Module MoreFrames.

Definition registration_error_frame : pystr :=
  py "{'type': 'registration_error'}".

Definition registration_error_message : dict :=
  [ (py "type", PStr (py "registration_error")) ].

Definition frames : dict :=
  (registration_error_frame, PDict registration_error_message)
    :: ToyLibs.frames.

#[export] Instance toy : Libs := {|
  aesgcm_encrypt := ToyLibs.encrypt;
  aesgcm_decrypt := ToyLibs.decrypt;
  aesgcm_decrypt_encrypt :=
    fun key nonce data _ _ => ToyLibs.decrypt_encrypt key nonce data;
  x25519_exchange := @x25519_exchange ToyLibs.toy;
  hkdf_derive := ToyLibs.derive;
  hkdf_derive_length := ToyLibs.derive_length;
  json_text := fun _ => [];
  json_text_ascii := fun _ => eq_refl;
  json_loads := fun raw => dict_get raw frames;
  b58decode := @b58decode ToyLibs.toy;
  keypair_from_bytes := @keypair_from_bytes ToyLibs.toy;
  pubkey_str := @pubkey_str ToyLibs.toy;
  isoformat := @isoformat ToyLibs.toy;
  float_of_str := @float_of_str ToyLibs.toy
|}.

End MoreFrames.

(** The connected worker of the examples reads a
    [registration_error]. *)
Lemma registration_error_stops_the_worker_witness :
  let s := AppExamples.app None PNone None in
  let out := Examples.outside_with None true in
  exists new s',
    WorkerApp._process_message (L := MoreFrames.toy)
      MoreFrames.registration_error_frame (SendFacts.at_ s out [])
    = (Ok tt, SendFacts.at_ s' out (new ++ [])) /\
    WorkerApp.is_running s' = false /\
    WorkerApp.websocket_open (WorkerApp.websocket s') = false /\
    wires new = [] /\
    WorkerApp.messages_received (WorkerApp.stats s')
    = WorkerApp.messages_received (WorkerApp.stats s) + 1 /\
    forall (m : pyval) (out' : Outside) (evs' : list Event),
      WorkerApp._send_message (L := MoreFrames.toy) m
        (SendFacts.at_ s' out' evs')
      = (Raise (RuntimeError "WebSocket connection is closed"),
         SendFacts.at_ s' out' evs').
Proof.
  intros s out.
  apply (@registration_error_stops_the_worker MoreFrames.toy
           MoreFrames.registration_error_frame
           MoreFrames.registration_error_message s out []).
  - reflexivity.
  - reflexivity.
  - reflexivity.
Defined.

(* ===================================================================== *)
(** ** Answers to commands *)
(* ===================================================================== *)

Module AnswerFacts.
Import WorkerApp AppFacts SendFacts.

Section WithLibs.
Context {L : Libs}.

Lemma serializable_get_default (d : dict) (k : string) (default : pyval) :
  serializable (PDict d) = true -> serializable default = true ->
  serializable (get_default d k default) = true.
Proof.
  unfold get_default. cbn [serializable]. generalize (py k) as key.
  induction d as [|[k' v] d IH]; intros key; cbn [dict_get forallb snd].
  - auto.
  - intros H Hd. apply andb_true_iff in H. destruct H as [Hv H].
    destruct (pystr_eqb key k'); [exact Hv | now apply IH].
Qed.

(** The result of a trade serializes when the command does. *)
Lemma to_dict_serializable (command : dict) (eng : TradingEngine.Self)
    (res : TradingEngine.TradeResult) :
  serializable (PDict command) = true ->
  TradingEngine.token_address res = get command "token_address" ->
  (TradingEngine.amount_sol res = get command "amount_sol" \/
   TradingEngine.amount_sol res = EngineFacts.amount_of command eng) ->
  serializable (TradingEngine.to_dict res) = true.
Proof.
  intros Hc Htoken Hamount. unfold TradingEngine.to_dict.
  cbn [serializable forallb snd]. rewrite Htoken.
  rewrite (PumpFacts.serializable_get command _ Hc).
  assert (Ha : serializable (TradingEngine.amount_sol res) = true).
  { destruct Hamount as [-> | ->];
      [apply PumpFacts.serializable_get; exact Hc
      |apply serializable_get_default; [exact Hc | reflexivity]]. }
  rewrite Ha.
  destruct (TradingEngine.transaction_id res), (TradingEngine.error_message res),
    (TradingEngine.price_impact res), (TradingEngine.gas_used res),
    (TradingEngine.execution_time_ms res), (TradingEngine.timestamp res);
    reflexivity.
Qed.

(** The [pump_error] message with the text [error], stamped at [t]. *)
Definition pump_error (s : Self) (message : dict) (error : string) (t : Z)
  : pyval :=
  PDict [ (py "type", PStr (py "pump_error"));
          (py "worker_id", PStr (worker_id s));
          (py "command_id", get message "command_id");
          (py "error", PStr (py error));
          (py "timestamp", PStr (isoformat t)) ].

(** What exactly one delivered frame adds to the messages sent. *)
Lemma delivered_one (new evs : list Event) (m : pyval) :
  sent_messages (new ++ evs) = sent_messages evs ++ [m] ->
  sent_messages new = [m].
Proof.
  rewrite sent_messages_app. intros H. now apply app_inv_head in H.
Qed.

End WithLibs.
End AnswerFacts.

(** X26. Every pump command on a working connection gets exactly one
    answer.  Let the connection be open, the transport deliver, the
    command be serializable and the session key, if any, be of valid
    length.  With a trading engine, [_handle_pump_command] returns
    normally and sends one [pump_result] with the result
    [execute_pump_trade] returned, whatever that result is, and
    [trades_executed] goes up by one even when the trade was rejected or
    failed.  Without a trading engine it returns normally and sends one
    [pump_error] saying so, and [trades_executed] is unchanged. *)
Theorem pump_command_is_answered_once {L : Libs}
    (message : dict) (s : WorkerApp.Self) (out : Outside) (evs : list Event) :
  WorkerApp.websocket_open (WorkerApp.websocket s) = true ->
  serializable (PDict message) = true ->
  (forall i, send_reply out i = true) ->
  (forall k, WorkerApp.shared_key s = Some k -> aes_key_ok k = true) ->
  exists new answer s',
    WorkerApp._handle_pump_command message (SendFacts.at_ s out evs)
    = (Ok tt, SendFacts.at_ s' out (new ++ evs)) /\
    sent_messages new = [answer] /\
    match WorkerApp.trading_engine s with
    | Some eng =>
        exists res t,
          fst (TradingEngine.execute_pump_trade message
                 (ConfirmationFacts.at_ eng out
                    (EvLog INFO "pump command received" :: evs))) = Ok res /\
          answer = PumpFacts.pump_result s message res t /\
          WorkerApp.trades_executed (WorkerApp.stats s')
          = WorkerApp.trades_executed (WorkerApp.stats s) + 1
    | None =>
        (exists t,
           answer = AnswerFacts.pump_error s message
                      "trading engine is not initialized" t) /\
        WorkerApp.trades_executed (WorkerApp.stats s')
        = WorkerApp.trades_executed (WorkerApp.stats s)
    end.
Proof.
  intros Hopen Hser Hsend Hkey.
  unfold WorkerApp._handle_pump_command, SendFacts.at_. run_W.
  destruct (WorkerApp.trading_engine s) as [eng|] eqn:Heng; run_W.
  - unfold WorkerApp.with_engine. cbn [WorkerApp.trading_engine WorkerApp.self
                                       WorkerApp.env].
    rewrite Heng.
    destruct (TradeFacts.execute_pump_trade_outcome message eng out
                (EvLog INFO "pump command received" :: evs))
      as (n1 & res & eng' & Hrun & Hout).
    rewrite Hrun. unfold ConfirmationFacts.at_ in Hrun |- *. rewrite Hrun.
    cbn [TradingEngine.self TradingEngine.env fst]. run_W.
    destruct (TradeFacts.outcome_fields _ _ _ _ _ _ _ Hout) as [Htoken Hamount].
    match goal with
    | |- context [WorkerApp._send_message ?m ?st] =>
        destruct (PumpFacts._send_message_delivers m (WorkerApp.self st)
                    (WorkerApp.env st)) as (n2 & Hs & Hm & _)
    end; cbn [WorkerApp.self WorkerApp.env outside WorkerApp.websocket
              WorkerApp.shared_key WorkerApp.set_trading_engine];
      try assumption.
    { cbn [serializable forallb snd].
      rewrite (PumpFacts.serializable_get message _ Hser).
      now rewrite (AnswerFacts.to_dict_serializable message eng res
                     Hser Htoken Hamount). }
    cbn [WorkerApp.self WorkerApp.env] in Hs. rewrite Hs. clear Hs.
    unfold EngineFacts.extend in *. cbn [outside events] in *. run_W.
    apply AnswerFacts.delivered_one in Hm.
    exists (n2 ++ EvNow :: n1 ++ [EvLog INFO "pump command received"]).
    eexists. eexists.
    split; [rewrite <- !app_assoc; cbn [app]; rewrite <- !app_assoc;
            reflexivity|].
    split.
    + rewrite SendFacts.sent_messages_app. cbn [sent_messages].
      rewrite SendFacts.sent_messages_app. cbn [sent_messages app].
      rewrite (TradeFacts.wires_nil_sent_messages n1
                 (TradeFacts.outcome_silent _ _ _ _ _ _ _ Hout)).
      exact Hm.
    + exists res. eexists. split; [reflexivity|]. split; [reflexivity|].
      unfold PumpFacts.sent_one.
      cbn [WorkerApp.metrics WorkerApp.set_stats WorkerApp.set_trading_engine].
      destruct (WorkerApp.metrics s); reflexivity.
  - match goal with
    | |- context [WorkerApp._send_message ?m ?st] =>
        destruct (PumpFacts._send_message_delivers m (WorkerApp.self st)
                    (WorkerApp.env st)) as (n2 & Hs & Hm & _)
    end; cbn [WorkerApp.self WorkerApp.env outside]; try assumption.
    { cbn [serializable forallb snd].
      now rewrite (PumpFacts.serializable_get message _ Hser). }
    cbn [WorkerApp.self WorkerApp.env] in Hs. rewrite Hs. clear Hs.
    unfold EngineFacts.extend in *. cbn [outside events] in *. run_W.
    apply AnswerFacts.delivered_one in Hm.
    exists (n2 ++ [EvNow; EvLog ERROR "pump failed";
                   EvLog INFO "pump command received"]).
    eexists. eexists.
    split; [rewrite <- !app_assoc; reflexivity|]. split.
    + rewrite SendFacts.sent_messages_app. cbn [sent_messages app]. exact Hm.
    + split; [eexists; reflexivity|].
      unfold PumpFacts.sent_one.
      cbn [WorkerApp.metrics WorkerApp.set_stats WorkerApp.set_trading_engine].
      destruct (WorkerApp.metrics s); reflexivity.
Qed.

(** A pump command for the connected worker of the examples, which has
    no trading engine. *)
Lemma pump_command_is_answered_once_witness :
  let s := AppExamples.app None PNone None in
  let out := Examples.outside_with (Some 5000000000) true in
  let message := Examples.pump_command (1 # 100) in
  exists new answer s',
    WorkerApp._handle_pump_command (L := ToyLibs.toy) message
      (SendFacts.at_ s out [])
    = (Ok tt, SendFacts.at_ s' out (new ++ [])) /\
    sent_messages new = [answer] /\
    (exists t,
       answer = AnswerFacts.pump_error (L := ToyLibs.toy) s message
                  "trading engine is not initialized" t) /\
    WorkerApp.trades_executed (WorkerApp.stats s')
    = WorkerApp.trades_executed (WorkerApp.stats s).
Proof.
  intros s out message.
  apply (@pump_command_is_answered_once ToyLibs.toy message s out []).
  - reflexivity.
  - reflexivity.
  - intros i. reflexivity.
  - intros k [=].
Defined.

(* ===================================================================== *)
(** ** Encryption that is asked for but not set up *)
(* ===================================================================== *)

(** X27. Missing keys downgrade the channel to plaintext.  Let
    encryption be enabled in the settings while the worker's private key
    or the coordinator's public key is missing, and no session key be
    set.  Then [_initialize_encryption] returns normally, its only effect
    being one WARNING record, and the worker has no session key; and
    every frame [_send_message] afterwards hands to the transport is the
    plain JSON text of the message. *)
Theorem missing_keys_downgrade_to_plaintext {L : Libs}
    (s : WorkerApp.Self) (out : Outside) (evs : list Event) :
  Config.encryption_enabled (WorkerApp.config s) = true ->
  truthy (opt_str (WorkerApp.worker_private_key s)) = false \/
  truthy (WorkerApp.coordinator_public_key s) = false ->
  WorkerApp.shared_key s = None ->
  WorkerApp._initialize_encryption (SendFacts.at_ s out evs)
  = (Ok tt,
     SendFacts.at_ s out
       (EvLog WARNING "encryption keys are not configured" :: evs)) /\
  forall (m : pyval) (out' : Outside) (evs' : list Event),
  exists new r s',
    WorkerApp._send_message m (SendFacts.at_ s out' evs')
    = (r, SendFacts.at_ s' out' (new ++ evs')) /\
    forall wire, In wire (wires new) -> wire = json_text m.
Proof.
  intros Henabled Hmissing Hkey. split.
  - unfold WorkerApp._initialize_encryption, SendFacts.at_. run_W.
    rewrite Henabled. run_W.
    destruct Hmissing as [-> | ->]; run_W; [reflexivity|].
    destruct (truthy (opt_str (WorkerApp.worker_private_key s))); reflexivity.
  - intros m out' evs'.
    destruct (SendFacts._send_message_effect m s out' evs')
      as (new & r & s' & Hrun & _ & Hwire & _).
    exists new, r, s'. split; [exact Hrun|]. intros wire Hin.
    specialize (Hwire wire Hin).
    unfold SendFacts.carries, SendFacts.encrypts in Hwire.
    rewrite Hkey in Hwire. cbn [WorkerApp.key_present] in Hwire.
    now rewrite andb_false_r in Hwire.
Qed.

(** The worker of the key examples before any coordinator key is known. *)
Lemma missing_keys_downgrade_to_plaintext_witness :
  let s := KeyExamples.app PNone None in
  let out := Examples.outside_with None true in
  WorkerApp._initialize_encryption (L := ToyLibs.toy) (SendFacts.at_ s out [])
  = (Ok tt,
     SendFacts.at_ s out [EvLog WARNING "encryption keys are not configured"]) /\
  forall (m : pyval) (out' : Outside) (evs' : list Event),
  exists new r s',
    WorkerApp._send_message (L := ToyLibs.toy) m (SendFacts.at_ s out' evs')
    = (r, SendFacts.at_ s' out' (new ++ evs')) /\
    forall wire, In wire (wires new) -> wire = @json_text ToyLibs.toy m.
Proof.
  intros s out.
  apply (@missing_keys_downgrade_to_plaintext ToyLibs.toy s out []).
  - reflexivity.
  - right. reflexivity.
  - reflexivity.
Defined.

(* ===================================================================== *)
(** ** The first contact and the assignment of a wallet *)
(* ===================================================================== *)

Module ContactFacts.
Import WorkerApp AppFacts SendFacts.

Section WithLibs.
Context {L : Libs}.

(** The registration message of the worker [s]. *)
Definition registration (s : Self) : pyval :=
  let cfg := config s in
  PDict [ (py "type", PStr (py "register"));
          (py "api_key", PStr (Config.api_key cfg));
          (py "worker_id", PStr (worker_id s));
          (py "worker_public_key_x25519_base64",
             opt_str (Config.worker_public_key_x25519 cfg));
          (py "region", PStr (Config.worker_region cfg));
          (py "capabilities", PList (Config.get_capabilities cfg));
          (py "status", PStr (py "ready"));
          (py "metadata",
             PDict [ (py "version", PStr (py "2.0.0"));
                     (py "name", opt_str (Config.worker_name cfg));
                     (py "description",
                        opt_str (Config.worker_description cfg));
                     (py "max_wallets",
                        PInt (Config.max_wallets_per_worker cfg));
                     (py "max_concurrent_trades",
                        PInt (Config.max_concurrent_trades cfg)) ]) ].

Lemma registration_serializable (s : Self) :
  serializable (registration s) = true.
Proof.
  unfold registration, Config.get_capabilities. cbv zeta.
  cbn [serializable forallb snd].
  rewrite !PumpFacts.opt_str_serializable.
  destruct (1 <? _), (Config.metrics_enabled _),
    (Config.notifications_enabled _); reflexivity.
Qed.

Lemma sending_connects_nothing (evs : list Event) :
  forallb is_sending_event evs = true -> connection_attempts evs = 0.
Proof.
  induction evs as [|ev evs IH]; [reflexivity|].
  cbn [forallb]. intros H. apply andb_true_iff in H. destruct H as [Hev H].
  destruct ev; try discriminate; cbn [connection_attempts]; auto.
Qed.

Lemma connection_attempts_app (a b : list Event) :
  connection_attempts (a ++ b) = connection_attempts a + connection_attempts b.
Proof.
  induction a as [|ev a IH]; [reflexivity|].
  destruct ev; cbn [app connection_attempts]; rewrite IH; lia.
Qed.

(** The wallet answer for the keypair [kp], stamped at [t]. *)
Definition wallet_assigned (s : Self) (message : dict) (kp : Keypair) (t : Z)
  : pyval :=
  PDict [ (py "type", PStr (py "wallet_assigned"));
          (py "worker_id", PStr (worker_id s));
          (py "wallet_index", get message "wallet_index");
          (py "public_key", PStr (pubkey_str kp));
          (py "timestamp", PStr (isoformat t)) ].

End WithLibs.
End ContactFacts.

(** X28. A coordinator that accepts the connection is sent the
    registration, once.  Let the worker be running with attempts left, the
    coordinator accept the connection and the transport deliver (the
    session key, if any, being of valid length).  Then
    [connect_to_coordinator] returns [True] after a single connection
    attempt; the one message sent is the [register] message with the API
    key and the worker id; the connection is open and the attempt counter
    is 0. *)
Theorem accepted_connection_sends_the_registration {L : Libs}
    (fuel : nat) (s : WorkerApp.Self) (out : Outside) (evs : list Event) :
  WorkerApp.is_running s = true ->
  WorkerApp.reconnect_attempts s < WorkerApp.max_reconnect_attempts s ->
  (forall i, connect_reply out i = true) ->
  (forall i, send_reply out i = true) ->
  (forall k, WorkerApp.shared_key s = Some k -> aes_key_ok k = true) ->
  exists new s',
    WorkerApp.connect_to_coordinator (Datatypes.S fuel) (SendFacts.at_ s out evs)
    = (Ok (Some true), SendFacts.at_ s' out (new ++ evs)) /\
    sent_messages new = [ContactFacts.registration s] /\
    connection_attempts new = 1 /\
    WorkerApp.websocket s' = Some {| WorkerApp.closed := false |} /\
    WorkerApp.reconnect_attempts s' = 0 /\
    WorkerApp.messages_sent (WorkerApp.stats s')
    = WorkerApp.messages_sent (WorkerApp.stats s) + 1.
Proof.
  intros Hrunning Hleft Hconnect Hsend Hkey.
  unfold WorkerApp.connect_to_coordinator, SendFacts.at_. run_W.
  cbn [WorkerApp.connect_loop]. run_W. rewrite Hrunning.
  apply Z.ltb_lt in Hleft. rewrite Hleft. run_W.
  unfold WorkerApp.websockets_connect. run_W. rewrite Hconnect. run_W.
  unfold WorkerApp._send_registration. run_W.
  match goal with
  | |- context [WorkerApp._send_message ?m
                  {| WorkerApp.self := ?s1;
                     WorkerApp.env := {| outside := out; events := ?l |} |}] =>
      destruct (SendFacts._send_message_delivered m s1 out l)
        as (n2 & Hs & Hm & Hev)
  end; cbn [WorkerApp.websocket WorkerApp.shared_key WorkerApp.set_websocket
            WorkerApp.set_reconnect_attempts WorkerApp.websocket_open
            WorkerApp.closed negb];
    try assumption; try reflexivity.
  { apply (ContactFacts.registration_serializable s). }
  unfold SendFacts.at_ in Hs. rewrite Hs. clear Hs. run_W.
  exists (EvLog INFO "registration message sent" :: n2
            ++ [EvLog INFO "connected to the coordinator"; EvConnect;
                EvLog INFO "connecting to the coordinator"]).
  eexists. split; [cbn [app]; rewrite <- !app_assoc; reflexivity|].
  split.
  { cbn [sent_messages app]. rewrite SendFacts.sent_messages_app.
    cbn [sent_messages app]. exact Hm. }
  split.
  { cbn [connection_attempts]. rewrite ContactFacts.connection_attempts_app.
    rewrite (ContactFacts.sending_connects_nothing n2 Hev). reflexivity. }
  unfold PumpFacts.sent_one.
  cbn [WorkerApp.metrics WorkerApp.set_stats WorkerApp.set_websocket
       WorkerApp.set_reconnect_attempts].
  destruct (WorkerApp.metrics s); repeat split.
Qed.

(** The connected worker's first contact with a coordinator that
    accepts. *)
Lemma accepted_connection_sends_the_registration_witness :
  let s := AppExamples.app None PNone None in
  let out := Examples.outside_with None true in
  exists new s',
    WorkerApp.connect_to_coordinator (L := ToyLibs.toy) 1
      (SendFacts.at_ s out [])
    = (Ok (Some true), SendFacts.at_ s' out (new ++ [])) /\
    sent_messages new = [ContactFacts.registration s] /\
    connection_attempts new = 1 /\
    WorkerApp.websocket s' = Some {| WorkerApp.closed := false |} /\
    WorkerApp.reconnect_attempts s' = 0 /\
    WorkerApp.messages_sent (WorkerApp.stats s')
    = WorkerApp.messages_sent (WorkerApp.stats s) + 1.
Proof.
  intros s out.
  apply (@accepted_connection_sends_the_registration ToyLibs.toy 0 s out []).
  - reflexivity.
  - reflexivity.
  - intros i. reflexivity.
  - intros i. reflexivity.
  - intros k [=].
Defined.

Module AssignmentFacts.
Import WorkerApp AppFacts SendFacts.

Section WithLibs.
Context {L : Libs}.

(** A key under which something decrypts is of valid length. *)
Lemma decrypt_wallet_key_valid_key (v : pyval) (k : bytes) (text : pystr) :
  EncryptionUtils.decrypt_wallet_key v (Some k) = Ok text ->
  aes_key_ok k = true.
Proof.
  unfold EncryptionUtils.decrypt_wallet_key.
  destruct v as [| | | |data| | |]; try discriminate.
  destruct (split_colon data) as [|c [|n [|t [|d l]]]]; try discriminate.
  unfold EncryptionUtils.decrypt_aes_gcm, EncryptionUtils.reraise_as_ValueError,
    EncryptionUtils.rbind, EncryptionUtils.AESGCM.
  destruct (Base64.b64decode c); [|discriminate].
  destruct (Base64.b64decode n); [|discriminate].
  destruct (Base64.b64decode t); [|discriminate].
  destruct (aes_key_ok k); [reflexivity | discriminate].
Qed.

Lemma valid_key_present (k : bytes) :
  aes_key_ok k = true -> key_present (Some k) = true.
Proof. destruct k; [discriminate | reflexivity]. Qed.

(** The application after the keypair was stored. *)
Definition assigned (message : dict) (kp : Keypair) (s : Self) : Self :=
  set_wallets (setitem (get message "wallet_index") kp (wallets s)) s.

Lemma _handle_wallet_assignment_effect (message : dict) (s : Self)
    (out : Outside) (evs : list Event) (k : bytes) (secret : pystr)
    (private_key_bytes : bytes) (kp : Keypair) :
  shared_key s = Some k ->
  EncryptionUtils.decrypt_wallet_key (get message "encrypted_private_key")
    (Some k) = Ok secret ->
  b58decode secret = Some private_key_bytes ->
  keypair_from_bytes private_key_bytes = Some kp ->
  hashable (get message "wallet_index") = true ->
  let t := clock out (Datatypes.S (List.length evs)) in
  let before := EvNow :: EvLog INFO "wallet assigned" :: evs in
  exists n2 r s2,
    _send_message (ContactFacts.wallet_assigned s message kp t)
      (at_ (assigned message kp s) out before)
    = (r, at_ s2 out (n2 ++ before)) /\
    _handle_wallet_assignment message (at_ s out evs)
    = (Ok tt,
       at_ s2 out
         (match r with
          | Ok _ => []
          | Raise _ => [EvLog ERROR "wallet assignment failed"]
          end ++ n2 ++ before)).
Proof.
  intros Hk Hdec Hb58 Hkp Hhash t before.
  pose proof (valid_key_present k (decrypt_wallet_key_valid_key _ _ _ Hdec))
    as Hpresent.
  destruct (_send_message_effect (ContactFacts.wallet_assigned s message kp t)
              (assigned message kp s) out before)
    as (n2 & r & s2 & Hrun & _).
  exists n2, r, s2. split; [exact Hrun|].
  unfold _handle_wallet_assignment. unfold at_ at 1. run_W.
  rewrite Hk, Hpresent, Hdec. run_W. rewrite Hb58. run_W. rewrite Hkp. run_W.
  rewrite Hhash. run_W.
  unfold at_, assigned, ContactFacts.wallet_assigned in Hrun.
  subst t before. rewrite Hrun.
  destruct r as [[]|x]; reflexivity.
Qed.

End WithLibs.
End AssignmentFacts.

(** X29. A wallet that decrypts is stored, answered or not.  Let the
    [encrypted_private_key] of a [wallet_assignment] decrypt under the
    session key to a text that decodes to a keypair, and the
    [wallet_index] be hashable.  Then [_handle_wallet_assignment] returns
    normally and has stored the keypair under the index
    ([self.wallets[wallet_index] = keypair]); it sends at most the one
    [wallet_assigned] message with the public key.  The keypair stays
    stored even when the answer cannot be sent; on an open connection
    whose transport delivers, the answer is sent. *)
Theorem decrypted_wallet_is_stored {L : Libs}
    (message : dict) (s : WorkerApp.Self) (out : Outside) (evs : list Event)
    (k : bytes) (secret : pystr) (private_key_bytes : bytes) (kp : Keypair) :
  WorkerApp.shared_key s = Some k ->
  EncryptionUtils.decrypt_wallet_key (get message "encrypted_private_key")
    (Some k) = Ok secret ->
  b58decode secret = Some private_key_bytes ->
  keypair_from_bytes private_key_bytes = Some kp ->
  WorkerApp.hashable (get message "wallet_index") = true ->
  exists new s' t,
    WorkerApp._handle_wallet_assignment message (SendFacts.at_ s out evs)
    = (Ok tt, SendFacts.at_ s' out (new ++ evs)) /\
    WorkerApp.wallets s'
    = WorkerApp.setitem (get message "wallet_index") kp (WorkerApp.wallets s) /\
    (sent_messages new = [] \/
     sent_messages new = [ContactFacts.wallet_assigned s message kp t]) /\
    (WorkerApp.websocket_open (WorkerApp.websocket s) = true ->
     serializable (get message "wallet_index") = true ->
     (forall i, send_reply out i = true) ->
     sent_messages new = [ContactFacts.wallet_assigned s message kp t]).
Proof.
  intros Hk Hdec Hb58 Hkp Hhash.
  destruct (AssignmentFacts._handle_wallet_assignment_effect message s out evs
              k secret private_key_bytes kp Hk Hdec Hb58 Hkp Hhash)
    as (n2 & r & s2 & Hsend & Hrun).
  cbv zeta in Hsend, Hrun.
  set (t := clock out (Datatypes.S (List.length evs))) in *.
  set (before := EvNow :: EvLog INFO "wallet assigned" :: evs) in *.
  destruct (SendFacts._send_message_effect
              (ContactFacts.wallet_assigned s message kp t)
              (AssignmentFacts.assigned message kp s) out before)
    as (n2' & r' & s2' & Hsend' & Hsame & _ & _ & _ & Hr).
  rewrite Hsend in Hsend'.
  assert (Hn : n2 = n2').
  { apply (app_inv_tail before). unfold SendFacts.at_ in Hsend'. congruence. }
  assert (Hrr : r = r') by congruence.
  assert (Hss : s2 = s2') by (unfold SendFacts.at_ in Hsend'; congruence).
  subst n2' r' s2'. clear Hsend'.
  exists (match r with
          | Ok _ => []
          | Raise _ => [EvLog ERROR "wallet assignment failed"]
          end ++ n2 ++ [EvNow; EvLog INFO "wallet assigned"]), s2, t.
  split; [rewrite <- !app_assoc; exact Hrun|].
  split; [rewrite (same_wallets _ _ Hsame); reflexivity|].
  assert (Hsent : sent_messages
                    (match r with
                     | Ok _ => []
                     | Raise _ => [EvLog ERROR "wallet assignment failed"]
                     end ++ n2 ++ [EvNow; EvLog INFO "wallet assigned"])
                  = sent_messages n2).
  { rewrite !SendFacts.sent_messages_app. cbn [sent_messages app].
    destruct r; cbn [sent_messages]; now rewrite app_nil_r. }
  rewrite Hsent. split.
  - destruct r as [[]|x]; [right | left]; apply Hr.
  - intros Hopen Hser Hdeliver.
    destruct (SendFacts._send_message_delivered
                (ContactFacts.wallet_assigned s message kp t)
                (AssignmentFacts.assigned message kp s) out before)
      as (n3 & Hrun3 & _); try assumption.
    + unfold ContactFacts.wallet_assigned. cbn [serializable forallb snd].
      now rewrite Hser.
    + cbn [WorkerApp.shared_key AssignmentFacts.assigned WorkerApp.set_wallets].
      intros k' Hk'. rewrite Hk in Hk'. injection Hk' as <-.
      exact (AssignmentFacts.decrypt_wallet_key_valid_key _ _ _ Hdec).
    + rewrite Hsend in Hrun3.
      assert (Hok : r = Ok tt) by congruence. subst r. apply Hr.
Qed.

(** A wallet key encrypted under the session key A of the key examples. *)
Module AssignmentExamples.

Definition wallet_secret : pystr := repeat 65 64.

Definition encrypted_secret : pystr :=
  match EncryptionUtils.encrypt_wallet_key (L := ToyLibs.toy) wallet_secret
          (Some KeyExamples.session_key_A) (fun _ => x00) with
  | Ok encrypted => encrypted
  | Raise _ => []
  end.

Definition assignment : dict :=
  [ (py "type", PStr (py "wallet_assignment"));
    (py "wallet_index", PInt 0);
    (py "encrypted_private_key", PStr encrypted_secret) ].

Definition keypair : Keypair :=
  {| keypair_bytes := map byte_of_Z wallet_secret |}.

End AssignmentExamples.

Lemma decrypted_wallet_is_stored_witness :
  let s := KeyExamples.app (PStr KeyExamples.coordinator_key_A)
             (Some KeyExamples.session_key_A) in
  let out := Examples.outside_with None true in
  let message := AssignmentExamples.assignment in
  let kp := AssignmentExamples.keypair in
  exists new s' t,
    WorkerApp._handle_wallet_assignment (L := ToyLibs.toy) message
      (SendFacts.at_ s out [])
    = (Ok tt, SendFacts.at_ s' out (new ++ [])) /\
    WorkerApp.wallets s'
    = WorkerApp.setitem (get message "wallet_index") kp (WorkerApp.wallets s) /\
    (sent_messages new = [] \/
     sent_messages new
     = [ContactFacts.wallet_assigned (L := ToyLibs.toy) s message kp t]) /\
    (WorkerApp.websocket_open (WorkerApp.websocket s) = true ->
     serializable (get message "wallet_index") = true ->
     (forall i, send_reply out i = true) ->
     sent_messages new
     = [ContactFacts.wallet_assigned (L := ToyLibs.toy) s message kp t]).
Proof.
  intros s out message kp.
  apply (@decrypted_wallet_is_stored ToyLibs.toy message s out []
           KeyExamples.session_key_A AssignmentExamples.wallet_secret
           (map byte_of_Z AssignmentExamples.wallet_secret) kp).
  - reflexivity.
  - vm_compute. reflexivity.
  - reflexivity.
  - reflexivity.
  - reflexivity.
Defined.

(* ===================================================================== *)
(** ** The main loop *)
(* ===================================================================== *)

(** What the worker does on its own: log records, the health check of
    the node and the closing of its clients. *)
Definition is_local_event (ev : Event) : bool :=
  match ev with
  | EvLog _ _ | EvGetHealth | EvClose _ => true
  | _ => false
  end.

Module RunFacts.
Import WorkerApp AppFacts SendFacts WorkerMain.

Lemma local_connects_nothing (evs : list Event) :
  forallb is_local_event evs = true -> connection_attempts evs = 0.
Proof.
  induction evs as [|ev evs IH]; [reflexivity|].
  cbn [forallb]. intros H. apply andb_true_iff in H. destruct H as [Hev H].
  destruct ev; try discriminate; cbn [connection_attempts]; auto.
Qed.

Lemma local_sends_nothing (evs : list Event) :
  forallb is_local_event evs = true -> wires evs = [].
Proof.
  induction evs as [|ev evs IH]; [reflexivity|].
  cbn [forallb]. intros H. apply andb_true_iff in H. destruct H as [Hev H].
  destruct ev; try discriminate; cbn [wires]; auto.
Qed.

(** [shutdown] only logs and closes. *)
Lemma shutdown_local (s : Self) (out : Outside) (evs : list Event) :
  exists new s',
    shutdown (at_ s out evs) = (Ok tt, at_ s' out (new ++ evs)) /\
    forallb is_local_event new = true /\
    is_running s' = false /\
    trading_engine s' = trading_engine s.
Proof.
  unfold shutdown, at_. run_W.
  destruct (is_running s) eqn:Hrunning; run_W.
  2:{ exists [], s. now repeat split. }
  destruct (websocket s) as [[[|]]|] eqn:Hws;
    cbn [websocket_open closed negb]; run_W;
    destruct (http_client s); run_W;
    destruct (solana_client s); run_W;
    destruct (trading_engine s) eqn:Heng; run_W;
    destruct (metrics s); run_W;
    match goal with
    | |- exists new, exists s', (_, {| self := _; env :=
             {| outside := _; events := ?l |} |}) = _ /\ _ =>
        let p := prefix_of l evs in
        exists p; eexists; split; [reflexivity|]
    end;
    cbn [is_running trading_engine set_metrics set_websocket set_is_running];
    repeat split; try assumption; reflexivity.
Qed.

Section WithLibs.
Context {L : Libs}.

(** With a node that fails its health check the initialization fails,
    before the trading engine is made. *)
Lemma initialize_unhealthy (s : Self) (out : Outside) (evs : list Event) :
  (forall i, health_reply out i = false) ->
  exists new m s',
    initialize (at_ s out evs)
    = (Raise (ValueError m), at_ s' out (new ++ evs)) /\
    forallb is_local_event new = true /\
    trading_engine s' = trading_engine s /\
    is_running s' = is_running s.
Proof.
  intros Hhealth.
  unfold initialize, _initialize_encryption, _initialize_http_client,
    _initialize_solana_client, at_, rpc_error. run_W.
  destruct (Config.encryption_enabled (config s)); run_W;
    [destruct (negb (truthy (opt_str (worker_private_key s)))
               || negb (truthy (coordinator_public_key s))); run_W;
       [|destruct (EncryptionUtils.perform_key_exchange_x25519 _ _); run_W]|];
    rewrite ?Hhealth; run_W;
    destruct (metrics s); run_W;
    match goal with
    | |- exists new, exists m, exists s',
           (_, {| self := _; env := {| outside := _; events := ?l |} |}) = _ /\ _ =>
        let p := prefix_of l evs in
        exists p; eexists; eexists; split; [reflexivity|]
    end;
    cbn [trading_engine is_running set_metrics set_http_client
         set_solana_client set_shared_key];
    repeat split.
Qed.

End WithLibs.
End RunFacts.

(** X30. [run] never raises, and when it ends the worker is stopped; a
    node that fails its health check keeps the worker from ever
    contacting the coordinator.
    - [run] never raises.  When it ends, [is_running] is False: its
      [finally] clause has shut the worker down.  It can fail to end in
      one way only: the initialization succeeded and the [while] loop
      goes on (the fuel given to the loop ran out); then nothing was
      shut down.
    - If the health check of the RPC node fails, the initialization fails
      and [run] ends at once, whatever the fuel: all the worker has done
      is log, check the node and close its clients; no connection to the
      coordinator was attempted, nothing was sent, and no trading engine
      was made.
    - If the coordinator cannot be reached, the loop of [run] ends in its
      first round: [connect_to_coordinator] uses up the attempts that
      were left, and the loop is left by its [break]. *)
Theorem run_leaves_the_worker_stopped {L : Libs}
    (fuel connect_fuel : nat) (inboxes : list WorkerApp.Inbox)
    (s : WorkerApp.Self) (out : Outside) (evs : list Event) :
  (exists r st',
     WorkerMain.run fuel connect_fuel inboxes (SendFacts.at_ s out evs)
     = (Ok r, st') /\
     match r with
     | Some _ => WorkerApp.is_running (WorkerApp.self st') = false
     | None =>
         exists st1,
           WorkerApp.initialize
             (SendFacts.at_ (WorkerApp.set_is_running true s) out
                (EvLog INFO "starting the worker" :: evs)) = (Ok tt, st1) /\
           WorkerMain.run_loop fuel connect_fuel inboxes st1 = (Ok None, st')
     end) /\
  ((forall i, health_reply out i = false) ->
   exists new s',
     WorkerMain.run fuel connect_fuel inboxes (SendFacts.at_ s out evs)
     = (Ok (Some tt), SendFacts.at_ s' out (new ++ evs)) /\
     forallb is_local_event new = true /\
     connection_attempts new = 0 /\
     wires new = [] /\
     WorkerApp.is_running s' = false /\
     WorkerApp.trading_engine s' = WorkerApp.trading_engine s) /\
  (WorkerApp.is_running s = true ->
   (forall i, connect_reply out i = false) ->
   WorkerApp.reconnect_attempts s <= WorkerApp.max_reconnect_attempts s ->
   let left := Z.to_nat (WorkerApp.max_reconnect_attempts s
                         - WorkerApp.reconnect_attempts s) in
   (left < connect_fuel)%nat ->
   exists st',
     WorkerMain.run_loop (Datatypes.S fuel) connect_fuel inboxes
       (SendFacts.at_ s out evs) = (Ok (Some tt), st') /\
     connection_attempts (events (WorkerApp.env st'))
     = connection_attempts evs + Z.of_nat left /\
     WorkerApp.reconnect_attempts (WorkerApp.self st')
     = WorkerApp.max_reconnect_attempts s).
Proof.
  split; [|split].
  - unfold WorkerMain.run, SendFacts.at_. run_W.
    destruct (WorkerApp.initialize _) as [[[]|x] st1]; run_W.
    + destruct (WorkerMain.run_loop _ _ _ st1) as [[[r|]|x] [s2 [out2 evs2]]]
        eqn:Hloop; run_W.
      * destruct (RunFacts.shutdown_local s2 out2 evs2)
          as (n & s3 & Hrun & _ & Hstopped & _).
        unfold SendFacts.at_ in Hrun. rewrite Hrun. run_W.
        eexists (Some r), _. split; [reflexivity | exact Hstopped].
      * eexists None, _. split; [reflexivity|].
        exists st1. split; [reflexivity | exact Hloop].
      * destruct (WorkerApp.metrics s2); run_W;
          match goal with
          | |- context [WorkerApp.shutdown
                          {| WorkerApp.self := ?a;
                             WorkerApp.env := {| outside := ?o; events := ?l |} |}] =>
              destruct (RunFacts.shutdown_local a o l)
                as (n & s3 & Hrun & _ & Hstopped & _)
          end; unfold SendFacts.at_ in Hrun; rewrite Hrun; run_W;
          (eexists (Some tt), _; split; [reflexivity | exact Hstopped]).
    + destruct st1 as [s1 [out1 evs1]]. run_W.
      destruct (WorkerApp.metrics s1); run_W;
        match goal with
        | |- context [WorkerApp.shutdown
                        {| WorkerApp.self := ?a;
                           WorkerApp.env := {| outside := ?o; events := ?l |} |}] =>
            destruct (RunFacts.shutdown_local a o l)
              as (n & s3 & Hrun & _ & Hstopped & _)
        end; unfold SendFacts.at_ in Hrun; rewrite Hrun; run_W;
        (eexists (Some tt), _; split; [reflexivity | exact Hstopped]).
  - intros Hhealth.
    unfold WorkerMain.run. unfold SendFacts.at_ at 1. run_W.
    destruct (RunFacts.initialize_unhealthy
                (WorkerApp.set_is_running true s) out
                (EvLog INFO "starting the worker" :: evs) Hhealth)
      as (n1 & m & s1 & Hinit & Hlocal1 & Heng1 & _).
    unfold SendFacts.at_ in Hinit. rewrite Hinit. run_W.
    assert (Hstop : exists n2 s2,
      WorkerApp.shutdown
        (SendFacts.at_
           match WorkerApp.metrics s1 with
           | Some m0 =>
               WorkerApp.set_metrics
                 (Some (WorkerApp.set_worker_status "error" m0)) s1
           | None => s1
           end out
           (EvLog ERROR "critical error"
              :: n1 ++ EvLog INFO "starting the worker" :: evs))
      = (Ok tt,
         SendFacts.at_ s2 out
           (n2 ++ EvLog ERROR "critical error"
               :: n1 ++ EvLog INFO "starting the worker" :: evs)) /\
      forallb is_local_event n2 = true /\
      WorkerApp.is_running s2 = false /\
      WorkerApp.trading_engine s2 = WorkerApp.trading_engine s1).
    { destruct (WorkerApp.metrics s1);
        match goal with
        | |- context [WorkerApp.shutdown (SendFacts.at_ ?a ?o ?l)] =>
            destruct (RunFacts.shutdown_local a o l)
              as (n2 & s2 & Hrun & Hlocal2 & Hstopped & Heng2)
        end; exists n2, s2; repeat split; assumption. }
    destruct Hstop as (n2 & s2 & Hrun & Hlocal2 & Hstopped & Heng2).
    unfold SendFacts.at_ in Hrun. rewrite Hrun. run_W.
    assert (Hlocal : forallb is_local_event
                       (n2 ++ EvLog ERROR "critical error"
                           :: n1 ++ [EvLog INFO "starting the worker"]) = true).
    { rewrite forallb_app, Hlocal2. cbn [forallb is_local_event andb].
      rewrite forallb_app, Hlocal1. reflexivity. }
    exists (n2 ++ EvLog ERROR "critical error"
               :: n1 ++ [EvLog INFO "starting the worker"]), s2.
    split; [unfold SendFacts.at_; rewrite <- !app_assoc; cbn [app];
            rewrite <- !app_assoc; reflexivity|].
    split; [exact Hlocal|].
    split; [exact (RunFacts.local_connects_nothing _ Hlocal)|].
    split; [exact (RunFacts.local_sends_nothing _ Hlocal)|].
    split; [exact Hstopped|].
    rewrite Heng2. exact Heng1.
  - intros Hrunning Hunreachable Hle left Hfuel.
    cbn [WorkerMain.run_loop]. unfold SendFacts.at_. run_W.
    rewrite Hrunning. run_W.
    unfold WorkerApp.connect_to_coordinator. run_W.
    destruct (ConnectFacts.connect_loop_unreachable left connect_fuel
                (Config.retry_delay (WorkerApp.config s)) s
                {| outside := out;
                   events := EvLog INFO "connecting to the coordinator" :: evs |}
                Hrunning Hunreachable Hle eq_refl Hfuel)
      as (st' & Hloop & Hattempts & Hcount).
    rewrite Hloop. destruct st' as [s' [out' evs']]. run_W.
    eexists. split; [reflexivity|].
    cbn [WorkerApp.env WorkerApp.self events] in *.
    split; [exact Hcount | exact Hattempts].
Qed.

(** The connected worker of the examples started against a node that is
    down. *)
Lemma run_leaves_the_worker_stopped_witness :
  let s := AppExamples.app None PNone None in
  exists new s',
    WorkerMain.run (L := ToyLibs.toy) 3 12 [] (SendFacts.at_ s node_down [])
    = (Ok (Some tt), SendFacts.at_ s' node_down (new ++ [])) /\
    forallb is_local_event new = true /\
    connection_attempts new = 0 /\
    wires new = [] /\
    WorkerApp.is_running s' = false /\
    WorkerApp.trading_engine s' = WorkerApp.trading_engine s.
Proof.
  intros s.
  apply (proj1 (proj2 (@run_leaves_the_worker_stopped ToyLibs.toy 3 12 []
                         s node_down []))).
  intros i. reflexivity.
Defined.

(* ===================================================================== *)
(** ** The daily reset, seen from a trade command *)
(* ===================================================================== *)

Module ResetFacts.
Import TradingEngine ConfirmationFacts.

(** An exception that leaves a [try] statement left its handler. *)
Lemma try_except_raises {S A : Type} (m : M S A) (handler : exc -> M S A)
    (st st' : S) (x : exc) :
  try_except m handler st = (Raise x, st') ->
  exists e st1, m st = (Raise e, st1) /\ handler e st1 = (Raise x, st').
Proof.
  unfold try_except. destruct (m st) as [[a|e] st1]; [discriminate|].
  intros H. now exists e, st1.
Qed.

Section WithLibs.
Context {L : Libs}.

(** Where [execute_pump_trade], started in [e], has got to when it calls
    [_check_trade_limits]: it has read the clock and logged the
    command. *)
Definition at_limit_check (e : Env) : Env :=
  EngineFacts.extend [EvLog INFO "executing pump"; EvNow] e.

(** The engine whose volume was reset at day [today]. *)
Definition reset (today : Z) (s : Self) : Self :=
  set_last_reset_day today (set_daily_volume_used 0 s).

Lemma after_reset_later (today : Z) (s : Self) :
  last_reset_day s < today -> EngineFacts.after_reset today s = reset today s.
Proof.
  intros H. unfold EngineFacts.after_reset, reset.
  destruct (Z.ltb_spec (last_reset_day s) today); [reflexivity | lia].
Qed.

(** A command that names a token, on an engine with a wallet, gets to
    the limit check. *)
Lemma validate_reaches (command : dict) (s : Self) (e : Env) :
  truthy (get command "token_address") = true ->
  trading_keypair s <> None ->
  EngineFacts.validate command s
    {| self := s; env := EngineFacts.extend [EvNow] e |}
  = _check_trade_limits (EngineFacts.amount_of command s)
      {| self := s; env := at_limit_check e |}.
Proof.
  intros Htoken Hkp. destruct e as [out evs].
  unfold EngineFacts.validate, at_limit_check, EngineFacts.extend. run_M.
  rewrite Htoken. run_M.
  destruct (trading_keypair s); [reflexivity | contradiction].
Qed.

(** The other commands are refused before it. *)
Lemma validate_stops_early (command : dict) (s : Self) (e : Env) :
  truthy (get command "token_address") = false \/ trading_keypair s = None ->
  exists x,
    EngineFacts.validate command s
      {| self := s; env := EngineFacts.extend [EvNow] e |}
    = (Raise x, {| self := s; env := at_limit_check e |}).
Proof.
  intros H. destruct e as [out evs].
  unfold EngineFacts.validate, at_limit_check, EngineFacts.extend. run_M.
  destruct (truthy (get command "token_address")); run_M;
    [|eexists; reflexivity].
  destruct H as [H | ->]; [discriminate | eexists; reflexivity].
Qed.

(** The errors of [_execute_real_trade] all carry its prefix. *)
Lemma _execute_real_trade_wraps (token amount slippage : pyval) (start : Z)
    (st st' : State) (x : exc) :
  _execute_real_trade token amount slippage start st = (Raise x, st') ->
  exists m, x = ValueError ("transaction execution error: " ++ m).
Proof.
  unfold _execute_real_trade. intros H.
  apply try_except_raises in H. destruct H as (e & [s1 [out1 evs1]] & _ & H).
  run_M. injection H as <- _. now exists (str_exc e).
Qed.

(** What the execution of a validated command does to the daily volume
    and to the day of the last reset. *)
Lemma execute_validated_volume (command : dict) (s0 s1 : Self) (start : Z)
    (out : Outside) (evs : list Event) (a : Q) :
  as_number (EngineFacts.amount_of command s0) = Some a ->
  exists res st',
    try_except (EngineFacts.execute_validated command s0 start)
               (EngineFacts.rejected command start) (at_ s1 out evs)
    = (Ok res, st') /\
    last_reset_day (self st') = last_reset_day s1 /\
    (daily_volume_used (self st') = daily_volume_used s1 \/
     success res = true /\
     Config.mock_trading (config s1) = false /\
     daily_volume_used (self st') = (daily_volume_used s1 + a)%Q) /\
    (error_message res = None \/
     exists m,
       error_message res = Some (py ("transaction execution error: " ++ m))).
Proof.
  intros Ha. unfold EngineFacts.execute_validated, at_. run_M.
  destruct (Config.mock_trading (config s1)) eqn:Hmock.
  - unfold _mock_trade. run_M. eexists. eexists. split; [reflexivity|].
    cbn [self error_message]. auto.
  - match goal with
    | |- context [_execute_real_trade ?t ?am ?sl ?st
                    {| self := s1; env := {| outside := out; events := ?l |} |}] =>
        destruct (TradeFacts._execute_real_trade_effect t am sl st s1 out l)
          as (n2 & r2 & Hr2)
    end.
    unfold at_ in Hr2. destruct r2 as [res|x].
    + destruct Hr2 as (a' & Ha' & Hrun & Hsucc & Herr & _ & Ham & _).
      rewrite Hrun. run_M.
      rewrite Ha in Ha'. injection Ha' as <-.
      match goal with
      | |- context [_update_trade_stats res
                      {| self := ?s2; env := {| outside := out; events := ?l |} |}] =>
          pose proof (TradeFacts._update_trade_stats_run res a s2 out l
                        ltac:(rewrite Ham; exact Ha)) as Hrun3
      end.
      unfold at_ in Hrun3. rewrite Hrun3. run_M.
      eexists. eexists. split; [reflexivity|].
      cbn [self last_reset_day daily_volume_used set_trade_stats
           set_daily_volume_used].
      split; [reflexivity|]. split; [right; auto | left; exact Herr].
    + destruct Hr2 as (Hrun & _).
      destruct (_execute_real_trade_wraps _ _ _ _ _ _ _ Hrun) as (m & ->).
      rewrite Hrun. unfold EngineFacts.rejected. run_M.
      eexists. eexists. split; [reflexivity|].
      cbn [self error_message str_exc]. split; [reflexivity|].
      split; [now left | right; now exists m].
Qed.

(** What a command that gets to the limit check leaves behind: the
    engine as the limit check left it, but for the volume of an executed
    trade. *)
Lemma execute_pump_trade_reaches (command : dict) (s : Self) (e : Env) :
  truthy (get command "token_address") = true ->
  trading_keypair s <> None ->
  let s1 := EngineFacts.after_reset
              (date_of (EngineFacts.next_instant (at_limit_check e))) s in
  let check := _check_trade_limits (EngineFacts.amount_of command s)
                 {| self := s; env := at_limit_check e |} in
  exists res st',
    execute_pump_trade command {| self := s; env := e |} = (Ok res, st') /\
    last_reset_day (self st') = last_reset_day s1 /\
    (daily_volume_used (self st') = daily_volume_used s1 \/
     success res = true /\
     Config.mock_trading (config s) = false /\
     exists a,
       as_number (EngineFacts.amount_of command s) = Some a /\
       daily_volume_used (self st') = (daily_volume_used s1 + a)%Q) /\
    match fst check with
    | Raise x => error_message res = Some (py (str_exc x))
    | Ok _ =>
        error_message res = None \/
        exists m,
          error_message res
          = Some (py ("transaction execution error: " ++ m))
    end.
Proof.
  intros Htoken Hkp s1 check.
  pose proof (validate_reaches command s e Htoken Hkp) as Hv.
  destruct check as [r st1] eqn:Hcheck. subst check. rewrite Hcheck in Hv.
  destruct (EngineFacts._check_trade_limits_effect _ _ _ _ _ Hcheck)
    as [Hs1 _].
  fold s1 in Hs1. cbn [fst]. destruct r as [[]|x].
  - rewrite (EngineFacts.execute_pump_trade_validated command s e st1 Hv).
    destruct (TradeFacts.validate_passed _ _ _ _ _ Hv)
      as (a & _ & Ha & _).
    destruct st1 as [s1' [out1 evs1]]. cbn [self] in Hs1. subst s1'.
    destruct (execute_validated_volume command s s1
                (EngineFacts.next_instant e) out1 evs1 a Ha)
      as (res & st' & Hrun & Hday & Hvol & Hmsg).
    unfold at_ in Hrun. exists res, st'. split; [exact Hrun|].
    split; [exact Hday|]. split; [|exact Hmsg].
    destruct Hvol as [Hvol | (Hsucc & Hmock & Hvol)]; [now left|].
    right. split; [exact Hsucc|]. split.
    + rewrite <- Hmock. subst s1.
      now rewrite (proj1 (TradeFacts.after_reset_fields _ s)).
    + now exists a.
  - rewrite (EngineFacts.execute_pump_trade_rejected command s e x st1 Hv).
    eexists. eexists. split; [reflexivity|].
    cbn [self error_message EngineFacts.rejection_result]. rewrite Hs1.
    split; [reflexivity|]. split; [now left | reflexivity].
Qed.

(** A command that is refused before the limit check leaves the engine
    as it was. *)
Lemma execute_pump_trade_stops_early (command : dict) (s : Self) (e : Env) :
  truthy (get command "token_address") = false \/ trading_keypair s = None ->
  exists res st',
    execute_pump_trade command {| self := s; env := e |} = (Ok res, st') /\
    success res = false /\
    self st' = s.
Proof.
  intros H. destruct (validate_stops_early command s e H) as (x & Hv).
  rewrite (EngineFacts.execute_pump_trade_rejected command s e x _ Hv).
  eexists. eexists. split; [reflexivity|]. split; reflexivity.
Qed.

(** The message of the daily limit is no other message. *)
Lemma not_the_daily_limit (m : string) :
  py ("transaction execution error: " ++ m)
  <> py (str_exc EngineFacts.over_daily_limit).
Proof. cbn. discriminate. Qed.

End WithLibs.
End ResetFacts.

(** C3, as the code has it.  Let the clock, when [execute_pump_trade]
    gets to its limit check, show a day later than [last_reset_day].
    - A command that names a token, on an engine with a trading wallet,
      gets to the limit check, which first puts [daily_volume_used] to 0
      and [last_reset_day] to today.  The call returns a result, and
      afterwards [last_reset_day] is today and [daily_volume_used] is 0,
      or [0 + amount] when a real trade was executed: the volume
      recorded before is gone.  The daily-limit check sees the reset
      volume: for a numeric amount within the size bounds the result
      carries the message of the daily limit exactly when [0 + amount]
      exceeds [daily_volume_limit].
    - A command without token address, or an engine without wallet: the
      command is refused before the limit check, and the engine is left
      as it was, volume and day of the last reset included. *)
Theorem C3_daily_volume_reset {L : Libs}
    (command : dict) (s : TradingEngine.Self) (e : Env) :
  let today :=
    date_of (EngineFacts.next_instant (ResetFacts.at_limit_check e)) in
  let run := TradingEngine.execute_pump_trade command
               {| TradingEngine.self := s; TradingEngine.env := e |} in
  TradingEngine.last_reset_day s < today ->
  (truthy (get command "token_address") = true ->
   TradingEngine.trading_keypair s <> None ->
   exists res,
     fst run = Ok res /\
     TradingEngine.last_reset_day (TradingEngine.self (snd run)) = today /\
     (TradingEngine.daily_volume_used (TradingEngine.self (snd run)) = 0%Q \/
      TradingEngine.success res = true /\
      Config.mock_trading (TradingEngine.config s) = false /\
      exists a,
        as_number (EngineFacts.amount_of command s) = Some a /\
        TradingEngine.daily_volume_used (TradingEngine.self (snd run))
        = (0 + a)%Q) /\
     forall a : Q,
       as_number (EngineFacts.amount_of command s) = Some a ->
       (a <= Config.max_trade_size_sol (TradingEngine.config s))%Q ->
       (Config.min_trade_size_sol (TradingEngine.config s) <= a)%Q ->
       (TradingEngine.error_message res
        = Some (py (str_exc EngineFacts.over_daily_limit)) <->
        ~ (0 + a <= TradingEngine.daily_volume_limit s)%Q)) /\
  (truthy (get command "token_address") = false \/
   TradingEngine.trading_keypair s = None ->
   exists res,
     fst run = Ok res /\
     TradingEngine.success res = false /\
     TradingEngine.self (snd run) = s).
Proof.
  intros today run Hday. subst run. split.
  - intros Htoken Hkp.
    destruct (ResetFacts.execute_pump_trade_reaches command s e Htoken Hkp)
      as (res & st' & Hrun & Hd & Hvol & Hmsg).
    cbv zeta in Hd, Hvol, Hmsg. fold today in Hd, Hvol.
    rewrite (ResetFacts.after_reset_later today s Hday) in Hd, Hvol.
    rewrite Hrun. cbn [fst snd]. exists res.
    split; [reflexivity|]. split; [exact Hd|]. split; [exact Hvol|].
    intros a Ha Hhi Hlo.
    rewrite (EngineFacts._check_trade_limits_run _ a s _ Ha) in Hmsg.
    cbv zeta in Hmsg. fold today in Hmsg.
    rewrite (ResetFacts.after_reset_later today s Hday) in Hmsg.
    cbn [ResetFacts.reset TradingEngine.config TradingEngine.daily_volume_limit
         TradingEngine.daily_volume_used TradingEngine.trading_keypair
         TradingEngine.set_last_reset_day TradingEngine.set_daily_volume_used]
      in Hmsg.
    apply Qlt_bool_false_iff in Hhi, Hlo. rewrite Hhi, Hlo in Hmsg.
    destruct (Qlt_bool (TradingEngine.daily_volume_limit s) (0 + a)) eqn:Hlimit.
    + cbn [fst] in Hmsg. split; [intros _ | intros _; exact Hmsg].
      apply Qlt_bool_iff in Hlimit. now apply Qlt_not_le.
    + apply Qlt_bool_false_iff in Hlimit.
      split; [|intros Hn; now elim Hn].
      intros Hr. exfalso. revert Hmsg.
      destruct (TradingEngine.trading_keypair s); [|contradiction].
      cbv zeta.
      match goal with |- context [if ?b then _ else _] => destruct b end;
        cbn [fst].
      * intros Hmsg.
        assert (Hsame : py (str_exc EngineFacts.insufficient_funds)
                        = py (str_exc EngineFacts.over_daily_limit))
          by congruence.
        revert Hsame. cbn. discriminate.
      * intros [Hnone | (m & Hm)]; [congruence|].
        apply (ResetFacts.not_the_daily_limit m). congruence.
  - intros Hearly.
    destruct (ResetFacts.execute_pump_trade_stops_early command s e Hearly)
      as (res & st' & Hrun & Hfail & Hself).
    rewrite Hrun. cbn [fst snd]. now exists res.
Qed.

(** 9.5 SOL were traded yesterday; a command for 1.0 SOL today is not
    refused for the daily limit of 10.0, and the volume recorded
    yesterday is gone. *)
Lemma C3_daily_volume_reset_witness :
  let s := Examples.engine false (95 # 10) 19999 in
  let e := Examples.env0 (Some 5000000000) in
  let run := TradingEngine.execute_pump_trade (L := ToyLibs.toy)
               (Examples.pump_command 1)
               {| TradingEngine.self := s; TradingEngine.env := e |} in
  exists res,
    fst run = Ok res /\
    TradingEngine.last_reset_day (TradingEngine.self (snd run)) = 20000 /\
    (TradingEngine.daily_volume_used (TradingEngine.self (snd run)) = 0%Q \/
     TradingEngine.daily_volume_used (TradingEngine.self (snd run))
     = (0 + 1)%Q) /\
    TradingEngine.error_message res
    <> Some (py (str_exc EngineFacts.over_daily_limit)).
Proof.
  intros s e run.
  destruct (@C3_daily_volume_reset ToyLibs.toy (Examples.pump_command 1) s e)
    as [Hreached _].
  { reflexivity. }
  destruct Hreached as (res & Hres & Hday & Hvol & Hlimit).
  { reflexivity. }
  { discriminate. }
  exists res. split; [exact Hres|]. split; [exact Hday|]. split.
  - destruct Hvol as [Hvol | (_ & _ & a & Ha & Hvol)]; [now left|].
    right. injection Ha as <-. exact Hvol.
  - intros Hr. apply (Hlimit 1%Q eq_refl) in Hr.
    + apply Hr. unfold Qle; cbn; lia.
    + unfold Qle; cbn; lia.
    + unfold Qle; cbn; lia.
Defined.

(** C3 as stated fails for a command without token address: it is
    processed on day 20000 by an engine that recorded 9.5 SOL on day
    19999, it is refused, and the engine still holds the 9.5 SOL under
    day 19999. *)
Lemma C3_no_reset_without_token_counterexample :
  let s := Examples.engine false (95 # 10) 19999 in
  let e := Examples.env0 (Some 5000000000) in
  let command := [ (py "type", PStr (py "pump_command"));
                   (py "amount_sol", PFloat 1);
                   (py "command_id", PStr (py "c1")) ] in
  let run := TradingEngine.execute_pump_trade (L := ToyLibs.toy) command
               {| TradingEngine.self := s; TradingEngine.env := e |} in
  date_of (EngineFacts.next_instant e) = 20000 /\
  (exists res, fst run = Ok res /\ TradingEngine.success res = false) /\
  TradingEngine.daily_volume_used (TradingEngine.self (snd run)) = 95 # 10 /\
  TradingEngine.last_reset_day (TradingEngine.self (snd run)) = 19999.
Proof.
  intros s e command run.
  destruct (ResetFacts.execute_pump_trade_stops_early (L := ToyLibs.toy)
              command s e (or_introl eq_refl))
    as (res & st' & Hrun & Hfail & Hself).
  subst run. rewrite Hrun. cbn [fst snd]. rewrite Hself.
  split; [reflexivity|]. split; [now exists res|]. split; reflexivity.
Qed.

(* ===================================================================== *)
(** ** Failures of the handlers *)
(* ===================================================================== *)

Module DispatchFacts.
Import WorkerApp AppFacts SendFacts.

Section WithLibs.
Context {L : Libs}.

(** [_handle_wallet_assignment] contains its failures and answers none
    of them: it never raises, and whatever happens it sends nothing, or
    the [wallet_assigned] confirmation. *)
Lemma _handle_wallet_assignment_contains (message : dict) (s : Self)
    (out : Outside) (evs : list Event) :
  exists new s',
    _handle_wallet_assignment message (at_ s out evs)
    = (Ok tt, at_ s' out (new ++ evs)) /\
    (sent_messages new = [] \/
     exists kp t,
       sent_messages new = [ContactFacts.wallet_assigned s message kp t]).
Proof.
  unfold _handle_wallet_assignment, at_. run_W.
  destruct (key_present (shared_key s)); run_W.
  2:{ exists [EvLog ERROR "wallet assignment failed"], s.
      split; [reflexivity | now left]. }
  destruct (EncryptionUtils.decrypt_wallet_key _ _) as [secret|x]; run_W.
  2:{ exists [EvLog ERROR "wallet assignment failed"], s.
      split; [reflexivity | now left]. }
  destruct (b58decode secret) as [private_key_bytes|]; run_W.
  2:{ exists [EvLog ERROR "wallet assignment failed"], s.
      split; [reflexivity | now left]. }
  destruct (keypair_from_bytes private_key_bytes) as [kp|]; run_W.
  2:{ exists [EvLog ERROR "wallet assignment failed"], s.
      split; [reflexivity | now left]. }
  destruct (hashable (get message "wallet_index")); run_W.
  2:{ exists [EvLog ERROR "wallet assignment failed"], s.
      split; [reflexivity | now left]. }
  match goal with
  | |- context [_send_message ?m
                  {| self := ?a; env := {| outside := out; events := ?l |} |}] =>
      destruct (_send_message_effect m a out l)
        as (n2 & r & s2 & Hrun & _ & _ & _ & _ & Hr)
  end.
  unfold at_ in Hrun. rewrite Hrun. destruct r as [[]|x]; run_W.
  - destruct Hr as (Hsent & _).
    exists (n2 ++ [EvNow; EvLog INFO "wallet assigned"]), s2.
    split; [now rewrite <- app_assoc|].
    rewrite sent_messages_app. cbn [sent_messages app]. rewrite Hsent.
    right. eexists. eexists. reflexivity.
  - destruct Hr as (Hsent & _).
    exists (EvLog ERROR "wallet assignment failed"
              :: n2 ++ [EvNow; EvLog INFO "wallet assigned"]), s2.
    split; [cbn [app]; now rewrite <- app_assoc|].
    cbn [sent_messages app]. rewrite sent_messages_app.
    cbn [sent_messages app]. rewrite Hsent. now left.
Qed.

(** What [_handle_pump_command] sends back.  When it returns it has
    sent exactly one message, which carries the [command_id] of the
    command: the [pump_result], or a [pump_error] with the text of the
    failure (without a trading engine, the failure is that there is
    none).  It raises only when the sending of the [pump_error] itself
    failed, and then it has sent nothing. *)
Definition answers (message : dict) (s : Self) (r : result unit)
    (new : list Event) : Prop :=
  match r with
  | Ok _ =>
      exists answer,
        sent_messages new = [answer] /\
        match trading_engine s with
        | None =>
            exists t,
              answer = AnswerFacts.pump_error s message
                         "trading engine is not initialized" t
        | Some _ =>
            (exists res t, answer = PumpFacts.pump_result s message res t) \/
            (exists error t, answer = AnswerFacts.pump_error s message error t)
        end
  | Raise _ => sent_messages new = []
  end.

Lemma _handle_pump_command_answers (message : dict) (s : Self)
    (out : Outside) (evs : list Event) :
  exists new r s',
    _handle_pump_command message (at_ s out evs)
    = (r, at_ s' out (new ++ evs)) /\
    answers message s r new.
Proof.
  unfold _handle_pump_command, at_, answers. run_W.
  destruct (trading_engine s) as [eng|] eqn:Heng; run_W.
  - unfold with_engine. cbn [trading_engine self env]. rewrite Heng.
    destruct (TradeFacts.execute_pump_trade_outcome message eng out
                (EvLog INFO "pump command received" :: evs))
      as (n1 & res & eng' & Hrun & Hout).
    unfold ConfirmationFacts.at_ in Hrun. rewrite Hrun.
    cbn [TradingEngine.self TradingEngine.env fst]. run_W.
    pose proof (TradeFacts.wires_nil_sent_messages n1
                  (TradeFacts.outcome_silent _ _ _ _ _ _ _ Hout)) as Hn1.
    match goal with
    | |- context [_send_message ?m
                    {| self := ?a; env := {| outside := out; events := ?l |} |}] =>
        destruct (_send_message_effect m a out l)
          as (n2 & r & s2 & Hsend & _ & _ & _ & _ & Hr)
    end.
    unfold at_ in Hsend. rewrite Hsend. destruct r as [[]|x]; run_W.
    + destruct Hr as (Hsent & _).
      exists (n2 ++ EvNow :: n1 ++ [EvLog INFO "pump command received"]).
      eexists. eexists.
      split; [rewrite <- !app_assoc; cbn [app]; rewrite <- !app_assoc;
              reflexivity|].
      eexists. split.
      * rewrite sent_messages_app. cbn [sent_messages].
        rewrite sent_messages_app. cbn [sent_messages app].
        rewrite Hn1, Hsent. reflexivity.
      * left. eexists. eexists. reflexivity.
    + destruct Hr as (Hsent & _).
      match goal with
      | |- context [_send_message ?m
                      {| self := ?a; env := {| outside := out; events := ?l |} |}] =>
          destruct (_send_message_effect m a out l)
            as (n3 & r3 & s3 & Hsend3 & _ & _ & _ & _ & Hr3)
      end.
      unfold at_ in Hsend3. rewrite Hsend3.
      assert (Hsum :
                sent_messages
                  (n3 ++ EvNow :: EvLog ERROR "pump failed" :: n2
                      ++ EvNow :: n1 ++ [EvLog INFO "pump command received"])
                = sent_messages n3).
      { rewrite sent_messages_app. cbn [sent_messages].
        rewrite sent_messages_app, Hsent. cbn [sent_messages].
        rewrite sent_messages_app, Hn1. reflexivity. }
      destruct r3 as [[]|x3]; run_W.
      * destruct Hr3 as (Hsent3 & _).
        exists (n3 ++ EvNow :: EvLog ERROR "pump failed" :: n2
                   ++ EvNow :: n1 ++ [EvLog INFO "pump command received"]).
        eexists. eexists.
        split; [rewrite <- !app_assoc; cbn [app]; rewrite <- !app_assoc;
                cbn [app]; rewrite <- !app_assoc; reflexivity|].
        eexists. split.
        -- rewrite Hsum. exact Hsent3.
        -- right. eexists. eexists. reflexivity.
      * destruct Hr3 as (Hsent3 & _).
        exists (n3 ++ EvNow :: EvLog ERROR "pump failed" :: n2
                   ++ EvNow :: n1 ++ [EvLog INFO "pump command received"]).
        eexists. eexists.
        split; [rewrite <- !app_assoc; cbn [app]; rewrite <- !app_assoc;
                cbn [app]; rewrite <- !app_assoc; reflexivity|].
        rewrite Hsum. exact Hsent3.
  - match goal with
    | |- context [_send_message ?m
                    {| self := ?a; env := {| outside := out; events := ?l |} |}] =>
        destruct (_send_message_effect m a out l)
          as (n3 & r3 & s3 & Hsend3 & _ & _ & _ & _ & Hr3)
    end.
    unfold at_ in Hsend3. rewrite Hsend3. destruct r3 as [[]|x3]; run_W.
    + destruct Hr3 as (Hsent3 & _).
      exists (n3 ++ [EvNow; EvLog ERROR "pump failed";
                     EvLog INFO "pump command received"]).
      eexists. eexists. split; [rewrite <- !app_assoc; reflexivity|].
      eexists. split.
      * rewrite sent_messages_app. cbn [sent_messages app]. exact Hsent3.
      * eexists. reflexivity.
    + destruct Hr3 as (Hsent3 & _).
      exists (n3 ++ [EvNow; EvLog ERROR "pump failed";
                     EvLog INFO "pump command received"]).
      eexists. eexists. split; [rewrite <- !app_assoc; reflexivity|].
      rewrite sent_messages_app. cbn [sent_messages app]. exact Hsent3.
Qed.

End WithLibs.
End DispatchFacts.

(** C7, as the code has it.
    - [_process_message] never raises, whatever the frame: no failure of
      the decoding or of a handler propagates out of it.
    - A failure that leaves the decoding or a handler stops at the
      [except] clause of [_process_message], which writes one ERROR
      record and counts one error in the metrics (if there are metrics),
      and sends nothing: the dispatch boundary turns no failure into an
      error response.  The application and the run are otherwise as the
      failure left them.
    - Hence the receive loop never raises either, and hands every frame
      the connection yields to [_process_message].
    - [_handle_pump_command] answers its own failures: when it returns it
      has sent exactly one message with the [command_id] of the command,
      the [pump_result] or a [pump_error] with the text of the failure;
      without a trading engine it is the [pump_error] saying so.  It
      raises, to the [except] clause above, only when the sending of the
      [pump_error] itself failed, and then it has sent nothing.
    - [_handle_wallet_assignment] catches its own failures and answers
      none: it never raises, and whatever happens it sends nothing, or
      the [wallet_assigned] confirmation. *)
Theorem C7_dispatch_boundary_contains_failures {L : Libs}
    (raw : pystr) (frames : list pystr) (st : WorkerApp.State)
    (message : dict) (s : WorkerApp.Self) (out : Outside)
    (evs : list Event) :
  fst (WorkerApp._process_message raw st) = Ok tt /\
  match WorkerApp._process_message_body raw st with
  | (Ok _, st1) => snd (WorkerApp._process_message raw st) = st1
  | (Raise e, st1) =>
      snd (WorkerApp._process_message raw st) =
        {| WorkerApp.self := AppFacts.count_error (WorkerApp.self st1);
           WorkerApp.env :=
             EngineFacts.extend [EvLog ERROR "message processing failed"]
                                (WorkerApp.env st1) |} /\
      sent_messages (events (WorkerApp.env
                               (snd (WorkerApp._process_message raw st))))
        = sent_messages (events (WorkerApp.env st1))
  end /\
  (fst (WorkerApp.message_loop (raw :: frames) st) = Ok tt /\
   WorkerApp.message_loop (raw :: frames) st
   = WorkerApp.message_loop frames (snd (WorkerApp._process_message raw st))) /\
  (exists new r s',
     WorkerApp._handle_pump_command message (SendFacts.at_ s out evs)
     = (r, SendFacts.at_ s' out (new ++ evs)) /\
     match r with
     | Ok _ =>
         exists answer,
           sent_messages new = [answer] /\
           match WorkerApp.trading_engine s with
           | None =>
               exists t,
                 answer = AnswerFacts.pump_error s message
                            "trading engine is not initialized" t
           | Some _ =>
               (exists res t,
                  answer = PumpFacts.pump_result s message res t) \/
               (exists error t,
                  answer = AnswerFacts.pump_error s message error t)
           end
     | Raise _ => sent_messages new = []
     end) /\
  (exists new s',
     WorkerApp._handle_wallet_assignment message (SendFacts.at_ s out evs)
     = (Ok tt, SendFacts.at_ s' out (new ++ evs)) /\
     (sent_messages new = [] \/
      exists kp t,
        sent_messages new = [ContactFacts.wallet_assigned s message kp t])).
Proof.
  split; [apply AppFacts._process_message_returns|]. split; [|split; [|split]].
  - rewrite AppFacts._process_message_catches.
    destruct (WorkerApp._process_message_body raw st) as [[[]|e] st1];
      [reflexivity|]. split; reflexivity.
  - split; [apply AppFacts.message_loop_returns
           |apply AppFacts.message_loop_cons].
  - exact (DispatchFacts._handle_pump_command_answers message s out evs).
  - exact (DispatchFacts._handle_wallet_assignment_contains message s out evs).
Qed.

(** C7 as stated fails: the handler of this [wallet_assignment] frame
    fails (there is no session key), the failure is logged, and no message
    at all goes back to the coordinator. *)
Lemma C7_no_error_response_counterexample :
  let st := AppExamples.state (AppExamples.app None PNone None) in
  let st' := snd (WorkerApp._process_message (L := ToyLibs.toy)
                    ToyLibs.wallet_assignment_frame st) in
  In (EvLog ERROR "wallet assignment failed") (events (WorkerApp.env st')) /\
  sent_messages (events (WorkerApp.env st')) = [].
Proof. vm_compute. auto. Qed.

(** The same at the dispatch boundary itself: the handler of a
    [heartbeat_request] raises ([json.dumps] meets the [datetime] objects
    of the statistics), [_process_message] logs it and sends nothing. *)
Lemma heartbeat_failure_is_only_logged :
  let st := AppExamples.state (AppExamples.app None PNone None) in
  let st' := snd (WorkerApp._process_message (L := ToyLibs.toy)
                    ToyLibs.heartbeat_frame st) in
  In (EvLog ERROR "message processing failed") (events (WorkerApp.env st')) /\
  sent_messages (events (WorkerApp.env st')) = [].
Proof. vm_compute. auto. Qed.
